(** * NotebookLM artifact orchestrator: guarded generation and run manifest

  A shallow embedding of the control logic of the repository:

  - [bookflow/core/state_machine.py]  (run manifest state machine),
  - [bookflow/core/models.py]         (artifact records of the manifest),
  - [bookflow/core/io.py]             (robust JSON extraction),
  - [bookflow/store/db.py] and [run_book_to_artifact.py]
                                      (cached source resolution, chapter
                                       ids and artifact plan of a run),
  - [bookflow/adapters/guarded_gen.py]
                                      (arguments handed to the generator),
  - [notebooklm-guarded-generator/scripts/guarded_generate.py]
                                      (budget guard, circuit breaker,
                                       create/poll lifecycle, orchestrator).

  Python values that travel through JSON documents are modelled by the
  type [json]; dictionaries inside documents are insertion-ordered
  association lists, as in Python.  Exceptions are explicit results.
  Text is modelled by byte strings; the character classes used by
  [str.strip], [str.lower], [str.splitlines] and the regular expressions
  are the ASCII ones.  Integers are unbounded; the limit of the
  interpreter on the decimal text of an [int] is modelled where the code
  converts a text of the command line ([_parse_ids]), and the numbers of
  JSON documents are taken within it. *)

From Stdlib Require Import ZArith List Bool Ascii String Lia.
From Stdlib Require Import DecimalString DecimalPos DecimalZ.
From stdpp Require Import base option list strings gmap.

Set Warnings "-register-all".

Local Open Scope string_scope.
Local Open Scope Z_scope.

(** ** Python runtime values *)

Module Py.

(** The exceptions the modelled code can raise. *)
Inductive exn : Type :=
| ValueError (msg : string)
| TypeError
| AttributeError
| KeyError (key : string)
| OverflowError
| RecursionError
| AssertionError
| JSONDecodeError (msg : string).

Inductive Exc (A : Type) : Type :=
| Ok (a : A)
| Raise (e : exn).
Arguments Ok {A} a.
Arguments Raise {A} e.

Definition bind {A B} (m : Exc A) (k : A -> Exc B) : Exc B :=
  match m with
  | Ok a => k a
  | Raise e => Raise e
  end.

(** A value decoded from (or destined for) a JSON document.  A number
    with a fraction or an exponent is a binary64 in Python; it is carried
    as the text of its literal, and what Python computes from its value
    is left to the runtime interface [PyRuntime] below. *)
Inductive json : Type :=
| JNull
| JBool (b : bool)
| JInt (z : Z)
| JFloat (lit : string)
| JStr (s : string)
| JList (l : list json)
| JDict (kv : list (string * json)).

(** [d.get(k)] and [d[k] = v] on an insertion-ordered dictionary: an
    existing key keeps its position, a new key goes last. *)
Fixpoint dict_get {V} (k : string) (d : list (string * V)) : option V :=
  match d with
  | [] => None
  | (k', v) :: d' => if String.eqb k k' then Some v else dict_get k d'
  end.

Fixpoint dict_set {V} (k : string) (v : V) (d : list (string * V))
  : list (string * V) :=
  match d with
  | [] => [(k, v)]
  | (k', v') :: d' =>
      if String.eqb k k' then (k, v) :: d' else (k', v') :: dict_set k v d'
  end.

(** [dict(pairs)]: later pairs overwrite earlier ones. *)
Definition dict_of_pairs {V} (pairs : list (string * V)) : list (string * V) :=
  fold_left (fun d kv => dict_set (fst kv) (snd kv) d) pairs [].

Lemma dict_get_set_eq {V} (k : string) (v : V) (d : list (string * V)) :
  dict_get k (dict_set k v d) = Some v.
Proof.
  induction d as [|[k' v'] d IH]; cbn.
  - now rewrite String.eqb_refl.
  - destruct (String.eqb k k') eqn:E; cbn; rewrite ?String.eqb_refl, ?E; auto.
Qed.

Lemma dict_get_set_ne {V} (k k' : string) (v : V) (d : list (string * V)) :
  k <> k' -> dict_get k' (dict_set k v d) = dict_get k' d.
Proof.
  intros Hne. induction d as [|[k0 v0] d IH]; cbn.
  - destruct (String.eqb_spec k' k); congruence.
  - destruct (String.eqb_spec k k0) as [->|Hk]; cbn.
    + destruct (String.eqb_spec k' k0); congruence.
    + destruct (String.eqb k' k0); auto.
Qed.

Lemma forallb_dict_set {V} (P : string * V -> bool) (k : string) (v : V)
    (d : list (string * V)) :
  P (k, v) = true -> forallb P d = true -> forallb P (dict_set k v d) = true.
Proof.
  intros Hv. induction d as [|[k' v'] d IH]; cbn.
  - now rewrite Hv.
  - intros [H1 H2]%andb_true_iff.
    destruct (String.eqb k k'); cbn; rewrite ?Hv, ?H1, ?H2, ?IH; auto.
Qed.

Lemma forallb_dict_get {V} (P : string * V -> bool) (k : string) (v : V)
    (d : list (string * V)) :
  forallb P d = true -> dict_get k d = Some v -> exists k', P (k', v) = true.
Proof.
  induction d as [|[k' v'] d IH]; cbn; [discriminate|].
  intros [H1 H2]%andb_true_iff.
  destruct (String.eqb k k'); [intros [= <-]; eauto|auto].
Qed.

End Py.
Export Py.

#[global] Instance Exc_ret : MRet Exc := @Ok.
#[global] Instance Exc_bind : MBind Exc := fun A B k m => Py.bind m k.


(** ** Text primitives ([str] methods on ASCII text) *)

Module Text.

Definition nl : ascii := ascii_of_nat 10.
Definition NL : string := String nl EmptyString.

(** The double quote, and a text between double quotes. *)
Definition dq : ascii := ascii_of_nat 34.
Definition quoted (s : string) : string :=
  String dq (s ++ String dq EmptyString).

(** [str.isspace] on ASCII: TAB..CR, FS..US and the blank. *)
Definition is_space (c : ascii) : bool :=
  let n := nat_of_ascii c in
  ((9 <=? n) && (n <=? 13) || (28 <=? n) && (n <=? 32))%nat.

Fixpoint lstrip (s : string) : string :=
  match s with
  | EmptyString => EmptyString
  | String c r => if is_space c then lstrip r else s
  end.

Fixpoint rstrip (s : string) : string :=
  match s with
  | EmptyString => EmptyString
  | String c r =>
      match rstrip r with
      | EmptyString => if is_space c then EmptyString else String c EmptyString
      | r' => String c r'
      end
  end.

Definition strip (s : string) : string := rstrip (lstrip s).

(** Truth value of a [str]: non-empty. *)
Definition nonempty (s : string) : bool :=
  match s with EmptyString => false | _ => true end.

Definition lower_char (c : ascii) : ascii :=
  let n := nat_of_ascii c in
  if ((65 <=? n) && (n <=? 90))%nat then ascii_of_nat (n + 32) else c.

Fixpoint lower (s : string) : string :=
  match s with
  | EmptyString => EmptyString
  | String c r => String (lower_char c) (lower r)
  end.

Definition startswith (s p : string) : bool := String.prefix p s.

(** [k in s] for strings. *)
Fixpoint contains (k s : string) : bool :=
  String.prefix k s ||
  match s with
  | EmptyString => false
  | String _ r => contains k r
  end.

(** [s.split(sep)] for a one-character separator. *)
Fixpoint split_go (sep : ascii) (cur : string) (s : string) : list string :=
  match s with
  | EmptyString => [cur]
  | String c r =>
      if Ascii.eqb c sep then cur :: split_go sep EmptyString r
      else split_go sep (cur ++ String c EmptyString) r
  end.

Definition split (sep : ascii) (s : string) : list string :=
  split_go sep EmptyString s.

(** [s.split(sep, 1)]: at most one cut, at the first separator. *)
Fixpoint split1_go (sep : ascii) (cur : string) (s : string) : list string :=
  match s with
  | EmptyString => [cur]
  | String c r =>
      if Ascii.eqb c sep then [cur; r]
      else split1_go sep (cur ++ String c EmptyString) r
  end.

Definition split1 (sep : ascii) (s : string) : list string :=
  split1_go sep EmptyString s.

(** Line boundaries of [str.splitlines] on ASCII: LF, VT, FF, CR (and
    CR LF as one), FS, GS, RS. *)
Definition is_linebreak (c : ascii) : bool :=
  let n := nat_of_ascii c in
  ((10 <=? n) && (n <=? 13) || (28 <=? n) && (n <=? 30))%nat.

Fixpoint splitlines_go (cur : string) (s : string) : list string :=
  match s with
  | EmptyString =>
      match cur with EmptyString => [] | _ => [cur] end
  | String c r =>
      if Ascii.eqb c (ascii_of_nat 13) then
        match r with
        | String c' r' =>
            if Ascii.eqb c' nl then cur :: splitlines_go EmptyString r'
            else cur :: splitlines_go EmptyString r
        | EmptyString => [cur]
        end
      else if is_linebreak c then cur :: splitlines_go EmptyString r
      else splitlines_go (cur ++ String c EmptyString) r
  end.

Definition splitlines (s : string) : list string :=
  splitlines_go EmptyString s.

(** [s[-n:]] for a positive [n]: the last [n] characters. *)
Definition tail_chars (n : nat) (s : string) : string :=
  String.substring (String.length s - n) n s.

(** [sep.join(parts)]. *)
Fixpoint join (sep : string) (parts : list string) : string :=
  match parts with
  | [] => EmptyString
  | [p] => p
  | p :: rest => p ++ sep ++ join sep rest
  end.

(** Decimal text of an integer, as [str(n)] prints it. *)
Definition str_of_Z (z : Z) : string :=
  NilZero.string_of_int (Z.to_int z).

Lemma length_append (a b : string) :
  String.length (a ++ b) = (String.length a + String.length b)%nat.
Proof.
  induction a as [|c a IH]; [reflexivity|].
  change (S (String.length (a ++ b)) = S (String.length a + String.length b)).
  now f_equal.
Qed.

End Text.

(** ** Run manifest and its state machine
    ([bookflow/core/models.py], [bookflow/core/state_machine.py]) *)

Module StateMachine.

Record ChapterMenuItem : Type := {
  cm_chapter_id : string;
  cm_title : string;
  cm_score : option string;      (* binary64, carried as text *)
  cm_char_count : option Z;
}.

Record ArtifactRecord : Type := {
  ar_artifact_type : string;
  ar_status : string;
  ar_artifact_id : string;
  ar_chapter_id : string;
  ar_source_id : string;
  ar_path : string;
  ar_error : string;
  ar_detail : list (string * json);
}.

Record RunManifest : Type := {
  run_id : string;
  workspace_root : string;
  plan : list string;
  schema_version : Z;
  status : string;
  created_at : string;
  updated_at : string;
  book_title : string;
  notebook_id : string;
  notebook_strategy : string;
  object_notebook_id : string;
  run_notebook_id : string;
  ranked_json : string;
  source_map : list (string * string);
  selected_chapter_ids : list string;
  selected_source_ids : list string;
  menu : list ChapterMenuItem;
  artifacts : list ArtifactRecord;
  stages : list (string * json);
  next_action : string;
  errors : list string;
}.

Definition set_status (m : RunManifest) (v : string) : RunManifest :=
  {| run_id := run_id m; workspace_root := workspace_root m; plan := plan m;
     schema_version := schema_version m; status := v;
     created_at := created_at m; updated_at := updated_at m;
     book_title := book_title m; notebook_id := notebook_id m;
     notebook_strategy := notebook_strategy m;
     object_notebook_id := object_notebook_id m;
     run_notebook_id := run_notebook_id m; ranked_json := ranked_json m;
     source_map := source_map m;
     selected_chapter_ids := selected_chapter_ids m;
     selected_source_ids := selected_source_ids m; menu := menu m;
     artifacts := artifacts m; stages := stages m;
     next_action := next_action m; errors := errors m |}.

Definition set_updated_at (m : RunManifest) (v : string) : RunManifest :=
  {| run_id := run_id m; workspace_root := workspace_root m; plan := plan m;
     schema_version := schema_version m; status := status m;
     created_at := created_at m; updated_at := v;
     book_title := book_title m; notebook_id := notebook_id m;
     notebook_strategy := notebook_strategy m;
     object_notebook_id := object_notebook_id m;
     run_notebook_id := run_notebook_id m; ranked_json := ranked_json m;
     source_map := source_map m;
     selected_chapter_ids := selected_chapter_ids m;
     selected_source_ids := selected_source_ids m; menu := menu m;
     artifacts := artifacts m; stages := stages m;
     next_action := next_action m; errors := errors m |}.

(** [RunManifest.touch]: [now] is the text [now_iso()] returns at the call. *)
Definition touch (now : string) (m : RunManifest) : RunManifest :=
  set_updated_at m now.

Definition STATE_STARTED := "started".
Definition STATE_FETCHED := "fetched".
Definition STATE_PREPARED := "prepared".
Definition STATE_AWAITING_CHAPTER_SELECTION := "awaiting_chapter_selection".
Definition STATE_GENERATING := "generating".
Definition STATE_COMPLETED := "completed".
Definition STATE_PARTIAL := "partial".
Definition STATE_FAILED := "failed".

Definition _ALLOWED_TRANSITIONS : list (string * list string) :=
  [ (STATE_STARTED, [STATE_FETCHED; STATE_PREPARED; STATE_FAILED]);
    (STATE_FETCHED, [STATE_PREPARED; STATE_FAILED]);
    (STATE_PREPARED, [STATE_AWAITING_CHAPTER_SELECTION; STATE_GENERATING;
                      STATE_COMPLETED; STATE_FAILED]);
    (STATE_AWAITING_CHAPTER_SELECTION, [STATE_GENERATING; STATE_FAILED]);
    (STATE_GENERATING, [STATE_COMPLETED; STATE_PARTIAL; STATE_FAILED]);
    (STATE_PARTIAL, [STATE_GENERATING; STATE_COMPLETED; STATE_FAILED]);
    (STATE_COMPLETED, []);
    (STATE_FAILED, []) ].

(** [d.get(k, set())] on the table and [x in s] on its entries. *)
Fixpoint table_get (k : string) (d : list (string * list string)) : list string :=
  match d with
  | [] => []
  | (k', v) :: d' => if String.eqb k k' then v else table_get k d'
  end.

Fixpoint mem (x : string) (s : list string) : bool :=
  match s with
  | [] => false
  | y :: s' => String.eqb x y || mem x s'
  end.

Definition can_transition (current target : string) : bool :=
  mem target (table_get current _ALLOWED_TRANSITIONS).

Definition illegal_transition (current target : string) : exn :=
  ValueError ("Illegal state transition: " ++ current ++ " -> " ++ target).

(** [transition] mutates the manifest in place and may raise: the result is
    the normal or exceptional outcome together with the manifest as it is
    left behind. *)
Definition transition (now : string) (manifest : RunManifest) (target : string)
  : Exc unit * RunManifest :=
  let current := status manifest in
  if String.eqb current target then
    (Ok tt, touch now manifest)
  else if negb (can_transition current target) then
    (Raise (illegal_transition current target), manifest)
  else
    (Ok tt, touch now (set_status manifest target)).

(** The allowed-transition table as the specification lists it
    (from -> to), one constructor per entry. *)
Inductive allowed : string -> string -> Prop :=
| started_fetched : allowed "started" "fetched"
| started_prepared : allowed "started" "prepared"
| started_failed : allowed "started" "failed"
| fetched_prepared : allowed "fetched" "prepared"
| fetched_failed : allowed "fetched" "failed"
| prepared_awaiting : allowed "prepared" "awaiting_chapter_selection"
| prepared_generating : allowed "prepared" "generating"
| prepared_completed : allowed "prepared" "completed"
| prepared_failed : allowed "prepared" "failed"
| awaiting_generating : allowed "awaiting_chapter_selection" "generating"
| awaiting_failed : allowed "awaiting_chapter_selection" "failed"
| generating_completed : allowed "generating" "completed"
| generating_partial : allowed "generating" "partial"
| generating_failed : allowed "generating" "failed"
| partial_generating : allowed "partial" "generating"
| partial_completed : allowed "partial" "completed"
| partial_failed : allowed "partial" "failed".

Lemma can_transition_allowed (current target : string) :
  can_transition current target = true <-> allowed current target.
Proof.
  split.
  - unfold can_transition, _ALLOWED_TRANSITIONS, STATE_STARTED, STATE_FETCHED,
      STATE_PREPARED, STATE_AWAITING_CHAPTER_SELECTION, STATE_GENERATING,
      STATE_COMPLETED, STATE_PARTIAL, STATE_FAILED.
    cbn [table_get].
    repeat match goal with
    | |- context [String.eqb current ?s] =>
        destruct (String.eqb_spec current s) as [->|_]
    | _ => progress cbn [mem orb]
    end;
    try discriminate;
    repeat match goal with
    | |- context [String.eqb target ?s] =>
        destruct (String.eqb_spec target s) as [->|_]
    | _ => progress cbn [mem orb]
    end;
    intros H; try discriminate H; constructor.
  - destruct 1; reflexivity.
Qed.

Lemma allowed_irrefl (s : string) : ~ allowed s s.
Proof. inversion 1. Qed.

(** C3.  For every manifest and every (current, target) pair:
    a same-state transition succeeds and only refreshes [updated_at];
    a pair of the allowed-transition table succeeds, sets [status] to the
    target and refreshes [updated_at]; any other pair raises the
    illegal-transition error and leaves the manifest, hence [status],
    as it was. *)
Theorem transition_legality (now : string) (m : RunManifest) (target : string) :
  (target = status m ->
     transition now m target = (Ok tt, set_updated_at m now)) /\
  (allowed (status m) target ->
     transition now m target
       = (Ok tt, set_updated_at (set_status m target) now) /\
     status (snd (transition now m target)) = target /\
     updated_at (snd (transition now m target)) = now) /\
  (target <> status m -> ~ allowed (status m) target ->
     transition now m target
       = (Raise (illegal_transition (status m) target), m) /\
     status (snd (transition now m target)) = status m).
Proof.
  unfold transition, touch. repeat split.
  - intros ->. now rewrite String.eqb_refl.
  - destruct (String.eqb_spec (status m) target) as [E|_].
    + exfalso. rewrite <- E in H. exact (allowed_irrefl _ H).
    + apply can_transition_allowed in H. now rewrite H.
  - destruct (String.eqb_spec (status m) target) as [E|_].
    + exfalso. rewrite <- E in H. exact (allowed_irrefl _ H).
    + apply can_transition_allowed in H. now rewrite H.
  - destruct (String.eqb_spec (status m) target) as [E|_].
    + exfalso. rewrite <- E in H. exact (allowed_irrefl _ H).
    + apply can_transition_allowed in H. now rewrite H.
  - destruct (String.eqb_spec (status m) target) as [E|_]; [congruence|].
    destruct (can_transition (status m) target) eqn:C; [|reflexivity].
    apply can_transition_allowed in C. contradiction.
  - destruct (String.eqb_spec (status m) target) as [E|_]; [congruence|].
    destruct (can_transition (status m) target) eqn:C; [|reflexivity].
    apply can_transition_allowed in C. contradiction.
Qed.

(** One manifest at [prepared], moved to itself, along a table entry and
    against the table. *)
Definition sample_manifest : RunManifest :=
  {| run_id := "r1"; workspace_root := "/w"; plan := ["slides"];
     schema_version := 2; status := "prepared";
     created_at := "t0"; updated_at := "t0"; book_title := "";
     notebook_id := ""; notebook_strategy := "run";
     object_notebook_id := ""; run_notebook_id := ""; ranked_json := "";
     source_map := []; selected_chapter_ids := [];
     selected_source_ids := []; menu := []; artifacts := []; stages := [];
     next_action := ""; errors := [] |}.

Lemma transition_legality_witness :
  transition "t1" sample_manifest "prepared"
    = (Ok tt, set_updated_at sample_manifest "t1") /\
  status (snd (transition "t1" sample_manifest "generating")) = "generating" /\
  transition "t1" sample_manifest "started"
    = (Raise (illegal_transition "prepared" "started"), sample_manifest).
Proof.
  split; [|split].
  - exact (proj1 (transition_legality "t1" sample_manifest "prepared")
             eq_refl).
  - refine (proj1 (proj2 (proj1 (proj2
      (transition_legality "t1" sample_manifest "generating")) _))).
    constructor.
  - refine (proj1 (proj2 (proj2
      (transition_legality "t1" sample_manifest "started")) _ _)).
    + discriminate.
    + inversion 1.
Defined.

(** *** Runs of transitions *)

(** Calls of [transition] one after the other, each with the text of the
    clock at the call and its target; an exception ends the sequence, as
    it ends the statements of a caller that does not catch it. *)
Fixpoint transitions (steps : list (string * string)) (m : RunManifest)
  : Exc unit * RunManifest :=
  match steps with
  | [] => (Ok tt, m)
  | (now, target) :: rest =>
      match transition now m target with
      | (Ok _, m') => transitions rest m'
      | (Raise e, m') => (Raise e, m')
      end
  end.

Lemma transition_status (now : string) (m : RunManifest) (target : string) :
  status (snd (transition now m target)) = status m \/
  (allowed (status m) target /\
   status (snd (transition now m target)) = target /\
   fst (transition now m target) = Ok tt).
Proof.
  unfold transition.
  destruct (String.eqb_spec (status m) target) as [E|E]; [now left|].
  destruct (can_transition (status m) target) eqn:Hc; cbn [negb].
  - right. apply can_transition_allowed in Hc. now repeat split.
  - now left.
Qed.

Lemma final_states_absorb_status (steps : list (string * string))
    (m : RunManifest) :
  status m = "completed" \/ status m = "failed" ->
  status (snd (transitions steps m)) = status m.
Proof.
  revert m. induction steps as [|[now target] steps IH]; intros m Hfinal;
    [reflexivity|].
  cbn [transitions]. unfold transition.
  destruct (String.eqb_spec (status m) target) as [E|E].
  - now rewrite (IH (touch now m) Hfinal).
  - destruct (can_transition (status m) target) eqn:Hc; [|reflexivity].
    apply can_transition_allowed in Hc.
    destruct Hfinal as [Hf|Hf]; rewrite Hf in Hc; inversion Hc.
Qed.

(** X1.  The states completed and failed are final: whatever transitions are
    asked for afterwards, the status stays; a sequence of calls goes
    through exactly when every call asks for the state the manifest is
    in. *)
Theorem final_states_absorb (steps : list (string * string))
    (m : RunManifest) :
  status m = "completed" \/ status m = "failed" ->
  status (snd (transitions steps m)) = status m /\
  (fst (transitions steps m) = Ok tt <->
   Forall (fun step => snd step = status m) steps).
Proof.
  intros Hfinal. revert m Hfinal.
  induction steps as [|[now target] steps IH]; intros m Hfinal.
  - split; [reflexivity|]. split; [constructor|reflexivity].
  - cbn [transitions]. unfold transition.
    destruct (String.eqb_spec (status m) target) as [E|E].
    + destruct (IH (touch now m) Hfinal) as [H1 H2].
      split; [exact H1|]. rewrite H2. cbn [touch set_updated_at status].
      split; [intros H; constructor; [now symmetry|exact H]|].
      now inversion 1.
    + assert (Hc : can_transition (status m) target = false).
      { destruct (can_transition (status m) target) eqn:Hc; [|reflexivity].
        apply can_transition_allowed in Hc.
        destruct Hfinal as [Hf|Hf]; rewrite Hf in Hc; inversion Hc. }
      rewrite Hc. cbn [negb fst snd]. split; [reflexivity|].
      split; [discriminate|].
      inversion 1; subst. cbn [snd] in *. congruence.
Qed.

(** The states a run is in before its book is prepared. *)
Definition before_prepared (s : string) : Prop :=
  s = "started" \/ s = "fetched".

(** X2.  A run that has started gets out of the states started, fetched and
    failed only through prepared: when a sequence of calls that went
    through leaves it in another state, prepared was one of the targets
    asked for. *)
Theorem prepared_comes_first (steps : list (string * string))
    (m m' : RunManifest) :
  before_prepared (status m) ->
  transitions steps m = (Ok tt, m') ->
  before_prepared (status m') \/ status m' = "failed" \/
  In "prepared" (map snd steps).
Proof.
  revert m. induction steps as [|[now target] steps IH]; intros m Hm.
  - intros [= <-]. now left.
  - cbn [transitions map snd In].
    destruct (transition now m target) as [[[]|e] m1] eqn:Et; [|discriminate].
    intros Hrest.
    pose proof (transition_status now m target) as Hs.
    rewrite Et in Hs. cbn [fst snd] in Hs.
    destruct Hs as [Hsame|(Hal & Hst & _)].
    + rewrite <- Hsame in Hm.
      destruct (IH m1 Hm Hrest) as [H|[H|H]]; auto.
    + destruct Hm as [Hm|Hm]; rewrite Hm in Hal; inversion Hal; subst.
      * destruct (IH m1 ltac:(right; congruence) Hrest) as [H|[H|H]]; auto.
      * right. right. now left.
      * pose proof (final_states_absorb_status steps m1
                      ltac:(right; congruence)) as H1.
        rewrite Hrest in H1. cbn [snd] in H1. right. left. congruence.
      * right. right. now left.
      * pose proof (final_states_absorb_status steps m1
                      ltac:(right; congruence)) as H1.
        rewrite Hrest in H1. cbn [snd] in H1. right. left. congruence.
Qed.

Lemma final_states_absorb_witness :
  status (snd (transitions [("t1", "generating"); ("t2", "completed")]
                 (set_status sample_manifest "completed")))
  = "completed" /\
  fst (transitions [("t1", "completed"); ("t2", "completed")]
         (set_status sample_manifest "completed")) = Ok tt.
Proof.
  split.
  - exact (proj1 (final_states_absorb
                    [("t1", "generating"); ("t2", "completed")]
                    (set_status sample_manifest "completed")
                    (or_introl eq_refl))).
  - apply (proj2 (final_states_absorb
                    [("t1", "completed"); ("t2", "completed")]
                    (set_status sample_manifest "completed")
                    (or_introl eq_refl))).
    repeat constructor.
Defined.

Lemma prepared_comes_first_witness :
  before_prepared "completed" \/ "completed" = "failed" \/
  In "prepared" ["fetched"; "prepared"; "generating"; "completed"].
Proof.
  exact (prepared_comes_first
           [("t1", "fetched"); ("t2", "prepared"); ("t3", "generating");
            ("t4", "completed")]
           (set_status sample_manifest "started")
           (set_updated_at (set_status sample_manifest "completed") "t4")
           (or_introl eq_refl) eq_refl).
Defined.

End StateMachine.

(** ** Python's JSON decoder ([json.loads], [JSONDecoder.raw_decode]) *)

Module Json.

Import Text.

Definition is_ws (c : ascii) : bool :=
  let n := nat_of_ascii c in
  ((n =? 32) || (n =? 9) || (n =? 10) || (n =? 13))%nat.

Fixpoint skip_ws (s : string) : string :=
  match s with
  | String c r => if is_ws c then skip_ws r else s
  | EmptyString => EmptyString
  end.

Definition is_digit (c : ascii) : bool :=
  let n := nat_of_ascii c in ((48 <=? n) && (n <=? 57))%nat.

Definition hex_val (c : ascii) : option N :=
  let n := N_of_ascii c in
  if ((48 <=? n) && (n <=? 57))%N then Some (n - 48)%N
  else if ((97 <=? n) && (n <=? 102))%N then Some (n - 87)%N
  else if ((65 <=? n) && (n <=? 70))%N then Some (n - 55)%N
  else None.

Definition hex4 (a b c d : ascii) : option N :=
  match hex_val a, hex_val b, hex_val c, hex_val d with
  | Some x, Some y, Some z, Some w => Some (((x * 16 + y) * 16 + z) * 16 + w)%N
  | _, _, _, _ => None
  end.

(** UTF-8 bytes of a code point (a lone surrogate is encoded like any
    other three-byte code point). *)
Definition utf8 (cp : N) : string :=
  let b (n : N) := ascii_of_N n in
  (if cp <? 128 then String (b cp) EmptyString
   else if cp <? 2048 then
     String (b (192 + cp / 64)) (String (b (128 + cp mod 64)) EmptyString)
   else if cp <? 65536 then
     String (b (224 + cp / 4096))
       (String (b (128 + (cp / 64) mod 64))
          (String (b (128 + cp mod 64)) EmptyString))
   else
     String (b (240 + cp / 262144))
       (String (b (128 + (cp / 4096) mod 64))
          (String (b (128 + (cp / 64) mod 64))
             (String (b (128 + cp mod 64)) EmptyString))))%N.

Definition simple_escape (c : ascii) : option ascii :=
  let n := nat_of_ascii c in
  if (n =? 34)%nat then Some c                       (* quote *)
  else if (n =? 92)%nat then Some c                  (* backslash *)
  else if (n =? 47)%nat then Some c                  (* slash *)
  else if (n =? 98)%nat then Some (ascii_of_nat 8)   (* b: backspace *)
  else if (n =? 102)%nat then Some (ascii_of_nat 12) (* f: form feed *)
  else if (n =? 110)%nat then Some (ascii_of_nat 10) (* n: line feed *)
  else if (n =? 114)%nat then Some (ascii_of_nat 13) (* r: carriage return *)
  else if (n =? 116)%nat then Some (ascii_of_nat 9)  (* t: tab *)
  else None.

Definition is_high_surrogate (cp : N) : bool := ((55296 <=? cp) && (cp <=? 56319))%N.
Definition is_low_surrogate (cp : N) : bool := ((56320 <=? cp) && (cp <=? 57343))%N.

(** [scanstring] in strict mode, entered after the opening quote: the
    decoded text and what follows the closing quote. *)
Fixpoint scanstring (acc : string) (s : string) : Exc (string * string) :=
  match s with
  | EmptyString => Raise (JSONDecodeError "Unterminated string")
  | String c r =>
      if Ascii.eqb c dq then Ok (acc, r)
      else if Ascii.eqb c "\" then
        match r with
        | EmptyString => Raise (JSONDecodeError "Unterminated string")
        | String e r1 =>
            if Ascii.eqb e "u" then
              match r1 with
              | String h1 (String h2 (String h3 (String h4 r2))) =>
                  match hex4 h1 h2 h3 h4 with
                  | None => Raise (JSONDecodeError "Invalid \uXXXX escape")
                  | Some cp =>
                      let single := scanstring (acc ++ utf8 cp) r2 in
                      if is_high_surrogate cp then
                        match r2 with
                        | String b1 (String b2 (String l1 (String l2
                            (String l3 (String l4 r3))))) =>
                            if Ascii.eqb b1 "\" && Ascii.eqb b2 "u" then
                              match hex4 l1 l2 l3 l4 with
                              | None =>
                                  Raise (JSONDecodeError "Invalid \uXXXX escape")
                              | Some cp2 =>
                                  if is_low_surrogate cp2 then
                                    scanstring
                                      (acc ++ utf8 (65536 + (cp - 55296) * 1024
                                                    + (cp2 - 56320))%N) r3
                                  else single
                              end
                            else single
                        | _ => single
                        end
                      else single
                  end
              | _ => Raise (JSONDecodeError "Invalid \uXXXX escape")
              end
            else
              match simple_escape e with
              | Some ch => scanstring (acc ++ String ch EmptyString) r1
              | None => Raise (JSONDecodeError "Invalid \escape")
              end
        end
      else if (nat_of_ascii c <? 32)%nat then
        Raise (JSONDecodeError "Invalid control character")
      else scanstring (acc ++ String c EmptyString) r
  end.

(** The longest prefix of decimal digits and the rest. *)
Fixpoint span_digits (s : string) : string * string :=
  match s with
  | String c r =>
      if is_digit c then
        let '(d, rest) := span_digits r in (String c d, rest)
      else (EmptyString, s)
  | EmptyString => (EmptyString, EmptyString)
  end.

Fixpoint digits_value (acc : Z) (s : string) : Z :=
  match s with
  | String c r => digits_value (acc * 10 + Z.of_nat (nat_of_ascii c - 48)) r
  | EmptyString => acc
  end.

(** The number grammar of the decoder, matched at the head of [s]: an
    optional minus, then 0 or a digit string without leading zero, then an
    optional fraction (a dot and at least one digit), then an optional
    exponent (e or E, an optional sign, at least one digit).  Each part
    returns the text it matched and the rest. *)
Definition number_sign (s : string) : string * string :=
  match s with
  | String c r => if Ascii.eqb c "-" then ("-", r) else (EmptyString, s)
  | EmptyString => (EmptyString, s)
  end.

Definition number_int (s : string) : string * string :=
  match s with
  | String c r =>
      if Ascii.eqb c "0" then (String c EmptyString, r) else span_digits s
  | EmptyString => (EmptyString, s)
  end.

Definition number_frac (s : string) : string * string :=
  match s with
  | String d r =>
      if Ascii.eqb d "." then
        match span_digits r with
        | (EmptyString, _) => (EmptyString, s)
        | (ds, rest) => (String d ds, rest)
        end
      else (EmptyString, s)
  | EmptyString => (EmptyString, s)
  end.

Definition number_exp (s : string) : string * string :=
  match s with
  | String e r =>
      if Ascii.eqb e "e" || Ascii.eqb e "E" then
        let '(sign, r1) :=
          match r with
          | String g r2 =>
              if Ascii.eqb g "+" || Ascii.eqb g "-"
              then (String g EmptyString, r2)
              else (EmptyString, r)
          | EmptyString => (EmptyString, r)
          end in
        match span_digits r1 with
        | (EmptyString, _) => (EmptyString, s)
        | (ds, rest) => (String e (sign ++ ds), rest)
        end
      else (EmptyString, s)
  | EmptyString => (EmptyString, s)
  end.

(** [None] when no number starts at the head of [s].  Without fraction
    and exponent the number is an [int], otherwise a [float]. *)
Definition match_number (s : string) : option (json * string) :=
  let '(sign, s1) := number_sign s in
  let '(ipart, s2) := number_int s1 in
  match ipart with
  | EmptyString => None
  | _ =>
      let '(frac, s3) := number_frac s2 in
      let '(exp, s4) := number_exp s3 in
      match frac, exp with
      | EmptyString, EmptyString =>
          let v := digits_value 0 ipart in
          Some (JInt (if Text.nonempty sign then - v else v), s4)
      | _, _ => Some (JFloat (sign ++ ipart ++ frac ++ exp), s4)
      end
  end.

(** [s] with the prefix [p] removed, when it starts with it. *)
Fixpoint strip_prefix (p s : string) : option string :=
  match p, s with
  | EmptyString, _ => Some s
  | String a p', String b s' =>
      if Ascii.eqb a b then strip_prefix p' s' else None
  | _, EmptyString => None
  end.

Definition expecting_value {A} : Exc A := Raise (JSONDecodeError "Expecting value").

(** [scan_once] at the head of [s]: the value and the text after it.
    [fuel] bounds the nesting of calls; without fuel the decoder gives up
    with [RecursionError].  [loads] gives it fuel for any nesting: the
    recursion limit of the interpreter is not modelled. *)
Fixpoint scan_once (fuel : nat) (s : string) : Exc (json * string) :=
  match fuel with
  | O => Raise RecursionError
  | S fuel' =>
      match s with
      | EmptyString => expecting_value
      | String c r =>
          if Ascii.eqb c dq then
            '(str, rest) ← scanstring EmptyString r; Ok (JStr str, rest)
          else if Ascii.eqb c "{" then
            match skip_ws r with
            | String c1 r1 =>
                if Ascii.eqb c1 "}" then Ok (JDict [], r1)
                else
                  '(pairs, rest) ← scan_members fuel' [] (String c1 r1);
                  Ok (JDict (dict_of_pairs pairs), rest)
            | EmptyString =>
                Raise (JSONDecodeError
                         "Expecting property name enclosed in double quotes")
            end
          else if Ascii.eqb c "[" then
            match skip_ws r with
            | String c1 r1 =>
                if Ascii.eqb c1 "]" then Ok (JList [], r1)
                else
                  '(vals, rest) ← scan_elements fuel' [] (String c1 r1);
                  Ok (JList vals, rest)
            | EmptyString => expecting_value
            end
          else
            match strip_prefix "null" s, strip_prefix "true" s,
                  strip_prefix "false" s, strip_prefix "NaN" s,
                  strip_prefix "Infinity" s, strip_prefix "-Infinity" s with
            | Some rest, _, _, _, _, _ => Ok (JNull, rest)
            | _, Some rest, _, _, _, _ => Ok (JBool true, rest)
            | _, _, Some rest, _, _, _ => Ok (JBool false, rest)
            | _, _, _, Some rest, _, _ => Ok (JFloat "NaN", rest)
            | _, _, _, _, Some rest, _ => Ok (JFloat "Infinity", rest)
            | _, _, _, _, _, Some rest => Ok (JFloat "-Infinity", rest)
            | None, None, None, None, None, None =>
                match match_number s with
                | Some res => Ok res
                | None => expecting_value
                end
            end
      end
  end

(** The members of a non-empty object, entered at the first key. *)
with scan_members (fuel : nat) (acc : list (string * json)) (s : string)
  : Exc (list (string * json) * string) :=
  match fuel with
  | O => Raise RecursionError
  | S fuel' =>
      match s with
      | String q r =>
          if Ascii.eqb q dq then
            '(key, s1) ← scanstring EmptyString r;
            match skip_ws s1 with
            | String colon s2 =>
                if Ascii.eqb colon ":" then
                  '(val, s3) ← scan_once fuel' (skip_ws s2);
                  let acc' := (acc ++ [(key, val)])%list in
                  match skip_ws s3 with
                  | String d s4 =>
                      if Ascii.eqb d "}" then Ok (acc', s4)
                      else if Ascii.eqb d "," then
                        scan_members fuel' acc' (skip_ws s4)
                      else Raise (JSONDecodeError "Expecting ',' delimiter")
                  | EmptyString =>
                      Raise (JSONDecodeError "Expecting ',' delimiter")
                  end
                else Raise (JSONDecodeError "Expecting ':' delimiter")
            | EmptyString => Raise (JSONDecodeError "Expecting ':' delimiter")
            end
          else
            Raise (JSONDecodeError
                     "Expecting property name enclosed in double quotes")
      | EmptyString =>
          Raise (JSONDecodeError
                   "Expecting property name enclosed in double quotes")
      end
  end

(** The elements of a non-empty array, entered at the first element. *)
with scan_elements (fuel : nat) (acc : list json) (s : string)
  : Exc (list json * string) :=
  match fuel with
  | O => Raise RecursionError
  | S fuel' =>
      '(val, s1) ← scan_once fuel' s;
      let acc' := (acc ++ [val])%list in
      match skip_ws s1 with
      | String d s2 =>
          if Ascii.eqb d "]" then Ok (acc', s2)
          else if Ascii.eqb d "," then scan_elements fuel' acc' (skip_ws s2)
          else Raise (JSONDecodeError "Expecting ',' delimiter")
      | EmptyString => Raise (JSONDecodeError "Expecting ',' delimiter")
      end
  end.

(** Enough fuel for any text: of two nested calls, one consumes a
    character (see [scan_consumes] below). *)
Definition fuel_for (s : string) : nat := S (2 * String.length s).

(** [JSONDecoder.raw_decode(s)]: the value at the head of [s] and the index
    at which it ends. *)
Definition raw_decode (s : string) : Exc (json * nat) :=
  '(obj, rest) ← scan_once (fuel_for s) s;
  Ok (obj, (String.length s - String.length rest)%nat).

(** [json.loads(s)]: one value, surrounded by whitespace only. *)
Definition loads (s : string) : Exc json :=
  '(obj, rest) ← scan_once (fuel_for s) (skip_ws s);
  match skip_ws rest with
  | EmptyString => Ok obj
  | _ => Raise (JSONDecodeError "Extra data")
  end.

(** *** The decoder always answers

    With [fuel_for s] the decoder never runs out of fuel: it returns a
    value and a strictly shorter rest, or raises [JSONDecodeError]. *)

Definition consumes {A} (s : string) (r : Exc (A * string)) : Prop :=
  match r with
  | Ok (_, rest) => (String.length rest < String.length s)%nat
  | Raise (JSONDecodeError _) => True
  | Raise _ => False
  end.

Lemma skip_ws_length (s : string) :
  (String.length (skip_ws s) <= String.length s)%nat.
Proof.
  induction s as [|c r IH]; cbn; [lia|].
  destruct (is_ws c); cbn; lia.
Qed.

Ltac break_match :=
  match goal with
  | |- context [match ?x with _ => _ end] =>
      lazymatch x with
      | scanstring _ _ => fail
      | _ => destruct x eqn:?
      end
  end.

Lemma scanstring_consumes (n : nat) :
  forall acc s, (String.length s <= n)%nat -> consumes s (scanstring acc s).
Proof.
  induction n as [|n IH]; intros acc s Hn.
  - destruct s; cbn in *; [exact I|lia].
  - destruct s as [|c r]; [exact I|].
    cbn [scanstring].
    assert (Hweak : forall acc' s', (S (String.length s') <= String.length (String c r))%nat ->
              consumes (String c r) (scanstring acc' s')).
    { intros acc' s' Hs'. specialize (IH acc' s').
      unfold consumes in *. cbn [String.length] in *.
      destruct (scanstring acc' s') as [[? ?]|[]]; try (apply IH; lia); try exact I.
      assert (String.length s0 < String.length s')%nat by (apply IH; lia). lia. }
    repeat break_match; subst; cbn [consumes String.length] in *;
      try exact I; try lia;
      apply Hweak; cbn [String.length]; lia.
Qed.

Lemma span_digits_length (s d rest : string) :
  span_digits s = (d, rest) ->
  String.length s = (String.length d + String.length rest)%nat.
Proof.
  revert d rest. induction s as [|c r IH]; intros d rest; cbn.
  - intros [= <- <-]. reflexivity.
  - destruct (is_digit c).
    + destruct (span_digits r) as [d' rest'] eqn:E.
      intros [= <- <-]. cbn. rewrite (IH _ _ eq_refl). reflexivity.
    + intros [= <- <-]. reflexivity.
Qed.

Definition splits (f : string -> string * string) : Prop :=
  forall s, String.length s
            = (String.length (fst (f s)) + String.length (snd (f s)))%nat.

Lemma span_digits_splits : splits span_digits.
Proof.
  intros s. destruct (span_digits s) eqn:E. now apply span_digits_length.
Qed.

Lemma number_sign_splits : splits number_sign.
Proof.
  intros [|c r]; cbn; [reflexivity|]. destruct (Ascii.eqb c "-"); reflexivity.
Qed.

Lemma number_int_splits : splits number_int.
Proof.
  intros [|c r]; [reflexivity|]. unfold number_int.
  destruct (Ascii.eqb c "0"); [reflexivity|]. apply span_digits_splits.
Qed.

Lemma number_frac_splits : splits number_frac.
Proof.
  intros [|d r]; [reflexivity|]. unfold number_frac.
  destruct (Ascii.eqb d "."); [|reflexivity].
  pose proof (span_digits_splits r) as H.
  destruct (span_digits r) as [[|c ds] rest]; [reflexivity|].
  cbn in *. lia.
Qed.

Lemma number_exp_splits : splits number_exp.
Proof.
  intros [|e r]; [reflexivity|]. unfold number_exp.
  destruct (Ascii.eqb e "e" || Ascii.eqb e "E"); [|reflexivity].
  assert (Hs : exists sign r1,
             match r with
             | String g r2 =>
                 if Ascii.eqb g "+" || Ascii.eqb g "-"
                 then (String g EmptyString, r2) else (EmptyString, r)
             | EmptyString => (EmptyString, r)
             end = (sign, r1) /\
             String.length r = (String.length sign + String.length r1)%nat).
  { destruct r as [|g r2]; [now exists EmptyString, EmptyString|].
    destruct (Ascii.eqb g "+" || Ascii.eqb g "-"); eauto. }
  destruct Hs as (sign & r1 & -> & Hlen).
  pose proof (span_digits_splits r1) as H.
  destruct (span_digits r1) as [[|c ds] rest]; [reflexivity|].
  cbn in *. rewrite length_append. cbn. lia.
Qed.

Lemma match_number_consumes (s : string) (v : json) (rest : string) :
  match_number s = Some (v, rest) ->
  (String.length rest < String.length s)%nat.
Proof.
  unfold match_number.
  pose proof (number_sign_splits s) as H1.
  destruct (number_sign s) as [sign s1].
  pose proof (number_int_splits s1) as H2.
  destruct (number_int s1) as [ipart s2].
  destruct ipart as [|c ipart]; [discriminate|].
  pose proof (number_frac_splits s2) as H3.
  destruct (number_frac s2) as [frac s3].
  pose proof (number_exp_splits s3) as H4.
  destruct (number_exp s3) as [exp s4].
  cbn [fst snd String.length] in *.
  destruct frac, exp; intros [= _ <-]; lia.
Qed.

Lemma strip_prefix_length (p s rest : string) :
  strip_prefix p s = Some rest ->
  String.length s = (String.length p + String.length rest)%nat.
Proof.
  revert s. induction p as [|a p IH]; intros s; cbn.
  - intros [= <-]. reflexivity.
  - destruct s as [|b s]; [discriminate|].
    destruct (Ascii.eqb a b); [|discriminate].
    intros H. cbn. rewrite (IH _ H). reflexivity.
Qed.

Lemma consumes_bind {A B} (s s' : string) (m : Exc (A * string))
    (k : A * string -> Exc (B * string)) :
  consumes s' m ->
  (forall a rest, (String.length rest < String.length s')%nat ->
                  consumes s (k (a, rest))) ->
  consumes s (m ≫= k).
Proof.
  destruct m as [[a rest]|e]; cbn.
  - intros H Hk. apply Hk, H.
  - destruct e; intros H _; try contradiction. exact I.
Qed.

Lemma scan_consumes (n : nat) :
  (forall s, (2 * String.length s < n)%nat -> consumes s (scan_once n s)) /\
  (forall acc s, (2 * String.length s + 1 < n)%nat ->
     consumes s (scan_members n acc s)) /\
  (forall acc s, (2 * String.length s + 1 < n)%nat ->
     consumes s (scan_elements n acc s)).
Proof.
  induction n as [|n (IHo & IHm & IHe)]; [repeat split; intros; lia|].
  assert (Hdelim : forall (A : Type) (s s1 : string) (acc : A)
            (close : ascii) (next : string -> Exc (A * string)) (msg : string),
            (String.length s1 < String.length s)%nat ->
            (forall s2, (String.length s2 < String.length s1)%nat ->
                        consumes s (next s2)) ->
            consumes s
              match skip_ws s1 with
              | String d s2 =>
                  if Ascii.eqb d close then Ok (acc, s2)
                  else if Ascii.eqb d "," then next (skip_ws s2)
                  else Raise (JSONDecodeError msg)
              | EmptyString => Raise (JSONDecodeError msg)
              end).
  { intros A s s1 acc close next msg Hs1 Hnext.
    pose proof (skip_ws_length s1) as Hw.
    destruct (skip_ws s1) as [|d s2]; [exact I|]. cbn [String.length] in Hw.
    destruct (Ascii.eqb d close); [cbn; lia|].
    destruct (Ascii.eqb d ","); [|exact I].
    apply Hnext. pose proof (skip_ws_length s2). lia. }
  assert (Hweak : forall (A : Type) (s s' : string) (r : Exc (A * string)),
            (String.length s' <= String.length s)%nat ->
            consumes s' r -> consumes s r).
  { intros A s s' [[? ?]|[]] Hle; cbn; auto. lia. }
  repeat split.
  - intros s Hs. cbn [scan_once].
    destruct s as [|c r]; [exact I|]. cbn [String.length] in Hs.
    destruct (Ascii.eqb c dq).
    { eapply consumes_bind; [apply (scanstring_consumes _ _ _ (le_n _))|].
      intros a rest Hr. cbn. lia. }
    destruct (Ascii.eqb c "{").
    { pose proof (skip_ws_length r) as Hw.
      destruct (skip_ws r) as [|c1 r1]; [exact I|]. cbn [String.length] in Hw.
      destruct (Ascii.eqb c1 "}"); [cbn; lia|].
      eapply consumes_bind; [apply IHm; cbn; lia|].
      intros a rest Hr. cbn in *. lia. }
    destruct (Ascii.eqb c "[").
    { pose proof (skip_ws_length r) as Hw.
      destruct (skip_ws r) as [|c1 r1]; [exact I|]. cbn [String.length] in Hw.
      destruct (Ascii.eqb c1 "]"); [cbn; lia|].
      eapply consumes_bind; [apply IHe; cbn; lia|].
      intros a rest Hr. cbn in *. lia. }
    repeat match goal with
    | |- context [strip_prefix ?p ?x] =>
        let E := fresh "E" in
        destruct (strip_prefix p x) eqn:E;
        [apply strip_prefix_length in E; cbn in E |- *; lia|]
    end.
    destruct (match_number (String c r)) as [[v rest]|] eqn:En; [|exact I].
    apply match_number_consumes in En. exact En.
  - intros acc s Hs. cbn [scan_members].
    destruct s as [|q r]; [exact I|]. cbn [String.length] in Hs.
    destruct (Ascii.eqb q dq); [|exact I].
    eapply consumes_bind; [apply (scanstring_consumes _ _ _ (le_n _))|].
    intros key s1 Hs1.
    pose proof (skip_ws_length s1) as Hw.
    destruct (skip_ws s1) as [|colon s2]; [exact I|]. cbn [String.length] in Hw.
    destruct (Ascii.eqb colon ":"); [|exact I].
    pose proof (skip_ws_length s2) as Hw2.
    eapply consumes_bind; [apply IHo; lia|].
    intros val s3 Hs3.
    apply Hdelim; [cbn; lia|].
    intros s4 Hs4.
    apply (Hweak _ _ s4); [cbn; lia|]. apply IHm. lia.
  - intros acc s Hs. cbn [scan_elements].
    eapply consumes_bind; [apply IHo; lia|].
    intros val s1 Hs1.
    apply Hdelim; [lia|].
    intros s2 Hs2.
    apply (Hweak _ _ s2); [lia|]. apply IHe. lia.
Qed.

(** [raw_decode] and [loads] return a value or raise [JSONDecodeError]. *)
Lemma raw_decode_total (s : string) :
  (exists obj e, raw_decode s = Ok (obj, e) /\ (0 < e <= String.length s)%nat) \/
  (exists msg, raw_decode s = Raise (JSONDecodeError msg)).
Proof.
  unfold raw_decode.
  pose proof (proj1 (scan_consumes (fuel_for s)) s) as H.
  unfold fuel_for in *. specialize (H ltac:(lia)).
  destruct (scan_once _ s) as [[obj rest]|e]; cbn in *.
  - left. exists obj, (String.length s - String.length rest)%nat. split; [reflexivity|lia].
  - destruct e; try contradiction. right. eauto.
Qed.

Lemma loads_total (s : string) :
  (exists obj, loads s = Ok obj) \/
  (exists msg, loads s = Raise (JSONDecodeError msg)).
Proof.
  unfold loads.
  pose proof (proj1 (scan_consumes (fuel_for s)) (skip_ws s)) as H.
  pose proof (skip_ws_length s).
  unfold fuel_for in *. specialize (H ltac:(lia)).
  destruct (scan_once _ (skip_ws s)) as [[obj rest]|e]; cbn in *.
  - destruct (skip_ws rest); eauto.
  - destruct e; try contradiction. right. eauto.
Qed.

(** *** The decoder on sample texts *)

Example loads_object :
  loads ("{" ++ quoted "a" ++ ":1}") = Ok (JDict [("a", JInt 1)]).
Proof. reflexivity. Qed.

Example loads_nested :
  loads (" [1, 2.5e3, " ++ quoted "x\nA" ++ ", null, true, {"
         ++ quoted "k" ++ ": [], " ++ quoted "k" ++ ": -0}] ")
  = Ok (JList [JInt 1; JFloat "2.5e3"; JStr ("x" ++ NL ++ "A"); JNull;
               JBool true; JDict [("k", JInt 0)]]).
Proof. reflexivity. Qed.

Example raw_decode_prefix :
  raw_decode ("{" ++ quoted "a" ++ ":1} extra")
  = Ok (JDict [("a", JInt 1)], 7%nat).
Proof. reflexivity. Qed.

Example loads_trailing_comma :
  loads "[1,]" = Raise (JSONDecodeError "Expecting value").
Proof. reflexivity. Qed.

Example raw_decode_numbers :
  raw_decode "0123" = Ok (JInt 0, 1%nat) /\
  raw_decode "1.e5" = Ok (JInt 1, 1%nat) /\
  raw_decode "-" = Raise (JSONDecodeError "Expecting value") /\
  loads "-12" = Ok (JInt (-12)) /\
  loads "-1.5E+3" = Ok (JFloat "-1.5E+3").
Proof. repeat split; reflexivity. Qed.

End Json.

(** ** Robust JSON extraction ([bookflow/core/io.py]) *)

Module Io.

Import Text Json.

(** [char in "[{"] for a character of the text. *)
Definition is_open (c : ascii) : bool := Ascii.eqb c "[" || Ascii.eqb c "{".

(** The scan over every position of [text]; [s] is [text[index:]]. *)
Fixpoint best_decode (index : nat) (s : string) (best_obj : json)
    (best_end_index : Z) : Exc (json * Z) :=
  match s with
  | EmptyString => Ok (best_obj, best_end_index)
  | String char r =>
      if negb (is_open char) then
        best_decode (S index) r best_obj best_end_index
      else
        match raw_decode s with
        | Ok (obj, e) =>
            let end_index := Z.of_nat index + Z.of_nat e in
            if best_end_index <? end_index
            then best_decode (S index) r obj end_index
            else best_decode (S index) r best_obj best_end_index
        | Raise (JSONDecodeError _) =>
            best_decode (S index) r best_obj best_end_index
        | Raise e => Raise e
        end
  end.

Definition no_json_object : exn := ValueError "No JSON object found in output".

(** The last tier; [lines] are the stripped non-blank lines, last first. *)
Fixpoint last_json_line (lines : list string) : Exc json :=
  match lines with
  | [] => Raise no_json_object
  | line :: rest =>
      if startswith line "{" || startswith line "[" then
        match loads line with
        | Ok v => Ok v
        | Raise (JSONDecodeError _) => last_json_line rest
        | Raise e => Raise e
        end
      else last_json_line rest
  end.

Definition stripped_lines (text : string) : list string :=
  List.filter nonempty (map strip (splitlines text)).

Definition parse_json_payload (raw : string) : Exc json :=
  let text := strip raw in
  if negb (nonempty text) then Raise (ValueError "No JSON found in output")
  else
    match loads text with
    | Ok v => Ok v
    | Raise (JSONDecodeError _) =>
        '(best_obj, _) ← best_decode 0 text JNull (-1);
        match best_obj with
        | JNull => last_json_line (rev (stripped_lines text))
        | _ => Ok best_obj
        end
    | Raise e => Raise e
    end.

(** *** What the scan keeps *)

(** A successful partial decode: where it starts, its value, where it ends. *)
Record candidate : Type := {
  c_index : nat;
  c_obj : json;
  c_end : Z;
}.

(** All successful decodes at a bracket or brace, in text order. *)
Fixpoint candidates (index : nat) (s : string) : list candidate :=
  match s with
  | EmptyString => []
  | String char r =>
      (if is_open char then
         match raw_decode s with
         | Ok (obj, e) =>
             [{| c_index := index; c_obj := obj;
                 c_end := Z.of_nat index + Z.of_nat e |}]
         | Raise _ => []
         end
       else []) ++ candidates (S index) r
  end.

(** The number of characters a decode consumes. *)
Definition consumed (c : candidate) : Z := c_end c - Z.of_nat (c_index c).

(** The selection as the specification words it: the decode that consumes
    the most characters, the earliest one among equals. *)
Fixpoint spec_best (cs : list candidate) : option candidate :=
  match cs with
  | [] => None
  | c :: rest =>
      match spec_best rest with
      | Some c' => if consumed c <? consumed c' then Some c' else Some c
      | None => Some c
      end
  end.

Definition keep (st : json * Z) (c : candidate) : json * Z :=
  if snd st <? c_end c then (c_obj c, c_end c) else st.

Lemma best_decode_fold (s : string) :
  forall index best_obj best_end_index,
    best_decode index s best_obj best_end_index
    = Ok (fold_left keep (candidates index s) (best_obj, best_end_index)).
Proof.
  induction s as [|char r IH]; intros index b be; [reflexivity|].
  cbn [best_decode candidates].
  destruct (is_open char); cbn [negb app]; [|apply IH].
  destruct (raw_decode_total (String char r)) as [(obj & e & -> & _)|[msg ->]].
  - cbn [app fold_left]. unfold keep at 2. cbn [snd c_end c_obj].
    destruct (be <? _); apply IH.
  - apply IH.
Qed.

Lemma fold_keep_first_max (l : list candidate) :
  forall b be,
    (fold_left keep l (b, be) = (b, be) /\ Forall (fun c => c_end c <= be) l) \/
    (exists l1 c l2,
        l = (l1 ++ c :: l2)%list /\
        fold_left keep l (b, be) = (c_obj c, c_end c) /\
        be < c_end c /\
        Forall (fun c' => c_end c' < c_end c) l1 /\
        Forall (fun c' => c_end c' <= c_end c) l2).
Proof.
  induction l as [|c0 l IH]; intros b be.
  - left. split; [reflexivity|constructor].
  - cbn [fold_left].
    assert (Hk : keep (b, be) c0
                 = if be <? c_end c0 then (c_obj c0, c_end c0) else (b, be))
      by reflexivity.
    rewrite Hk. clear Hk.
    destruct (Z.ltb_spec be (c_end c0)) as [Hlt|Hge].
    + right.
      destruct (IH (c_obj c0) (c_end c0))
        as [[E Hall]|(l1 & c & l2 & -> & E & Hlt' & H1 & H2)].
      * exists [], c0, l. split; [reflexivity|].
        split; [exact E|]. split; [exact Hlt|]. split; [constructor|exact Hall].
      * exists (c0 :: l1), c, l2. split; [reflexivity|].
        split; [exact E|]. split; [lia|]. split; [|exact H2].
        constructor; [exact Hlt'|exact H1].
    + destruct (IH b be) as [[E Hall]|(l1 & c & l2 & -> & E & Hlt' & H1 & H2)].
      * left. split; [exact E|]. constructor; [lia|exact Hall].
      * right. exists (c0 :: l1), c, l2. split; [reflexivity|].
        split; [exact E|]. split; [exact Hlt'|]. split; [|exact H2].
        constructor; [lia|exact H1].
Qed.

Lemma raw_decode_container (c : ascii) (r : string) (obj : json) (e : nat) :
  is_open c = true -> raw_decode (String c r) = Ok (obj, e) -> obj <> JNull.
Proof.
  unfold is_open, raw_decode, fuel_for. cbn [scan_once].
  destruct (Ascii.eqb_spec c "[") as [->|_];
    [|destruct (Ascii.eqb_spec c "{") as [->|_]; [|discriminate]];
    intros _; cbn [Ascii.eqb Bool.eqb dq ascii_of_nat ascii_of_pos];
    cbn -[skip_ws scan_members scan_elements];
    destruct (skip_ws r) as [|c1 r1]; try discriminate;
    match goal with |- context [Ascii.eqb c1 ?x] => destruct (Ascii.eqb c1 x) end;
    try (intros [= <- _]; discriminate);
    match goal with
    | |- context [scan_members ?n ?a ?s] => destruct (scan_members n a s) as [[? ?]|]
    | |- context [scan_elements ?n ?a ?s] => destruct (scan_elements n a s) as [[? ?]|]
    end; cbn; try discriminate; intros [= <- _]; discriminate.
Qed.

Lemma candidates_container (s : string) :
  forall index, Forall (fun c => c_obj c <> JNull) (candidates index s).
Proof.
  induction s as [|char r IH]; intros index; [constructor|].
  cbn [candidates]. apply Forall_app. split; [|apply IH].
  destruct (is_open char) eqn:Ho; [|constructor].
  destruct (raw_decode (String char r)) as [[obj e]|] eqn:E; constructor;
    [|constructor].
  cbn. eapply raw_decode_container; eauto.
Qed.

(** *** Text without bracket or brace *)

Fixpoint has_open (s : string) : bool :=
  match s with
  | EmptyString => false
  | String c r => is_open c || has_open r
  end.

Lemma has_open_append (a b : string) :
  has_open (a ++ b) = has_open a || has_open b.
Proof.
  induction a as [|c a IH]; [reflexivity|].
  change (is_open c || has_open (a ++ b) = is_open c || has_open a || has_open b).
  now rewrite IH, orb_assoc.
Qed.

Lemma has_open_lstrip (s : string) :
  has_open s = false -> has_open (lstrip s) = false.
Proof.
  induction s as [|c r IH]; [reflexivity|]. cbn [lstrip].
  destruct (is_space c); [|tauto]. cbn [has_open].
  intros [_ H]%orb_false_iff. now apply IH.
Qed.

Lemma has_open_rstrip (s : string) :
  has_open s = false -> has_open (rstrip s) = false.
Proof.
  induction s as [|c r IH]; [reflexivity|]. cbn [rstrip has_open].
  intros [Hc H]%orb_false_iff. specialize (IH H).
  destruct (rstrip r); [destruct (is_space c)|]; cbn [has_open] in *;
    rewrite ?Hc, ?IH; reflexivity.
Qed.

Lemma has_open_strip (s : string) :
  has_open s = false -> has_open (strip s) = false.
Proof. intros H. now apply has_open_rstrip, has_open_lstrip. Qed.

Lemma has_open_splitlines_go (n : nat) :
  forall s cur, (String.length s <= n)%nat ->
    has_open cur = false -> has_open s = false ->
    Forall (fun ln => has_open ln = false) (splitlines_go cur s).
Proof.
  induction n as [|n IH]; intros s cur Hn Hcur Hs.
  - destruct s; [|cbn in Hn; lia].
    destruct cur; repeat constructor; assumption.
  - destruct s as [|c r].
    { destruct cur; repeat constructor; assumption. }
    cbn [has_open] in Hs. apply orb_false_iff in Hs as [Hc Hr].
    cbn [String.length] in Hn. cbn [splitlines_go].
    destruct (Ascii.eqb c (ascii_of_nat 13)).
    + destruct r as [|c' r'].
      * repeat constructor; assumption.
      * pose proof Hr as Hr0.
        cbn [has_open] in Hr. apply orb_false_iff in Hr as [Hc' Hr'].
        cbn [String.length] in Hn.
        destruct (Ascii.eqb c' nl); constructor; try assumption;
          apply IH; try reflexivity; try assumption; cbn; lia.
    + destruct (is_linebreak c).
      * constructor; [assumption|]. apply IH; [lia|reflexivity|assumption].
      * apply IH; [lia| |assumption].
        rewrite has_open_append. cbn. now rewrite Hcur, Hc.
Qed.

Lemma has_open_stripped_lines (text : string) :
  has_open text = false ->
  Forall (fun ln => has_open ln = false) (stripped_lines text).
Proof.
  intros H. unfold stripped_lines, splitlines.
  pose proof (has_open_splitlines_go _ text EmptyString (le_n _) eq_refl H) as Hl.
  induction Hl as [|ln l Hln Hl IH]; [constructor|].
  cbn [map List.filter]. destruct (nonempty (strip ln)); [|exact IH].
  constructor; [now apply has_open_strip|exact IH].
Qed.

Lemma last_json_line_no_open (lines : list string) :
  Forall (fun ln => has_open ln = false) lines ->
  last_json_line lines = Raise no_json_object.
Proof.
  induction 1 as [|ln l Hln Hl IH]; [reflexivity|].
  cbn [last_json_line].
  destruct ln as [|c r]; [exact IH|].
  cbn [has_open] in Hln. apply orb_false_iff in Hln as [Hc _].
  unfold is_open in Hc. apply orb_false_iff in Hc as [Hb Hc].
  unfold startswith. cbn [String.prefix].
  destruct (ascii_dec "{" c) as [<-|_]; [discriminate Hc|].
  destruct (ascii_dec "[" c) as [<-|_]; [discriminate Hb|].
  exact IH.
Qed.

Lemma candidates_no_open (s : string) :
  forall index, has_open s = false -> candidates index s = [].
Proof.
  induction s as [|c r IH]; intros index; [reflexivity|].
  cbn [has_open candidates]. intros [-> Hr]%orb_false_iff.
  now apply IH.
Qed.

Definition example_noise : string :=
  "noise line" ++ NL ++ "{" ++ quoted "a" ++ ":1}" ++ NL ++ "more noise".

Definition example_two : string :=
  "{" ++ quoted "a" ++ ":1} extra {" ++ quoted "b" ++ ":2}".

Definition example_spans : string :=
  "[1,2,3,4] {" ++ quoted "b" ++ ":2}".

(** C6 (as amended).  The parser tries, in this order: (a) the whole
    trimmed text as JSON; (b) a partial decode at every bracket or brace,
    keeping the decode that ends furthest into the text (the first one
    among those that end there); (c) the stripped lines from the last to
    the first, returning the first line with a leading bracket or brace
    that parses.  It returns the object [a:1] for the noisy three-line
    input and the object [b:2], the decode that ends last, for the input
    with two objects; a text with no bracket or brace that is not JSON as
    a whole raises [ValueError]. *)
Theorem parse_json_payload_tiers :
  (forall raw : string,
     let text := strip raw in
     (forall v, text <> EmptyString -> loads text = Ok v ->
        parse_json_payload raw = Ok v) /\
     (text <> EmptyString -> (forall v, loads text <> Ok v) ->
        candidates 0 text <> [] ->
        exists l1 c l2,
          candidates 0 text = (l1 ++ c :: l2)%list /\
          parse_json_payload raw = Ok (c_obj c) /\
          Forall (fun c' => c_end c' < c_end c) l1 /\
          Forall (fun c' => c_end c' <= c_end c) l2) /\
     (text <> EmptyString -> (forall v, loads text <> Ok v) ->
        candidates 0 text = [] ->
        parse_json_payload raw = last_json_line (rev (stripped_lines text))) /\
     (has_open raw = false -> (forall v, loads text <> Ok v) ->
        exists msg, parse_json_payload raw = Raise (ValueError msg))) /\
  parse_json_payload example_noise = Ok (JDict [("a", JInt 1)]) /\
  parse_json_payload example_two = Ok (JDict [("b", JInt 2)]).
Proof.
  split; [|split; reflexivity].
  intros raw text.
  assert (Hne : text <> EmptyString -> negb (nonempty text) = false)
    by (destruct text; [congruence|reflexivity]).
  assert (Hb : text <> EmptyString -> (forall v, loads text <> Ok v) ->
            parse_json_payload raw =
            match fst (fold_left keep (candidates 0 text) (JNull, -1)) with
            | JNull => last_json_line (rev (stripped_lines text))
            | obj => Ok obj
            end).
  { intros Ht Hl. unfold parse_json_payload. fold text. rewrite (Hne Ht).
    destruct (loads_total text) as [[v Hv]|[msg ->]]; [now apply Hl in Hv|].
    rewrite best_decode_fold. cbn.
    destruct (fold_left keep _ _) as [obj e]. now destruct obj. }
  repeat split.
  - intros v Ht Hl. unfold parse_json_payload. fold text.
    now rewrite (Hne Ht), Hl.
  - intros Ht Hl Hc. rewrite (Hb Ht Hl).
    destruct (fold_keep_first_max (candidates 0 text) JNull (-1))
      as [[_ Hall]|(l1 & c & l2 & E & -> & _ & H1 & H2)].
    + exfalso. destruct (candidates 0 text) as [|c l] eqn:Ec; [congruence|].
      inversion Hall as [|? ? Hle _]; subst.
      assert (0 <= c_end c); [|lia].
      clear -Ec. revert Ec. generalize 0%nat.
      induction text as [|ch r IH]; intros index; [discriminate|].
      cbn [candidates].
      destruct (is_open ch);
        [destruct (raw_decode (String ch r)) as [[obj e]|]|]; cbn [app];
        try (intros [= <- _]; cbn; lia); apply IH.
    + exists l1, c, l2. split; [exact E|]. split; [|split; assumption].
      pose proof (candidates_container text 0%nat) as Hcont.
      rewrite E in Hcont. apply Forall_app in Hcont as [_ Hcont].
      inversion Hcont as [|? ? Hnn _]; subst. cbn [fst].
      destruct (c_obj c); congruence.
  - intros Ht Hl Hc. rewrite (Hb Ht Hl), Hc. reflexivity.
  - intros Ho Hl. apply has_open_strip in Ho. fold text in Ho.
    destruct text as [|ch r] eqn:Et.
    { exists "No JSON found in output". unfold parse_json_payload.
      fold text. now rewrite Et. }
    rewrite <- Et in *. rewrite Hb; [|rewrite Et; discriminate|exact Hl].
    rewrite candidates_no_open by exact Ho. cbn [fold_left fst].
    rewrite last_json_line_no_open.
    + eexists. reflexivity.
    + apply Forall_rev. now apply has_open_stripped_lines.
Qed.

Lemma parse_json_payload_tiers_witness :
  parse_json_payload (" {" ++ quoted "a" ++ ":1} ") = Ok (JDict [("a", JInt 1)]) /\
  (exists l1 c l2,
      candidates 0 (strip example_two) = (l1 ++ c :: l2)%list /\
      parse_json_payload example_two = Ok (c_obj c) /\
      Forall (fun c' => c_end c' < c_end c) l1 /\
      Forall (fun c' => c_end c' <= c_end c) l2) /\
  parse_json_payload "still running"
    = last_json_line (rev (stripped_lines (strip "still running"))) /\
  (exists msg, parse_json_payload "still running" = Raise (ValueError msg)).
Proof.
  pose proof (proj1 parse_json_payload_tiers) as T.
  split; [|split; [|split]].
  - apply (proj1 (T (" {" ++ quoted "a" ++ ":1} "))).
    + discriminate.
    + reflexivity.
  - apply (proj1 (proj2 (T example_two))).
    + discriminate.
    + intros v. vm_compute. discriminate.
    + vm_compute. discriminate.
  - apply (proj1 (proj2 (proj2 (T "still running")))).
    + discriminate.
    + intros v. vm_compute. discriminate.
    + reflexivity.
  - apply (proj2 (proj2 (proj2 (T "still running")))).
    + reflexivity.
    + intros v. vm_compute. discriminate.
Defined.

(** The selection the specification words (most characters consumed, the
    earliest among equals) against the selection of the code, on a text
    with two decodes of equal span and on one whose first decode is the
    longer: the code returns the later decode both times. *)
Lemma parse_json_payload_not_greatest_span :
  spec_best (candidates 0 example_two)
    = Some {| c_index := 0; c_obj := JDict [("a", JInt 1)]; c_end := 7 |} /\
  parse_json_payload example_two <> Ok (JDict [("a", JInt 1)]) /\
  spec_best (candidates 0 example_spans)
    = Some {| c_index := 0;
              c_obj := JList [JInt 1; JInt 2; JInt 3; JInt 4]; c_end := 9 |} /\
  parse_json_payload example_spans = Ok (JDict [("b", JInt 2)]).
Proof.
  split; [reflexivity|]. split; [vm_compute; discriminate|].
  split; reflexivity.
Qed.

(** *** Errors of the parser, and [parse_json_object] *)

(** [type(parsed).__name__]. *)
Definition type_name (v : json) : string :=
  match v with
  | JNull => "NoneType"
  | JBool _ => "bool"
  | JInt _ => "int"
  | JFloat _ => "float"
  | JStr _ => "str"
  | JList _ => "list"
  | JDict _ => "dict"
  end.

Definition parse_json_object (raw : string) : Exc json :=
  parsed ← parse_json_payload raw;
  match parsed with
  | JDict _ => Ok parsed
  | _ => Raise (ValueError ("Expected JSON object, got " ++ type_name parsed))
  end.

Lemma last_json_line_raises (lines : list string) (e : exn) :
  last_json_line lines = Raise e -> e = no_json_object.
Proof.
  induction lines as [|line rest IH]; cbn [last_json_line].
  - now intros [= <-].
  - destruct (startswith line "{" || startswith line "["); [|exact IH].
    destruct (loads_total line) as [[v ->]|[msg ->]]; [discriminate|exact IH].
Qed.

Lemma parse_json_payload_raises (raw : string) (e : exn) :
  parse_json_payload raw = Raise e ->
  (strip raw = EmptyString /\ e = ValueError "No JSON found in output") \/
  (strip raw <> EmptyString /\ e = no_json_object /\
   forall v, loads (strip raw) <> Ok v).
Proof.
  unfold parse_json_payload.
  destruct (strip raw) as [|c r] eqn:Et; cbn [nonempty negb].
  - intros [= <-]. now left.
  - destruct (loads_total (String c r)) as [[v Hv]|[msg Hv]]; rewrite Hv;
      [discriminate|].
    rewrite best_decode_fold. cbn.
    destruct (fold_left keep _ _) as [obj be].
    intros H. right. split; [discriminate|]. split; [|congruence].
    destruct obj; try discriminate H. now apply last_json_line_raises in H.
Qed.

(** X3.  The parser raises nothing but [ValueError]: with the message No JSON
    found in output exactly when the text is blank, and otherwise with the
    message No JSON object found in output, and then the text as a whole
    is no JSON either.  No [JSONDecodeError] of the decoder gets out. *)
Theorem parse_json_payload_errors (raw : string) :
  (strip raw = EmptyString ->
   parse_json_payload raw = Raise (ValueError "No JSON found in output")) /\
  (forall e,
     parse_json_payload raw = Raise e ->
     strip raw <> EmptyString ->
     e = ValueError "No JSON object found in output" /\
     forall v, loads (strip raw) <> Ok v).
Proof.
  split.
  - intros Ht. unfold parse_json_payload. now rewrite Ht.
  - intros e He Hne.
    destruct (parse_json_payload_raises raw e He) as [[Ht _]|(_ & -> & Hl)];
      [contradiction|].
    split; [reflexivity|exact Hl].
Qed.

(** X4.  [parse_json_object] returns dictionaries only, the ones the parser
    finds; when the parser finds another value it raises [ValueError]
    with the name of the type of that value, and it raises nothing but
    [ValueError]. *)
Theorem parse_json_object_dict (raw : string) :
  (forall v,
     parse_json_object raw = Ok v <->
     parse_json_payload raw = Ok v /\ exists kv, v = JDict kv) /\
  (forall v,
     parse_json_payload raw = Ok v -> (forall kv, v <> JDict kv) ->
     parse_json_object raw
     = Raise (ValueError ("Expected JSON object, got " ++ type_name v))) /\
  (forall e, parse_json_object raw = Raise e -> exists msg, e = ValueError msg).
Proof.
  unfold parse_json_object.
  destruct (parse_json_payload raw) as [parsed|e0] eqn:Ep; cbn.
  - split; [|split].
    + intros v. split.
      * destruct parsed; try discriminate. intros [= <-]. eauto.
      * intros [[= ->] [kv ->]]. reflexivity.
    + intros v [= <-] Hnd. destruct parsed; try reflexivity.
      now destruct (Hnd kv).
    + intros e. destruct parsed; try discriminate; intros [= <-]; eauto.
  - split; [|split].
    + intros v. split; [discriminate|now intros [H _]].
    + discriminate.
    + intros e [= <-].
      destruct (parse_json_payload_raises raw e0 Ep) as [[_ ->]|(_ & -> & _)];
        unfold no_json_object; eauto.
Qed.

Lemma parse_json_payload_errors_witness :
  parse_json_payload "   " = Raise (ValueError "No JSON found in output") /\
  no_json_object = ValueError "No JSON object found in output" /\
  forall v, loads (strip "still running") <> Ok v.
Proof.
  split.
  - exact (proj1 (parse_json_payload_errors "   ") eq_refl).
  - apply (proj2 (parse_json_payload_errors "still running") no_json_object).
    + reflexivity.
    + discriminate.
Defined.

Lemma parse_json_object_dict_witness :
  parse_json_object ("{" ++ quoted "a" ++ ":1}") = Ok (JDict [("a", JInt 1)]) /\
  parse_json_object "[1, 2]"
  = Raise (ValueError "Expected JSON object, got list").
Proof.
  split.
  - apply (proj1 (parse_json_object_dict ("{" ++ quoted "a" ++ ":1}"))).
    split; [reflexivity|]. now exists [("a", JInt 1)].
  - apply (proj1 (proj2 (parse_json_object_dict "[1, 2]"))
             (JList [JInt 1; JInt 2])).
    + reflexivity.
    + discriminate.
Defined.

End Io.

(** ** Cached source resolution ([bookflow/store/db.py],
    [run_book_to_artifact.py]) *)

Module Sources.

Import Text.

(** A [Dict[str, str]]. *)
Definition source_map_t : Type := list (string * string).

(** The columns of the tables [runs] and [run_sources] the query reads. *)
Record RunRow : Type := {
  run_id : string;
  asset_id : option string;         (* TEXT, may be NULL *)
  active_notebook_id : string;
  updated_at : string;
}.

Record RunSourceRow : Type := {
  id : Z;
  rs_run_id : string;
  chapter_id : string;
  source_id : string;
}.

Record BookflowStore : Type := {
  runs : list RunRow;
  run_sources : list RunSourceRow;
}.

Definition mem (x : string) (l : list string) : bool :=
  existsb (String.eqb x) l.

(** [FROM run_sources rs JOIN runs r ON r.run_id = rs.run_id]. *)
Definition joined (store : BookflowStore) : list (RunSourceRow * RunRow) :=
  flat_map (fun rs =>
              map (pair rs)
                (List.filter (fun r => String.eqb (run_id r) (rs_run_id rs))
                   (runs store)))
    (run_sources store).

(** The [WHERE] clause. *)
Definition selected (asset notebook : string) (normalized : list string)
    (row : RunSourceRow * RunRow) : bool :=
  let (rs, r) := row in
  match asset_id r with
  | Some a => String.eqb a asset
  | None => false
  end
  && String.eqb (active_notebook_id r) notebook
  && mem (chapter_id rs) normalized
  && nonempty (chapter_id rs)
  && nonempty (source_id rs).

(** [ORDER BY r.updated_at DESC, rs.id DESC]: whether [a] may come before
    [b]. *)
Definition comes_first (a b : RunSourceRow * RunRow) : bool :=
  match String.compare (updated_at (snd a)) (updated_at (snd b)) with
  | Gt => true
  | Lt => false
  | Eq => id (fst b) <=? id (fst a)
  end.

Fixpoint insert_row (x : RunSourceRow * RunRow)
    (l : list (RunSourceRow * RunRow)) : list (RunSourceRow * RunRow) :=
  match l with
  | [] => [x]
  | y :: l' => if comes_first x y then x :: l else y :: insert_row x l'
  end.

Definition order_rows (l : list (RunSourceRow * RunRow))
  : list (RunSourceRow * RunRow) :=
  fold_right insert_row [] l.

(** The rows of the query, as (chapter_id, source_id). *)
Definition query (store : BookflowStore) (asset notebook : string)
    (normalized : list string) : list (string * string) :=
  map (fun row => (chapter_id (fst row), source_id (fst row)))
    (order_rows (List.filter (selected asset notebook normalized)
                   (joined store))).

(** One turn of the loop over the rows. *)
Definition pick (picked : source_map_t) (row : string * string)
  : source_map_t :=
  let chapter := strip (fst row) in
  let source := strip (snd row) in
  if negb (nonempty chapter) || negb (nonempty source) then picked
  else match dict_get chapter picked with
       | Some _ => picked
       | None => dict_set chapter source picked
       end.

(** [{chapter_id: picked[chapter_id] for chapter_id in normalized
      if chapter_id in picked}]. *)
Definition restrict (picked : source_map_t) (normalized : list string)
  : source_map_t :=
  fold_left (fun d chapter =>
               match dict_get chapter picked with
               | Some source => dict_set chapter source d
               | None => d
               end) normalized [].

Definition get_cached_source_map (store : BookflowStore)
    (asset notebook : string) (chapter_ids : list string) : source_map_t :=
  let normalized := List.filter nonempty (map strip chapter_ids) in
  match normalized with
  | [] => []
  | _ =>
      if negb (nonempty (strip asset)) || negb (nonempty (strip notebook))
      then []
      else
        let rows := query store asset notebook normalized in
        restrict (fold_left pick rows []) normalized
  end.

(** [str(m.get(chapter_id, "")).strip()]. *)
Definition get_stripped (m : source_map_t) (chapter : string) : string :=
  strip (match dict_get chapter m with Some s => s | None => EmptyString end).

(** [d.update(other)]. *)
Definition dict_update (d other : source_map_t) : source_map_t :=
  fold_left (fun d kv => dict_set (fst kv) (snd kv) d) other d.

(** What the source resolution of a run leaves behind. *)
Record Resolution : Type := {
  cached_source_map : source_map_t;
  unresolved_chapter_ids : list string;
  live_source_map : source_map_t;
  effective_source_map : source_map_t;
  ordered_source_ids : list string;
  missing_chapter_ids : list string;
}.

(** The loop that orders the source ids of the chapters, without
    repetition; [seen] is the list made so far. *)
Fixpoint order_sources (effective : source_map_t) (chapter_ids : list string)
    (ordered missing : list string) : list string * list string :=
  match chapter_ids with
  | [] => (ordered, missing)
  | chapter :: rest =>
      let source := get_stripped effective chapter in
      if negb (nonempty source) then
        order_sources effective rest ordered (missing ++ [chapter])
      else if mem source ordered then
        order_sources effective rest ordered missing
      else order_sources effective rest (ordered ++ [source]) missing
  end.

(** One turn of the loop that fills [live_source_map] from the map the
    lookup resolved. *)
Definition keep_live (resolved : source_map_t) (live : source_map_t)
    (chapter : string) : source_map_t :=
  let source := get_stripped resolved chapter in
  if nonempty source then dict_set chapter source live else live.

Section Resolve.

(** The live lookup: [resolve_source_ids(notebook_id, profile,
    chapter_ids).source_map], or the exception the lookup ends with.  The
    map is made from the listing of the notebook's sources, an answer of
    the outside world. *)
Variable resolve_source_ids :
  string -> string -> list string -> Exc source_map_t.

(** The source resolution of [main], for a plan with other artifacts than
    infographics.  Beside its result it gives the live lookups it made, by
    the chapter ids asked for. *)
Definition resolve_sources (store : BookflowStore)
    (asset_identity : option string) (notebook_id profile : string)
    (chapter_ids : list string) : list (list string) * Exc Resolution :=
  let cached :=
    match asset_identity with
    | Some asset => get_cached_source_map store asset notebook_id chapter_ids
    | None => []
    end in
  let unresolved :=
    List.filter (fun chapter => negb (nonempty (get_stripped cached chapter)))
      chapter_ids in
  let finish (live : source_map_t) : Resolution :=
    let effective := dict_update cached live in
    let '(ordered, missing) := order_sources effective chapter_ids [] [] in
    {| cached_source_map := cached;
       unresolved_chapter_ids := unresolved;
       live_source_map := live;
       effective_source_map := effective;
       ordered_source_ids := ordered;
       missing_chapter_ids := missing |} in
  match unresolved with
  | [] => ([], Ok (finish []))
  | _ =>
      ([unresolved],
       match resolve_source_ids notebook_id profile unresolved with
       | Raise e => Raise e
       | Ok resolved =>
           Ok (finish (fold_left (keep_live resolved) unresolved []))
       end)
  end.

(** *** Stripped texts *)

Lemma lstrip_head (s : string) (c : ascii) (r : string) :
  lstrip s = String c r -> is_space c = false.
Proof.
  induction s as [|c0 s IH]; cbn [lstrip]; [discriminate|].
  destruct (is_space c0) eqn:E; [exact IH|].
  intros [= <- <-]. exact E.
Qed.

Lemma rstrip_idem (s : string) : rstrip (rstrip s) = rstrip s.
Proof.
  induction s as [|c s IH]; [reflexivity|].
  cbn [rstrip]. destruct (rstrip s) as [|c' r'] eqn:E.
  - destruct (is_space c) eqn:Ec; [reflexivity|].
    cbn [rstrip]. now rewrite Ec.
  - cbn [rstrip] in *. now rewrite IH.
Qed.

Lemma lstrip_rstrip (s : string) :
  (forall c r, s = String c r -> is_space c = false) ->
  lstrip (rstrip s) = rstrip s.
Proof.
  destruct s as [|c r]; [reflexivity|].
  intros H. specialize (H c r eq_refl).
  cbn [rstrip]. destruct (rstrip r).
  - rewrite H. cbn [lstrip]. now rewrite H.
  - cbn [lstrip]. now rewrite H.
Qed.

Lemma strip_idem (s : string) : strip (strip s) = strip s.
Proof.
  unfold strip. rewrite lstrip_rstrip, rstrip_idem; [reflexivity|].
  intros c r. apply lstrip_head.
Qed.

(** *** Dictionaries *)

Lemma dict_get_In {V} (k : string) (v : V) (d : list (string * V)) :
  dict_get k d = Some v -> In (k, v) d.
Proof.
  induction d as [|[k' v'] d IH]; cbn [dict_get]; [discriminate|].
  destruct (String.eqb_spec k k') as [->|Hk].
  - intros [= <-]. now left.
  - intros H. right. auto.
Qed.

Lemma In_dict_set {V} (k k' : string) (v v' : V) (d : list (string * V)) :
  In (k', v') (dict_set k v d) -> (k', v') = (k, v) \/ In (k', v') d.
Proof.
  induction d as [|[k0 v0] d IH]; cbn [dict_set].
  - intros [H|[]]. now left.
  - destruct (String.eqb k k0).
    + intros [H|H]; [now left|right; now right].
    + intros [H|H]; [right; now left|].
      destruct (IH H); [now left|right; now right].
Qed.

Lemma dict_update_absent (other d : source_map_t) (c : string) :
  dict_get c other = None -> dict_get c (dict_update d other) = dict_get c d.
Proof.
  unfold dict_update. revert d.
  induction other as [|[k v] other IH]; intros d; [reflexivity|].
  cbn [dict_get fold_left fst snd].
  destruct (String.eqb_spec c k) as [->|Hk]; [discriminate|].
  intros H. rewrite (IH _ H). apply dict_get_set_ne. congruence.
Qed.

Lemma dict_update_present (other d : source_map_t) (c v : string) :
  dict_get c other = Some v ->
  (forall v', In (c, v') other -> v' = v) ->
  dict_get c (dict_update d other) = Some v.
Proof.
  unfold dict_update. revert d.
  induction other as [|[k v0] other IH]; intros d; [discriminate|].
  cbn [dict_get fold_left fst snd].
  destruct (String.eqb_spec c k) as [->|Hk].
  - intros [= ->] Hall.
    destruct (dict_get k other) as [v1|] eqn:E.
    + apply IH; [|intros v' Hv'; apply Hall; now right].
      rewrite (Hall v1); [reflexivity|].
      right. now apply dict_get_In.
    + fold (dict_update (dict_set k v d) other).
      rewrite (dict_update_absent _ _ _ E). apply dict_get_set_eq.
  - intros H Hall. apply IH; [exact H|].
    intros v' Hv'. apply Hall. now right.
Qed.

(** *** The cached map holds no blank source id *)

Definition clean (d : source_map_t) : bool :=
  forallb (fun kv => nonempty (strip (snd kv))) d.

Lemma pick_clean (picked : source_map_t) (row : string * string) :
  clean picked = true -> clean (pick picked row) = true.
Proof.
  intros H. unfold pick.
  destruct (nonempty (strip (fst row))); [|exact H].
  destruct (nonempty (strip (snd row))) eqn:Es; [|exact H].
  cbn [negb orb].
  destruct (dict_get (strip (fst row)) picked); [exact H|].
  apply forallb_dict_set; [|exact H].
  cbn [snd]. now rewrite strip_idem.
Qed.

Lemma picks_clean (rows : list (string * string)) (picked : source_map_t) :
  clean picked = true -> clean (fold_left pick rows picked) = true.
Proof.
  revert picked. induction rows as [|row rows IH]; intros picked H; [exact H|].
  cbn [fold_left]. apply IH, pick_clean, H.
Qed.

Lemma restrict_clean (picked : source_map_t) (normalized : list string) :
  clean picked = true -> clean (restrict picked normalized) = true.
Proof.
  intros H. unfold restrict.
  enough (G : forall d, clean d = true ->
                        clean (fold_left
                                 (fun d chapter =>
                                    match dict_get chapter picked with
                                    | Some source => dict_set chapter source d
                                    | None => d
                                    end) normalized d) = true)
    by now apply G.
  induction normalized as [|c l IH]; intros d Hd; [exact Hd|].
  cbn [fold_left]. apply IH.
  destruct (dict_get c picked) as [s|] eqn:E; [|exact Hd].
  apply forallb_dict_set; [|exact Hd].
  destruct (forallb_dict_get _ _ _ _ H E) as (k' & Hk'). exact Hk'.
Qed.

Lemma get_cached_source_map_clean (store : BookflowStore)
    (asset notebook : string) (chapter_ids : list string) :
  clean (get_cached_source_map store asset notebook chapter_ids) = true.
Proof.
  unfold get_cached_source_map.
  destruct (List.filter nonempty (map strip chapter_ids)); [reflexivity|].
  destruct (negb _ || negb _); [reflexivity|].
  apply restrict_clean, picks_clean. reflexivity.
Qed.

(** A chapter has a usable entry in a clean map when it has an entry. *)
Lemma get_stripped_clean (d : source_map_t) (chapter : string) :
  clean d = true ->
  nonempty (get_stripped d chapter)
  = match dict_get chapter d with Some _ => true | None => false end.
Proof.
  intros H. unfold get_stripped.
  destruct (dict_get chapter d) as [s|] eqn:E; [|reflexivity].
  destruct (forallb_dict_get _ _ _ _ H E) as (k' & Hk'). exact Hk'.
Qed.

(** *** The live entries *)

(** The entry the live lookup gives a chapter: the stripped source id of
    the resolved map, unless it is blank. *)
Definition live_entry (resolved : source_map_t) (chapter : string)
  : option string :=
  let source := get_stripped resolved chapter in
  if nonempty source then Some source else None.

Lemma mem_cons (x y : string) (l : list string) :
  mem x (y :: l) = String.eqb x y || mem x l.
Proof. reflexivity. Qed.

Lemma live_get (resolved : source_map_t) (unresolved : list string)
    (c : string) :
  forall live,
    dict_get c (fold_left (keep_live resolved) unresolved live)
    = if mem c unresolved
      then match live_entry resolved c with
           | Some s => Some s
           | None => dict_get c live
           end
      else dict_get c live.
Proof.
  induction unresolved as [|u l IH]; intros live; [reflexivity|].
  cbn [fold_left]. rewrite IH, mem_cons.
  unfold keep_live, live_entry.
  destruct (String.eqb_spec c u) as [->|Hne]; cbn [orb].
  - destruct (nonempty (get_stripped resolved u)) eqn:E.
    + rewrite dict_get_set_eq. now destruct (mem u l).
    + now destruct (mem u l).
  - destruct (nonempty (get_stripped resolved u)); [|reflexivity].
    rewrite dict_get_set_ne by congruence. reflexivity.
Qed.

Lemma live_values (resolved : source_map_t) (unresolved : list string) :
  forall live,
    (forall k v, In (k, v) live -> v = get_stripped resolved k) ->
    forall k v, In (k, v) (fold_left (keep_live resolved) unresolved live) ->
                v = get_stripped resolved k.
Proof.
  induction unresolved as [|u l IH]; intros live H; [exact H|].
  cbn [fold_left]. apply IH. unfold keep_live.
  destruct (nonempty (get_stripped resolved u)); [|exact H].
  intros k v [[= -> ->]|Hin]%In_dict_set; [reflexivity|auto].
Qed.

Lemma mem_filter (f : string -> bool) (c : string) (l : list string) :
  mem c (List.filter f l) = mem c l && f c.
Proof.
  induction l as [|x l IH]; [reflexivity|].
  cbn [List.filter]. destruct (f x) eqn:Ex.
  - rewrite !mem_cons, IH.
    destruct (String.eqb_spec c x) as [->|]; cbn [orb]; [|reflexivity].
    rewrite Ex. now rewrite andb_true_r.
  - rewrite mem_cons, IH.
    destruct (String.eqb_spec c x) as [->|]; cbn [orb]; [|reflexivity].
    rewrite Ex. now rewrite andb_false_r.
Qed.

Lemma filter_ext_eq {A} (f g : A -> bool) (l : list A) :
  (forall x, f x = g x) -> List.filter f l = List.filter g l.
Proof.
  intros H. induction l as [|x l IH]; [reflexivity|].
  cbn [List.filter]. now rewrite H, IH.
Qed.

(** The map the source resolution starts from. *)
Definition cached_for (store : BookflowStore) (asset_identity : option string)
    (notebook_id : string) (chapter_ids : list string) : source_map_t :=
  match asset_identity with
  | Some asset => get_cached_source_map store asset notebook_id chapter_ids
  | None => []
  end.

Definition is_cached (cached : source_map_t) (chapter : string) : bool :=
  match dict_get chapter cached with Some _ => true | None => false end.

(** The map the specification describes: the cached map overlaid with the whole
    resolved map, the resolved entries winning. *)
Definition overlay_fresh_wins (cached resolved : source_map_t) : source_map_t :=
  dict_update cached resolved.

(** C8 (as amended).  The source resolution looks up live the chapter ids
    that have no entry in the cached map, in one lookup for all of them,
    and makes no lookup when there is none.  When the lookup returns, the
    live map takes from the resolved map the entries of the chapters that
    were looked up, blank ones apart, and no other entry; the effective
    source map is the cached map updated with this live map.  So the
    effective map gives a chapter its cached source id when the cached map
    has one, whatever the lookup resolved for it; it gives a chapter
    without a cached entry the source id the lookup resolved for it, when
    it was asked for and the id is not blank; it has no other entry.
    When the lookup fails, so does the resolution. *)
Theorem effective_source_map_cache_first (store : BookflowStore)
    (asset_identity : option string) (notebook_id profile : string)
    (chapter_ids : list string) :
  let cached := cached_for store asset_identity notebook_id chapter_ids in
  let missing :=
    List.filter (fun chapter => negb (is_cached cached chapter)) chapter_ids in
  let run :=
    resolve_sources store asset_identity notebook_id profile chapter_ids in
  fst run = match missing with [] => [] | _ => [missing] end /\
  (forall resolved,
     missing = [] \/
     resolve_source_ids notebook_id profile missing = Ok resolved ->
     exists r,
       snd run = Ok r /\
       cached_source_map r = cached /\
       unresolved_chapter_ids r = missing /\
       (forall chapter,
          dict_get chapter (live_source_map r)
          = if mem chapter missing then live_entry resolved chapter
            else None) /\
       effective_source_map r = dict_update cached (live_source_map r) /\
       forall chapter,
         dict_get chapter (effective_source_map r)
         = match dict_get chapter cached with
           | Some source => Some source
           | None =>
               if mem chapter chapter_ids then live_entry resolved chapter
               else None
           end) /\
  (forall e,
     missing <> [] ->
     resolve_source_ids notebook_id profile missing = Raise e ->
     snd run = Raise e).
Proof.
  intros cached missing run.
  assert (Hclean : clean cached = true).
  { unfold cached, cached_for. destruct asset_identity; [|reflexivity].
    apply get_cached_source_map_clean. }
  assert (Hmissing :
            List.filter (fun chapter =>
                           negb (nonempty (get_stripped cached chapter)))
              chapter_ids = missing).
  { apply filter_ext_eq. intros c.
    now rewrite (get_stripped_clean _ _ Hclean). }
  assert (Heff : forall resolved live chapter,
            (forall c, dict_get c live
                       = if mem c missing then live_entry resolved c else None) ->
            (forall k v, In (k, v) live -> v = get_stripped resolved k) ->
            dict_get chapter (dict_update cached live)
            = match dict_get chapter cached with
              | Some source => Some source
              | None =>
                  if mem chapter chapter_ids then live_entry resolved chapter
                  else None
              end).
  { intros resolved live c Hlive Hvals.
    specialize (Hlive c). unfold missing in Hlive.
    rewrite mem_filter in Hlive. unfold is_cached in Hlive.
    destruct (dict_get c cached) as [s|] eqn:Ec.
    - rewrite andb_false_r in Hlive.
      now rewrite (dict_update_absent _ _ _ Hlive).
    - rewrite andb_true_r in Hlive.
      destruct (dict_get c live) as [v|] eqn:El.
      + rewrite <- Hlive. apply dict_update_present; [exact El|].
        intros v' Hv'. rewrite (Hvals _ _ Hv').
        symmetry. apply Hvals. now apply dict_get_In.
      + now rewrite (dict_update_absent _ _ _ El), Ec. }
  unfold run, resolve_sources. cbv zeta.
  fold (cached_for store asset_identity notebook_id chapter_ids).
  fold cached. rewrite Hmissing.
  destruct missing as [|m0 ms] eqn:Em.
  - split; [reflexivity|]. split; [|intros e H; now destruct H].
    intros resolved _.
    destruct (order_sources (dict_update cached []) chapter_ids [] [])
      as [ordered miss].
    eexists. split; [reflexivity|]. cbn [cached_source_map
      unresolved_chapter_ids effective_source_map live_source_map].
    split; [reflexivity|]. split; [reflexivity|].
    split; [reflexivity|]. split; [reflexivity|].
    intros chapter. apply (Heff resolved); [|intros k v []].
    intros c. reflexivity.
  - split; [reflexivity|]. split.
    + intros resolved [H|H]; [discriminate H|].
      cbn [fst snd]. rewrite H.
      destruct (order_sources _ chapter_ids [] []) as [ordered miss].
      assert (Hlive : forall c,
                dict_get c (fold_left (keep_live resolved) (m0 :: ms) [])
                = if mem c (m0 :: ms) then live_entry resolved c else None).
      { intros c. rewrite live_get. cbn [dict_get].
        destruct (mem c (m0 :: ms)); [|reflexivity].
        now destruct (live_entry resolved c). }
      eexists. split; [reflexivity|]. cbn [cached_source_map
        unresolved_chapter_ids effective_source_map live_source_map].
      split; [reflexivity|]. split; [reflexivity|].
      split; [exact Hlive|]. split; [reflexivity|].
      intros chapter. apply (Heff resolved); [exact Hlive|].
      apply live_values. intros k v [].
    + intros e _ H. cbn [snd]. now rewrite H.
Qed.

End Resolve.

(** *** A run with two cached chapters *)

(** An earlier run of the book stored the sources of chapters 1 and 2. *)
Definition example_store : BookflowStore :=
  {| runs := [{| run_id := "run-1"; asset_id := Some "book";
                 active_notebook_id := "nb";
                 updated_at := "2026-01-01T00:00:00" |}];
     run_sources := [{| id := 1; rs_run_id := "run-1";
                        chapter_id := "1"; source_id := "sA" |};
                     {| id := 2; rs_run_id := "run-1";
                        chapter_id := "2"; source_id := "sB" |}] |}.

(** The notebook now lists other sources for chapters 2 and 3. *)
Definition example_resolved : source_map_t := [("2", "sC"); ("3", "sD")].

Definition example_lookup (notebook_id profile : string)
    (chapter_ids : list string) : Exc source_map_t :=
  Ok example_resolved.

Definition example_chapters : list string := ["1"; "2"; "3"].

Definition example_run : list (list string) * Exc Resolution :=
  resolve_sources example_lookup example_store (Some "book") "nb" "default"
    example_chapters.

Lemma effective_source_map_cache_first_witness :
  exists r,
    snd example_run = Ok r /\
    cached_source_map r = [("1", "sA"); ("2", "sB")] /\
    unresolved_chapter_ids r = ["3"] /\
    (forall chapter,
       dict_get chapter (live_source_map r)
       = if mem chapter ["3"] then live_entry example_resolved chapter
         else None) /\
    effective_source_map r
    = dict_update [("1", "sA"); ("2", "sB")] (live_source_map r) /\
    forall chapter,
      dict_get chapter (effective_source_map r)
      = match dict_get chapter [("1", "sA"); ("2", "sB")] with
        | Some source => Some source
        | None =>
            if mem chapter example_chapters
            then live_entry example_resolved chapter
            else None
        end.
Proof.
  exact (proj1 (proj2 (effective_source_map_cache_first example_lookup
                         example_store (Some "book") "nb" "default"
                         example_chapters))
           example_resolved (or_intror eq_refl)).
Defined.

(** With the cached map 1: sA, 2: sB and the live map 2: sC, 3: sD, only
    chapter 3 is looked up, and the effective map keeps sB for chapter 2:
    it is not the overlay in which the live entries win. *)
Lemma effective_source_map_keeps_cached :
  cached_for example_store (Some "book") "nb" example_chapters
  = [("1", "sA"); ("2", "sB")] /\
  overlay_fresh_wins [("1", "sA"); ("2", "sB")] example_resolved
  = [("1", "sA"); ("2", "sC"); ("3", "sD")] /\
  fst example_run = [["3"]] /\
  exists r,
    snd example_run = Ok r /\
    effective_source_map r = [("1", "sA"); ("2", "sB"); ("3", "sD")] /\
    effective_source_map r
    <> overlay_fresh_wins (cached_source_map r) example_resolved.
Proof.
  split; [reflexivity|]. split; [reflexivity|]. split; [reflexivity|].
  eexists. split; [reflexivity|]. split; [reflexivity|].
  vm_compute. discriminate.
Qed.

(** *** What the cached map holds *)

(** A row of the query the loop over the rows can use for [chapter]. *)
Definition usable (chapter : string) (row : string * string) : bool :=
  nonempty (strip (fst row)) && nonempty (strip (snd row))
  && String.eqb (strip (fst row)) chapter.

Lemma pick_get (picked : source_map_t) (row : string * string)
    (chapter : string) :
  dict_get chapter (pick picked row)
  = match dict_get chapter picked with
    | Some s => Some s
    | None => if usable chapter row then Some (strip (snd row)) else None
    end.
Proof.
  unfold pick, usable.
  destruct (nonempty (strip (fst row))); cbn [negb orb andb];
    [|now destruct (dict_get chapter picked)].
  destruct (nonempty (strip (snd row))); cbn [negb orb andb];
    [|now destruct (dict_get chapter picked)].
  destruct (String.eqb_spec (strip (fst row)) chapter) as [->|Hne].
  - destruct (dict_get chapter picked) eqn:E; [exact E|].
    apply dict_get_set_eq.
  - destruct (dict_get (strip (fst row)) picked).
    + now destruct (dict_get chapter picked).
    + rewrite dict_get_set_ne by exact Hne.
      now destruct (dict_get chapter picked).
Qed.

Lemma picks_get (rows : list (string * string)) (chapter : string) :
  forall picked,
    dict_get chapter (fold_left pick rows picked)
    = match dict_get chapter picked with
      | Some s => Some s
      | None => option_map (fun row => strip (snd row))
                  (List.find (usable chapter) rows)
      end.
Proof.
  induction rows as [|row rows IH]; intros picked; cbn [fold_left List.find].
  - now destruct (dict_get chapter picked).
  - rewrite IH, pick_get.
    destruct (dict_get chapter picked); [reflexivity|].
    now destruct (usable chapter row).
Qed.

Lemma restrict_get (picked : source_map_t) (normalized : list string)
    (chapter : string) :
  dict_get chapter (restrict picked normalized)
  = if mem chapter normalized then dict_get chapter picked else None.
Proof.
  unfold restrict.
  enough (G : forall d,
            dict_get chapter
              (fold_left (fun d c => match dict_get c picked with
                                     | Some source => dict_set c source d
                                     | None => d
                                     end) normalized d)
            = if mem chapter normalized
              then match dict_get chapter picked with
                   | Some s => Some s
                   | None => dict_get chapter d
                   end
              else dict_get chapter d).
  { rewrite G. cbn [dict_get].
    destruct (mem chapter normalized); [|reflexivity].
    now destruct (dict_get chapter picked). }
  induction normalized as [|c l IH]; intros d; [reflexivity|].
  cbn [fold_left]. rewrite IH, mem_cons.
  destruct (String.eqb_spec chapter c) as [->|Hne]; cbn [orb].
  - destruct (dict_get c picked) as [s|] eqn:E.
    + rewrite dict_get_set_eq. now destruct (mem c l).
    + now destruct (mem c l).
  - destruct (dict_get c picked) as [s|]; [|reflexivity].
    rewrite dict_get_set_ne by congruence. reflexivity.
Qed.

(** The chapter ids a lookup in the cache asks for. *)
Definition normalized_ids (chapter_ids : list string) : list string :=
  List.filter nonempty (map strip chapter_ids).

Lemma get_cached_source_map_get (store : BookflowStore)
    (asset notebook : string) (chapter_ids : list string) (chapter : string) :
  dict_get chapter (get_cached_source_map store asset notebook chapter_ids)
  = if nonempty (strip asset) && nonempty (strip notebook)
       && mem chapter (normalized_ids chapter_ids)
    then option_map (fun row => strip (snd row))
           (List.find (usable chapter)
              (query store asset notebook (normalized_ids chapter_ids)))
    else None.
Proof.
  unfold get_cached_source_map. fold (normalized_ids chapter_ids).
  destruct (normalized_ids chapter_ids) as [|c0 l] eqn:En.
  - cbn [dict_get mem existsb]. now rewrite andb_false_r.
  - rewrite <- En.
    destruct (nonempty (strip asset)); cbn [negb orb andb]; [|reflexivity].
    destruct (nonempty (strip notebook)); cbn [negb orb andb]; [|reflexivity].
    rewrite restrict_get, picks_get. reflexivity.
Qed.

(** *** The order of the rows *)

Lemma ascii_compare_gt_trans (a b c : ascii) :
  Ascii.compare a b = Gt -> Ascii.compare b c = Gt -> Ascii.compare a c = Gt.
Proof.
  unfold Ascii.compare. rewrite !N.compare_gt_iff. lia.
Qed.

Lemma ascii_compare_refl (a : ascii) : Ascii.compare a a = Eq.
Proof. unfold Ascii.compare. apply N.compare_refl. Qed.

Lemma string_compare_refl (s : string) : String.compare s s = Eq.
Proof.
  induction s as [|c s IH]; [reflexivity|].
  cbn [String.compare]. now rewrite ascii_compare_refl.
Qed.

Lemma string_compare_gt_trans (s1 : string) :
  forall s2 s3,
    String.compare s1 s2 = Gt -> String.compare s2 s3 = Gt ->
    String.compare s1 s3 = Gt.
Proof.
  induction s1 as [|c1 s1 IH]; intros [|c2 s2] [|c3 s3];
    cbn [String.compare]; try discriminate; try reflexivity.
  destruct (Ascii.compare c1 c2) eqn:E12; try discriminate;
    destruct (Ascii.compare c2 c3) eqn:E23; try discriminate.
  - apply Ascii.compare_eq_iff in E12, E23. subst.
    rewrite ascii_compare_refl. apply IH.
  - apply Ascii.compare_eq_iff in E12. subst. now rewrite E23.
  - apply Ascii.compare_eq_iff in E23. subst. now rewrite E12.
  - now rewrite (ascii_compare_gt_trans _ _ _ E12 E23).
Qed.

Lemma comes_first_total (a b : RunSourceRow * RunRow) :
  comes_first a b = false -> comes_first b a = true.
Proof.
  unfold comes_first.
  rewrite (String.compare_antisym (updated_at (snd b)) (updated_at (snd a))).
  destruct (String.compare (updated_at (snd a)) (updated_at (snd b)));
    cbn [CompOpp]; try discriminate; try reflexivity.
  intros H. apply Z.leb_gt in H. apply Z.leb_le. lia.
Qed.

Lemma comes_first_trans (a b c : RunSourceRow * RunRow) :
  comes_first a b = true -> comes_first b c = true -> comes_first a c = true.
Proof.
  unfold comes_first.
  destruct (String.compare (updated_at (snd a)) (updated_at (snd b))) eqn:Eab;
    try discriminate;
    destruct (String.compare (updated_at (snd b)) (updated_at (snd c))) eqn:Ebc;
    try discriminate.
  - apply String.compare_eq_iff in Eab, Ebc. rewrite Eab, Ebc.
    rewrite string_compare_refl. intros H1 H2.
    apply Z.leb_le in H1, H2. apply Z.leb_le. lia.
  - apply String.compare_eq_iff in Eab. now rewrite Eab, Ebc.
  - apply String.compare_eq_iff in Ebc. now rewrite <- Ebc, Eab.
  - now rewrite (string_compare_gt_trans _ _ _ Eab Ebc).
Qed.

(** Every row comes first before the rows after it. *)
Fixpoint ordered (l : list (RunSourceRow * RunRow)) : Prop :=
  match l with
  | [] => True
  | x :: l' => Forall (fun y => comes_first x y = true) l' /\ ordered l'
  end.

Lemma insert_row_In (x y : RunSourceRow * RunRow)
    (l : list (RunSourceRow * RunRow)) :
  In y (insert_row x l) <-> y = x \/ In y l.
Proof.
  induction l as [|z l IH]; cbn [insert_row In].
  - split; intros [H|H]; auto.
  - destruct (comes_first x z); cbn [In].
    + split; intros [H|H]; auto.
    + rewrite IH. tauto.
Qed.

Lemma insert_row_ordered (x : RunSourceRow * RunRow)
    (l : list (RunSourceRow * RunRow)) :
  ordered l -> ordered (insert_row x l).
Proof.
  induction l as [|z l IH]; cbn [insert_row ordered]; [intros _; split; auto|].
  intros [Hz Hl]. destruct (comes_first x z) eqn:E; cbn [ordered].
  - split; [|split; assumption]. constructor; [exact E|].
    eapply List.Forall_impl; [|exact Hz].
    intros y Hy. exact (comes_first_trans _ _ _ E Hy).
  - split; [|now apply IH].
    apply List.Forall_forall. intros y Hy.
    apply insert_row_In in Hy as [->|Hy].
    + now apply comes_first_total.
    + rewrite List.Forall_forall in Hz. now apply Hz.
Qed.

Lemma order_rows_In (y : RunSourceRow * RunRow)
    (l : list (RunSourceRow * RunRow)) :
  In y (order_rows l) <-> In y l.
Proof.
  unfold order_rows. induction l as [|x l IH]; cbn [fold_right In]; [tauto|].
  rewrite insert_row_In, IH. split; intros [H|H]; auto.
Qed.

Lemma order_rows_ordered (l : list (RunSourceRow * RunRow)) :
  ordered (order_rows l).
Proof.
  unfold order_rows. induction l as [|x l IH]; cbn [fold_right]; [exact I|].
  now apply insert_row_ordered.
Qed.

Lemma find_ordered (f : RunSourceRow * RunRow -> bool)
    (l : list (RunSourceRow * RunRow)) (x : RunSourceRow * RunRow) :
  ordered l ->
  List.find f l = Some x ->
  In x l /\ f x = true /\
  forall y, In y l -> f y = true -> comes_first x y = true.
Proof.
  induction l as [|z l IH]; cbn [ordered List.find]; [discriminate|].
  intros [Hz Hl]. destruct (f z) eqn:Ez.
  - intros [= <-]. split; [now left|]. split; [exact Ez|].
    intros y [<-|Hy] _.
    + unfold comes_first. rewrite string_compare_refl. apply Z.leb_refl.
    + rewrite List.Forall_forall in Hz. now apply Hz.
  - intros Hx. destruct (IH Hl Hx) as (Hin & Hfx & Hbest).
    split; [now right|]. split; [exact Hfx|].
    intros y [<-|Hy] Hfy; [congruence|now apply Hbest].
Qed.

Lemma find_map {A B} (g : A -> B) (f : B -> bool) (l : list A) :
  List.find f (map g l) = option_map g (List.find (fun x => f (g x)) l).
Proof.
  induction l as [|x l IH]; [reflexivity|].
  cbn [map List.find]. now destruct (f (g x)).
Qed.

(** X5.  The cached source id of a chapter comes from the runs of the store:
    it is the stripped source id of a row of [run_sources] of that
    chapter, joined to a run of the same asset and notebook.  Among the
    rows of that chapter with a source id that is not blank it is the one
    of the run updated last, and among the rows of such runs the one
    stored last.  The map has entries for chapter ids asked for only, and
    none when the asset or the notebook is blank. *)
Theorem cached_source_is_newest (store : BookflowStore)
    (asset notebook : string) (chapter_ids : list string)
    (chapter source : string) :
  dict_get chapter (get_cached_source_map store asset notebook chapter_ids)
  = Some source ->
  nonempty (strip asset) = true /\ nonempty (strip notebook) = true /\
  In chapter (normalized_ids chapter_ids) /\
  exists row,
    In row (joined store) /\
    selected asset notebook (normalized_ids chapter_ids) row = true /\
    chapter_id (fst row) = chapter /\
    strip (source_id (fst row)) = source /\
    forall other,
      In other (joined store) ->
      selected asset notebook (normalized_ids chapter_ids) other = true ->
      chapter_id (fst other) = chapter ->
      nonempty (strip (source_id (fst other))) = true ->
      comes_first row other = true.
Proof.
  rewrite get_cached_source_map_get.
  destruct (nonempty (strip asset)); [|discriminate].
  destruct (nonempty (strip notebook)); [|discriminate].
  destruct (mem chapter (normalized_ids chapter_ids)) eqn:Hm; [|discriminate].
  cbn [andb]. unfold query. rewrite find_map.
  set (sel := List.filter _ (joined store)).
  set (f := fun x : RunSourceRow * RunRow => usable chapter _).
  destruct (List.find f (order_rows sel)) as [row|] eqn:Ef; [|discriminate].
  cbn [option_map snd]. intros [= <-].
  destruct (find_ordered f _ row (order_rows_ordered sel) Ef)
    as (Hin & Hf & Hbest).
  apply (proj1 (order_rows_In _ _)) in Hin. unfold sel in Hin.
  apply List.filter_In in Hin as [Hj Hsel].
  assert (Hmem : forall c, mem c (normalized_ids chapter_ids) = true ->
                           In c (normalized_ids chapter_ids) /\ strip c = c).
  { intros c Hc. unfold mem in Hc. apply existsb_exists in Hc as (y & Hy & E).
    apply String.eqb_eq in E. subst y. split; [exact Hy|].
    unfold normalized_ids in Hy. apply List.filter_In in Hy as [Hy _].
    apply List.in_map_iff in Hy as (x & <- & _). apply strip_idem. }
  assert (Hsame : forall r,
            selected asset notebook (normalized_ids chapter_ids) r = true ->
            strip (chapter_id (fst r)) = chapter_id (fst r) /\
            nonempty (chapter_id (fst r)) = true).
  { intros [rs r] Hr. unfold selected in Hr.
    apply andb_true_iff in Hr as [Hr _]. apply andb_true_iff in Hr as [Hr Hn].
    apply andb_true_iff in Hr as [_ Hc]. split; [|exact Hn].
    now apply Hmem. }
  split; [reflexivity|]. split; [reflexivity|].
  split; [now apply Hmem|].
  exists row. split; [exact Hj|]. split; [exact Hsel|].
  unfold f, usable in Hf. cbn [fst snd] in Hf.
  apply andb_true_iff in Hf as [Hf Hc]. apply String.eqb_eq in Hc.
  destruct (Hsame row Hsel) as [Hs _]. rewrite Hs in Hc.
  split; [exact Hc|]. split; [reflexivity|].
  intros other Ho Hosel Hoc Hons. apply Hbest.
  - apply order_rows_In. unfold sel. apply List.filter_In. now split.
  - unfold f, usable. cbn [fst snd].
    destruct (Hsame other Hosel) as [Hos Hon].
    rewrite Hos, Hon, Hons, Hoc. cbn [andb]. apply String.eqb_refl.
Qed.

(** Two runs stored a source for chapter 1; the second was updated
    later. *)
Definition newer_store : BookflowStore :=
  {| runs := [{| run_id := "run-1"; asset_id := Some "book";
                 active_notebook_id := "nb";
                 updated_at := "2026-01-01T00:00:00" |};
              {| run_id := "run-2"; asset_id := Some "book";
                 active_notebook_id := "nb";
                 updated_at := "2026-02-01T00:00:00" |}];
     run_sources := [{| id := 1; rs_run_id := "run-1";
                        chapter_id := "1"; source_id := "sOld" |};
                     {| id := 2; rs_run_id := "run-2";
                        chapter_id := "1"; source_id := " sNew " |}] |}.

Lemma cached_source_is_newest_witness :
  get_cached_source_map newer_store "book" "nb" ["1"] = [("1", "sNew")] /\
  exists row,
    In row (joined newer_store) /\
    strip (source_id (fst row)) = "sNew" /\
    forall other,
      In other (joined newer_store) ->
      selected "book" "nb" (normalized_ids ["1"]) other = true ->
      chapter_id (fst other) = "1" ->
      nonempty (strip (source_id (fst other))) = true ->
      comes_first row other = true.
Proof.
  split; [reflexivity|].
  destruct (cached_source_is_newest newer_store "book" "nb" ["1"] "1" "sNew"
              eq_refl)
    as (_ & _ & _ & row & H1 & _ & _ & H2 & H3).
  exists row. split; [exact H1|]. split; [exact H2|exact H3].
Defined.

(** *** The source ids selected *)

Lemma mem_in_list (x : string) (l : list string) : mem x l = true <-> In x l.
Proof.
  unfold mem. rewrite existsb_exists. split.
  - intros (y & Hy & ->%String.eqb_eq). exact Hy.
  - intros H. exists x. split; [exact H|apply String.eqb_refl].
Qed.

Lemma NoDup_snoc (x : string) (l : list string) :
  List.NoDup l -> ~ In x l -> List.NoDup (l ++ [x]).
Proof.
  induction 1 as [|y l Hy Hl IH]; intros Hx; cbn [app].
  - constructor; [intros []|constructor].
  - constructor.
    + rewrite in_app_iff. cbn [In]. intros [H|[<-|[]]]; [now apply Hy|].
      apply Hx. now left.
    + apply IH. intros H. apply Hx. now right.
Qed.

(** A chapter for which the effective map has a source id. *)
Definition sourced (effective : source_map_t) (chapter : string) : bool :=
  nonempty (get_stripped effective chapter).

Lemma order_sources_spec (effective : source_map_t)
    (chapter_ids : list string) :
  forall ordered missing,
    List.NoDup ordered ->
    let r := order_sources effective chapter_ids ordered missing in
    List.NoDup (fst r) /\
    (forall s, In s (fst r) <->
               In s ordered \/
               exists c, In c chapter_ids /\ sourced effective c = true /\
                         get_stripped effective c = s) /\
    snd r = (missing
             ++ List.filter (fun c => negb (sourced effective c)) chapter_ids)%list /\
    exists added, fst r = (ordered ++ added)%list.
Proof.
  induction chapter_ids as [|c l IH]; intros ordered missing Hnd.
  - cbn [order_sources fst snd List.filter]. rewrite app_nil_r.
    split; [exact Hnd|]. split; [|split; [reflexivity|]].
    + intros s. split; [auto|]. intros [H|(c & [] & _)]. exact H.
    + exists []. now rewrite app_nil_r.
  - cbn [order_sources List.filter]. cbv zeta.
    change (nonempty (get_stripped effective c)) with (sourced effective c).
    destruct (sourced effective c) eqn:Hs; cbn [negb].
    + destruct (mem (get_stripped effective c) ordered) eqn:Hm.
      * destruct (IH ordered missing Hnd) as (H1 & H2 & H3 & H4).
        split; [exact H1|]. split; [|split; [exact H3|exact H4]].
        intros s. rewrite H2. split.
        -- intros [H|(c' & Hc' & Hsc & He)]; [now left|].
           right. exists c'. split; [now right|]. now split.
        -- intros [H|(c' & [<-|Hc'] & Hsc & He)]; [now left| |].
           ++ left. subst s. now apply mem_in_list.
           ++ right. exists c'. now repeat split.
      * assert (Hnd' : List.NoDup (ordered ++ [get_stripped effective c])).
        { apply NoDup_snoc; [exact Hnd|].
          intros Hin. apply mem_in_list in Hin. congruence. }
        destruct (IH (ordered ++ [get_stripped effective c])%list missing Hnd')
          as (H1 & H2 & H3 & added & H4).
        split; [exact H1|]. split; [|split; [exact H3|]].
        -- intros s. rewrite H2, in_app_iff. cbn [In]. split.
           ++ intros [[H|[<-|[]]]|(c' & Hc' & Hsc & He)].
              ** now left.
              ** right. exists c. split; [now left|]. now split.
              ** right. exists c'. split; [now right|]. now split.
           ++ intros [H|(c' & [<-|Hc'] & Hsc & He)].
              ** left. now left.
              ** left. right. now left.
              ** right. exists c'. now repeat split.
        -- exists ([get_stripped effective c] ++ added)%list.
           now rewrite H4, <- app_assoc.
    + destruct (IH ordered (missing ++ [c])%list Hnd) as (H1 & H2 & H3 & H4).
      split; [exact H1|]. split; [|split; [|exact H4]].
      * intros s. rewrite H2. split.
        -- intros [H|(c' & Hc' & Hsc & He)]; [now left|].
           right. exists c'. split; [now right|]. now split.
        -- intros [H|(c' & [<-|Hc'] & Hsc & He)]; [now left| |].
           ++ congruence.
           ++ right. exists c'. now repeat split.
      * rewrite H3, <- app_assoc. reflexivity.
Qed.

(** X6.  The source ids selected for a run are the source ids the effective
    map gives the chapters, each of them once; the chapters reported
    missing are the chapters, in order, for which the map gives none. *)
Theorem selected_sources_no_duplicates (effective : source_map_t)
    (chapter_ids : list string) :
  let r := order_sources effective chapter_ids [] [] in
  List.NoDup (fst r) /\
  (forall s, In s (fst r) <->
             exists c, In c chapter_ids /\ sourced effective c = true /\
                       get_stripped effective c = s) /\
  snd r = List.filter (fun c => negb (sourced effective c)) chapter_ids.
Proof.
  destruct (order_sources_spec effective chapter_ids [] [] (List.NoDup_nil _))
    as (H1 & H2 & H3 & _).
  split; [exact H1|]. split; [|exact H3].
  intros s. rewrite H2. split; [intros [[]|H]; exact H|now right].
Qed.

End Sources.

(** ** The guarded generator ([guarded_generate.py]) *)

Module Guarded.

Import Text Json.

(** *** What is left to the Python runtime

    Binary64 arithmetic and the [datetime] module are not modelled; the
    development is parametric in them.  Instants are microseconds since the
    epoch; [now_local()] is an aware local datetime, identified with its
    instant. *)

Record datetime : Type := {
  dt_wall_us : Z;                 (* the calendar fields, as microseconds *)
  dt_utcoffset_us : option Z;     (* [None] for a naive datetime *)
}.

Class PyRuntime : Type := {
  float_truthy : string -> bool;      (* [bool(x)] of the float written [lit] *)
  float_int : string -> Exc Z;        (* [int(x)] of it *)
  str_other : json -> string;         (* [str(x)] of a float, list or dict *)
  isoformat : Z -> string;            (* [dt.isoformat()] of a local datetime *)
  date_isoformat : Z -> string;       (* [dt.date().isoformat()] of it *)
  fromisoformat : string -> option datetime;  (* [None]: it raises *)
}.

(** The instant of a datetime; for a naive one, of
    [dt.replace(tzinfo=timezone.utc).astimezone()]. *)
Definition dt_instant (dt : datetime) : Z :=
  match dt_utcoffset_us dt with
  | Some off => dt_wall_us dt - off
  | None => dt_wall_us dt
  end.

Definition minutes_us (m : Z) : Z := m * 60000000.

Section Values.

Context {RT : PyRuntime}.

(** Truth value of a Python object. *)
Definition truthy (v : json) : bool :=
  match v with
  | JNull => false
  | JBool b => b
  | JInt z => negb (z =? 0)
  | JFloat lit => float_truthy lit
  | JStr s => nonempty s
  | JList l => match l with [] => false | _ => true end
  | JDict kv => match kv with [] => false | _ => true end
  end.

(** [a or b]. *)
Definition py_or (a b : json) : json := if truthy a then a else b.

(** [int(text)] for a string: blanks around, an optional sign, decimal
    digits, single underscores between digits. *)
Fixpoint int_digits (after_digit : bool) (acc : Z) (s : string) : option Z :=
  match s with
  | EmptyString => if after_digit then Some acc else None
  | String c r =>
      if is_digit c then
        int_digits true (acc * 10 + Z.of_nat (nat_of_ascii c - 48)) r
      else if Ascii.eqb c "_" && after_digit then
        match r with
        | String c' _ => if is_digit c' then int_digits false acc r else None
        | EmptyString => None
        end
      else None
  end.

Definition int_of_text (s : string) : option Z :=
  match strip s with
  | String c r =>
      if Ascii.eqb c "-" then option_map Z.opp (int_digits false 0 r)
      else if Ascii.eqb c "+" then int_digits false 0 r
      else int_digits false 0 (String c r)
  | EmptyString => None
  end.

(** [int(v)]. *)
Definition py_int (v : json) : Exc Z :=
  match v with
  | JInt z => Ok z
  | JBool b => Ok (if b then 1 else 0)
  | JFloat lit => float_int lit
  | JStr s =>
      match int_of_text s with
      | Some z => Ok z
      | None => Raise (ValueError "invalid literal for int() with base 10")
      end
  | JNull | JList _ | JDict _ => Raise TypeError
  end.

(** [str(v)]. *)
Definition py_str (v : json) : string :=
  match v with
  | JNull => "None"
  | JBool true => "True"
  | JBool false => "False"
  | JInt z => str_of_Z z
  | JStr s => s
  | JFloat _ | JList _ | JDict _ => str_other v
  end.

(** [d.get(k, default)]: only a dictionary has the method. *)
Definition py_get (d : json) (k : string) (default : json) : Exc json :=
  match d with
  | JDict kv => Ok (match dict_get k kv with Some v => v | None => default end)
  | _ => Raise AttributeError
  end.

(** [d[k]] with a string key. *)
Definition py_item (d : json) (k : string) : Exc json :=
  match d with
  | JDict kv =>
      match dict_get k kv with
      | Some v => Ok v
      | None => Raise (KeyError k)
      end
  | _ => Raise TypeError
  end.

(** [d[k] = v] with a string key; the updated object. *)
Definition py_setitem (d : json) (k : string) (v : json) : Exc json :=
  match d with
  | JDict kv => Ok (JDict (dict_set k v kv))
  | _ => Raise TypeError
  end.

(** [d.setdefault(k, default)]: the value now under [k] and the updated
    dictionary. *)
Definition py_setdefault (d : json) (k : string) (default : json)
  : Exc (json * json) :=
  match d with
  | JDict kv =>
      match dict_get k kv with
      | Some v => Ok (v, d)
      | None => Ok (default, JDict (dict_set k default kv))
      end
  | _ => Raise AttributeError
  end.

Definition is_dict (v : json) : bool :=
  match v with JDict _ => true | _ => false end.

Definition opt_json (o : option string) : json :=
  match o with Some s => JStr s | None => JNull end.

End Values.

(** *** The world around the process

    A subprocess answers with a completed process (it is assumed to end
    within its timeout); what it answers may depend on everything the
    process did before.  The clock is read by every [now_local()]. *)

Record CompletedProcess : Type := {
  returncode : Z;
  stdout : string;
  stderr : string;
}.

Inductive effect : Type :=
| ERun (cmd : list string) (timeout : Z)
| ESleep (seconds : Z)
| EAppendJsonl (path : string) (row : json)
| EWriteJson (path : string) (obj : json)
| EPrint (obj : json).

Inductive file_content : Type :=
| Missing
| Unreadable
| Content (text : string).

Record World : Type := {
  trace : list effect;     (* what the process did, latest first *)
  ticks : nat;             (* how often it read the clock *)
}.

Record Env : Type := {
  respond : list effect -> list string -> CompletedProcess;
  clock : nat -> Z;
  state_file_content : file_content;
}.

Definition M (A : Type) : Type := World -> Exc A * World.

#[global] Instance M_ret : MRet M := fun A a w => (Ok a, w).
#[global] Instance M_bind : MBind M := fun A B k m w =>
  match m w with
  | (Ok a, w') => k a w'
  | (Raise e, w') => (Raise e, w')
  end.

Definition lift {A} (r : Exc A) : M A := fun w => (r, w).

Definition emit (e : effect) : M unit :=
  fun w => (Ok tt, {| trace := e :: trace w; ticks := ticks w |}).

Definition DEFAULT_PLAN : string := "infographic,slides,report,audio".
Definition STATUS_MAP : list (Z * string) :=
  [(1, "in_progress"); (3, "completed"); (4, "failed")].
Definition SUCCESS_STATES : list string := ["completed"; "done"; "ready"; "succeeded"].
Definition FAIL_STATES : list string := ["failed"; "error"].

Definition mem (x : string) (s : list string) : bool :=
  existsb (String.eqb x) s.

Section Generator.

Context {RT : PyRuntime} (env : Env).

Definition now_local : M Z :=
  fun w => (Ok (clock env (ticks w)),
            {| trace := trace w; ticks := S (ticks w) |}).

Definition now_iso : M string := t ← now_local; mret (isoformat t).

Definition today_iso : M string := t ← now_local; mret (date_isoformat t).

Definition run (cmd : list string) (timeout : Z) : M CompletedProcess :=
  fun w => (Ok (respond env (trace w) cmd),
            {| trace := ERun cmd timeout :: trace w; ticks := ticks w |}).

(** [time.sleep] refuses a negative length. *)
Definition sleep (seconds : Z) : M unit :=
  if seconds <? 0 then lift (Raise (ValueError "sleep length must be non-negative"))
  else emit (ESleep seconds).

Definition starts_json (ln : string) : bool :=
  startswith ln "{" || startswith ln "[".

Fixpoint jload_lines (lines : list string) : json :=
  match lines with
  | [] => JNull
  | ln :: rest =>
      if starts_json ln then
        match loads ln with
        | Ok v => v
        | Raise _ => jload_lines rest
        end
      else jload_lines rest
  end.

Definition jload (raw : string) : json :=
  let text := strip raw in
  if negb (nonempty text) then JNull
  else
    match loads text with
    | Ok v => v
    | Raise _ =>
        jload_lines (rev (List.filter nonempty (map strip (splitlines text))))
    end.

(** [p.stderr or p.stdout]. *)
Definition err_or_out (p : CompletedProcess) : string :=
  if nonempty (stderr p) then stderr p else stdout p.

Definition output_lower (p : CompletedProcess) : string :=
  lower (stderr p ++ NL ++ stdout p).

Definition _is_auth_error (p : CompletedProcess) : bool :=
  let msg := output_lower p in
  existsb (fun k => contains k msg)
    ["no authentication found"; "please run: nlm login";
     "authentication expired"; "profile not found"; "login required"].

Definition _is_transient_net_error (p : CompletedProcess) : bool :=
  let msg := output_lower p in
  existsb (fun k => contains k msg)
    ["unexpected_eof_while_reading"; "connecterror"; "connection reset";
     "timed out"; "temporary failure"; "network is unreachable";
     "502"; "503"; "504"].

Definition refresh_auth_from_cdp (profile : string) : M bool :=
  p ← run ["nlm"; "login"; "--profile"; profile; "--provider"; "openclaw";
           "--cdp-url"; "http://127.0.0.1:18800"] 180;
  if negb (returncode p =? 0) then mret false
  else
    chk ← run ["nlm"; "login"; "--check"; "--profile"; profile] 120;
    mret (returncode chk =? 0).

(** After a failed run [p]: when the failure is an authentication error
    and the login can be refreshed, the command is run once more; [Some p2]
    is that second run. *)
Definition retry_after_login (cmd : list string) (profile : string)
    (timeout : Z) (auto_refresh_auth : bool) (p : CompletedProcess)
  : M (option CompletedProcess) :=
  if auto_refresh_auth && _is_auth_error p then
    ok ← refresh_auth_from_cdp profile;
    if ok : bool then p2 ← run cmd timeout; mret (Some p2)
    else mret None
  else mret None.

(** The retry loop of [run_nlm]; [i] is the loop index and [remaining] the
    number of iterations left. *)
Fixpoint run_nlm_loop (cmd : list string) (profile : string) (timeout : Z)
    (attempts : Z) (auto_refresh_auth : bool)
    (remaining : nat) (i : Z) (last : option CompletedProcess)
  : M CompletedProcess :=
  match remaining with
  | O =>
      match last with
      | Some p => mret p
      | None => lift (Raise AssertionError)
      end
  | S remaining' =>
      p ← run cmd timeout;
      if returncode p =? 0 then mret p
      else
        retried ← retry_after_login cmd profile timeout auto_refresh_auth p;
        match retried with
        | Some p2 =>
            if returncode p2 =? 0 then mret p2
            else if _is_transient_net_error p && (i <? attempts - 1) then
              _ ← sleep (2 * (i + 1));
              run_nlm_loop cmd profile timeout attempts auto_refresh_auth
                remaining' (i + 1) (Some p2)
            else mret p
        | None =>
            if _is_transient_net_error p && (i <? attempts - 1) then
              _ ← sleep (2 * (i + 1));
              run_nlm_loop cmd profile timeout attempts auto_refresh_auth
                remaining' (i + 1) (Some p)
            else mret p
        end
  end.

Definition run_nlm (cmd : list string) (profile : string) (timeout : Z)
    (auto_refresh_auth : bool) : M CompletedProcess :=
  run_nlm_loop cmd profile timeout 3 auto_refresh_auth 3%nat 0 None.

Definition append_jsonl (path : string) (row : json) : M unit :=
  emit (EAppendJsonl path row).

Definition write_json (path : string) (obj : json) : M unit :=
  emit (EWriteJson path obj).

Definition print_json (obj : json) : M unit := emit (EPrint obj).

(** [[x.strip() for x in raw.split(",") if x.strip()]]. *)
Definition parse_csv_ids (raw : string) : list string :=
  List.filter nonempty (map strip (split "," raw)).

Definition plan_aliases : list (string * string) :=
  [("data_table", "data-table"); ("datatable", "data-table");
   ("slide_deck", "slides"); ("mind_map", "mindmap")].

Definition parse_plan (raw : string) : list string :=
  map (fun item => match dict_get item plan_aliases with
                   | Some a => a
                   | None => item
                   end)
      (map (fun x => lower (strip x))
           (List.filter (fun x => nonempty (strip x)) (split "," raw))).

(** A [part] without colon, an empty one, and one whose value is no
    integer are skipped. *)
Definition parse_budget_part (out : list (string * Z)) (part : string)
  : list (string * Z) :=
  let part := strip part in
  if negb (nonempty part) || negb (contains ":" part) then out
  else
    match split1 ":" part with
    | [k; v] =>
        match int_of_text (strip v) with
        | Some n => dict_set (lower (strip k)) n out
        | None => out
        end
    | _ => out
    end.

Definition parse_budget_per_type (raw : string) : list (string * Z) :=
  if negb (nonempty raw) then []
  else fold_left parse_budget_part (split "," raw) [].

Definition dict_rows (l : list json) : list json := List.filter is_dict l.

Definition list_values (kv : list (string * json)) : list json :=
  flat_map (fun e => match snd e with
                     | JList l => dict_rows l
                     | _ => []
                     end) kv.

Fixpoint first_list (kv : list (string * json)) (keys : list string)
  : option (list json) :=
  match keys with
  | [] => None
  | k :: keys' =>
      match dict_get k kv with
      | Some (JList l) => Some (dict_rows l)
      | _ => first_list kv keys'
      end
  end.

Definition _items_from_any (js : json) (keys : list string) : list json :=
  match js with
  | JList l => dict_rows l
  | JDict kv =>
      match first_list kv keys with
      | Some rows => rows
      | None => list_values kv
      end
  | _ => []
  end.

(** *** Artifact identifiers *)

Definition is_hex (c : ascii) : bool :=
  match hex_val c with Some _ => true | None => false end.

Definition is_hex_or_dash (c : ascii) : bool := is_hex c || Ascii.eqb c "-".

(** A word character of the regular expressions (ASCII). *)
Definition is_word (c : ascii) : bool :=
  let n := nat_of_ascii c in
  ((48 <=? n) && (n <=? 57) || (65 <=? n) && (n <=? 90)
   || (97 <=? n) && (n <=? 122) || (n =? 95))%nat.

(** Exactly [n] characters of the class at the head of [s]. *)
Fixpoint take_class (cls : ascii -> bool) (n : nat) (s : string)
  : option (string * string) :=
  match n with
  | O => Some (EmptyString, s)
  | S n' =>
      match s with
      | String c r =>
          if cls c then
            match take_class cls n' r with
            | Some (m, rest) => Some (String c m, rest)
            | None => None
            end
          else None
      | EmptyString => None
      end
  end.

(** [p] at the head of [s], letters compared without case. *)
Fixpoint strip_prefix_ci (p s : string) : option string :=
  match p, s with
  | EmptyString, _ => Some s
  | String a p', String b s' =>
      if Ascii.eqb (lower_char a) (lower_char b) then strip_prefix_ci p' s'
      else None
  | _, EmptyString => None
  end.

(** The pattern [Artifact ID:], blanks, 36 characters of hexadecimal
    digits and dashes, matched without case at the head of [s]. *)
Definition labelled_id_at (s : string) : option string :=
  match strip_prefix_ci "Artifact ID:" s with
  | Some rest =>
      match take_class is_hex_or_dash 36 (lstrip rest) with
      | Some (m, _) => Some m
      | None => None
      end
  | None => None
  end.

Fixpoint search_labelled_id (s : string) : option string :=
  match labelled_id_at s with
  | Some m => Some m
  | None =>
      match s with
      | String _ r => search_labelled_id r
      | EmptyString => None
      end
  end.

(** Hexadecimal groups of 8, 4, 4, 4 and 12 joined by dashes, followed by
    a word boundary, at the head of [s]. *)
Definition dash_then (n : nat) (s : string) : option (string * string) :=
  match s with
  | String c r =>
      if Ascii.eqb c "-" then
        match take_class is_hex n r with
        | Some (m, rest) => Some (String c m, rest)
        | None => None
        end
      else None
  | EmptyString => None
  end.

Definition uuid_at (s : string) : option string :=
  match take_class is_hex 8 s with
  | Some (g1, s1) =>
      match dash_then 4 s1 with
      | Some (g2, s2) =>
          match dash_then 4 s2 with
          | Some (g3, s3) =>
              match dash_then 4 s3 with
              | Some (g4, s4) =>
                  match dash_then 12 s4 with
                  | Some (g5, s5) =>
                      let m := g1 ++ g2 ++ g3 ++ g4 ++ g5 in
                      match s5 with
                      | String c _ => if is_word c then None else Some m
                      | EmptyString => Some m
                      end
                  | None => None
                  end
              | None => None
              end
          | None => None
          end
      | None => None
      end
  | None => None
  end.

(** The leftmost match of the bare pattern between word boundaries;
    [prev_word] tells whether the character before [s] is a word
    character. *)
Fixpoint search_uuid (prev_word : bool) (s : string) : option string :=
  match s with
  | EmptyString => None
  | String c r =>
      match (if prev_word then None else uuid_at s) with
      | Some m => Some m
      | None => search_uuid (is_word c) r
      end
  end.

(** [val] when it is a string that is not blank, stripped. *)
Definition nonblank_str (val : json) : option string :=
  match val with
  | JStr v => if nonempty (strip v) then Some (strip v) else None
  | _ => None
  end.

Definition get_or_null (kv : list (string * json)) (k : string) : json :=
  match dict_get k kv with Some v => v | None => JNull end.

(** [row.get("artifact_id") or row.get("id")] as a candidate. *)
Definition id_candidate (kv : list (string * json)) : option string :=
  nonblank_str (py_or (get_or_null kv "artifact_id") (get_or_null kv "id")).

Fixpoint first_some {A B} (f : A -> option B) (l : list A) : option B :=
  match l with
  | [] => None
  | x :: l' => match f x with Some y => Some y | None => first_some f l' end
  end.

Definition id_from_json (js : json) : option string :=
  match js with
  | JDict kv =>
      match first_some (fun key => nonblank_str (get_or_null kv key))
                       ["artifact_id"; "id"] with
      | Some v => Some v
      | None =>
          first_some (fun k => match get_or_null kv k with
                               | JDict inner => id_candidate inner
                               | _ => None
                               end)
                     ["artifact"; "result"; "data"]
      end
  | JList rows =>
      first_some (fun row => match row with
                             | JDict kv => id_candidate kv
                             | _ => None
                             end) rows
  | _ => None
  end.

Definition extract_artifact_id (raw_output : string) : option string :=
  match id_from_json (jload raw_output) with
  | Some v => Some v
  | None =>
      match search_labelled_id raw_output with
      | Some m => Some m
      | None => search_uuid false raw_output
      end
  end.

(** *** Status rows *)

Definition status_alias : list (string * string) :=
  [("complete", "completed"); ("success", "completed");
   ("succeeded", "completed"); ("in progress", "in_progress");
   ("running", "in_progress")].

Fixpoint status_map_get (k : Z) (m : list (Z * string)) : option string :=
  match m with
  | [] => None
  | (k', v) :: m' => if k =? k' then Some v else status_map_get k m'
  end.

(** A [bool] is an [int] for [isinstance] and as a dictionary key. *)
Definition normalize_status (raw : json) : string :=
  match raw with
  | JNull => "unknown"
  | JInt _ | JBool _ =>
      let key := match raw with JInt z => z | JBool true => 1 | _ => 0 end in
      match status_map_get key STATUS_MAP with
      | Some v => v
      | None => py_str raw
      end
  | _ =>
      let text := lower (strip (py_str raw)) in
      match dict_get text status_alias with
      | Some v => v
      | None => text
      end
  end.

Fixpoint find_artifact_row (rows : list json) (artifact_id : string)
  : option json :=
  match rows with
  | [] => None
  | row :: rows' =>
      match row with
      | JDict kv =>
          match py_or (get_or_null kv "id") (get_or_null kv "artifact_id") with
          | JStr rid =>
              if String.eqb rid artifact_id then Some row
              else find_artifact_row rows' artifact_id
          | _ => find_artifact_row rows' artifact_id
          end
      | _ => find_artifact_row rows' artifact_id
      end
  end.

(** The error text of a failed listing. *)
Definition failure_text (p : CompletedProcess) : string := strip (err_or_out p).

Definition load_source_ids (notebook_id profile : string)
    (auto_refresh_auth : bool) : M (list string * option string) :=
  p ← run_nlm ["nlm"; "source"; "list"; notebook_id; "--json"; "--profile"; profile]
        profile 120 auto_refresh_auth;
  if negb (returncode p =? 0) then mret ([], Some (failure_text p))
  else
    let rows := _items_from_any (jload (stdout p))
                  ["sources"; "items"; "results"; "data"] in
    mret (flat_map (fun r => match r with
                             | JDict kv =>
                                 let v := get_or_null kv "id" in
                                 if truthy v then [py_str v] else []
                             | _ => []
                             end) rows, None).

Definition load_studio_rows (notebook_id profile : string)
    (auto_refresh_auth : bool) : M (list json * option string) :=
  p ← run_nlm ["nlm"; "studio"; "status"; notebook_id; "--full"; "--json";
               "--profile"; profile] profile 120 auto_refresh_auth;
  if negb (returncode p =? 0) then mret ([], Some (failure_text p))
  else
    mret (_items_from_any (jload (stdout p))
            ["artifacts"; "items"; "results"; "data"], None).

Definition build_create_cmd (artifact_type notebook_id : string)
    (source_ids : list string) (profile : string) : list string :=
  let cmd := ["nlm"; artifact_type; "create"; notebook_id; "--confirm";
              "--profile"; profile] in
  match source_ids with
  | [] => cmd
  | _ => (cmd ++ ["--source-ids"; join "," source_ids])%list
  end.

(** *** Guard state *)

Definition fresh_daily (today : string) : json :=
  JDict [("date", JStr today); ("total_used", JInt 0); ("per_type", JDict [])].

Definition default_state : M json :=
  today ← today_iso;
  mret (JDict [("schema_version", JInt 1);
               ("daily", fresh_daily today);
               ("breaker", JDict []);
               ("last_run", JDict [])]).

(** [read_json(path, default)] on the state file: a missing file, a file
    that cannot be read and a text that is not JSON all give [default]. *)
Definition read_json (default : json) : json :=
  match state_file_content env with
  | Missing | Unreadable => default
  | Content text =>
      match loads text with
      | Ok v => v
      | Raise _ => default
      end
  end.

(** [d.setdefault(k, v)] for its effect on [d]. *)
Definition dict_setdefault {V} (k : string) (v : V) (d : list (string * V))
  : list (string * V) :=
  match dict_get k d with
  | Some _ => d
  | None => dict_set k v d
  end.

(** A section of the state that is missing or no dictionary is replaced. *)
Definition dict_section (k : string) (kv : list (string * json))
  : list (string * json) :=
  match dict_get k kv with
  | Some (JDict _) => kv
  | _ => dict_set k (JDict []) kv
  end.

Definition normalize_state (state : json) : M json :=
  let kv := match state with JDict kv => kv | _ => [] end in
  let kv := dict_setdefault "schema_version" (JInt 1) kv in
  kv ← match dict_get "daily" kv with
       | Some (JDict _) => mret kv
       | _ => today ← today_iso; mret (dict_set "daily" (fresh_daily today) kv)
       end;
  (* the default of [setdefault("date", ...)] is computed in any case *)
  today ← today_iso;
  let daily := match dict_get "daily" kv with
               | Some (JDict d) => d
               | _ => []
               end in
  let daily := dict_setdefault "date" (JStr today) daily in
  let daily := dict_setdefault "total_used" (JInt 0) daily in
  let daily := dict_setdefault "per_type" (JDict []) daily in
  let kv := dict_set "daily" (JDict daily) kv in
  let kv := dict_section "breaker" kv in
  let kv := dict_section "last_run" kv in
  mret (JDict kv).

(** [v != today] for a value of the state and the text of today's date. *)
Definition differs_from (v : json) (today : string) : bool :=
  match v with
  | JStr s => negb (String.eqb s today)
  | _ => true
  end.

Definition maybe_reset_daily (state : json) : M json :=
  today ← today_iso;
  daily ← lift (py_item state "daily");
  date ← lift (py_get daily "date" JNull);
  if differs_from date today
  then lift (py_setitem state "daily" (fresh_daily today))
  else mret state.

(** [int(state["daily"].get("total_used", 0))]. *)
Definition total_used (state : json) : Exc Z :=
  daily ← py_item state "daily";
  v ← py_get daily "total_used" (JInt 0);
  py_int v.

(** [int(state["daily"].get("per_type", {}).get(artifact_type, 0))]. *)
Definition type_used (state : json) (artifact_type : string) : Exc Z :=
  daily ← py_item state "daily";
  per ← py_get daily "per_type" (JDict []);
  v ← py_get per artifact_type (JInt 0);
  py_int v.

Definition consume_budget (state : json) (artifact_type : string) : Exc json :=
  n ← total_used state;
  daily ← py_item state "daily";
  daily ← py_setitem daily "total_used" (JInt (n + 1));
  '(per, daily) ← py_setdefault daily "per_type" (JDict []);
  v ← py_get per artifact_type (JInt 0);
  m ← py_int v;
  per ← py_setitem per artifact_type (JInt (m + 1));
  daily ← py_setitem daily "per_type" per;
  py_setitem state "daily" daily.

Definition budget_allowed (state : json) (artifact_type : string)
    (daily_budget_total : Z) (daily_budget_per_type : list (string * Z))
  : Exc (bool * option string) :=
  used_total ← total_used state;
  if (0 <? daily_budget_total) && (daily_budget_total <=? used_total) then
    Ok (false, Some "daily_total_budget_exhausted")
  else
    let type_limit := dict_get artifact_type daily_budget_per_type in
    used_type ← type_used state artifact_type;
    match type_limit with
    | Some limit =>
        if (0 <=? limit) && (limit <=? used_type) then
          Ok (false, Some ("daily_" ++ artifact_type ++ "_budget_exhausted"))
        else Ok (true, None)
    | None => Ok (true, None)
    end.

(** [state.get("breaker", {}).get(artifact_type, {})]. *)
Definition breaker_entry (state : json) (artifact_type : string) : Exc json :=
  breaker ← py_get state "breaker" (JDict []);
  py_get breaker artifact_type (JDict []).

(** The verdict of [breaker_status] once the clock is read.  The seconds
    of the reason are the whole seconds of the remaining time. *)
Definition breaker_status_at (now : Z) (state : json) (artifact_type : string)
  : Exc (bool * option string) :=
  b ← breaker_entry state artifact_type;
  open_until ← py_get b "open_until" JNull;
  if negb (truthy open_until) then Ok (false, None)
  else
    match open_until with
    | JStr text =>
        match fromisoformat text with
        | Some dt =>
            if now <? dt_instant dt then
              let seconds := (dt_instant dt - now) / 1000000 in
              Ok (true, Some ("breaker_open_" ++ str_of_Z seconds ++ "s"))
            else Ok (false, None)
        | None => Ok (false, None)
        end
    | _ => Ok (false, None)      (* [fromisoformat] raises [TypeError] *)
    end.

Definition breaker_status (state : json) (artifact_type : string)
  : M (bool * option string) :=
  now ← now_local;
  lift (breaker_status_at now state artifact_type).

(** [b = state.setdefault("breaker", {}).setdefault(artifact_type, {})]:
    the entry, and how to put the mutated entry back into the state. *)
Definition breaker_slot (state : json) (artifact_type : string)
  : Exc (json * (json -> Exc json)) :=
  '(breaker, state) ← py_setdefault state "breaker" (JDict []);
  '(b, breaker) ← py_setdefault breaker artifact_type (JDict []);
  Ok (b, fun b' =>
           breaker' ← py_setitem breaker artifact_type b';
           py_setitem state "breaker" breaker').

Definition breaker_record_success (state : json) (artifact_type : string)
  : M json :=
  '(b, put) ← lift (breaker_slot state artifact_type);
  b ← lift (py_setitem b "consecutive_failures" (JInt 0));
  b ← lift (py_setitem b "open_until" JNull);
  last ← lift (py_get b "last_failure_at" JNull);
  b ← lift (py_setitem b "last_failure_at" last);
  ts ← now_iso;
  b ← lift (py_setitem b "last_success_at" (JStr ts));
  lift (put b).

Definition breaker_record_failure (state : json) (artifact_type : string)
    (threshold open_minutes : Z) : M json :=
  '(b, put) ← lift (breaker_slot state artifact_type);
  v ← lift (py_get b "consecutive_failures" (JInt 0));
  n ← lift (py_int v);
  let cf := n + 1 in
  b ← lift (py_setitem b "consecutive_failures" (JInt cf));
  ts ← now_iso;
  b ← lift (py_setitem b "last_failure_at" (JStr ts));
  b ← (if (0 <? threshold) && (threshold <=? cf) then
         t ← now_local;
         lift (py_setitem b "open_until"
                 (JStr (isoformat (t + minutes_us open_minutes))))
       else mret b);
  lift (put b).

(** *** Polling *)

(** Truth value of an error text that may be absent. *)
Definition is_err (err : option string) : bool :=
  match err with Some e => nonempty e | None => false end.

(** The loop of [poll_artifact_status], [polls_left] iterations from the
    end. *)
Fixpoint poll_loop (notebook_id artifact_id profile : string)
    (poll_seconds : Z) (auto_refresh_auth : bool)
    (polls_left : nat) (last_status : string)
  : M (string * option string * option json) :=
  match polls_left with
  | O => mret ("timeout", Some ("poll_timeout_last=" ++ last_status), None)
  | S polls_left' =>
      '(rows, err) ← load_studio_rows notebook_id profile auto_refresh_auth;
      let again (last_status : string) :=
        _ ← sleep poll_seconds;
        poll_loop notebook_id artifact_id profile poll_seconds
          auto_refresh_auth polls_left' last_status in
      if is_err err then again last_status
      else
        match find_artifact_row rows artifact_id with
        | Some (JDict kv as row) =>
            if negb (truthy row) then again last_status
            else
              let raw_status :=
                match get_or_null kv "status" with
                | JNull => get_or_null kv "state"
                | v => v
                end in
              let status := normalize_status raw_status in
              if mem status SUCCESS_STATES then mret ("completed", None, Some row)
              else if mem status FAIL_STATES then mret ("failed", None, Some row)
              else again status
        | _ => again last_status
        end
  end.

Definition poll_artifact_status (notebook_id artifact_id profile : string)
    (poll_seconds max_polls : Z) (auto_refresh_auth : bool)
  : M (string * option string * option json) :=
  poll_loop notebook_id artifact_id profile poll_seconds auto_refresh_auth
    (Z.to_nat max_polls) "unknown".

(** *** Preflight *)

(** [report.update(...)] with the reason and the detail of a failure. *)
Definition report_failure (report : list (string * json))
    (reason detail : string) : json :=
  JDict (dict_set "detail" (JStr detail)
           (dict_set "reason" (JStr reason) report)).

Definition preflight (notebook_id profile : string) (source_ids : list string)
    (auto_refresh_auth : bool) : M (bool * json) :=
  ts ← now_iso;
  let report := [("checked_at", JStr ts); ("ok", JBool false)] in
  v ← run ["nlm"; "--version"] 30;
  if negb (returncode v =? 0) then
    mret (false, report_failure report "nlm_not_available" (failure_text v))
  else
    chk ← run_nlm ["nlm"; "login"; "--check"; "--profile"; profile]
            profile 90 auto_refresh_auth;
    if negb (returncode chk =? 0) then
      mret (false, report_failure report "auth_required" (failure_text chk))
    else
      (* [Some ids]: the sources to use; [None]: the listing failed, with
         its error text *)
      listed ←
        match source_ids with
        | [] =>
            '(ids, err) ← load_source_ids notebook_id profile auto_refresh_auth;
            mret (if is_err err then inr (default EmptyString err) else inl ids)
        | _ => mret (inl source_ids)
        end;
      match listed with
      | inr err =>
          mret (false, report_failure report "source_list_failed" err)
      | inl [] =>
          mret (false, report_failure report "no_sources"
                         "Notebook has no sources.")
      | inl ids =>
          mret (true,
                JDict (dict_set "resolved_source_count"
                         (JInt (Z.of_nat (length ids)))
                         (dict_set "ok" (JBool true) report)))
      end.

(** *** The orchestrator *)

Record Args : Type := {
  notebook_id : string;
  source_ids : string;
  profile : string;
  plan : string;
  max_success : Z;
  poll_seconds : Z;
  max_polls : Z;
  daily_budget_total : Z;
  daily_budget_per_type : string;
  breaker_consecutive_failures : Z;
  breaker_open_minutes : Z;
  state_file : string;       (* resolved path *)
  events_file : string;      (* resolved path *)
  dry_run : bool;
  no_auto_refresh_auth : bool;
}.

(** The lists the plan loop fills, and the guard state it mutates. *)
Record Progress : Type := {
  state : json;
  attempts : list json;
  successes : list json;
  skipped : list json;
}.

Definition with_state (st : json) (pr : Progress) : Progress :=
  {| state := st; attempts := attempts pr; successes := successes pr;
     skipped := skipped pr |}.

(** [append_jsonl(events_path, {"ts": now_iso(), "event": event, **row})]. *)
Definition log_event (events_path event : string) (row : list (string * json))
  : M unit :=
  ts ← now_iso;
  append_jsonl events_path
    (JDict (fold_left (fun d kv => dict_set (fst kv) (snd kv) d) row
              [("ts", JStr ts); ("event", JStr event)])).

Definition skip_type (args : Args) (artifact_type : string)
    (reason : option string) (pr : Progress) : M Progress :=
  let row := [("artifact_type", JStr artifact_type);
              ("outcome", JStr "skipped");
              ("reason", opt_json reason)] in
  _ ← log_event (events_file args) "skip" row;
  mret {| state := state pr; attempts := attempts pr;
          successes := successes pr;
          skipped := (skipped pr ++ [JDict row])%list |}.

(** A failed attempt: the breaker is told, the row is recorded. *)
Definition fail_type (args : Args) (artifact_type outcome : string)
    (row : list (string * json)) (pr : Progress) : M Progress :=
  st ← breaker_record_failure (state pr) artifact_type
         (breaker_consecutive_failures args) (breaker_open_minutes args);
  _ ← log_event (events_file args) outcome row;
  mret {| state := st; attempts := (attempts pr ++ [JDict row])%list;
          successes := successes pr; skipped := skipped pr |}.

(** The create command succeeded and no identifier came out of it. *)
Definition no_artifact (args : Args) (artifact_type created_at : string)
    (pr : Progress) : M Progress :=
  let msg := "NotebookLM rejected " ++ artifact_type
             ++ " creation (no artifact returned)." in
  fail_type args artifact_type "create_failed_no_artifact"
    [("artifact_type", JStr artifact_type);
     ("outcome", JStr "create_failed_no_artifact");
     ("reason", JStr msg);
     ("created_at", JStr created_at)] pr.

(** The rest of an attempt once the create command [p] has returned:
    the classification of its outcome and, with an identifier, the poll. *)
Definition after_create (args : Args) (artifact_type created_at : string)
    (pr : Progress) (p : CompletedProcess) : M Progress :=
  let auto_refresh_auth := negb (no_auto_refresh_auth args) in
  if negb (returncode p =? 0) then
    let err := tail_chars 800 (strip (err_or_out p)) in
    fail_type args artifact_type "create_failed"
      [("artifact_type", JStr artifact_type);
       ("outcome", JStr "create_failed");
       ("reason", JStr err);
       ("created_at", JStr created_at)] pr
  else
    match extract_artifact_id (stdout p ++ NL ++ stderr p) with
    | Some artifact_id =>
        if negb (nonempty artifact_id) then
          no_artifact args artifact_type created_at pr
        else
          '(poll_outcome, poll_reason, poll_row) ←
            poll_artifact_status (notebook_id args) artifact_id
              (profile args) (poll_seconds args) (max_polls args)
              auto_refresh_auth;
          if String.eqb poll_outcome "completed" then
            st ← breaker_record_success (state pr) artifact_type;
            let kv := match poll_row with
                      | Some (JDict kv) => kv
                      | _ => []
                      end in
            let row :=
              [("artifact_type", JStr artifact_type);
               ("artifact_id", JStr artifact_id);
               ("outcome", JStr "completed");
               ("status", JStr (normalize_status
                                  (py_or (get_or_null kv "status")
                                         (get_or_null kv "state"))));
               ("created_at", JStr created_at)] in
            _ ← log_event (events_file args) "completed" row;
            mret {| state := st;
                    attempts := (attempts pr ++ [JDict row])%list;
                    successes := (successes pr ++ [JDict row])%list;
                    skipped := skipped pr |}
          else
            fail_type args artifact_type poll_outcome
              [("artifact_type", JStr artifact_type);
               ("artifact_id", JStr artifact_id);
               ("outcome", JStr poll_outcome);
               ("reason", opt_json poll_reason);
               ("created_at", JStr created_at)] pr
    | None => no_artifact args artifact_type created_at pr
    end.

(** The body of the plan loop for one artifact type, after the check of
    the success quota: the two gates, the consumption of budget, the
    create command. *)
Definition attempt_type (args : Args) (source_ids : list string)
    (per_type_budget : list (string * Z)) (pr : Progress)
    (artifact_type : string) : M Progress :=
  let auto_refresh_auth := negb (no_auto_refresh_auth args) in
  '(allow, reason) ← lift (budget_allowed (state pr) artifact_type
                            (daily_budget_total args) per_type_budget);
  if negb allow then skip_type args artifact_type reason pr
  else
    '(open_now, breaker_reason) ← breaker_status (state pr) artifact_type;
    if open_now : bool then skip_type args artifact_type breaker_reason pr
    else
      let cmd := build_create_cmd artifact_type (notebook_id args)
                   source_ids (profile args) in
      st ← lift (consume_budget (state pr) artifact_type);
      let pr := with_state st pr in
      created_at ← now_iso;
      p ← run_nlm cmd (profile args) 300 auto_refresh_auth;
      after_create args artifact_type created_at pr p.

(** [for artifact_type in plan], with the [break] at the success quota. *)
Fixpoint run_plan (args : Args) (source_ids : list string)
    (per_type_budget : list (string * Z)) (plan : list string)
    (pr : Progress) : M Progress :=
  match plan with
  | [] => mret pr
  | artifact_type :: rest =>
      if (0 <? max_success args)
         && (max_success args <=? Z.of_nat (length (successes pr)))
      then mret pr
      else
        pr ← attempt_type args source_ids per_type_budget pr artifact_type;
        run_plan args source_ids per_type_budget rest pr
  end.

Definition final_status (n_successes : nat) (max_success : Z) : string :=
  if Z.max 1 max_success <=? Z.of_nat n_successes then "ok"
  else match n_successes with
       | O => "failed"
       | _ => "degraded"
       end.

Definition str_list (l : list string) : json := JList (map JStr l).

(** The end of a run that went through the plan: the summary, the
    [last_run] entry, the state file, the printed summary. *)
Definition finish_run (args : Args) (plan source_ids : list string)
    (preflight_report : json) (pr : Progress) : M unit :=
  let status := final_status (length (successes pr)) (max_success args) in
  ts ← now_iso;
  daily ← lift (py_get (state pr) "daily" (JDict []));
  breaker ← lift (py_get (state pr) "breaker" (JDict []));
  let summary :=
    JDict [("status", JStr status);
           ("checked_at", JStr ts);
           ("notebook_id", JStr (notebook_id args));
           ("profile", JStr (profile args));
           ("plan", str_list plan);
           ("max_success", JInt (max_success args));
           ("resolved_source_ids", str_list source_ids);
           ("preflight", preflight_report);
           ("attempts", JList (attempts pr));
           ("successes", JList (successes pr));
           ("skipped", JList (skipped pr));
           ("daily_budget", daily);
           ("breaker", breaker);
           ("state_file", JStr (state_file args));
           ("events_file", JStr (events_file args))] in
  ts ← now_iso;
  st ← lift (py_setitem (state pr) "last_run"
               (JDict [("at", JStr ts);
                       ("status", JStr status);
                       ("notebook_id", JStr (notebook_id args));
                       ("plan", str_list plan);
                       ("success_count",
                        JInt (Z.of_nat (length (successes pr))));
                       ("attempt_count",
                        JInt (Z.of_nat (length (attempts pr))))]));
  _ ← write_json (state_file args) st;
  print_json summary.

(** The state a run starts from:
    [normalize_state(read_json(state_path, default_state()))], then
    [maybe_reset_daily]. *)
Definition load_state : M json :=
  default ← default_state;
  st ← normalize_state (read_json default);
  maybe_reset_daily st.

Definition main (args : Args) : M unit :=
  let source_ids := parse_csv_ids (source_ids args) in
  let plan := parse_plan (plan args) in
  let auto_refresh_auth := negb (no_auto_refresh_auth args) in
  let state_path := state_file args in
  let events_path := events_file args in
  st ← load_state;
  '(ok, preflight_report) ←
    preflight (notebook_id args) (profile args) source_ids auto_refresh_auth;
  ts ← now_iso;
  _ ← append_jsonl events_path
        (JDict [("ts", JStr ts); ("event", JStr "preflight");
                ("report", preflight_report)]);
  if negb ok then
    ts ← now_iso;
    st ← lift (py_setitem st "last_run"
                    (JDict [("at", JStr ts);
                            ("status", JStr "failed_preflight");
                            ("preflight", preflight_report)]));
    _ ← write_json state_path st;
    print_json (JDict [("status", JStr "failed_preflight");
                       ("preflight", preflight_report);
                       ("state_file", JStr state_path);
                       ("events_file", JStr events_path)])
  else
    source_ids ←
      match source_ids with
      | [] =>
          '(ids, _) ← load_source_ids (notebook_id args) (profile args)
                        auto_refresh_auth;
          mret ids
      | _ => mret source_ids
      end;
    if dry_run args then
      ts ← now_iso;
      st ← lift (py_setitem st "last_run"
                      (JDict [("at", JStr ts);
                              ("status", JStr "dry_run_ok");
                              ("preflight", preflight_report)]));
      _ ← write_json state_path st;
      print_json (JDict [("status", JStr "dry_run_ok");
                         ("preflight", preflight_report);
                         ("resolved_source_ids", str_list source_ids);
                         ("state_file", JStr state_path);
                         ("events_file", JStr events_path)])
    else
      let per_type_budget := parse_budget_per_type (daily_budget_per_type args) in
      pr ← run_plan args source_ids per_type_budget plan
             {| state := st; attempts := []; successes := [];
                skipped := [] |};
      finish_run args plan source_ids preflight_report pr.

(** *** Well-formed guard states

    The counters the guard reads with [int(...)] must be readable that
    way; the sections it reads with [.get] must be dictionaries. *)

Definition int_like (v : json) : bool :=
  match py_int v with Ok _ => true | Raise _ => false end.

Definition get_or (d : list (string * json)) (k : string) (default : json)
  : json :=
  match dict_get k d with Some v => v | None => default end.

Definition entry_wf (b : json) : bool :=
  match b with
  | JDict kv => int_like (get_or kv "consecutive_failures" (JInt 0))
  | _ => false
  end.

Definition section_wf (P : json -> bool) (sec : option json) : bool :=
  match sec with
  | None => true
  | Some (JDict kv) => forallb (fun e => P (snd e)) kv
  | Some _ => false
  end.

Definition daily_wf (daily : json) : bool :=
  match daily with
  | JDict d =>
      int_like (get_or d "total_used" (JInt 0))
      && section_wf int_like (dict_get "per_type" d)
  | _ => false
  end.

Definition wf_state (st : json) : bool :=
  match st with
  | JDict kv =>
      match dict_get "daily" kv with
      | Some daily => daily_wf daily
      | None => false
      end
      && section_wf entry_wf (dict_get "breaker" kv)
  | _ => false
  end.

(** [int(b.get("consecutive_failures", 0))] and [b.get("open_until")] of
    the breaker entry of a type. *)
Definition failures_of (st : json) (artifact_type : string) : Exc Z :=
  b ← breaker_entry st artifact_type;
  v ← py_get b "consecutive_failures" (JInt 0);
  py_int v.

Definition open_until_of (st : json) (artifact_type : string) : Exc json :=
  b ← breaker_entry st artifact_type;
  py_get b "open_until" JNull.

Lemma int_like_Ok (v : json) : int_like v = true -> exists n, py_int v = Ok n.
Proof. unfold int_like. destruct (py_int v); [eauto|discriminate]. Qed.

Lemma section_wf_get (P : json -> bool) (kv : list (string * json))
    (k : string) (v : json) :
  forallb (fun e => P (snd e)) kv = true -> dict_get k kv = Some v -> P v = true.
Proof.
  intros H G. destruct (forallb_dict_get _ _ _ _ H G) as [k' Hk]. exact Hk.
Qed.

Lemma wf_state_inv (st : json) :
  wf_state st = true ->
  exists kv d,
    st = JDict kv /\ dict_get "daily" kv = Some (JDict d) /\
    int_like (get_or d "total_used" (JInt 0)) = true /\
    section_wf int_like (dict_get "per_type" d) = true /\
    section_wf entry_wf (dict_get "breaker" kv) = true.
Proof.
  destruct st as [| | | | | |kv]; try discriminate. cbn [wf_state].
  destruct (dict_get "daily" kv) as [daily|] eqn:Ed; [|discriminate].
  destruct daily as [| | | | | |d]; try discriminate. cbn [daily_wf].
  intros [[H1 H2]%andb_true_iff H3]%andb_true_iff.
  exists kv, d. auto.
Qed.

Lemma total_used_wf (st : json) :
  wf_state st = true -> exists u, total_used st = Ok u.
Proof.
  intros (kv & d & -> & Ed & Hu & _)%wf_state_inv.
  unfold total_used. cbn. rewrite Ed. cbn.
  apply int_like_Ok in Hu as [u Hu]. exists u. exact Hu.
Qed.

Lemma type_used_wf (st : json) (artifact_type : string) :
  wf_state st = true -> exists u, type_used st artifact_type = Ok u.
Proof.
  intros (kv & d & -> & Ed & _ & Hp & _)%wf_state_inv.
  unfold type_used. cbn. rewrite Ed. cbn.
  destruct (dict_get "per_type" d) as [per|] eqn:Ep; cbn.
  - destruct per as [| | | | | |p]; try discriminate. cbn in Hp |- *.
    destruct (dict_get artifact_type p) as [v|] eqn:Ev; cbn; [|eauto].
    apply int_like_Ok. eapply section_wf_get; eauto.
  - eauto.
Qed.

Ltac exc_cbn :=
  cbn [mbind Exc_bind Py.bind py_get py_item py_setitem py_setdefault
       fst snd] in *.

Ltac dict_simpl :=
  repeat first
    [ rewrite dict_get_set_eq
    | rewrite dict_get_set_ne by (discriminate || congruence)
    | progress cbn [mbind Exc_bind Py.bind py_get py_item py_setitem
                    py_setdefault py_int fst snd] ].

Lemma consume_budget_spec (st : json) (artifact_type : string) (u ut : Z) :
  wf_state st = true ->
  total_used st = Ok u ->
  type_used st artifact_type = Ok ut ->
  exists st',
    consume_budget st artifact_type = Ok st' /\
    wf_state st' = true /\
    total_used st' = Ok (u + 1) /\
    type_used st' artifact_type = Ok (ut + 1) /\
    (forall T, T <> artifact_type -> type_used st' T = type_used st T) /\
    (forall k default, k <> "daily" -> py_get st' k default = py_get st k default).
Proof.
  intros (kv & d & -> & Ed & Hu & Hp & Hb)%wf_state_inv Htot Hty.
  unfold consume_budget. rewrite Htot.
  unfold type_used in *. exc_cbn. rewrite Ed in *. exc_cbn.
  rewrite dict_get_set_ne by discriminate.
  assert (Hgoal : forall p rest,
     forallb (fun e => int_like (snd e)) p = true ->
     dict_get "total_used" rest = Some (JInt (u + 1)) ->
     let st' := JDict (dict_set "daily"
                  (JDict (dict_set "per_type"
                            (JDict (dict_set artifact_type (JInt (ut + 1)) p))
                            rest)) kv) in
     wf_state st' = true /\
     total_used st' = Ok (u + 1) /\
     (daily ← py_item st' "daily";
      per ← py_get daily "per_type" (JDict []);
      v ← py_get per artifact_type (JInt 0); py_int v) = Ok (ut + 1) /\
     (forall T, T <> artifact_type ->
        (daily ← py_item st' "daily";
         per ← py_get daily "per_type" (JDict []);
         v ← py_get per T (JInt 0); py_int v)
        = py_int (match dict_get T p with Some v => v | None => JInt 0 end)) /\
     (forall k default, k <> "daily" ->
        py_get st' k default = py_get (JDict kv) k default)).
  { intros p rest Hall Hrest st'. subst st'.
    unfold total_used, wf_state, daily_wf, get_or.
    dict_simpl. rewrite Hrest. dict_simpl. repeat split.
    - rewrite Hb, andb_true_r. cbn [section_wf]. now apply forallb_dict_set.
    - intros T HT. now dict_simpl.
    - intros k default Hk. now dict_simpl. }
  destruct (dict_get "per_type" d) as [per|] eqn:Ep.
  - destruct per as [| | | | | |p]; try discriminate Hp. exc_cbn.
    rewrite Hty. exc_cbn. eexists. split; [reflexivity|].
    apply Hgoal; [exact Hp|]. now dict_simpl.
  - exc_cbn. cbn in Hty. injection Hty as <-. cbn [dict_get py_int].
    exc_cbn. eexists. split; [reflexivity|].
    replace (JDict [(artifact_type, JInt (0 + 1))])
      with (JDict (dict_set artifact_type (JInt (0 + 1)) [])) by reflexivity.
    destruct (Hgoal [] (dict_set "per_type" (JDict [])
                          (dict_set "total_used" (JInt (u + 1)) d)))
      as (H1 & H2 & H3 & H4 & H5); [reflexivity|now dict_simpl|].
    repeat split; auto.
Qed.

Ltac m_run :=
  cbv [mbind M_bind lift now_iso today_iso now_local mret M_ret emit
       append_jsonl write_json print_json].

(** What [breaker_slot] hands out on a well-formed state. *)
Lemma breaker_slot_spec (st : json) (artifact_type : string) :
  wf_state st = true ->
  exists kv kv1 bk bk1 be,
    st = JDict kv /\
    get_or kv "breaker" (JDict []) = JDict bk /\
    get_or bk artifact_type (JDict []) = JDict be /\
    breaker_slot st artifact_type
    = Ok (JDict be,
          fun b' => Ok (JDict (dict_set "breaker"
                                 (JDict (dict_set artifact_type b' bk1)) kv1))) /\
    (forall k, k <> "breaker" -> dict_get k kv1 = dict_get k kv) /\
    (forall T, T <> artifact_type -> dict_get T bk1 = dict_get T bk) /\
    forallb (fun e => entry_wf (snd e)) bk1 = true /\
    entry_wf (JDict be) = true.
Proof.
  intros (kv & d & -> & Ed & Hu & Hp & Hb)%wf_state_inv.
  unfold breaker_slot, get_or. exc_cbn.
  destruct (dict_get "breaker" kv) as [br|] eqn:Eb.
  - destruct br as [| | | | | |bk]; try discriminate Hb. cbn [section_wf] in Hb.
    exc_cbn.
    destruct (dict_get artifact_type bk) as [b|] eqn:Ee.
    + pose proof (section_wf_get _ _ _ _ Hb Ee) as Hwf.
      destruct b as [| | | | | |be]; try discriminate Hwf.
      exc_cbn. exists kv, kv, bk, bk, be.
      repeat split; rewrite ?Eb, ?Ee; auto.
    + exc_cbn. exists kv, kv, bk, (dict_set artifact_type (JDict []) bk), [].
      repeat split; rewrite ?Eb, ?Ee; auto.
      * intros T HT. now rewrite dict_get_set_ne by congruence.
      * now apply forallb_dict_set.
  - exc_cbn. cbn [dict_get]. exc_cbn.
    exists kv, (dict_set "breaker" (JDict []) kv), [],
           (dict_set artifact_type (JDict []) []), [].
    repeat split; rewrite ?Eb; auto; try reflexivity.
    all: intros k Hk; try now rewrite dict_get_set_ne by congruence.
Qed.

Definition opens (threshold cf : Z) : bool :=
  (0 <? threshold) && (threshold <=? cf).

Definition tick (n : nat) (w : World) : World :=
  {| trace := trace w; ticks := (ticks w + n)%nat |}.

Lemma breaker_record_failure_spec (st : json) (artifact_type : string)
    (threshold open_minutes n : Z) (w : World) :
  wf_state st = true ->
  failures_of st artifact_type = Ok n ->
  exists st',
    breaker_record_failure st artifact_type threshold open_minutes w
    = (Ok st', tick (if opens threshold (n + 1) then 2 else 1) w) /\
    wf_state st' = true /\
    failures_of st' artifact_type = Ok (n + 1) /\
    open_until_of st' artifact_type
    = (if opens threshold (n + 1)
       then Ok (JStr (isoformat (clock env (S (ticks w))
                                 + minutes_us open_minutes)))
       else open_until_of st artifact_type) /\
    (forall T, T <> artifact_type -> breaker_entry st' T = breaker_entry st T) /\
    total_used st' = total_used st /\
    (forall T, type_used st' T = type_used st T).
Proof.
  intros Hwf Hn.
  destruct (breaker_slot_spec st artifact_type Hwf)
    as (kv & kv1 & bk & bk1 & be & -> & Ebk & Ebe & Hslot & Hkv1 & Hbk1 & Hall & Hbe).
  unfold get_or in *.
  assert (Hn' : py_int (match dict_get "consecutive_failures" be with
                        | Some v => v | None => JInt 0 end) = Ok n).
  { unfold failures_of, breaker_entry in Hn. exc_cbn.
    rewrite Ebk in Hn. exc_cbn. rewrite Ebe in Hn. exact Hn. }
  set (b1 := dict_set "last_failure_at" (JStr (isoformat (clock env (ticks w))))
               (dict_set "consecutive_failures" (JInt (n + 1)) be)).
  set (b3 := if opens threshold (n + 1)
             then dict_set "open_until"
                    (JStr (isoformat (clock env (S (ticks w))
                                      + minutes_us open_minutes))) b1
             else b1).
  exists (JDict (dict_set "breaker"
                   (JDict (dict_set artifact_type (JDict b3) bk1)) kv1)).
  assert (Hcf : dict_get "consecutive_failures" b3 = Some (JInt (n + 1))).
  { subst b3 b1. destruct (opens _ _); now dict_simpl. }
  split; [|split; [|split; [|split; [|split; [|split]]]]].
  - unfold breaker_record_failure. m_run.
    rewrite Hslot. exc_cbn. m_run. rewrite Hn'. exc_cbn. m_run. cbn [ticks trace].
    fold (opens threshold (n + 1)). subst b3 b1. unfold tick.
    destruct (opens threshold (n + 1)); m_run; cbn [ticks trace];
      repeat f_equal; lia.
  - unfold wf_state. dict_simpl. rewrite !Hkv1 by discriminate.
    apply wf_state_inv in Hwf as (kv' & d & [= <-] & Ed & Hu & Hp & Hb).
    rewrite Ed. unfold daily_wf. rewrite Hu, Hp. cbn [andb section_wf].
    apply forallb_dict_set; [|exact Hall].
    cbn [snd entry_wf]. unfold get_or. now rewrite Hcf.
  - unfold failures_of, breaker_entry. dict_simpl. now rewrite Hcf.
  - unfold open_until_of, breaker_entry. dict_simpl. subst b3 b1.
    destruct (opens threshold (n + 1)); dict_simpl; [reflexivity|].
    rewrite Ebk. dict_simpl. now rewrite Ebe.
  - intros T HT. unfold breaker_entry. dict_simpl. rewrite Ebk. dict_simpl.
    now rewrite Hbk1.
  - unfold total_used. dict_simpl. now rewrite Hkv1 by discriminate.
  - intros T. unfold type_used. dict_simpl. now rewrite Hkv1 by discriminate.
Qed.

Lemma breaker_record_success_spec (st : json) (artifact_type : string)
    (w : World) :
  wf_state st = true ->
  exists st',
    breaker_record_success st artifact_type w = (Ok st', tick 1 w) /\
    wf_state st' = true /\
    failures_of st' artifact_type = Ok 0 /\
    open_until_of st' artifact_type = Ok JNull /\
    (forall T, T <> artifact_type -> breaker_entry st' T = breaker_entry st T) /\
    total_used st' = total_used st /\
    (forall T, type_used st' T = type_used st T).
Proof.
  intros Hwf.
  destruct (breaker_slot_spec st artifact_type Hwf)
    as (kv & kv1 & bk & bk1 & be & -> & Ebk & Ebe & Hslot & Hkv1 & Hbk1 & Hall & Hbe).
  unfold get_or in *.
  set (b2 := dict_set "open_until" JNull
               (dict_set "consecutive_failures" (JInt 0) be)).
  set (b4 := dict_set "last_success_at" (JStr (isoformat (clock env (ticks w))))
               (dict_set "last_failure_at"
                  (match dict_get "last_failure_at" b2 with
                   | Some v => v | None => JNull end) b2)).
  exists (JDict (dict_set "breaker"
                   (JDict (dict_set artifact_type (JDict b4) bk1)) kv1)).
  split; [|split; [|split; [|split; [|split; [|split]]]]].
  - unfold breaker_record_success. m_run. rewrite Hslot. exc_cbn. m_run.
    cbn [ticks trace]. subst b4 b2. unfold tick. repeat f_equal. lia.
  - unfold wf_state. dict_simpl. rewrite !Hkv1 by discriminate.
    apply wf_state_inv in Hwf as (kv' & d & [= <-] & Ed & Hu & Hp & Hb).
    rewrite Ed. unfold daily_wf. rewrite Hu, Hp. cbn [andb section_wf].
    apply forallb_dict_set; [|exact Hall].
    cbn [snd entry_wf]. unfold get_or. subst b4 b2. now dict_simpl.
  - unfold failures_of, breaker_entry. subst b4 b2. now dict_simpl.
  - unfold open_until_of, breaker_entry. subst b4 b2. now dict_simpl.
  - intros T HT. unfold breaker_entry. dict_simpl. rewrite Ebk. dict_simpl.
    now rewrite Hbk1.
  - unfold total_used. dict_simpl. now rewrite Hkv1 by discriminate.
  - intros T. unfold type_used. dict_simpl. now rewrite Hkv1 by discriminate.
Qed.

Lemma breaker_entry_wf (st : json) (artifact_type : string) :
  wf_state st = true ->
  exists be, breaker_entry st artifact_type = Ok (JDict be).
Proof.
  intros Hwf.
  destruct (breaker_slot_spec st artifact_type Hwf)
    as (kv & _ & bk & _ & be & -> & Ebk & Ebe & _).
  exists be. unfold breaker_entry, get_or in *. exc_cbn.
  rewrite Ebk. exc_cbn. now rewrite Ebe.
Qed.

Lemma failures_of_wf (st : json) (artifact_type : string) :
  wf_state st = true -> exists n, failures_of st artifact_type = Ok n.
Proof.
  intros Hwf.
  destruct (breaker_slot_spec st artifact_type Hwf)
    as (kv & _ & bk & _ & be & -> & Ebk & Ebe & _ & _ & _ & _ & Hbe).
  unfold failures_of, breaker_entry, get_or in *. exc_cbn.
  rewrite Ebk. exc_cbn. rewrite Ebe. exc_cbn.
  apply int_like_Ok. exact Hbe.
Qed.

(** The verdict of the breaker gate, from the stored [open_until]. *)
Definition is_open_at (now : Z) (open_until : json) : bool :=
  match open_until with
  | JStr text =>
      nonempty text &&
      match fromisoformat text with
      | Some dt => now <? dt_instant dt
      | None => false
      end
  | _ => false
  end.

Lemma breaker_status_at_spec (now : Z) (st : json) (artifact_type : string)
    (v : json) :
  open_until_of st artifact_type = Ok v ->
  exists reason,
    breaker_status_at now st artifact_type = Ok (is_open_at now v, reason).
Proof.
  unfold open_until_of, breaker_status_at.
  destruct (breaker_entry st artifact_type) as [b|]; [|discriminate].
  exc_cbn. intros ->. exc_cbn.
  destruct v as [| | | |text| |]; cbn [truthy negb is_open_at];
    try (repeat match goal with
                | |- context [if ?c then _ else _] => destruct c
                | |- context [match ?l with [] => _ | _ => _ end] => destruct l
                end; eauto; fail).
  destruct (nonempty text); cbn [negb andb]; [|eauto].
  destruct (fromisoformat text) as [dt|]; [|eauto].
  destruct (now <? dt_instant dt); eauto.
Qed.

(** *** The breaker *)

(** [n] failures of one type recorded in a row. *)
Fixpoint record_failures (n : nat) (st : json) (artifact_type : string)
    (threshold open_minutes : Z) : M json :=
  match n with
  | O => mret st
  | S n' =>
      st' ← breaker_record_failure st artifact_type threshold open_minutes;
      record_failures n' st' artifact_type threshold open_minutes
  end.

(** What the runtime guarantees of [isoformat] and [fromisoformat]: the
    text is not empty and parses back to the same instant. *)
Definition iso_roundtrip : Prop :=
  forall t : Z,
    nonempty (isoformat t) = true /\
    option_map dt_instant (fromisoformat (isoformat t)) = Some t.

Lemma opens_mono (threshold cf cf' : Z) :
  opens threshold cf = true -> cf <= cf' -> opens threshold cf' = true.
Proof. unfold opens. intros H Hle. apply andb_true_iff in H as [H1 H2]. apply andb_true_iff. split; lia. Qed.

Lemma m_bind_ok {A B} (m : M A) (k : A -> M B) (w w1 : World) (a : A) :
  m w = (Ok a, w1) -> (m ≫= k) w = k a w1.
Proof. intros H. m_run. now rewrite H. Qed.

Lemma m_bind_raise {A B} (m : M A) (k : A -> M B) (w w1 : World) (e : exn) :
  m w = (Raise e, w1) -> (m ≫= k) w = (Raise e, w1).
Proof. intros H. m_run. now rewrite H. Qed.

Lemma record_failures_S (n : nat) (st : json) (artifact_type : string)
    (threshold open_minutes : Z) :
  record_failures (S n) st artifact_type threshold open_minutes
  = (st' ← breaker_record_failure st artifact_type threshold open_minutes;
     record_failures n st' artifact_type threshold open_minutes).
Proof. reflexivity. Qed.

Lemma record_failures_spec (artifact_type : string) (threshold open_minutes : Z)
    (k : nat) :
  forall (st : json) (w : World) (n0 : Z),
    wf_state st = true ->
    failures_of st artifact_type = Ok n0 ->
    exists st' w',
      record_failures (S k) st artifact_type threshold open_minutes w
      = (Ok st', w') /\
      wf_state st' = true /\
      (ticks w < ticks w')%nat /\
      failures_of st' artifact_type = Ok (n0 + Z.of_nat (S k)) /\
      open_until_of st' artifact_type
      = (if opens threshold (n0 + Z.of_nat (S k))
         then Ok (JStr (isoformat (clock env (ticks w' - 1)
                                   + minutes_us open_minutes)))
         else open_until_of st artifact_type).
Proof.
  induction k as [|k IH]; intros st w n0 Hwf Hn.
  - destruct (breaker_record_failure_spec st artifact_type threshold
                open_minutes n0 w Hwf Hn)
      as (st' & Hrun & Hwf' & Hn' & Hou & _).
    exists st', (tick (if opens threshold (n0 + 1) then 2 else 1) w).
    rewrite record_failures_S, (m_bind_ok _ _ _ _ _ Hrun).
    cbn [record_failures]. change (Z.of_nat 1) with 1.
    repeat split; auto.
    + destruct (opens _ _); cbn; lia.
    + rewrite Hou. destruct (opens threshold (n0 + 1)); [|reflexivity].
      cbn [tick ticks]. repeat f_equal. lia.
  - destruct (breaker_record_failure_spec st artifact_type threshold
                open_minutes n0 w Hwf Hn)
      as (st1 & Hrun & Hwf1 & Hn1 & Hou1 & _).
    destruct (IH st1 (tick (if opens threshold (n0 + 1) then 2 else 1) w)
                (n0 + 1) Hwf1 Hn1)
      as (st' & w' & Hrun' & Hwf' & Hticks & Hn' & Hou').
    exists st', w'.
    rewrite record_failures_S, (m_bind_ok _ _ _ _ _ Hrun).
    split; [exact Hrun'|]. split; [exact Hwf'|].
    split; [destruct (opens _ _); cbn [tick ticks] in Hticks; lia|].
    replace (n0 + Z.of_nat (S (S k))) with (n0 + 1 + Z.of_nat (S k)) by lia.
    split; [exact Hn'|].
    rewrite Hou'. destruct (opens threshold (n0 + 1 + Z.of_nat (S k))) eqn:Eo;
      [reflexivity|].
    rewrite Hou1.
    destruct (opens threshold (n0 + 1)) eqn:Eo1; [|reflexivity].
    rewrite (opens_mono _ _ (n0 + 1 + Z.of_nat (S k)) Eo1) in Eo by lia.
    discriminate.
Qed.

Lemma breaker_status_at_closed (now : Z) (st : json) (artifact_type : string) :
  open_until_of st artifact_type = Ok JNull ->
  breaker_status_at now st artifact_type = Ok (false, None).
Proof.
  unfold open_until_of, breaker_status_at.
  destruct (breaker_entry st artifact_type) as [b|]; [|discriminate].
  exc_cbn. now intros ->.
Qed.

Lemma is_open_at_isoformat (now until : Z) :
  iso_roundtrip -> is_open_at now (JStr (isoformat until)) = (now <? until).
Proof.
  intros Hiso. destruct (Hiso until) as [Hne Hrt].
  unfold is_open_at. rewrite Hne. cbn [andb].
  destruct (fromisoformat (isoformat until)) as [dt|]; [|discriminate].
  cbn in Hrt. now injection Hrt as ->.
Qed.

(** C2.  Starting from a counter of zero (a type never recorded, or the
    state a success leaves), with a positive threshold: fewer than
    [threshold] failures in a row leave the stored [open_until] as it was;
    [threshold] failures in a row set it to the time of the last failure
    plus [open_minutes], and the breaker gate answers open at every
    instant before that time and closed from then on.  One recorded
    success, on any state, resets the counter to 0, clears [open_until]
    and the breaker gate answers closed at every instant. *)
Theorem breaker_opens_and_resets (artifact_type : string)
    (threshold open_minutes : Z) (st : json) (w : World) :
  iso_roundtrip ->
  wf_state st = true ->
  0 < threshold ->
  failures_of st artifact_type = Ok 0 ->
  (forall k, 0 < k < threshold ->
     exists st' w',
       record_failures (Z.to_nat k) st artifact_type threshold open_minutes w
       = (Ok st', w') /\
       failures_of st' artifact_type = Ok k /\
       open_until_of st' artifact_type = open_until_of st artifact_type) /\
  (exists st' w',
      record_failures (Z.to_nat threshold) st artifact_type threshold
        open_minutes w = (Ok st', w') /\
      wf_state st' = true /\
      failures_of st' artifact_type = Ok threshold /\
      let until := clock env (ticks w' - 1) + minutes_us open_minutes in
      open_until_of st' artifact_type = Ok (JStr (isoformat until)) /\
      forall now, exists reason,
        breaker_status_at now st' artifact_type = Ok (now <? until, reason)) /\
  (forall st0 w0,
     wf_state st0 = true ->
     exists st',
       breaker_record_success st0 artifact_type w0 = (Ok st', tick 1 w0) /\
       failures_of st' artifact_type = Ok 0 /\
       open_until_of st' artifact_type = Ok JNull /\
       forall now,
         breaker_status_at now st' artifact_type = Ok (false, None)).
Proof.
  intros Hiso Hwf Hth Hn. split; [|split].
  - intros k Hk.
    destruct (Z.to_nat k) as [|k'] eqn:Ek; [lia|].
    destruct (record_failures_spec artifact_type threshold open_minutes k'
                st w 0 Hwf Hn) as (st' & w' & Hrun & _ & _ & Hn' & Hou).
    exists st', w'. split; [exact Hrun|].
    replace (0 + Z.of_nat (S k')) with k in * by lia.
    split; [exact Hn'|]. rewrite Hou.
    unfold opens. destruct (Z.leb_spec threshold k); [lia|].
    now rewrite andb_false_r.
  - destruct (Z.to_nat threshold) as [|k'] eqn:Ek; [lia|].
    destruct (record_failures_spec artifact_type threshold open_minutes k'
                st w 0 Hwf Hn) as (st' & w' & Hrun & Hwf' & _ & Hn' & Hou).
    exists st', w'. split; [exact Hrun|]. split; [exact Hwf'|].
    replace (0 + Z.of_nat (S k')) with threshold in * by lia.
    split; [exact Hn'|].
    assert (Ho : opens threshold threshold = true)
      by (unfold opens; apply andb_true_iff; split; lia).
    rewrite Ho in Hou. cbn zeta. split; [exact Hou|].
    intros now.
    destruct (breaker_status_at_spec now st' artifact_type _ Hou) as [r Hr].
    exists r. now rewrite Hr, is_open_at_isoformat.
  - intros st0 w0 Hwf0.
    destruct (breaker_record_success_spec st0 artifact_type w0 Hwf0)
      as (st' & Hrun & _ & Hn' & Hou & _).
    exists st'. repeat split; auto.
    intros now. now apply breaker_status_at_closed.
Qed.

(** *** What the subprocess helpers do to the world *)

(** [w'] extends [w] by the effects [added] (latest first), each of them
    in [P], with [n] readings of the clock. *)
Definition extends (P : effect -> Prop) (n : nat) (w w' : World) : Prop :=
  exists added,
    trace w' = (added ++ trace w)%list /\ Forall P added /\
    ticks w' = (ticks w + n)%nat.

Lemma extends_refl (P : effect -> Prop) (w : World) : extends P 0 w w.
Proof. exists []. repeat split; [constructor|lia]. Qed.

Lemma extends_trans (P : effect -> Prop) (n m : nat) (w1 w2 w3 : World) :
  extends P n w1 w2 -> extends P m w2 w3 -> extends P (n + m) w1 w3.
Proof.
  intros (a1 & E1 & F1 & T1) (a2 & E2 & F2 & T2).
  exists (a2 ++ a1)%list. rewrite E2, E1, app_assoc.
  repeat split; [apply Forall_app; auto|lia].
Qed.

Lemma extends_weaken (P Q : effect -> Prop) (n : nat) (w w' : World) :
  (forall e, P e -> Q e) -> extends P n w w' -> extends Q n w w'.
Proof.
  intros H (a & E & F & T). exists a. repeat split; auto.
  eapply Forall_impl; eauto.
Qed.

Lemma extends_one (P : effect -> Prop) (e : effect) (w : World) :
  P e -> extends P 0 w {| trace := e :: trace w; ticks := ticks w |}.
Proof.
  intros H. exists [e]. repeat split; [repeat constructor; exact H|cbn; lia].
Qed.

Lemma extends_tick (P : effect -> Prop) (n : nat) (w : World) :
  extends P n w (tick n w).
Proof. exists []. repeat split; constructor. Qed.

(** The two commands of [refresh_auth_from_cdp]. *)
Definition login_cmds (profile : string) : list (list string) :=
  [["nlm"; "login"; "--profile"; profile; "--provider"; "openclaw";
    "--cdp-url"; "http://127.0.0.1:18800"];
   ["nlm"; "login"; "--check"; "--profile"; profile]].

(** The commands [run_nlm] may run for [cmd]: the command itself and the
    two login commands; besides it only sleeps. *)
Definition nlm_effect (cmd : list string) (e : effect) : Prop :=
  match e with
  | ERun c _ => c = cmd \/ exists profile, In c (login_cmds profile)
  | ESleep _ => True
  | _ => False
  end.

Lemma run_spec (cmd : list string) (timeout : Z) (w : World) :
  exists p w', run cmd timeout w = (Ok p, w') /\
               extends (nlm_effect cmd) 0 w w'.
Proof.
  eexists _, _. split; [reflexivity|].
  apply extends_one. cbn. now left.
Qed.

Lemma refresh_auth_spec (cmd : list string) (profile : string) (w : World) :
  exists ok w', refresh_auth_from_cdp profile w = (Ok ok, w') /\
                extends (nlm_effect cmd) 0 w w'.
Proof.
  assert (Hlogin : forall c t, In c (login_cmds profile) ->
                             nlm_effect cmd (ERun c t))
    by (intros c t H; right; exists profile; exact H).
  unfold refresh_auth_from_cdp, run. m_run. cbn [trace ticks].
  destruct (negb _).
  - eexists _, _. split; [reflexivity|]. apply extends_one, Hlogin.
    cbn; auto.
  - eexists _, _. split; [reflexivity|].
    eapply (extends_trans _ 0 0); apply extends_one, Hlogin; cbn; auto.
Qed.

Lemma sleep_spec (cmd : list string) (seconds : Z) (w : World) :
  0 <= seconds ->
  exists w', sleep seconds w = (Ok tt, w') /\ extends (nlm_effect cmd) 0 w w'.
Proof.
  intros H. unfold sleep. destruct (Z.ltb_spec seconds 0); [lia|].
  eexists. split; [reflexivity|]. now apply extends_one.
Qed.

Ltac step_with H :=
  let x := fresh "x" in let w1 := fresh "w" in
  let E := fresh "E" in let X := fresh "X" in
  destruct H as (x & w1 & E & X);
  rewrite (m_bind_ok _ _ _ _ _ E).

Lemma retry_after_login_spec (cmd : list string) (profile : string)
    (timeout : Z) (auto_refresh_auth : bool) (p : CompletedProcess) (w : World) :
  exists r w',
    retry_after_login cmd profile timeout auto_refresh_auth p w = (Ok r, w') /\
    extends (nlm_effect cmd) 0 w w'.
Proof.
  unfold retry_after_login.
  destruct (auto_refresh_auth && _is_auth_error p).
  - step_with (refresh_auth_spec cmd profile w). destruct x.
    + step_with (run_spec cmd timeout w0).
      eexists _, _. split; [reflexivity|].
      apply (extends_trans _ 0 0 _ _ _ X X0).
    + eexists _, _. split; [reflexivity|exact X].
  - eexists _, _. split; [reflexivity|apply extends_refl].
Qed.

Lemma run_nlm_loop_spec (cmd : list string) (profile : string) (timeout : Z)
    (auto_refresh_auth : bool) (remaining : nat) :
  forall (i : Z) (last : option CompletedProcess) (w : World),
    0 <= i ->
    (remaining = O -> last <> None) ->
    exists p w',
      run_nlm_loop cmd profile timeout 3 auto_refresh_auth remaining i last w
      = (Ok p, w') /\
      extends (nlm_effect cmd) 0 w w'.
Proof.
  induction remaining as [|remaining IH]; intros i last w Hi Hlast.
  - destruct last as [p|]; [|now destruct Hlast].
    exists p, w. split; [reflexivity|apply extends_refl].
  - cbn [run_nlm_loop].
    step_with (run_spec cmd timeout w).
    destruct (returncode x =? 0).
    { eexists _, _. split; [reflexivity|exact X]. }
    assert (Hagain : forall last' w1,
              extends (nlm_effect cmd) 0 w w1 ->
              exists p w',
                (if _is_transient_net_error x && (i <? 3 - 1)
                 then _ ← sleep (2 * (i + 1));
                      run_nlm_loop cmd profile timeout 3 auto_refresh_auth
                        remaining (i + 1) (Some last')
                 else mret x) w1 = (Ok p, w') /\
                extends (nlm_effect cmd) 0 w w').
    { intros last' w1 Hw1.
      destruct (_is_transient_net_error x && (i <? 3 - 1)).
      - destruct (sleep_spec cmd (2 * (i + 1)) w1 ltac:(lia)) as (w2 & Es & Xs).
        rewrite (m_bind_ok _ _ _ _ _ Es).
        destruct (IH (i + 1) (Some last') w2 ltac:(lia) ltac:(discriminate))
          as (p & w' & Ep & Xp).
        exists p, w'. split; [exact Ep|].
        apply (extends_trans _ 0 0 _ _ _ Hw1).
        apply (extends_trans _ 0 0 _ _ _ Xs Xp).
      - exists x, w1. split; [reflexivity|exact Hw1]. }
    step_with (retry_after_login_spec cmd profile timeout auto_refresh_auth x w0).
    pose proof (extends_trans _ 0 0 _ _ _ X X0) as X1.
    destruct x0 as [p2|]; [|now apply Hagain].
    destruct (returncode p2 =? 0); [|now apply Hagain].
    eexists _, _. split; [reflexivity|exact X1].
Qed.

Lemma run_nlm_spec (cmd : list string) (profile : string) (timeout : Z)
    (auto_refresh_auth : bool) (w : World) :
  exists p w',
    run_nlm cmd profile timeout auto_refresh_auth w = (Ok p, w') /\
    extends (nlm_effect cmd) 0 w w'.
Proof. apply run_nlm_loop_spec; [lia|discriminate]. Qed.

(** *** Polling stops on a terminal status *)

(** The normalized status of a studio row: its [status], or its [state]
    when [status] is absent or null. *)
Definition row_status (kv : list (string * json)) : string :=
  normalize_status
    (match get_or_null kv "status" with
     | JNull => get_or_null kv "state"
     | v => v
     end).

Definition status_cmd (notebook_id profile : string) : list string :=
  ["nlm"; "studio"; "status"; notebook_id; "--full"; "--json";
   "--profile"; profile].

Lemma load_studio_rows_spec (notebook_id profile : string)
    (auto_refresh_auth : bool) (w : World) :
  exists r w',
    load_studio_rows notebook_id profile auto_refresh_auth w = (Ok r, w') /\
    extends (nlm_effect (status_cmd notebook_id profile)) 0 w w'.
Proof.
  unfold load_studio_rows.
  step_with (run_nlm_spec (status_cmd notebook_id profile) profile 120
               auto_refresh_auth w).
  destruct (negb _); eexists _, _; (split; [reflexivity|exact X]).
Qed.

(** How a poll loop ends. *)
Inductive poll_end : string * option string * option json -> Prop :=
| poll_completed (kv : list (string * json)) :
    mem (row_status kv) SUCCESS_STATES = true ->
    poll_end ("completed", None, Some (JDict kv))
| poll_failed (kv : list (string * json)) :
    mem (row_status kv) SUCCESS_STATES = false ->
    mem (row_status kv) FAIL_STATES = true ->
    poll_end ("failed", None, Some (JDict kv))
| poll_timeout (last_status : string) :
    poll_end ("timeout", Some ("poll_timeout_last=" ++ last_status), None).

Lemma poll_loop_spec (notebook_id artifact_id profile : string)
    (poll_seconds : Z) (auto_refresh_auth : bool) (polls_left : nat) :
  0 <= poll_seconds ->
  forall (last_status : string) (w : World),
    exists r w',
      poll_loop notebook_id artifact_id profile poll_seconds
        auto_refresh_auth polls_left last_status w = (Ok r, w') /\
      poll_end r /\
      extends (nlm_effect (status_cmd notebook_id profile)) 0 w w'.
Proof.
  intros Hs. induction polls_left as [|n IH]; intros last_status w.
  - eexists _, _. split; [reflexivity|]. split; [constructor|apply extends_refl].
  - cbn [poll_loop].
    step_with (load_studio_rows_spec notebook_id profile auto_refresh_auth w).
    destruct x as [rows err].
    assert (Hagain : forall last',
              exists r w',
                (_ ← sleep poll_seconds;
                 poll_loop notebook_id artifact_id profile poll_seconds
                   auto_refresh_auth n last') w0 = (Ok r, w') /\
                poll_end r /\
                extends (nlm_effect (status_cmd notebook_id profile)) 0 w w').
    { intros last'.
      destruct (sleep_spec (status_cmd notebook_id profile) poll_seconds w0 Hs)
        as (w2 & Es & Xs).
      rewrite (m_bind_ok _ _ _ _ _ Es).
      destruct (IH last' w2) as (r & w' & Er & Hr & Xr).
      exists r, w'. split; [exact Er|]. split; [exact Hr|].
      apply (extends_trans _ 0 0 _ _ _ X).
      apply (extends_trans _ 0 0 _ _ _ Xs Xr). }
    destruct (is_err err); [apply Hagain|].
    destruct (find_artifact_row rows artifact_id) as [row|]; [|apply Hagain].
    destruct row as [| | | | | |kv]; try apply Hagain.
    destruct (negb (truthy (JDict kv))); [apply Hagain|].
    fold (row_status kv).
    destruct (mem (row_status kv) SUCCESS_STATES) eqn:Hsu.
    { eexists _, _. split; [reflexivity|]. split; [now constructor|exact X]. }
    destruct (mem (row_status kv) FAIL_STATES) eqn:Hf.
    { eexists _, _. split; [reflexivity|]. split; [now constructor|exact X]. }
    apply Hagain.
Qed.

(** *** One attempt *)

Definition event_row (ts event : string) (row : list (string * json)) : json :=
  JDict (fold_left (fun d kv => dict_set (fst kv) (snd kv) d) row
           [("ts", JStr ts); ("event", JStr event)]).

(** One line appended to the event log, after one reading of the clock. *)
Definition logged (events_path event : string) (row : list (string * json))
    (w : World) : World :=
  {| trace := EAppendJsonl events_path
                (event_row (isoformat (clock env (ticks w))) event row)
              :: trace w;
     ticks := S (ticks w) |}.

Lemma log_event_spec (events_path event : string)
    (row : list (string * json)) (w : World) :
  log_event events_path event row w = (Ok tt, logged events_path event row w).
Proof. reflexivity. Qed.

(** The artifact type a row of the summary is about. *)
Definition row_type (row : json) : option string :=
  match row with
  | JDict kv =>
      match dict_get "artifact_type" kv with
      | Some (JStr t) => Some t
      | _ => None
      end
  | _ => None
  end.

Definition row_outcome (row : json) : option string :=
  match row with
  | JDict kv =>
      match dict_get "outcome" kv with
      | Some (JStr t) => Some t
      | _ => None
      end
  | _ => None
  end.

(** The budget counters of [st'] are those of [st]. *)
Definition same_budget (st st' : json) : Prop :=
  total_used st' = total_used st /\
  forall T, type_used st' T = type_used st T.

(** The budget counters of [st'] are those of [st] with one more use of
    [artifact_type]. *)
Definition one_more (artifact_type : string) (st st' : json) : Prop :=
  exists u ut,
    total_used st = Ok u /\ total_used st' = Ok (u + 1) /\
    type_used st artifact_type = Ok ut /\
    type_used st' artifact_type = Ok (ut + 1) /\
    forall T, T <> artifact_type -> type_used st' T = type_used st T.

(** A plan entry that was skipped: one more row in [skipped], nothing
    else changes. *)
Definition skipped_step (artifact_type : string) (pr pr' : Progress) : Prop :=
  state pr' = state pr /\ attempts pr' = attempts pr /\
  successes pr' = successes pr /\
  exists row, skipped pr' = (skipped pr ++ [row])%list /\
              row_type row = Some artifact_type /\
              row_outcome row = Some "skipped".

(** A plan entry that was attempted: one more row in [attempts], which is
    also the one more row of [successes] when the attempt succeeded. *)
Definition attempted_step (artifact_type : string) (pr pr' : Progress)
  : Prop :=
  wf_state (state pr') = true /\
  skipped pr' = skipped pr /\
  exists row,
    row_type row = Some artifact_type /\
    attempts pr' = (attempts pr ++ [row])%list /\
    (successes pr' = successes pr \/
     successes pr' = (successes pr ++ [row])%list).

Lemma skip_type_spec (args : Args) (artifact_type : string)
    (reason : option string) (pr : Progress) (w : World) :
  exists pr' w',
    skip_type args artifact_type reason pr w = (Ok pr', w') /\
    skipped_step artifact_type pr pr'.
Proof.
  unfold skip_type. rewrite (m_bind_ok _ _ _ _ _ (log_event_spec _ _ _ _)).
  eexists _, _. split; [reflexivity|].
  repeat split. eexists. split; [reflexivity|]. split; reflexivity.
Qed.

Lemma fail_type_spec (args : Args) (artifact_type outcome : string)
    (row : list (string * json)) (pr : Progress) (w : World) (n : Z) :
  wf_state (state pr) = true ->
  failures_of (state pr) artifact_type = Ok n ->
  exists st',
    let w1 := tick (if opens (breaker_consecutive_failures args) (n + 1)
                    then 2 else 1) w in
    fail_type args artifact_type outcome row pr w
    = (Ok {| state := st'; attempts := (attempts pr ++ [JDict row])%list;
             successes := successes pr; skipped := skipped pr |},
       logged (events_file args) outcome row w1) /\
    wf_state st' = true /\
    failures_of st' artifact_type = Ok (n + 1) /\
    same_budget (state pr) st'.
Proof.
  intros Hwf Hn.
  destruct (breaker_record_failure_spec (state pr) artifact_type
              (breaker_consecutive_failures args) (breaker_open_minutes args)
              n w Hwf Hn) as (st' & Hrun & Hwf' & Hn' & _ & _ & Ht & Hty).
  exists st'. cbn zeta. unfold fail_type.
  rewrite (m_bind_ok _ _ _ _ _ Hrun).
  rewrite (m_bind_ok _ _ _ _ _ (log_event_spec _ _ _ _)).
  repeat split; auto.
Qed.

Lemma same_budget_refl (st : json) : same_budget st st.
Proof. now split. Qed.

Lemma after_create_spec (args : Args) (artifact_type created_at : string)
    (pr : Progress) (p : CompletedProcess) (w : World) :
  wf_state (state pr) = true ->
  0 <= poll_seconds args ->
  exists pr' w',
    after_create args artifact_type created_at pr p w = (Ok pr', w') /\
    attempted_step artifact_type pr pr' /\
    same_budget (state pr) (state pr').
Proof.
  intros Hwf Hs.
  destruct (failures_of_wf (state pr) artifact_type Hwf) as [n Hn].
  assert (Hfail : forall outcome row w0,
            row_type (JDict row) = Some artifact_type ->
            exists pr' w',
              fail_type args artifact_type outcome row pr w0 = (Ok pr', w') /\
              attempted_step artifact_type pr pr' /\
              same_budget (state pr) (state pr')).
  { intros outcome row w0 Hrow.
    destruct (fail_type_spec args artifact_type outcome row pr w0 n Hwf Hn)
      as (st' & Hrun & Hwf' & _ & Hsame).
    eexists _, _. split; [exact Hrun|]. split; [|exact Hsame].
    split; [exact Hwf'|]. split; [reflexivity|].
    eexists. split; [exact Hrow|]. split; [reflexivity|]. now left. }
  unfold after_create, no_artifact.
  destruct (negb (returncode p =? 0)); [now apply Hfail|].
  destruct (extract_artifact_id _) as [artifact_id|]; [|now apply Hfail].
  destruct (negb (nonempty artifact_id)); [now apply Hfail|].
  unfold poll_artifact_status.
  destruct (poll_loop_spec (notebook_id args) artifact_id (profile args)
              (poll_seconds args) (negb (no_auto_refresh_auth args))
              (Z.to_nat (max_polls args)) Hs "unknown" w)
    as ([[outcome reason] row] & w1 & Ep & _ & _).
  rewrite (m_bind_ok _ _ _ _ _ Ep).
  destruct (String.eqb outcome "completed"); [|now apply Hfail].
  destruct (breaker_record_success_spec (state pr) artifact_type w1 Hwf)
    as (st' & Hrun & Hwf' & _ & _ & _ & Ht & Hty).
  rewrite (m_bind_ok _ _ _ _ _ Hrun).
  rewrite (m_bind_ok _ _ _ _ _ (log_event_spec _ _ _ _)).
  eexists _, _. split; [reflexivity|]. split; [|now split].
  split; [exact Hwf'|]. split; [reflexivity|].
  eexists. split; cycle 1.
  { split; [reflexivity|now right]. }
  reflexivity.
Qed.

(** *** The budget gate *)

(** The verdict of the budget gate from the two counters, the total
    budget and the limit of the type, if one is configured. *)
Definition gate (used_total used_type total : Z) (limit : option Z) : bool :=
  negb ((0 <? total) && (total <=? used_total))
  && match limit with
     | Some l => negb ((0 <=? l) && (l <=? used_type))
     | None => true
     end.

Lemma budget_allowed_spec (st : json) (artifact_type : string) (total : Z)
    (budget : list (string * Z)) (u ut : Z) :
  total_used st = Ok u ->
  type_used st artifact_type = Ok ut ->
  exists reason,
    budget_allowed st artifact_type total budget
    = Ok (gate u ut total (dict_get artifact_type budget), reason).
Proof.
  intros Hu Hut. unfold budget_allowed, gate. rewrite Hu. exc_cbn.
  destruct ((0 <? total) && (total <=? u)); cbn [negb andb]; [eauto|].
  rewrite Hut. exc_cbn.
  destruct (dict_get artifact_type budget) as [l|]; [|eauto].
  destruct ((0 <=? l) && (l <=? ut)); cbn [negb]; eauto.
Qed.

Lemma gate_iff (u ut total : Z) (limit : option Z) :
  gate u ut total limit = true <->
  (u < total \/ total <= 0) /\
  (limit = None \/ exists l, limit = Some l /\ (l < 0 \/ ut < l)).
Proof.
  unfold gate. rewrite andb_true_iff, negb_true_iff, andb_false_iff.
  rewrite Z.ltb_ge, Z.leb_gt.
  destruct limit as [l|].
  - rewrite negb_true_iff, andb_false_iff, Z.leb_gt, Z.leb_gt.
    split.
    + intros [H1 H2]. split; [lia|]. right. exists l. split; [reflexivity|lia].
    + intros [H1 [H2|(l' & [= <-] & H2)]]; [discriminate|]. split; lia.
  - split; [intros [H1 _]; split; [lia|now left]|intros [H1 _]; split; [lia|reflexivity]].
Qed.

Lemma breaker_status_spec (st : json) (artifact_type : string) (w : World) :
  breaker_status st artifact_type w
  = (breaker_status_at (clock env (ticks w)) st artifact_type, tick 1 w).
Proof.
  unfold breaker_status, tick. m_run. cbn [trace ticks].
  repeat f_equal. lia.
Qed.

Lemma m_bind_lift {A B} (r : Exc A) (k : A -> M B) (w : World) (a : A) :
  r = Ok a -> (lift r ≫= k) w = k a w.
Proof. now intros ->. Qed.

(** What one pass through the body of the plan loop does, by the verdicts
    of the two gates. *)
Lemma attempt_type_spec (args : Args) (source_ids : list string)
    (budget : list (string * Z)) (pr : Progress) (artifact_type : string)
    (w : World) :
  wf_state (state pr) = true ->
  0 <= poll_seconds args ->
  exists pr' w' allow open_now r1 r2,
    attempt_type args source_ids budget pr artifact_type w = (Ok pr', w') /\
    budget_allowed (state pr) artifact_type (daily_budget_total args) budget
    = Ok (allow, r1) /\
    breaker_status_at (clock env (ticks w)) (state pr) artifact_type
    = Ok (open_now, r2) /\
    if allow && negb open_now
    then attempted_step artifact_type pr pr' /\
         one_more artifact_type (state pr) (state pr')
    else skipped_step artifact_type pr pr'.
Proof.
  intros Hwf Hs.
  destruct (total_used_wf _ Hwf) as [u Hu].
  destruct (type_used_wf _ artifact_type Hwf) as [ut Hut].
  destruct (budget_allowed_spec _ artifact_type (daily_budget_total args)
              budget u ut Hu Hut) as [r1 Hb].
  destruct (breaker_entry_wf _ artifact_type Hwf) as [be Hbe].
  assert (Hou : exists v, open_until_of (state pr) artifact_type = Ok v).
  { unfold open_until_of. rewrite Hbe. exc_cbn. eauto. }
  destruct Hou as [v Hou].
  destruct (breaker_status_at_spec (clock env (ticks w)) _ _ _ Hou) as [r2 Hbs].
  unfold attempt_type.
  rewrite (m_bind_lift _ _ _ _ Hb).
  destruct (gate u ut _ _) eqn:Eg; cbn [negb andb]; try rewrite Eg in Hb.
  2:{ destruct (skip_type_spec args artifact_type r1 pr w) as (pr' & w' & E & S).
      exists pr', w', false, (is_open_at (clock env (ticks w)) v), r1, r2.
      try rewrite Eg in Hb. cbn [andb].
      split; [exact E|]. split; [exact Hb|]. split; [exact Hbs|exact S]. }
  assert (Hst : breaker_status (state pr) artifact_type w
                = (Ok (is_open_at (clock env (ticks w)) v, r2), tick 1 w))
    by now rewrite breaker_status_spec, Hbs.
  rewrite (m_bind_ok _ _ _ _ _ Hst). clear Hst.
  destruct (is_open_at _ v) eqn:Eo; cbn [negb].
  { destruct (skip_type_spec args artifact_type r2 pr (tick 1 w))
      as (pr' & w' & E & S).
    exists pr', w', true, true, r1, r2. cbn [andb negb].
    split; [exact E|]. split; [exact Hb|]. split; [exact Hbs|exact S]. }
  destruct (consume_budget_spec _ artifact_type u ut Hwf Hu Hut)
    as (st1 & Ec & Hwf1 & Hu1 & Hut1 & Hoth & _).
  rewrite (m_bind_lift _ _ _ _ Ec).
  rewrite (m_bind_ok _ _ _ _ _ (eq_refl : now_iso (tick 1 w) = (Ok _, _))).
  match goal with
  | |- context [run_nlm ?c ?p ?t ?a] =>
      destruct (run_nlm_spec c p t a
                  {| trace := trace (tick 1 w); ticks := S (ticks (tick 1 w)) |})
        as (p0 & w2 & Er & _)
  end.
  rewrite (m_bind_ok _ _ _ _ _ Er).
  match goal with
  | |- context [after_create ?a ?t ?c ?q ?p] =>
      destruct (after_create_spec a t c q p w2 Hwf1 Hs)
        as (pr' & w' & Ea & Hstep & Hsame)
  end.
  exists pr', w', true, false, r1, r2. cbn [andb negb].
  split; [exact Ea|]. split; [exact Hb|]. split; [exact Hbs|].
  split; [exact Hstep|].
  destruct Hsame as [Ht Hty]. cbn [state with_state] in Ht, Hty.
  exists u, ut. rewrite Ht, !Hty. repeat split; auto.
  intros T HT. rewrite Hty. now apply Hoth.
Qed.

(** *** The plan loop *)

Definition is_about (artifact_type : string) (row : json) : bool :=
  match row_type row with
  | Some t => String.eqb t artifact_type
  | None => false
  end.

(** The number of rows about a type. *)
Definition count_type (artifact_type : string) (rows : list json) : Z :=
  Z.of_nat (length (List.filter (is_about artifact_type) rows)).

Definition quota_reached (args : Args) (pr : Progress) : bool :=
  (0 <? max_success args)
  && (max_success args <=? Z.of_nat (length (successes pr))).

(** What a run of the plan loop adds to the lists, and what it does to
    the budget counters. *)
Record plan_run (args : Args) (plan : list string) (pr pr' : Progress)
    (new_attempts new_skipped : list json) : Prop := {
  pr_wf : wf_state (state pr') = true;
  pr_attempts : attempts pr' = (attempts pr ++ new_attempts)%list;
  pr_skipped : skipped pr' = (skipped pr ++ new_skipped)%list;
  pr_rows : (length new_attempts + length new_skipped <= length plan)%nat;
  pr_total : forall u, total_used (state pr) = Ok u ->
      total_used (state pr') = Ok (u + Z.of_nat (length new_attempts));
  pr_type : forall T ut, type_used (state pr) T = Ok ut ->
      type_used (state pr') T = Ok (ut + count_type T new_attempts);
  pr_successes :
    (length (successes pr) <= length (successes pr'))%nat /\
    (0 < max_success args ->
     Z.of_nat (length (successes pr')) <=
     Z.max (Z.of_nat (length (successes pr))) (max_success args));
}.

Lemma run_plan_cons (args : Args) (source_ids : list string)
    (budget : list (string * Z)) (artifact_type : string)
    (rest : list string) (pr : Progress) :
  run_plan args source_ids budget (artifact_type :: rest) pr
  = if quota_reached args pr then mret pr
    else pr ← attempt_type args source_ids budget pr artifact_type;
         run_plan args source_ids budget rest pr.
Proof. reflexivity. Qed.

Lemma count_type_cons (T : string) (row : json) (rows : list json) :
  count_type T (row :: rows)
  = (if is_about T row then 1 else 0) + count_type T rows.
Proof.
  unfold count_type. cbn [List.filter]. destruct (is_about T row); cbn [length]; lia.
Qed.

Lemma run_plan_spec (args : Args) (source_ids : list string)
    (budget : list (string * Z)) (plan : list string) :
  0 <= poll_seconds args ->
  forall (pr : Progress) (w : World),
    wf_state (state pr) = true ->
    exists pr' w' new_attempts new_skipped,
      run_plan args source_ids budget plan pr w = (Ok pr', w') /\
      plan_run args plan pr pr' new_attempts new_skipped.
Proof.
  intros Hs. induction plan as [|T rest IH]; intros pr w Hwf.
  - exists pr, w, [], []. split; [reflexivity|].
    constructor; rewrite ?app_nil_r; auto.
    + intros u ->. f_equal. cbn. lia.
    + intros T ut ->. f_equal. unfold count_type. cbn. lia.
    + split; [lia|]. intros _. lia.
  - rewrite run_plan_cons. destruct (quota_reached args pr) eqn:Eq.
    { exists pr, w, [], []. split; [reflexivity|].
      constructor; rewrite ?app_nil_r; auto.
      + cbn. lia.
      + intros u ->. f_equal. cbn. lia.
      + intros T' ut ->. f_equal. unfold count_type. cbn. lia.
      + split; [lia|]. intros _. lia. }
    destruct (attempt_type_spec args source_ids budget pr T w Hwf Hs)
      as (pr1 & w1 & allow & open_now & r1 & r2 & E1 & _ & _ & Hcase).
    rewrite (m_bind_ok _ _ _ _ _ E1).
    assert (Hwf1 : wf_state (state pr1) = true).
    { destruct (allow && negb open_now).
      - apply Hcase.
      - destruct Hcase as (-> & _). exact Hwf. }
    destruct (IH pr1 w1 Hwf1) as (pr' & w' & na & ns & E' & R).
    destruct R as [Rwf Ra Rs Rrows Rtot Rty [Rs1 Rs2]].
    unfold quota_reached in Eq.
    destruct (allow && negb open_now).
    + destruct Hcase as ((_ & Hsk & row & Hrow & Hatt & Hsucc)
                         & (u & ut & Hu & Hu1 & Hut & Hut1 & Hoth)).
      exists pr', w', (row :: na), ns. split; [exact E'|].
      constructor; auto.
      * rewrite Ra, Hatt, <- app_assoc. reflexivity.
      * now rewrite Rs, Hsk.
      * cbn [length] in *. lia.
      * intros u' Hu'. rewrite Hu in Hu'. injection Hu' as <-.
        rewrite (Rtot _ Hu1). f_equal; cbn [length]; lia.
      * intros T' ut' Hut'. rewrite count_type_cons. unfold is_about.
        rewrite Hrow. destruct (String.eqb_spec T T') as [<-|Hne].
        -- rewrite Hut in Hut'. injection Hut' as <-.
           rewrite (Rty _ _ Hut1). f_equal; lia.
        -- rewrite <- (Hoth T') in Hut' by congruence.
           rewrite (Rty _ _ Hut'). f_equal; lia.
      * split.
        -- destruct Hsucc as [Hs0|Hs0]; rewrite Hs0 in Rs1;
             rewrite ?length_app in Rs1; cbn in Rs1; lia.
        -- intros Hm. specialize (Rs2 Hm).
           destruct Hsucc as [Hs0|Hs0]; rewrite Hs0 in Rs2;
             rewrite ?length_app in Rs2; cbn [length] in Rs2; [lia|].
           apply andb_false_iff in Eq as [Eq|Eq]; [lia|].
           apply Z.leb_gt in Eq. lia.
    + destruct Hcase as (Hst & Hatt & Hsucc & row & Hsk & _).
      exists pr', w', na, (row :: ns). split; [exact E'|].
      constructor; auto.
      * now rewrite Ra, Hatt.
      * rewrite Rs, Hsk, <- app_assoc. reflexivity.
      * cbn [length] in *. lia.
      * intros u Hu. apply Rtot. now rewrite Hst.
      * intros T' ut Hut. apply Rty. now rewrite Hst.
      * rewrite Hsucc in *. split; [lia|exact Rs2].
Qed.

(** C1 (as amended).  The budget gate allows an attempt exactly when
    (total_used < daily_budget_total or daily_budget_total <= 0) and (no
    per-type limit is configured, or the configured limit is negative, or
    per_type_used[T] < limit).  A plan entry that the budget gate allows
    and that finds the breaker closed is attempted: it increments
    total_used and per_type_used[T] by exactly one, before the create
    command runs and whatever the outcome of the attempt; an entry that
    either gate refuses is skipped and leaves the state as it is.  After
    any run of the plan loop, per_type_used[T] has grown by the number of
    attempts recorded for T and total_used by the number of all attempts
    recorded. *)
Theorem budget_gate_and_counters (args : Args) (source_ids : list string)
    (budget : list (string * Z)) :
  (forall st T u ut,
     total_used st = Ok u -> type_used st T = Ok ut ->
     exists allow reason,
       budget_allowed st T (daily_budget_total args) budget
       = Ok (allow, reason) /\
       (allow = true <->
        (u < daily_budget_total args \/ daily_budget_total args <= 0) /\
        (dict_get T budget = None \/
         exists l, dict_get T budget = Some l /\ (l < 0 \/ ut < l)))) /\
  (forall pr T w,
     wf_state (state pr) = true -> 0 <= poll_seconds args ->
     exists pr' w' allow open_now r1 r2,
       attempt_type args source_ids budget pr T w = (Ok pr', w') /\
       budget_allowed (state pr) T (daily_budget_total args) budget
       = Ok (allow, r1) /\
       breaker_status_at (clock env (ticks w)) (state pr) T
       = Ok (open_now, r2) /\
       if allow && negb open_now
       then attempted_step T pr pr' /\ one_more T (state pr) (state pr')
       else skipped_step T pr pr') /\
  (forall plan pr w,
     wf_state (state pr) = true -> 0 <= poll_seconds args ->
     exists pr' w' new_attempts new_skipped,
       run_plan args source_ids budget plan pr w = (Ok pr', w') /\
       attempts pr' = (attempts pr ++ new_attempts)%list /\
       skipped pr' = (skipped pr ++ new_skipped)%list /\
       (forall u, total_used (state pr) = Ok u ->
          total_used (state pr')
          = Ok (u + Z.of_nat (length new_attempts))) /\
       (forall T ut, type_used (state pr) T = Ok ut ->
          type_used (state pr') T = Ok (ut + count_type T new_attempts))).
Proof.
  split; [|split].
  - intros st T u ut Hu Hut.
    destruct (budget_allowed_spec st T (daily_budget_total args) budget u ut
                Hu Hut) as [reason H].
    eexists _, reason. split; [exact H|]. apply gate_iff.
  - intros pr T w Hwf Hs. now apply attempt_type_spec.
  - intros plan pr w Hwf Hs.
    destruct (run_plan_spec args source_ids budget plan Hs pr w Hwf)
      as (pr' & w' & na & ns & E & R).
    exists pr', w', na, ns. destruct R. auto 10.
Qed.

(** *** The success quota *)

Lemma run_plan_quota (args : Args) (source_ids : list string)
    (budget : list (string * Z)) (plan : list string) (pr : Progress)
    (w : World) :
  quota_reached args pr = true ->
  run_plan args source_ids budget plan pr w = (Ok pr, w).
Proof.
  intros H. destruct plan; [reflexivity|].
  rewrite run_plan_cons, H. reflexivity.
Qed.

Lemma run_plan_app (args : Args) (source_ids : list string)
    (budget : list (string * Z)) (plan1 plan2 : list string) :
  forall (pr : Progress) (w : World),
    run_plan args source_ids budget (plan1 ++ plan2) pr w
    = (pr1 ← run_plan args source_ids budget plan1 pr;
       run_plan args source_ids budget plan2 pr1) w.
Proof.
  induction plan1 as [|T rest IH]; intros pr w; [reflexivity|].
  cbn [app]. rewrite !run_plan_cons.
  destruct (quota_reached args pr) eqn:Eq.
  - rewrite (m_bind_ok _ _ w w pr) by reflexivity.
    now rewrite run_plan_quota.
  - destruct (attempt_type args source_ids budget pr T w) as [[pr1|e] w1] eqn:E.
    + rewrite (m_bind_ok _ _ _ _ _ E). rewrite IH.
      symmetry. 
      change ((pr0 ← (pr2 ← attempt_type args source_ids budget pr T;
                      run_plan args source_ids budget rest pr2);
               run_plan args source_ids budget plan2 pr0) w
              = (pr2 ← run_plan args source_ids budget rest pr1;
                 run_plan args source_ids budget plan2 pr2) w1).
      m_run. now rewrite E.
    + rewrite (m_bind_raise _ _ _ _ _ E).
      symmetry. apply m_bind_raise. now apply m_bind_raise.
Qed.

Lemma final_status_cases (n : nat) (max_success : Z) :
  final_status n max_success
  = if Z.max 1 max_success <=? Z.of_nat n then "ok"
    else if (0 <? n)%nat then "degraded" else "failed".
Proof. unfold final_status. destruct (_ <=? _); [reflexivity|]. now destruct n. Qed.

(** The value printed and the state written by [finish_run]. *)
Lemma finish_run_spec (args : Args) (plan source_ids : list string)
    (report : json) (pr : Progress) (w : World) :
  wf_state (state pr) = true ->
  exists summary st',
    finish_run args plan source_ids report pr w
    = (Ok tt, {| trace := EPrint (JDict summary)
                          :: EWriteJson (state_file args) st' :: trace w;
                 ticks := S (S (ticks w)) |}) /\
    dict_get "status" summary
    = Some (JStr (final_status (length (successes pr)) (max_success args))) /\
    dict_get "successes" summary = Some (JList (successes pr)) /\
    (last_run ← py_item st' "last_run"; py_item last_run "status")
    = Ok (JStr (final_status (length (successes pr)) (max_success args))).
Proof.
  intros (kv & d & E & _)%wf_state_inv.
  unfold finish_run. rewrite E. m_run. exc_cbn. m_run. cbn [trace ticks].
  eexists _, _. split; [reflexivity|].
  split; [reflexivity|]. split; [reflexivity|].
  now dict_simpl.
Qed.

(** C4.  Once the number of successes has reached a positive
    [max_success], the plan loop stops: the entries that follow are not
    attempted, the lists, the state and the world stay as they are; so
    the loop never records more than [max_success] successes.  The status
    of the summary is [ok] with at least max(1, max_success) successes,
    [degraded] with at least one success but fewer than that, [failed]
    with none. *)
Theorem plan_stops_at_max_success (args : Args) (source_ids : list string)
    (budget : list (string * Z)) :
  (forall plan1 plan2 pr w pr1 w1,
     run_plan args source_ids budget plan1 pr w = (Ok pr1, w1) ->
     0 < max_success args ->
     max_success args <= Z.of_nat (length (successes pr1)) ->
     run_plan args source_ids budget (plan1 ++ plan2) pr w = (Ok pr1, w1)) /\
  (forall plan pr w,
     wf_state (state pr) = true -> 0 <= poll_seconds args ->
     0 < max_success args ->
     Z.of_nat (length (successes pr)) <= max_success args ->
     exists pr' w',
       run_plan args source_ids budget plan pr w = (Ok pr', w') /\
       Z.of_nat (length (successes pr')) <= max_success args) /\
  (forall plan report pr w,
     wf_state (state pr) = true ->
     let n := length (successes pr) in
     let status :=
       if Z.max 1 (max_success args) <=? Z.of_nat n then "ok"
       else if (0 <? n)%nat then "degraded" else "failed" in
     exists summary st',
       finish_run args plan source_ids report pr w
       = (Ok tt, {| trace := EPrint (JDict summary)
                             :: EWriteJson (state_file args) st' :: trace w;
                    ticks := S (S (ticks w)) |}) /\
       dict_get "status" summary = Some (JStr status) /\
       (last_run ← py_item st' "last_run"; py_item last_run "status")
       = Ok (JStr status)).
Proof.
  split; [|split].
  - intros plan1 plan2 pr w pr1 w1 E Hm Hq.
    rewrite run_plan_app, (m_bind_ok _ _ _ _ _ E).
    apply run_plan_quota. unfold quota_reached.
    apply andb_true_iff. split; lia.
  - intros plan pr w Hwf Hs Hm Hle.
    destruct (run_plan_spec args source_ids budget plan Hs pr w Hwf)
      as (pr' & w' & na & ns & E & R).
    exists pr', w'. split; [exact E|].
    destruct R as [_ _ _ _ _ _ [_ Hb]]. specialize (Hb Hm). lia.
  - intros plan report pr w Hwf n status.
    destruct (finish_run_spec args plan source_ids report pr w Hwf)
      as (summary & st' & E & Hs & _ & Hl).
    exists summary, st'. subst status n.
    rewrite <- final_status_cases. auto.
Qed.

(** C7.  When the create command has exited with code 0 and no artifact
    identifier comes out of its output, the attempt is recorded with the
    outcome [create_failed_no_artifact], the breaker counter of the type
    grows by exactly 1, the budget counters stay as they are, and the only
    effect is the line appended to the event log: no status command is
    run, the poll loop is not entered. *)
Theorem no_artifact_id_fails_fast (args : Args)
    (artifact_type created_at : string) (pr : Progress)
    (p : CompletedProcess) (w : World) (n : Z) :
  wf_state (state pr) = true ->
  failures_of (state pr) artifact_type = Ok n ->
  returncode p = 0 ->
  match extract_artifact_id (stdout p ++ NL ++ stderr p) with
  | Some artifact_id => nonempty artifact_id = false
  | None => True
  end ->
  exists pr' w' row line,
    after_create args artifact_type created_at pr p w = (Ok pr', w') /\
    attempts pr' = (attempts pr ++ [row])%list /\
    row_type row = Some artifact_type /\
    row_outcome row = Some "create_failed_no_artifact" /\
    successes pr' = successes pr /\
    skipped pr' = skipped pr /\
    failures_of (state pr') artifact_type = Ok (n + 1) /\
    same_budget (state pr) (state pr') /\
    trace w' = EAppendJsonl (events_file args) line :: trace w.
Proof.
  intros Hwf Hn Hrc Hid.
  assert (Hno : after_create args artifact_type created_at pr p w
                = no_artifact args artifact_type created_at pr w).
  { unfold after_create. rewrite Hrc. cbn [Z.eqb negb].
    destruct (extract_artifact_id _) as [artifact_id|]; [|reflexivity].
    now rewrite Hid. }
  rewrite Hno. unfold no_artifact.
  match goal with
  | |- context [fail_type args artifact_type ?o ?r pr w] =>
      destruct (fail_type_spec args artifact_type o r pr w n Hwf Hn)
        as (st' & Hrun & _ & Hn' & Hsame)
  end.
  cbn zeta in Hrun.
  eexists _, _, _, _. split; [exact Hrun|].
  cbn [attempts successes skipped state].
  split; [reflexivity|]. split; [reflexivity|]. split; [reflexivity|].
  split; [reflexivity|]. split; [reflexivity|]. split; [exact Hn'|].
  split; [exact Hsame|]. reflexivity.
Qed.

(** *** Loading the guard state *)

(** The default state of a day. *)
Definition default_on (today : string) : json :=
  JDict [("schema_version", JInt 1);
         ("daily", fresh_daily today);
         ("breaker", JDict []);
         ("last_run", JDict [])].

(** The object stored in the state file, when it holds one. *)
Definition stored_object : option (list (string * json)) :=
  match state_file_content env with
  | Content text =>
      match loads text with
      | Ok (JDict kv) => Some kv
      | _ => None
      end
  | _ => None
  end.

(** The date the clock shows at its [n]-th reading. *)
Definition date_at (n : nat) : string := date_isoformat (clock env n).

Lemma world_eq (w1 w2 : World) :
  trace w1 = trace w2 -> ticks w1 = ticks w2 -> w1 = w2.
Proof. destruct w1, w2. cbn. now intros -> ->. Qed.

Lemma date_at_eq (n m : nat) : n = m -> date_at n = date_at m.
Proof. now intros ->. Qed.

Ltac world_tac :=
  repeat first
    [ apply world_eq; cbn [tick trace ticks]; [reflexivity|lia]
    | apply date_at_eq; cbn [tick trace ticks]; lia
    | reflexivity
    | lia
    | progress f_equal ].

Lemma maybe_reset_default (today : string) (w : World) :
  maybe_reset_daily (default_on today) w
  = (Ok (default_on (date_at (ticks w))), tick 1 w).
Proof.
  unfold maybe_reset_daily, default_on, tick, date_at, fresh_daily, today_iso.
  m_run. cbn.
  destruct (String.eqb_spec today (date_isoformat (clock env (ticks w))))
    as [->|Hne]; cbn; world_tac.
Qed.

Lemma load_state_default (w : World) :
  stored_object = None ->
  exists k,
    load_state w = (Ok (default_on (date_at (ticks w + k))), tick (S k) w) /\
    (k = 2 \/ k = 3)%nat.
Proof.
  unfold stored_object, load_state, default_state, read_json.
  intros Hso.
  assert (Hcases :
    (match state_file_content env with
     | Missing | Unreadable => default_on (date_at (ticks w))
     | Content text =>
         match loads text with
         | Ok v => v
         | Raise _ => default_on (date_at (ticks w))
         end
     end = default_on (date_at (ticks w))) \/
    (exists v, match state_file_content env with
               | Missing | Unreadable => default_on (date_at (ticks w))
               | Content text =>
                   match loads text with
                   | Ok v => v
                   | Raise _ => default_on (date_at (ticks w))
                   end
               end = v /\ is_dict v = false)).
  { destruct (state_file_content env) as [| |text]; auto.
    destruct (loads text) as [v|]; auto.
    right. exists v. split; [reflexivity|].
    destruct v; try reflexivity. discriminate. }
  rewrite (m_bind_ok _ _ w (tick 1 w) (default_on (date_at (ticks w)))).
  2:{ unfold today_iso, tick, date_at, default_on. m_run. cbn.
      world_tac. }
  destruct Hcases as [->|(v & -> & Hv)].
  - exists 2%nat. split; [|now left].
    rewrite (m_bind_ok _ _ _ (tick 2 w) (default_on (date_at (ticks w)))).
    + rewrite maybe_reset_default. world_tac.
    + unfold normalize_state, default_on, tick, fresh_daily, today_iso.
      m_run. cbn. world_tac.
  - exists 3%nat. split; [|now right].
    rewrite (m_bind_ok _ _ _ (tick 3 w)
               (default_on (date_at (S (ticks w))))).
    + rewrite maybe_reset_default. world_tac.
    + unfold normalize_state, default_on, tick, date_at, fresh_daily,
        today_iso.
      destruct v; try discriminate; m_run; cbn; world_tac.
Qed.

Lemma dict_get_setdefault_ne {V} (k k' : string) (v : V)
    (d : list (string * V)) :
  k <> k' -> dict_get k' (dict_setdefault k v d) = dict_get k' d.
Proof.
  intros H. unfold dict_setdefault.
  destruct (dict_get k d); [reflexivity|now apply dict_get_set_ne].
Qed.

Lemma dict_get_setdefault_eq {V} (k : string) (v : V) (d : list (string * V)) :
  dict_get k (dict_setdefault k v d)
  = Some (match dict_get k d with Some x => x | None => v end).
Proof.
  unfold dict_setdefault.
  destruct (dict_get k d) eqn:E; [exact E|apply dict_get_set_eq].
Qed.

Lemma dict_get_section_ne (k k' : string) (kv : list (string * json)) :
  k <> k' -> dict_get k' (dict_section k kv) = dict_get k' kv.
Proof.
  intros H. unfold dict_section.
  destruct (dict_get k kv) as [[]|]; try reflexivity;
    now apply dict_get_set_ne.
Qed.

Lemma dict_get_section_eq (k : string) (kv : list (string * json)) :
  dict_get k (dict_section k kv)
  = Some (match dict_get k kv with
          | Some (JDict b) => JDict b
          | _ => JDict []
          end).
Proof.
  unfold dict_section.
  destruct (dict_get k kv) as [[]|] eqn:E; try apply dict_get_set_eq.
  exact E.
Qed.

(** The daily section of a stored object, as normalization leaves it:
    kept when it is a dictionary, with the missing fields filled in. *)
Definition normalized_daily (stored : option json) (today : string)
  : list (string * json) :=
  match stored with
  | Some (JDict d) =>
      dict_setdefault "per_type" (JDict [])
        (dict_setdefault "total_used" (JInt 0)
           (dict_setdefault "date" (JStr today) d))
  | _ =>
      match fresh_daily today with JDict d => d | _ => [] end
  end.

Lemma normalize_state_object (kv : list (string * json)) (w : World) :
  exists kv' k,
    normalize_state (JDict kv) w = (Ok (JDict kv'), tick k w) /\
    (k = 1 \/ k = 2)%nat /\
    dict_get "daily" kv'
    = Some (JDict (normalized_daily (dict_get "daily" kv)
                     (date_at (ticks w)))) /\
    dict_get "breaker" kv'
    = Some (match dict_get "breaker" kv with
            | Some (JDict b) => JDict b
            | _ => JDict []
            end) /\
    dict_get "last_run" kv'
    = Some (match dict_get "last_run" kv with
            | Some (JDict b) => JDict b
            | _ => JDict []
            end) /\
    dict_get "schema_version" kv'
    = Some (match dict_get "schema_version" kv with
            | Some v => v
            | None => JInt 1
            end) /\
    (forall key, key <> "schema_version" -> key <> "daily" ->
                 key <> "breaker" -> key <> "last_run" ->
                 dict_get key kv' = dict_get key kv).
Proof.
  unfold normalize_state.
  set (kv1 := dict_setdefault "schema_version" (JInt 1) kv).
  assert (Hd : dict_get "daily" kv1 = dict_get "daily" kv)
    by (apply dict_get_setdefault_ne; discriminate).
  assert (Hfinal : forall kv2 today,
    let daily := dict_setdefault "per_type" (JDict [])
                   (dict_setdefault "total_used" (JInt 0)
                      (dict_setdefault "date" (JStr today)
                         match dict_get "daily" kv2 with
                         | Some (JDict d) => d
                         | _ => []
                         end)) in
    let kv' := dict_section "last_run"
                 (dict_section "breaker"
                    (dict_set "daily" (JDict daily) kv2)) in
    (forall key, key <> "daily" -> dict_get key kv2 = dict_get key kv1) ->
    dict_get "daily" kv' = Some (JDict daily) /\
    dict_get "breaker" kv'
    = Some (match dict_get "breaker" kv with
            | Some (JDict b) => JDict b
            | _ => JDict []
            end) /\
    dict_get "last_run" kv'
    = Some (match dict_get "last_run" kv with
            | Some (JDict b) => JDict b
            | _ => JDict []
            end) /\
    dict_get "schema_version" kv'
    = Some (match dict_get "schema_version" kv with
            | Some v => v
            | None => JInt 1
            end) /\
    (forall key, key <> "schema_version" -> key <> "daily" ->
                 key <> "breaker" -> key <> "last_run" ->
                 dict_get key kv' = dict_get key kv)).
  { intros kv2 today daily kv' H2. subst kv'.
    repeat split.
    - rewrite !dict_get_section_ne by discriminate. apply dict_get_set_eq.
    - rewrite dict_get_section_ne by discriminate.
      rewrite dict_get_section_eq, dict_get_set_ne by discriminate.
      rewrite H2 by discriminate. subst kv1.
      now rewrite dict_get_setdefault_ne by discriminate.
    - rewrite dict_get_section_eq, dict_get_section_ne by discriminate.
      rewrite dict_get_set_ne by discriminate.
      rewrite H2 by discriminate. subst kv1.
      now rewrite dict_get_setdefault_ne by discriminate.
    - rewrite !dict_get_section_ne, dict_get_set_ne by discriminate.
      rewrite H2 by discriminate. subst kv1.
      apply dict_get_setdefault_eq.
    - intros key H1 H3 H4 H5.
      rewrite !dict_get_section_ne, dict_get_set_ne by congruence.
      rewrite H2 by congruence. subst kv1.
      now apply dict_get_setdefault_ne. }
  assert (Hfresh : forall today,
            (forall d, dict_get "daily" kv <> Some (JDict d)) ->
            normalized_daily (dict_get "daily" kv) today
            = [("date", JStr today); ("total_used", JInt 0);
               ("per_type", JDict [])]).
  { intros today Hnd. unfold normalized_daily.
    destruct (dict_get "daily" kv) as [[]|]; try reflexivity.
    now destruct (Hnd kv0). }
  destruct (dict_get "daily" kv1) as [[| | | | | |d]|] eqn:E1.
  7:{ eexists _, 1%nat. m_run. unfold today_iso. m_run. cbn [trace ticks].
      split; [f_equal; world_tac|]. split; [now left|].
      destruct (Hfinal kv1 (date_at (ticks w))) as (F1 & F2); [reflexivity|].
      split; [|exact F2].
      unfold date_at in *. rewrite F1, E1, <- Hd. reflexivity. }
  all: eexists _, 2%nat; m_run; unfold today_iso; m_run; cbn [trace ticks];
    (split; [f_equal; world_tac|]); (split; [now right|]);
    destruct (Hfinal (dict_set "daily" (fresh_daily (date_at (ticks w))) kv1)
                (date_at (S (ticks w)))) as (F1 & F2);
      [intros key Hk; now apply dict_get_set_ne|];
    rewrite dict_get_set_eq in F1; cbn [fresh_daily] in F1;
    (split; [|exact F2]);
    unfold date_at in *; rewrite dict_get_set_eq; cbn [fresh_daily];
    rewrite F1, Hfresh by (intros d0 Hd0; rewrite Hd0 in Hd; discriminate Hd);
    reflexivity.
Qed.

(** The daily section a run starts from, when the state file holds an
    object: the normalized section when its date is today's, a fresh one
    otherwise.  [filled] is the date normalization fills in and [today]
    the date [maybe_reset_daily] reads. *)
Definition loaded_daily (stored : option json) (filled today : string) : json :=
  let nd := normalized_daily stored filled in
  if differs_from (get_or_null nd "date") today
  then fresh_daily today
  else JDict nd.

Lemma load_state_object (kv : list (string * json)) (w : World) :
  stored_object = Some kv ->
  exists kv' k,
    load_state w = (Ok (JDict kv'), tick (S k) w) /\
    (k = 2 \/ k = 3)%nat /\
    dict_get "daily" kv'
    = Some (loaded_daily (dict_get "daily" kv) (date_at (S (ticks w)))
              (date_at (ticks w + k))) /\
    dict_get "breaker" kv'
    = Some (match dict_get "breaker" kv with
            | Some (JDict b) => JDict b
            | _ => JDict []
            end) /\
    dict_get "last_run" kv'
    = Some (match dict_get "last_run" kv with
            | Some (JDict b) => JDict b
            | _ => JDict []
            end) /\
    dict_get "schema_version" kv'
    = Some (match dict_get "schema_version" kv with
            | Some v => v
            | None => JInt 1
            end) /\
    (forall key, key <> "schema_version" -> key <> "daily" ->
                 key <> "breaker" -> key <> "last_run" ->
                 dict_get key kv' = dict_get key kv).
Proof.
  unfold stored_object, load_state, default_state, read_json.
  intros Hso.
  rewrite (m_bind_ok _ _ w (tick 1 w) (default_on (date_at (ticks w)))).
  2:{ unfold today_iso, tick, date_at, default_on. m_run. cbn. world_tac. }
  destruct (state_file_content env) as [| |text]; try discriminate.
  destruct (loads text) as [[| | | | | |kv0]|]; try discriminate.
  injection Hso as ->.
  destruct (normalize_state_object kv (tick 1 w))
    as (kv1 & k & En & Hk & Hd & Hrest).
  rewrite (m_bind_ok _ _ _ _ _ En).
  cbn [tick ticks] in Hd.
  replace (ticks w + 1)%nat with (S (ticks w)) in Hd by lia.
  set (today := date_at (ticks (tick k (tick 1 w)))).
  set (nd := normalized_daily (dict_get "daily" kv) (date_at (S (ticks w)))) in *.
  assert (Hrun : maybe_reset_daily (JDict kv1) (tick k (tick 1 w))
                 = (Ok (if differs_from (get_or_null nd "date") today
                        then JDict (dict_set "daily" (fresh_daily today) kv1)
                        else JDict kv1), tick 1 (tick k (tick 1 w)))).
  { unfold maybe_reset_daily, today_iso. m_run. exc_cbn. rewrite Hd. exc_cbn.
    m_run. fold (date_at (ticks (tick k (tick 1 w)))). fold today.
    fold (get_or_null nd "date").
    destruct (differs_from _ today); exc_cbn; world_tac. }
  rewrite Hrun.
  assert (Htoday : today = date_at (ticks w + S k)).
  { subst today. apply date_at_eq. cbn. lia. }
  destruct Hrest as (Hb & Hl & Hsv & Hoth).
  exists (if differs_from (get_or_null nd "date") today
          then dict_set "daily" (fresh_daily today) kv1 else kv1), (S k).
  split; [destruct (differs_from _ today); world_tac|].
  split; [lia|]. rewrite <- Htoday.
  unfold loaded_daily. fold nd.
  destruct (differs_from (get_or_null nd "date") today).
  - rewrite dict_get_set_eq, !dict_get_set_ne by discriminate.
    repeat split; auto.
    intros key H1 H2 H3 H4. rewrite dict_get_set_ne by congruence. auto.
  - repeat split; auto.
Qed.

(** The state file holds no object: it is missing, cannot be read, or its
    text does not decode to a JSON object. *)
Definition no_stored_object : Prop :=
  match state_file_content env with
  | Missing | Unreadable => True
  | Content text => forall kv, loads text <> Ok (JDict kv)
  end.

Lemma stored_object_None : stored_object = None <-> no_stored_object.
Proof.
  unfold stored_object, no_stored_object.
  destruct (state_file_content env) as [| |text]; try tauto.
  destruct (loads text) as [[]|]; split; try discriminate; try reflexivity.
  intros H. now destruct (H kv).
Qed.

(** C10 (as amended).  Whatever the state file holds, loading the guard
    state never fails and has no effect but readings of the clock.  When
    the file is missing, cannot be read, is empty, is not valid JSON, or
    holds JSON that is not an object, the run starts from the default
    state: schema_version 1, today's date, total_used 0, empty per_type,
    empty breaker and last_run maps.  When the file holds an object, the
    run starts from that object repaired: a daily section that is a
    dictionary is kept, with its missing fields filled in, when its date
    is today's and replaced by a fresh one otherwise; a daily, breaker or
    last_run section that is missing or no dictionary is replaced by its
    default; schema_version is set to 1 when missing; every other entry is
    kept as stored. *)
Theorem load_state_never_fails (w : World) :
  exists st w',
    load_state w = (Ok st, w') /\
    trace w' = trace w /\
    (no_stored_object ->
     exists k, st = default_on (date_at (ticks w + k))) /\
    (forall kv, stored_object = Some kv ->
     exists kv' k,
       st = JDict kv' /\
       dict_get "daily" kv'
       = Some (loaded_daily (dict_get "daily" kv) (date_at (S (ticks w)))
                 (date_at (ticks w + k))) /\
       dict_get "breaker" kv'
       = Some (match dict_get "breaker" kv with
               | Some (JDict b) => JDict b
               | _ => JDict []
               end) /\
       dict_get "last_run" kv'
       = Some (match dict_get "last_run" kv with
               | Some (JDict b) => JDict b
               | _ => JDict []
               end) /\
       dict_get "schema_version" kv'
       = Some (match dict_get "schema_version" kv with
               | Some v => v
               | None => JInt 1
               end) /\
       (forall key, key <> "schema_version" -> key <> "daily" ->
                    key <> "breaker" -> key <> "last_run" ->
                    dict_get key kv' = dict_get key kv)).
Proof.
  destruct stored_object as [kv|] eqn:Eso.
  - destruct (load_state_object kv w Eso) as (kv' & k & E & _ & H).
    exists (JDict kv'), (tick (S k) w). split; [exact E|].
    split; [reflexivity|]. split.
    + intros Hno. apply stored_object_None in Hno. congruence.
    + intros kv0 [= <-]. exists kv', k. split; [reflexivity|exact H].
  - destruct (load_state_default w Eso) as (k & E & _).
    exists (default_on (date_at (ticks w + k))), (tick (S k) w).
    split; [exact E|]. split; [reflexivity|]. split.
    + intros _. now exists k.
    + discriminate.
Qed.

(** *** A failed preflight *)

(** A command that creates an artifact: [nlm <type> create ...], as
    [build_create_cmd] makes it. *)
Definition is_create (e : effect) : bool :=
  match e with
  | ERun (prog :: _ :: verb :: _) _ =>
      String.eqb prog "nlm" && String.eqb verb "create"
  | _ => false
  end.

Definition is_write (e : effect) : bool :=
  match e with
  | EWriteJson _ _ => true
  | _ => false
  end.

Definition version_cmd : list string := ["nlm"; "--version"].

Definition check_cmd (profile : string) : list string :=
  ["nlm"; "login"; "--check"; "--profile"; profile].

Definition source_list_cmd (notebook_id profile : string) : list string :=
  ["nlm"; "source"; "list"; notebook_id; "--json"; "--profile"; profile].

(** What the preflight does: it runs its three commands, through
    [run_nlm] for the last two, and nothing else. *)
Definition preflight_effect (notebook_id profile : string) (e : effect) : Prop :=
  nlm_effect version_cmd e \/ nlm_effect (check_cmd profile) e \/
  nlm_effect (source_list_cmd notebook_id profile) e.

Lemma create_cmd_is_create (artifact_type notebook_id : string)
    (source_ids : list string) (profile : string) (timeout : Z) :
  is_create (ERun (build_create_cmd artifact_type notebook_id source_ids profile)
               timeout) = true.
Proof. unfold build_create_cmd. now destruct source_ids. Qed.

Lemma preflight_effect_quiet (notebook_id profile : string) (e : effect) :
  preflight_effect notebook_id profile e ->
  is_create e = false /\ is_write e = false.
Proof.
  assert (Hlogin : forall c, (exists p, In c (login_cmds p)) ->
                             forall t, is_create (ERun c t) = false).
  { intros c (p & [<-|[<-|[]]]) t; reflexivity. }
  unfold preflight_effect, nlm_effect.
  destruct e as [c t| | | |]; cbn [is_write]; try tauto.
  intros [[->|H]|[[->|H]|[->|H]]]; split; try reflexivity;
    now apply Hlogin.
Qed.

Lemma load_source_ids_spec (notebook_id profile : string)
    (auto_refresh_auth : bool) (w : World) :
  exists r w',
    load_source_ids notebook_id profile auto_refresh_auth w = (Ok r, w') /\
    extends (nlm_effect (source_list_cmd notebook_id profile)) 0 w w'.
Proof.
  unfold load_source_ids.
  step_with (run_nlm_spec (source_list_cmd notebook_id profile) profile 120
               auto_refresh_auth w).
  destruct (negb _); eexists _, _; (split; [reflexivity|exact X]).
Qed.

Lemma now_iso_spec (w : World) :
  now_iso w = (Ok (isoformat (clock env (ticks w))),
               {| trace := trace w; ticks := S (ticks w) |}).
Proof. reflexivity. Qed.

(** The reasons a preflight fails with. *)
Definition preflight_reasons : list string :=
  ["nlm_not_available"; "auth_required"; "source_list_failed"; "no_sources"].

(** The preflight always returns; it runs no create command and writes no
    file; a failed one reports a reason and a detail text. *)
Lemma preflight_spec (notebook_id profile : string) (source_ids : list string)
    (auto_refresh_auth : bool) (w : World) :
  exists ok report w',
    preflight notebook_id profile source_ids auto_refresh_auth w
    = (Ok (ok, JDict report), w') /\
    extends (preflight_effect notebook_id profile) 1 w w' /\
    dict_get "ok" report = Some (JBool ok) /\
    (ok = false ->
     exists reason detail,
       In reason preflight_reasons /\
       dict_get "reason" report = Some (JStr reason) /\
       dict_get "detail" report = Some (JStr detail)).
Proof.
  unfold preflight.
  set (w0 := {| trace := trace w; ticks := S (ticks w) |}).
  rewrite (m_bind_ok _ _ _ _ _ (now_iso_spec w)). fold w0.
  assert (X0 : extends (preflight_effect notebook_id profile) 1 w w0)
    by (exists []; repeat split; [constructor|cbn; lia]).
  assert (Hfail : forall reason detail w',
            In reason preflight_reasons ->
            extends (preflight_effect notebook_id profile) 0 w0 w' ->
            exists ok report w'',
              (Ok (false,
                   report_failure
                     [("checked_at", JStr (isoformat (clock env (ticks w))));
                      ("ok", JBool false)] reason detail), w')
              = (Ok (ok, JDict report), w'') /\
              extends (preflight_effect notebook_id profile) 1 w w'' /\
              dict_get "ok" report = Some (JBool ok) /\
              (ok = false ->
               exists reason detail,
                 In reason preflight_reasons /\
                 dict_get "reason" report = Some (JStr reason) /\
                 dict_get "detail" report = Some (JStr detail))).
  { intros reason detail w' Hin Hw'. eexists _, _, _.
    split; [reflexivity|].
    split; [apply (extends_trans _ 1 0 _ _ _ X0 Hw')|].
    split.
    - rewrite !dict_get_set_ne by discriminate. reflexivity.
    - intros _. exists reason, detail. split; [exact Hin|].
      split; [|apply dict_get_set_eq].
      rewrite dict_get_set_ne by discriminate. apply dict_get_set_eq. }
  step_with (run_spec version_cmd 30 w0).
  assert (X1 : extends (preflight_effect notebook_id profile) 0 w0 w1)
    by (eapply extends_weaken; [|exact X]; intros e He; now left).
  destruct (negb (returncode x =? 0)).
  { apply Hfail; [cbn; auto|exact X1]. }
  step_with (run_nlm_spec (check_cmd profile) profile 90 auto_refresh_auth w1).
  assert (X3 : extends (preflight_effect notebook_id profile) 0 w0 w2).
  { apply (extends_trans _ 0 0 _ _ _ X1).
    eapply extends_weaken; [|exact X2]. intros e He. right. now left. }
  destruct (negb (returncode x0 =? 0)).
  { apply Hfail; [cbn; auto|exact X3]. }
  assert (Hids : forall (ids : list string) w',
            extends (preflight_effect notebook_id profile) 0 w0 w' ->
            exists ok report w'',
              (match ids with
               | [] => mret (false, report_failure
                                      [("checked_at", JStr (isoformat (clock env (ticks w))));
                                       ("ok", JBool false)]
                                      "no_sources" "Notebook has no sources.")
               | _ => mret (true,
                            JDict (dict_set "resolved_source_count"
                                     (JInt (Z.of_nat (length ids)))
                                     (dict_set "ok" (JBool true)
                                        [("checked_at", JStr (isoformat (clock env (ticks w))));
                                         ("ok", JBool false)])))
               end : M (bool * json)) w'
              = (Ok (ok, JDict report), w'') /\
              extends (preflight_effect notebook_id profile) 1 w w'' /\
              dict_get "ok" report = Some (JBool ok) /\
              (ok = false ->
               exists reason detail,
                 In reason preflight_reasons /\
                 dict_get "reason" report = Some (JStr reason) /\
                 dict_get "detail" report = Some (JStr detail))).
  { intros ids w' Hw'. destruct ids as [|i ids].
    - apply Hfail; [cbn; auto|exact Hw'].
    - eexists _, _, _. split; [reflexivity|].
      split; [apply (extends_trans _ 1 0 _ _ _ X0 Hw')|].
      split; [reflexivity|discriminate]. }
  match goal with
  | |- context [(?m ≫= _) w2] =>
      assert (Hl : exists listed w3,
                 m w2 = (Ok listed, w3) /\
                 extends (preflight_effect notebook_id profile) 0 w0 w3)
  end.
  { destruct source_ids as [|s0 source_ids].
    - step_with (load_source_ids_spec notebook_id profile auto_refresh_auth w2).
      destruct x1 as [ids err]. eexists _, _. split; [reflexivity|].
      apply (extends_trans _ 0 0 _ _ _ X3).
      eapply extends_weaken; [|exact X4]. intros e He. right. now right.
    - eexists _, _. split; [reflexivity|exact X3]. }
  destruct Hl as (listed & w3 & El & X5).
  rewrite (m_bind_ok _ _ _ _ _ El).
  destruct listed as [ids|err].
  - apply Hids, X5.
  - apply Hfail; [cbn; auto|exact X5].
Qed.

(** The state a run starts from is a dictionary. *)
Lemma load_state_dict (w : World) :
  exists kv k, load_state w = (Ok (JDict kv), tick (S k) w).
Proof.
  destruct stored_object as [kv|] eqn:Eso.
  - destruct (load_state_object kv w Eso) as (kv' & k & E & _).
    now exists kv', k.
  - destruct (load_state_default w Eso) as (k & E & _).
    unfold default_on in E. eexists _, k. exact E.
Qed.

(** C5.  A run whose preflight fails ends normally.  It prints a summary
    with status failed_preflight that carries the report of the preflight,
    in which there is a reason and a detail text.  It writes the guard
    state once, with last_run.status equal to failed_preflight, and with
    the daily section of the state the run started from: total_used and
    the counter of every artifact type are the ones that were loaded.
    None of the commands it runs creates an artifact. *)
Theorem failed_preflight_consumes_nothing (args : Args) (w w1 w2 : World)
    (st report : json) :
  load_state w = (Ok st, w1) ->
  preflight (notebook_id args) (profile args)
    (parse_csv_ids (source_ids args)) (negb (no_auto_refresh_auth args)) w1
  = (Ok (false, report), w2) ->
  exists report_kv reason detail persisted added w',
    report = JDict report_kv /\
    dict_get "reason" report_kv = Some (JStr reason) /\
    dict_get "detail" report_kv = Some (JStr detail) /\
    main args w = (Ok tt, w') /\
    trace w'
    = (EPrint (JDict [("status", JStr "failed_preflight");
                      ("preflight", report);
                      ("state_file", JStr (state_file args));
                      ("events_file", JStr (events_file args))])
       :: EWriteJson (state_file args) persisted
       :: added ++ trace w)%list /\
    Forall (fun e => is_create e = false /\ is_write e = false) added /\
    (last_run ← py_item persisted "last_run"; py_item last_run "status")
    = Ok (JStr "failed_preflight") /\
    py_item persisted "daily" = py_item st "daily" /\
    total_used persisted = total_used st /\
    (forall artifact_type,
       type_used persisted artifact_type = type_used st artifact_type).
Proof.
  intros Hload Hpre.
  destruct (load_state_dict w) as (kv & k & Hkv).
  rewrite Hkv in Hload. injection Hload as <- <-.
  destruct (preflight_spec (notebook_id args) (profile args)
              (parse_csv_ids (source_ids args))
              (negb (no_auto_refresh_auth args)) (tick (S k) w))
    as (ok & report_kv & w2' & Hp & (a & Ha & Fa & Ta) & _ & Hr).
  rewrite Hp in Hpre. injection Hpre as -> <- <-.
  destruct (Hr eq_refl) as (reason & detail & _ & Hreason & Hdetail).
  exists report_kv, reason, detail.
  unfold main.
  rewrite (m_bind_ok _ _ _ _ _ Hkv), (m_bind_ok _ _ _ _ _ Hp).
  m_run. exc_cbn. m_run. cbn [trace ticks negb].
  eexists _, (EAppendJsonl _ _ :: a)%list, _.
  split; [reflexivity|]. split; [exact Hreason|]. split; [exact Hdetail|].
  split; [reflexivity|].
  split; [cbn [trace app]; rewrite Ha; reflexivity|].
  split.
  { constructor; [split; reflexivity|].
    eapply Forall_impl; [exact Fa|].
    intros e He. eapply preflight_effect_quiet, He. }
  unfold total_used, type_used. exc_cbn.
  rewrite dict_get_set_eq, !dict_get_set_ne by discriminate.
  cbn. repeat split; reflexivity.
Qed.

(** *** The vocabulary of statuses *)

(** The four words of the canonical vocabulary. *)
Definition canonical : list string :=
  ["completed"; "failed"; "in_progress"; "unknown"].

(** The texts that normalize into the canonical vocabulary: the five
    synonyms and the four words themselves. *)
Definition canonical_texts : list string :=
  ["complete"; "success"; "succeeded"; "in progress"; "running";
   "completed"; "failed"; "in_progress"; "unknown"].

(** A status polling stops on. *)
Definition terminal (status : string) : bool :=
  mem status SUCCESS_STATES || mem status FAIL_STATES.

Lemma mem_In (x : string) (l : list string) : mem x l = true <-> In x l.
Proof.
  unfold mem. rewrite existsb_exists. split.
  - intros (y & Hy & ->%String.eqb_eq). exact Hy.
  - intros H. exists x. split; [exact H|apply String.eqb_refl].
Qed.

Lemma normalize_status_int (z : Z) :
  normalize_status (JInt z)
  = if z =? 1 then "in_progress"
    else if z =? 3 then "completed"
    else if z =? 4 then "failed"
    else str_of_Z z.
Proof.
  unfold normalize_status, STATUS_MAP. cbn [status_map_get py_str].
  now destruct (z =? 1), (z =? 3), (z =? 4).
Qed.

(** The decimal text of an integer is no word of the vocabulary. *)
Lemma str_of_Z_not_canonical (z : Z) : mem (str_of_Z z) canonical = false.
Proof.
  unfold str_of_Z. destruct (Z.to_int z) as [d|d]; cbn [NilZero.string_of_int].
  - now destruct d.
  - reflexivity.
Qed.

Lemma normalize_status_text (s : string) :
  normalize_status (JStr s)
  = let text := lower (strip s) in
    if mem text ["complete"; "success"; "succeeded"] then "completed"
    else if mem text ["in progress"; "running"] then "in_progress"
    else text.
Proof.
  unfold normalize_status, status_alias, mem. cbn [py_str dict_get existsb].
  cbv zeta.
  destruct (String.eqb_spec (lower (strip s)) "complete"); [reflexivity|].
  destruct (String.eqb_spec (lower (strip s)) "success"); [reflexivity|].
  destruct (String.eqb_spec (lower (strip s)) "succeeded"); [reflexivity|].
  destruct (String.eqb_spec (lower (strip s)) "in progress"); [reflexivity|].
  destruct (String.eqb_spec (lower (strip s)) "running"); reflexivity.
Qed.

Lemma normalize_status_text_canonical (s : string) :
  mem (normalize_status (JStr s)) canonical
  = mem (lower (strip s)) canonical_texts.
Proof.
  rewrite normalize_status_text. cbv zeta.
  unfold mem, canonical, canonical_texts. cbn [existsb].
  destruct (String.eqb_spec (lower (strip s)) "complete") as [->|]; [reflexivity|].
  destruct (String.eqb_spec (lower (strip s)) "success") as [->|]; [reflexivity|].
  destruct (String.eqb_spec (lower (strip s)) "succeeded") as [->|]; [reflexivity|].
  destruct (String.eqb_spec (lower (strip s)) "in progress") as [->|]; [reflexivity|].
  destruct (String.eqb_spec (lower (strip s)) "running") as [->|]; reflexivity.
Qed.

(** The row [find_artifact_row] finds is a dictionary that is not empty. *)
Lemma find_artifact_row_dict (rows : list json) (artifact_id : string)
    (row : json) :
  find_artifact_row rows artifact_id = Some row ->
  exists kv, row = JDict kv /\ truthy row = true /\ In row rows.
Proof.
  induction rows as [|r rows IH]; [discriminate|].
  cbn [find_artifact_row].
  assert (Hrest : find_artifact_row rows artifact_id = Some row ->
                  exists kv, row = JDict kv /\ truthy row = true /\
                             In row (r :: rows)).
  { intros H. destruct (IH H) as (kv & ? & ? & ?). exists kv.
    repeat split; auto. now right. }
  destruct r as [| | | | | |kv]; try exact Hrest.
  destruct (py_or (get_or_null kv "id") (get_or_null kv "artifact_id"))
    as [| | | |rid| |] eqn:Eid; try exact Hrest.
  destruct (String.eqb rid artifact_id); [|exact Hrest].
  intros [= <-]. exists kv. split; [reflexivity|]. split; [|now left].
  destruct kv; [discriminate Eid|reflexivity].
Qed.

(** One poll that reads the rows: it ends the polling when the status of
    the row of the artifact is terminal, and otherwise sleeps and polls
    again, unless it was the last one. *)
Lemma poll_loop_step (notebook_id artifact_id profile : string)
    (poll_seconds : Z) (auto_refresh_auth : bool) (polls_left : nat)
    (last_status : string) (w w0 : World) (rows : list json)
    (err : option string) (kv : list (string * json)) :
  load_studio_rows notebook_id profile auto_refresh_auth w
  = (Ok (rows, err), w0) ->
  is_err err = false ->
  find_artifact_row rows artifact_id = Some (JDict kv) ->
  poll_loop notebook_id artifact_id profile poll_seconds auto_refresh_auth
    (S polls_left) last_status w
  = if mem (row_status kv) SUCCESS_STATES
    then (Ok ("completed", None, Some (JDict kv)), w0)
    else if mem (row_status kv) FAIL_STATES
         then (Ok ("failed", None, Some (JDict kv)), w0)
         else (_ ← sleep poll_seconds;
               poll_loop notebook_id artifact_id profile poll_seconds
                 auto_refresh_auth polls_left (row_status kv)) w0.
Proof.
  intros Hrows Herr Hrow. cbn [poll_loop].
  rewrite (m_bind_ok _ _ _ _ _ Hrows), Herr, Hrow.
  destruct (find_artifact_row_dict _ _ _ Hrow) as (kv' & _ & -> & _).
  cbn [negb]. fold (row_status kv).
  destruct (mem (row_status kv) SUCCESS_STATES); [reflexivity|].
  destruct (mem (row_status kv) FAIL_STATES); reflexivity.
Qed.

(** A poll that does not read the row of the artifact goes on. *)
Lemma poll_loop_skip (notebook_id artifact_id profile : string)
    (poll_seconds : Z) (auto_refresh_auth : bool) (polls_left : nat)
    (last_status : string) (w w0 : World) (rows : list json)
    (err : option string) :
  load_studio_rows notebook_id profile auto_refresh_auth w
  = (Ok (rows, err), w0) ->
  is_err err = true \/ find_artifact_row rows artifact_id = None ->
  poll_loop notebook_id artifact_id profile poll_seconds auto_refresh_auth
    (S polls_left) last_status w
  = (_ ← sleep poll_seconds;
     poll_loop notebook_id artifact_id profile poll_seconds
       auto_refresh_auth polls_left last_status) w0.
Proof.
  intros Hrows H. cbn [poll_loop]. rewrite (m_bind_ok _ _ _ _ _ Hrows).
  destruct (is_err err); [reflexivity|].
  destruct H as [H| ->]; [discriminate H|reflexivity].
Qed.

(** C9 (as amended).  Status normalization maps an absent value to
    unknown; the numeric codes 1, 3 and 4 to in_progress, completed and
    failed, and every other integer to its decimal text, which is no word
    of the vocabulary completed, failed, in_progress, unknown; a text,
    trimmed and lowercased, to completed when it is complete, success or
    succeeded, to in_progress when it is in progress or running, and to
    itself otherwise, so that it lands in the vocabulary only for the five
    synonyms and the four words.  Polling with a sleep length that is not
    negative always ends: with completed on a row whose normalized status
    is one of completed, done, ready, succeeded; with failed on a row
    whose normalized status is failed or error; or with timeout once all
    the polls are made.  A poll that reads the row of the artifact stops
    there when its normalized status is one of these six, and sleeps and
    polls again otherwise. *)
Theorem normalize_status_and_polling :
  normalize_status JNull = "unknown" /\
  (forall z,
     normalize_status (JInt z)
     = (if z =? 1 then "in_progress"
        else if z =? 3 then "completed"
        else if z =? 4 then "failed"
        else str_of_Z z) /\
     (mem (normalize_status (JInt z)) canonical = true
      <-> z = 1 \/ z = 3 \/ z = 4)) /\
  (forall s,
     normalize_status (JStr s)
     = (let text := lower (strip s) in
        if mem text ["complete"; "success"; "succeeded"] then "completed"
        else if mem text ["in progress"; "running"] then "in_progress"
        else text) /\
     mem (normalize_status (JStr s)) canonical
     = mem (lower (strip s)) canonical_texts) /\
  (forall notebook_id artifact_id profile poll_seconds max_polls
          auto_refresh_auth w,
     0 <= poll_seconds ->
     exists r w',
       poll_artifact_status notebook_id artifact_id profile poll_seconds
         max_polls auto_refresh_auth w = (Ok r, w') /\
       poll_end r) /\
  (forall notebook_id artifact_id profile poll_seconds auto_refresh_auth
          polls_left last_status w w0 rows err kv,
     load_studio_rows notebook_id profile auto_refresh_auth w
     = (Ok (rows, err), w0) ->
     is_err err = false ->
     find_artifact_row rows artifact_id = Some (JDict kv) ->
     let poll := poll_loop notebook_id artifact_id profile poll_seconds
                   auto_refresh_auth in
     (terminal (row_status kv) = true ->
      poll (S polls_left) last_status w
      = (Ok (if mem (row_status kv) SUCCESS_STATES then "completed"
             else "failed", None, Some (JDict kv)), w0)) /\
     (terminal (row_status kv) = false ->
      poll (S polls_left) last_status w
      = (_ ← sleep poll_seconds; poll polls_left (row_status kv)) w0)).
Proof.
  split; [reflexivity|]. split; [|split; [|split]].
  - intros z. split; [apply normalize_status_int|].
    rewrite normalize_status_int.
    destruct (Z.eqb_spec z 1) as [->|H1]; [cbn; tauto|].
    destruct (Z.eqb_spec z 3) as [->|H3]; [cbn; tauto|].
    destruct (Z.eqb_spec z 4) as [->|H4]; [cbn; tauto|].
    rewrite str_of_Z_not_canonical. split; [discriminate|tauto].
  - intros s. split; [apply normalize_status_text|].
    apply normalize_status_text_canonical.
  - intros notebook_id artifact_id profile poll_seconds max_polls
      auto_refresh_auth w Hs.
    destruct (poll_loop_spec notebook_id artifact_id profile poll_seconds
                auto_refresh_auth (Z.to_nat max_polls) Hs "unknown" w)
      as (r & w' & E & Hr & _).
    exists r, w'. split; [exact E|exact Hr].
  - intros notebook_id artifact_id profile poll_seconds auto_refresh_auth
      polls_left last_status w w0 rows err kv Hrows Herr Hrow poll.
    unfold poll, terminal.
    rewrite (poll_loop_step _ _ _ poll_seconds _ polls_left last_status
               _ _ _ _ _ Hrows Herr Hrow).
    destruct (mem (row_status kv) SUCCESS_STATES); cbn [orb].
    + split; [reflexivity|discriminate].
    + destruct (mem (row_status kv) FAIL_STATES).
      * split; [reflexivity|discriminate].
      * split; [discriminate|reflexivity].
Qed.

(** ** Further properties of the guard *)

(** *** The budget is never exceeded *)

(** The counters of a state are within the budgets that limit: a positive
    total budget and the per-type limits that are not negative. *)
Definition within_budget (total : Z) (budget : list (string * Z))
    (st : json) : Prop :=
  (0 < total -> exists u, total_used st = Ok u /\ u <= total) /\
  (forall T l, dict_get T budget = Some l -> 0 <= l ->
               exists ut, type_used st T = Ok ut /\ ut <= l).

Lemma attempt_type_within_budget (args : Args) (source_ids : list string)
    (budget : list (string * Z)) (pr : Progress) (artifact_type : string)
    (w : World) :
  wf_state (state pr) = true ->
  0 <= poll_seconds args ->
  within_budget (daily_budget_total args) budget (state pr) ->
  exists pr' w',
    attempt_type args source_ids budget pr artifact_type w = (Ok pr', w') /\
    wf_state (state pr') = true /\
    within_budget (daily_budget_total args) budget (state pr').
Proof.
  intros Hwf Hs [Htot Hty].
  destruct (attempt_type_spec args source_ids budget pr artifact_type w Hwf Hs)
    as (pr' & w' & allow & open_now & r1 & r2 & E & Hb & _ & Hcase).
  exists pr', w'. split; [exact E|].
  destruct allow; cbn [andb] in Hcase; cycle 1.
  { destruct Hcase as (-> & _). split; [exact Hwf|]. split; assumption. }
  destruct (negb open_now); cycle 1.
  { destruct Hcase as (-> & _). split; [exact Hwf|]. split; assumption. }
  destruct Hcase as ((Hwf' & _) & u & ut & Hu & Hu' & Hut & Hut' & Hoth).
  split; [exact Hwf'|].
  destruct (budget_allowed_spec _ artifact_type (daily_budget_total args)
              budget u ut Hu Hut) as [r Hb'].
  rewrite Hb' in Hb. injection Hb as Hg _.
  apply gate_iff in Hg as [Hg1 Hg2].
  split.
  - intros Hpos. exists (u + 1). split; [exact Hu'|]. lia.
  - intros T l HT Hl.
    destruct (String.eqb_spec T artifact_type) as [->|Hne].
    + exists (ut + 1). split; [exact Hut'|].
      destruct Hg2 as [Hn|(l' & Hl' & Hlt)]; [congruence|].
      rewrite HT in Hl'. injection Hl' as <-. lia.
    + rewrite (Hoth T Hne). now apply Hty.
Qed.

(** X7.  Whatever the plan and whatever the commands answer, the plan loop
    leaves the counters within the budget when it found them there: a
    positive [daily_budget_total] bounds [total_used], and a per-type limit
    that is not negative bounds the counter of its type. *)
Theorem run_plan_within_budget (args : Args) (source_ids : list string)
    (budget : list (string * Z)) (plan : list string) :
  0 <= poll_seconds args ->
  forall (pr : Progress) (w : World),
    wf_state (state pr) = true ->
    within_budget (daily_budget_total args) budget (state pr) ->
    exists pr' w',
      run_plan args source_ids budget plan pr w = (Ok pr', w') /\
      within_budget (daily_budget_total args) budget (state pr').
Proof.
  intros Hs. induction plan as [|T rest IH]; intros pr w Hwf Hin.
  - exists pr, w. split; [reflexivity|exact Hin].
  - rewrite run_plan_cons. destruct (quota_reached args pr).
    + exists pr, w. split; [reflexivity|exact Hin].
    + destruct (attempt_type_within_budget args source_ids budget pr T w
                  Hwf Hs Hin) as (pr1 & w1 & E & Hwf1 & Hin1).
      rewrite (m_bind_ok _ _ _ _ _ E). now apply IH.
Qed.

(** *** Failures in a row *)

Lemma record_failures_frame (artifact_type : string)
    (threshold open_minutes : Z) (k : nat) :
  forall (st : json) (w : World),
    wf_state st = true ->
    exists st' w',
      record_failures k st artifact_type threshold open_minutes w
      = (Ok st', w') /\
      (forall T, T <> artifact_type ->
                 breaker_entry st' T = breaker_entry st T) /\
      same_budget st st'.
Proof.
  induction k as [|k IH]; intros st w Hwf.
  - exists st, w. split; [reflexivity|]. split; [reflexivity|].
    apply same_budget_refl.
  - destruct (failures_of_wf st artifact_type Hwf) as [n Hn].
    destruct (breaker_record_failure_spec st artifact_type threshold
                open_minutes n w Hwf Hn)
      as (st1 & E1 & Hwf1 & _ & _ & Hoth1 & Ht1 & Hty1).
    destruct (IH st1 (tick (if opens threshold (n + 1) then 2 else 1) w) Hwf1)
      as (st' & w' & E & Hoth & Ht & Hty).
    exists st', w'. rewrite record_failures_S, (m_bind_ok _ _ _ _ _ E1).
    split; [exact E|]. split.
    + intros T HT. now rewrite Hoth, Hoth1.
    + split; [now rewrite Ht|]. intros T. now rewrite Hty.
Qed.

(** X8.  Any number of failures of a type recorded in a row, from any counter:
    the counter grows by that number; [open_until] is set, to the instant
    of the last failure plus [open_minutes], exactly when the threshold is
    positive and the counter has reached it; so a threshold of zero or
    less never opens the breaker, and each failure past the threshold
    opens it anew.  The entries of the other types and the budget counters
    stay as they are. *)
Theorem failures_in_a_row (artifact_type : string)
    (threshold open_minutes : Z) (k : nat) (st : json) (w : World) (n0 : Z) :
  wf_state st = true ->
  failures_of st artifact_type = Ok n0 ->
  exists st' w',
    record_failures (S k) st artifact_type threshold open_minutes w
    = (Ok st', w') /\
    failures_of st' artifact_type = Ok (n0 + Z.of_nat (S k)) /\
    open_until_of st' artifact_type
    = (if (0 <? threshold) && (threshold <=? n0 + Z.of_nat (S k))
       then Ok (JStr (isoformat (clock env (ticks w' - 1)
                                 + minutes_us open_minutes)))
       else open_until_of st artifact_type) /\
    (forall T, T <> artifact_type ->
               breaker_entry st' T = breaker_entry st T) /\
    total_used st' = total_used st /\
    (forall T, type_used st' T = type_used st T).
Proof.
  intros Hwf Hn.
  destruct (record_failures_spec artifact_type threshold open_minutes k
              st w n0 Hwf Hn) as (st' & w' & E & _ & _ & Hn' & Hou).
  destruct (record_failures_frame artifact_type threshold open_minutes (S k)
              st w Hwf) as (st2 & w2 & E2 & Hoth & Ht & Hty).
  rewrite E in E2. injection E2 as <- <-.
  exists st', w'. split; [exact E|]. split; [exact Hn'|].
  split; [exact Hou|]. split; [exact Hoth|]. split; [exact Ht|exact Hty].
Qed.

(** *** The verdict of the breaker *)

(** X9.  The breaker of a type is open at an instant exactly when its stored
    [open_until] is a text that is not empty, that [fromisoformat] reads,
    and that lies after the instant; the reason then tells the whole
    seconds left.  A missing entry, a missing, null or unreadable
    [open_until] give a closed breaker, never an exception. *)
Theorem breaker_status_verdict (st : json) (artifact_type : string)
    (w : World) :
  wf_state st = true ->
  exists open_until,
    open_until_of st artifact_type = Ok open_until /\
    breaker_status st artifact_type w
    = (Ok (match open_until with
           | JStr text =>
               match fromisoformat text with
               | Some dt =>
                   let now := clock env (ticks w) in
                   if nonempty text && (now <? dt_instant dt)
                   then (true,
                         Some ("breaker_open_"
                               ++ str_of_Z ((dt_instant dt - now) / 1000000)
                               ++ "s"))
                   else (false, None)
               | None => (false, None)
               end
           | _ => (false, None)
           end), tick 1 w).
Proof.
  intros Hwf.
  destruct (breaker_entry_wf st artifact_type Hwf) as [be Hbe].
  rewrite breaker_status_spec.
  unfold open_until_of, breaker_status_at. rewrite Hbe. exc_cbn.
  eexists. split; [reflexivity|]. f_equal.
  destruct (match dict_get "open_until" be with
            | Some v => v
            | None => JNull
            end) as [|b|z|lit|text|l|d]; cbn [truthy negb].
  - reflexivity.
  - now destruct b.
  - now destruct (negb (z =? 0)).
  - now destruct (float_truthy lit).
  - destruct (nonempty text); cbn [negb andb].
    + destruct (fromisoformat text) as [dt|]; [|reflexivity].
      now destruct (clock env (ticks w) <? dt_instant dt).
    + now destruct (fromisoformat text).
  - now destruct l.
  - now destruct d.
Qed.

(** *** The retries of [run_nlm] *)

Definition is_run (e : effect) : bool :=
  match e with ERun _ _ => true | _ => false end.

Definition is_sleep (e : effect) : bool :=
  match e with ESleep _ => true | _ => false end.

(** [w'] is [w] after the effects [added] (latest first), the clock not
    read. *)
Definition grows (added : list effect) (w w' : World) : Prop :=
  w' = {| trace := (added ++ trace w)%list; ticks := ticks w |}.

(** The sleeps of [m] retries in a row from the loop index [i], latest
    first: 2 (i + 1) seconds, then 2 (i + 2) seconds, and so on. *)
Fixpoint sleeps_from (i : Z) (m : nat) : list effect :=
  match m with
  | O => []
  | S m' => (sleeps_from (i + 1) m' ++ [ESleep (2 * (i + 1))])%list
  end.

Lemma grows_refl (w : World) : grows [] w w.
Proof. unfold grows. now destruct w. Qed.

Lemma grows_trans (a1 a2 : list effect) (w1 w2 w3 : World) :
  grows a1 w1 w2 -> grows a2 w2 w3 -> grows (a2 ++ a1) w1 w3.
Proof.
  unfold grows. intros -> ->. cbn [trace ticks]. now rewrite app_assoc.
Qed.

Lemma run_grows (cmd : list string) (timeout : Z) (w : World) :
  exists w',
    run cmd timeout w = (Ok (respond env (trace w) cmd), w') /\
    grows [ERun cmd timeout] w w'.
Proof. eexists. split; reflexivity. Qed.

Lemma filter_app_length {A} (f : A -> bool) (l1 l2 : list A) :
  length (List.filter f (l1 ++ l2))
  = (length (List.filter f l1) + length (List.filter f l2))%nat.
Proof. now rewrite List.filter_app, length_app. Qed.

(** The login refresh and the second run it may allow: at most three
    commands, no sleep; nothing at all when the refresh is off. *)
Lemma retry_after_login_grows (cmd : list string) (profile : string)
    (timeout : Z) (auto_refresh_auth : bool) (p : CompletedProcess)
    (w : World) :
  exists r added w',
    retry_after_login cmd profile timeout auto_refresh_auth p w = (Ok r, w') /\
    grows added w w' /\
    (length (List.filter is_run added) <= 3)%nat /\
    List.filter is_sleep added = [] /\
    (auto_refresh_auth && _is_auth_error p = false -> added = [] /\ r = None).
Proof.
  unfold retry_after_login.
  destruct (auto_refresh_auth && _is_auth_error p).
  - unfold refresh_auth_from_cdp, run. m_run. cbn [trace ticks].
    destruct (negb (returncode _ =? 0)).
    + eexists _, [_], _. split; [reflexivity|]. split; [reflexivity|].
      split; [cbn; lia|]. split; [reflexivity|discriminate].
    + m_run. cbn [trace ticks].
      destruct (returncode _ =? 0).
      * eexists _, [_; _; _], _. split; [reflexivity|].
        split; [reflexivity|]. split; [cbn; lia|].
        split; [reflexivity|discriminate].
      * eexists _, [_; _], _. split; [reflexivity|].
        split; [reflexivity|]. split; [cbn; lia|].
        split; [reflexivity|discriminate].
  - exists None, [], w. split; [reflexivity|]. split; [apply grows_refl|].
    split; [cbn; lia|]. split; [reflexivity|tauto].
Qed.

Lemma sleep_grows (seconds : Z) (w : World) :
  0 <= seconds ->
  exists w', sleep seconds w = (Ok tt, w') /\ grows [ESleep seconds] w w'.
Proof.
  intros H. unfold sleep. destruct (Z.ltb_spec seconds 0); [lia|].
  eexists. split; reflexivity.
Qed.

Lemma run_nlm_loop_bounded (cmd : list string) (profile : string)
    (timeout : Z) (auto_refresh_auth : bool) (remaining : nat) :
  forall (i : Z) (last : option CompletedProcess) (w : World),
    0 <= i ->
    (remaining = O -> last <> None) ->
    exists p added w' m,
      run_nlm_loop cmd profile timeout 3 auto_refresh_auth remaining i last w
      = (Ok p, w') /\
      grows added w w' /\
      (length (List.filter is_run added) <= 4 * remaining)%nat /\
      (auto_refresh_auth = false ->
       Forall (fun e => e = ERun cmd timeout \/ is_sleep e = true) added /\
       (length (List.filter is_run added) <= remaining)%nat) /\
      (m <= remaining)%nat /\ Z.of_nat m <= Z.max 0 (2 - i) /\
      List.filter is_sleep added = sleeps_from i m /\
      (remaining <> O -> exists rest, added = (rest ++ [ERun cmd timeout])%list).
Proof.
  induction remaining as [|remaining IH]; intros i last w Hi Hlast.
  - destruct last as [p|]; [|now destruct Hlast].
    exists p, [], w, 0%nat. split; [reflexivity|].
    split; [apply grows_refl|]. split; [cbn; lia|].
    split; [intros _; split; [constructor|cbn; lia]|].
    split; [lia|]. split; [lia|]. split; [reflexivity|]. now intros [].
  - cbn [run_nlm_loop].
    destruct (run_grows cmd timeout w) as (w1 & E1 & G1).
    rewrite (m_bind_ok _ _ _ _ _ E1).
    set (p := respond env (trace w) cmd) in *.
    assert (Hstop : forall (r : CompletedProcess) added1 w2,
              grows added1 w1 w2 ->
              (length (List.filter is_run added1) <= 3)%nat ->
              List.filter is_sleep added1 = [] ->
              (auto_refresh_auth = false -> added1 = []) ->
              exists p' added w' m,
                ((Ok r, w2) : Exc CompletedProcess * World) = (Ok p', w') /\
                grows added w w' /\
                (length (List.filter is_run added) <= 4 * S remaining)%nat /\
                (auto_refresh_auth = false ->
                 Forall (fun e => e = ERun cmd timeout \/ is_sleep e = true)
                   added /\
                 (length (List.filter is_run added) <= S remaining)%nat) /\
                (m <= S remaining)%nat /\ Z.of_nat m <= Z.max 0 (2 - i) /\
                List.filter is_sleep added = sleeps_from i m /\
                (S remaining <> O ->
                 exists rest, added = (rest ++ [ERun cmd timeout])%list)).
    { intros r added1 w2 G2 Hr Hsl Hoff.
      exists r, (added1 ++ [ERun cmd timeout])%list, w2, 0%nat.
      split; [reflexivity|]. split; [apply (grows_trans _ _ _ _ _ G1 G2)|].
      split; [rewrite filter_app_length; cbn; lia|].
      split.
      { intros Hf. rewrite (Hoff Hf). cbn. split; [|lia].
        constructor; [now left|constructor]. }
      split; [lia|]. split; [lia|].
      split; [rewrite List.filter_app, Hsl; reflexivity|].
      intros _. now exists added1. }
    destruct (returncode p =? 0).
    { apply (Hstop p [] w1 (grows_refl w1)); [cbn; lia|reflexivity|reflexivity]. }
    destruct (retry_after_login_grows cmd profile timeout auto_refresh_auth
                p w1) as (r & added1 & w2 & E2 & G2 & Hr & Hsl & Hoff).
    rewrite (m_bind_ok _ _ _ _ _ E2).
    assert (Hoff' : auto_refresh_auth = false -> added1 = []).
    { intros ->. now apply Hoff. }
    assert (Hagain : forall last',
              _is_transient_net_error p && (i <? 3 - 1) = true ->
              exists p' added w' m,
                (_ ← sleep (2 * (i + 1));
                 run_nlm_loop cmd profile timeout 3 auto_refresh_auth
                   remaining (i + 1) (Some last')) w2 = (Ok p', w') /\
                grows added w w' /\
                (length (List.filter is_run added) <= 4 * S remaining)%nat /\
                (auto_refresh_auth = false ->
                 Forall (fun e => e = ERun cmd timeout \/ is_sleep e = true)
                   added /\
                 (length (List.filter is_run added) <= S remaining)%nat) /\
                (m <= S remaining)%nat /\ Z.of_nat m <= Z.max 0 (2 - i) /\
                List.filter is_sleep added = sleeps_from i m /\
                (S remaining <> O ->
                 exists rest, added = (rest ++ [ERun cmd timeout])%list)).
    { intros last' Hc. apply andb_true_iff in Hc as [_ Hi2].
      apply Z.ltb_lt in Hi2.
      destruct (sleep_grows (2 * (i + 1)) w2 ltac:(lia)) as (w3 & E3 & G3).
      rewrite (m_bind_ok _ _ _ _ _ E3).
      destruct (IH (i + 1) (Some last') w3 ltac:(lia) ltac:(discriminate))
        as (p' & added4 & w' & m & E4 & G4 & Hr4 & Hoff4 & Hm1 & Hm2 & Hsl4
            & _).
      exists p', (added4 ++ [ESleep (2 * (i + 1))] ++ added1
                  ++ [ERun cmd timeout])%list, w', (S m).
      split; [exact E4|]. split.
      { pose proof (grows_trans _ _ _ _ _
                      (grows_trans _ _ _ _ _
                         (grows_trans _ _ _ _ _ G1 G2) G3) G4) as G.
        exact G. }
      split.
      { rewrite !filter_app_length. cbn [List.filter is_run length]. lia. }
      split.
      { intros Hf. destruct (Hoff4 Hf) as [F4 L4]. rewrite (Hoff' Hf).
        split.
        - apply Forall_app. split; [exact F4|].
          constructor; [now right|]. constructor; [now left|constructor].
        - rewrite !filter_app_length. cbn [List.filter is_run length app].
          lia. }
      split; [lia|]. split; [lia|].
      split; [rewrite !List.filter_app, Hsl, Hsl4; reflexivity|].
      intros _. exists (added4 ++ [ESleep (2 * (i + 1))] ++ added1)%list.
      now rewrite <- !app_assoc. }
    destruct r as [p2|].
    + destruct (returncode p2 =? 0).
      { apply (Hstop p2 added1 w2 G2 Hr Hsl Hoff'). }
      destruct (_is_transient_net_error p && (i <? 3 - 1)) eqn:Hc.
      * now apply Hagain.
      * apply (Hstop p added1 w2 G2 Hr Hsl Hoff').
    + destruct (_is_transient_net_error p && (i <? 3 - 1)) eqn:Hc.
      * now apply Hagain.
      * apply (Hstop p added1 w2 G2 Hr Hsl Hoff').
Qed.

(** X10.  [run_nlm] always returns the answer of a command it ran.  It runs the
    command first, and at most twelve commands in all; with the login
    refresh off it runs nothing but the command, at most three times.  It
    sleeps at most twice, 2 seconds and then 4.  A first answer with exit
    code 0 is returned at once, and so is a failure that is no transient
    network error and, with the refresh on, no authentication error. *)
Theorem run_nlm_retries (cmd : list string) (profile : string) (timeout : Z)
    (auto_refresh_auth : bool) (w : World) :
  let first := respond env (trace w) cmd in
  exists p added w',
    run_nlm cmd profile timeout auto_refresh_auth w = (Ok p, w') /\
    grows added w w' /\
    (exists rest, added = (rest ++ [ERun cmd timeout])%list) /\
    (length (List.filter is_run added) <= 12)%nat /\
    (auto_refresh_auth = false ->
     Forall (fun e => e = ERun cmd timeout \/ is_sleep e = true) added /\
     (length (List.filter is_run added) <= 3)%nat) /\
    (List.filter is_sleep added = [] \/
     List.filter is_sleep added = [ESleep 2] \/
     List.filter is_sleep added = [ESleep 4; ESleep 2]) /\
    (returncode first = 0 \/
     (_is_transient_net_error first = false /\
      auto_refresh_auth && _is_auth_error first = false) ->
     p = first /\ added = [ERun cmd timeout]).
Proof.
  intros first.
  destruct (run_nlm_loop_bounded cmd profile timeout auto_refresh_auth 3 0
              None w ltac:(lia) ltac:(discriminate))
    as (p & added & w' & m & E & G & Hr & Hoff & Hm1 & Hm2 & Hsl & Hfirst).
  exists p, added, w'. split; [exact E|]. split; [exact G|].
  split; [now apply Hfirst|]. split; [exact Hr|]. split; [exact Hoff|].
  split.
  { rewrite Hsl.
    destruct m as [|[|[|m]]]; [now left|right; now left|right; now right|lia]. }
  intros Hcase.
  assert (Hnow : run_nlm cmd profile timeout auto_refresh_auth w
                 = (Ok first,
                    {| trace := ERun cmd timeout :: trace w;
                       ticks := ticks w |})).
  { unfold run_nlm. cbn [run_nlm_loop].
    destruct (run_grows cmd timeout w) as (w1 & E1 & G1).
    rewrite (m_bind_ok _ _ _ _ _ E1). fold first. rewrite G1.
    destruct (returncode first =? 0) eqn:Hrc; [reflexivity|].
    destruct Hcase as [H0|[Ht Ha]]; [rewrite H0 in Hrc; discriminate|].
    unfold retry_after_login. rewrite Ha, Ht. reflexivity. }
  unfold run_nlm in Hnow, E. rewrite Hnow in E. injection E as <- <-.
  split; [reflexivity|].
  unfold grows in G. injection G as G.
  change (ERun cmd timeout :: trace w) with ([ERun cmd timeout] ++ trace w)%list in G.
  now apply app_inv_tail in G.
Qed.

(** *** A dry run *)

Lemma append_jsonl_spec (path : string) (row : json) (w : World) :
  append_jsonl path row w
  = (Ok tt, {| trace := EAppendJsonl path row :: trace w; ticks := ticks w |}).
Proof. reflexivity. Qed.



(** *** A run always ends *)

(** The five statuses a run ends with. *)
Definition run_statuses : list string :=
  ["failed_preflight"; "dry_run_ok"; "ok"; "degraded"; "failed"].

Lemma final_status_In (n : nat) (max_success : Z) :
  In (final_status n max_success) ["ok"; "degraded"; "failed"].
Proof.
  unfold final_status. destruct (Z.max 1 max_success <=? Z.of_nat n).
  - now left.
  - destruct n; [right; right; now left|right; now left].
Qed.

(** X12.  From a well-formed guard state and with a sleep length that is not
    negative, a run ends normally whatever the commands answer: its last
    two effects are the guard state written to the state file and the
    printed summary, which carry the same status, one of failed_preflight,
    dry_run_ok, ok, degraded, failed. *)
Theorem main_completes (args : Args) (w w1 : World) (st : json) :
  0 <= poll_seconds args ->
  load_state w = (Ok st, w1) ->
  wf_state st = true ->
  exists printed persisted before status ticks',
    main args w
    = (Ok tt, {| trace := EPrint (JDict printed)
                          :: EWriteJson (state_file args) persisted
                          :: before;
                 ticks := ticks' |}) /\
    dict_get "status" printed = Some (JStr status) /\
    (last_run ← py_item persisted "last_run"; py_item last_run "status")
    = Ok (JStr status) /\
    In status run_statuses.
Proof.
  intros Hs Hload Hwf.
  destruct (wf_state_inv _ Hwf) as (kv & d & -> & _).
  destruct (preflight_spec (notebook_id args) (profile args)
              (parse_csv_ids (source_ids args))
              (negb (no_auto_refresh_auth args)) w1)
    as (ok & report_kv & w2 & Hp & _).
  unfold main.
  rewrite (m_bind_ok _ _ _ _ _ Hload), (m_bind_ok _ _ _ _ _ Hp).
  rewrite (m_bind_ok _ _ _ _ _ (now_iso_spec _)).
  rewrite (m_bind_ok _ _ _ _ _ (append_jsonl_spec _ _ _)).
  set (w3 := {| trace := EAppendJsonl _ _ :: _; ticks := _ |}).
  destruct ok; cbn [negb].
  - assert (Hids : exists ids w4,
              (match parse_csv_ids (source_ids args) with
               | [] =>
                   '(ids, _) ← load_source_ids (notebook_id args)
                                 (profile args)
                                 (negb (no_auto_refresh_auth args));
                   mret ids
               | _ => mret (parse_csv_ids (source_ids args))
               end) w3 = (Ok ids, w4)).
    { destruct (parse_csv_ids (source_ids args)) as [|i0 ids0].
      - destruct (load_source_ids_spec (notebook_id args) (profile args)
                    (negb (no_auto_refresh_auth args)) w3)
          as ([ids err] & w4 & E & _).
        rewrite (m_bind_ok _ _ _ _ _ E). now exists ids, w4.
      - now exists (i0 :: ids0), w3. }
    destruct Hids as (ids & w4 & Eids).
    rewrite (m_bind_ok _ _ _ _ _ Eids).
    destruct (dry_run args).
    + rewrite (m_bind_ok _ _ _ _ _ (now_iso_spec _)).
      m_run. exc_cbn. m_run. cbn [trace ticks].
      eexists _, _, _, "dry_run_ok", _. split; [reflexivity|].
      split; [reflexivity|]. split; [now dict_simpl|].
      right. now left.
    + set (pr0 := {| state := JDict kv; attempts := []; successes := [];
                     skipped := [] |}).
      destruct (run_plan_spec args ids
                  (parse_budget_per_type (daily_budget_per_type args))
                  (parse_plan (plan args)) Hs pr0 w4 Hwf)
        as (pr' & w5 & na & ns & E5 & R).
      rewrite (m_bind_ok _ _ _ _ _ E5).
      destruct (finish_run_spec args (parse_plan (plan args)) ids
                  (JDict report_kv) pr' w5 (pr_wf _ _ _ _ _ _ R))
        as (summary & st' & E6 & H1 & _ & H2).
      rewrite E6.
      eexists summary, st', _, _, _. split; [reflexivity|].
      split; [exact H1|]. split; [exact H2|].
      right. right. apply final_status_In.
  - rewrite (m_bind_ok _ _ _ _ _ (now_iso_spec _)).
    m_run. exc_cbn. m_run. cbn [trace ticks].
    eexists _, _, _, "failed_preflight", _. split; [reflexivity|].
    split; [reflexivity|]. split; [now dict_simpl|].
    now left.
Qed.

(** *** Rows and identifiers *)

(** X13.  The rows [_items_from_any] returns are dictionaries, whatever the
    document and the keys: its callers may read them with [get]. *)
Theorem items_from_any_dicts (js : json) (keys : list string) :
  Forall (fun row => exists kv, row = JDict kv) (_items_from_any js keys).
Proof.
  assert (Hrows : forall l, Forall (fun row => exists kv, row = JDict kv)
                              (dict_rows l)).
  { intros l. unfold dict_rows. apply List.Forall_forall. intros row Hin.
    apply List.filter_In in Hin as [_ Hd].
    destruct row; try discriminate. eauto. }
  destruct js as [| | | | |l|kv]; cbn [_items_from_any]; try constructor.
  - apply Hrows.
  - destruct (first_list kv keys) as [rows|] eqn:E.
    + revert E. induction keys as [|k keys IH]; cbn [first_list];
        [discriminate|].
      destruct (dict_get k kv) as [[| | | | |l|]|]; try exact IH.
      intros [= <-]. apply Hrows.
    + unfold list_values. apply List.Forall_flat_map.
      apply List.Forall_forall. intros [k v] _. cbn [snd].
      destruct v; try constructor. apply Hrows.
Qed.

(** The identifier of a row, as [find_artifact_row] reads it. *)
Definition row_id (row : json) : option string :=
  match row with
  | JDict kv =>
      match py_or (get_or_null kv "id") (get_or_null kv "artifact_id") with
      | JStr rid => Some rid
      | _ => None
      end
  | _ => None
  end.

(** X14.  [find_artifact_row] returns the first row whose identifier, [id] or
    else [artifact_id], is the text asked for; it returns nothing exactly
    when no row has it. *)
Theorem find_artifact_row_first (rows : list json) (artifact_id : string) :
  match find_artifact_row rows artifact_id with
  | Some row =>
      exists before after,
        rows = (before ++ row :: after)%list /\
        row_id row = Some artifact_id /\
        Forall (fun r => row_id r <> Some artifact_id) before
  | None => Forall (fun r => row_id r <> Some artifact_id) rows
  end.
Proof.
  induction rows as [|r rows IH]; [constructor|].
  cbn [find_artifact_row].
  assert (Hskip : row_id r <> Some artifact_id ->
            match find_artifact_row rows artifact_id with
            | Some row =>
                exists before after,
                  r :: rows = (before ++ row :: after)%list /\
                  row_id row = Some artifact_id /\
                  Forall (fun r => row_id r <> Some artifact_id) before
            | None => Forall (fun r => row_id r <> Some artifact_id) (r :: rows)
            end).
  { intros Hr. destruct (find_artifact_row rows artifact_id) as [row|].
    - destruct IH as (before & after & -> & Hid & Hb).
      exists (r :: before), after. split; [reflexivity|].
      split; [exact Hid|]. now constructor.
    - now constructor. }
  destruct r as [| | | | | |kv]; try (apply Hskip; discriminate).
  destruct (py_or (get_or_null kv "id") (get_or_null kv "artifact_id"))
    as [| | | |rid| |] eqn:Eid;
    try (apply Hskip; cbn [row_id]; rewrite Eid; discriminate).
  destruct (String.eqb_spec rid artifact_id) as [->|Hne].
  - exists [], rows. split; [reflexivity|].
    split; [cbn [row_id]; now rewrite Eid|constructor].
  - apply Hskip. cbn [row_id]. rewrite Eid. congruence.
Qed.

(** Texts without blanks at their ends. *)
Fixpoint all_chars (P : ascii -> bool) (s : string) : bool :=
  match s with
  | EmptyString => true
  | String c r => P c && all_chars P r
  end.

Lemma all_chars_append (P : ascii -> bool) (a b : string) :
  all_chars P (a ++ b) = all_chars P a && all_chars P b.
Proof.
  induction a as [|c a IH]; [reflexivity|].
  simpl. now rewrite IH, andb_assoc.
Qed.

Lemma strip_no_space (s : string) :
  all_chars (fun c => negb (is_space c)) s = true -> strip s = s.
Proof.
  intros H. unfold strip.
  assert (Hl : lstrip s = s).
  { destruct s as [|c r]; [reflexivity|]. cbn [all_chars] in H.
    apply andb_true_iff in H as [Hc _]. cbn [lstrip].
    now destruct (is_space c). }
  rewrite Hl. clear Hl.
  induction s as [|c r IH]; [reflexivity|].
  cbn [all_chars] in H. apply andb_true_iff in H as [Hc Hr].
  cbn [rstrip]. rewrite (IH Hr).
  destruct r; [|reflexivity]. now destruct (is_space c).
Qed.

Lemma take_class_all (cls : ascii -> bool) (n : nat) :
  forall s m rest,
    take_class cls n s = Some (m, rest) ->
    all_chars cls m = true /\ String.length m = n.
Proof.
  induction n as [|n IH]; intros s m rest; cbn [take_class].
  - intros [= <- <-]. split; reflexivity.
  - destruct s as [|c r]; [discriminate|].
    destruct (cls c) eqn:Ec; [|discriminate].
    destruct (take_class cls n r) as [[m' rest']|] eqn:E; [|discriminate].
    intros [= <- <-]. destruct (IH _ _ _ E) as [H1 H2].
    cbn [all_chars String.length]. rewrite Ec, H1, H2. split; reflexivity.
Qed.

Lemma all_chars_impl (P Q : ascii -> bool) (s : string) :
  (forall c, P c = true -> Q c = true) ->
  all_chars P s = true -> all_chars Q s = true.
Proof.
  intros H. induction s as [|c r IH]; [reflexivity|].
  cbn [all_chars]. intros [Hc Hr]%andb_true_iff.
  now rewrite (H c Hc), (IH Hr).
Qed.

Lemma hex_or_dash_no_space (c : ascii) :
  is_hex_or_dash c = true -> negb (is_space c) = true.
Proof.
  destruct c as [[] [] [] [] [] [] [] []]; vm_compute; congruence.
Qed.

Lemma dash_then_all (n : nat) (s m rest : string) :
  dash_then n s = Some (m, rest) ->
  all_chars is_hex_or_dash m = true /\ String.length m = S n.
Proof.
  unfold dash_then. destruct s as [|c r]; [discriminate|].
  destruct (Ascii.eqb_spec c "-") as [->|]; [|discriminate].
  destruct (take_class is_hex n r) as [[m' rest']|] eqn:E; [|discriminate].
  intros [= <- <-]. destruct (take_class_all _ _ _ _ _ E) as [H1 H2].
  cbn [all_chars String.length]. rewrite H2. split; [|reflexivity].
  apply (all_chars_impl is_hex); [|exact H1].
  intros c Hc. unfold is_hex_or_dash. now rewrite Hc.
Qed.

(** An identifier of 36 hexadecimal digits and dashes. *)
Definition id36 (m : string) : Prop :=
  all_chars is_hex_or_dash m = true /\ String.length m = 36%nat.

Lemma uuid_at_id36 (s m : string) : uuid_at s = Some m -> id36 m.
Proof.
  unfold uuid_at.
  destruct (take_class is_hex 8 s) as [[g1 s1]|] eqn:E1; [|discriminate].
  destruct (dash_then 4 s1) as [[g2 s2]|] eqn:E2; [|discriminate].
  destruct (dash_then 4 s2) as [[g3 s3]|] eqn:E3; [|discriminate].
  destruct (dash_then 4 s3) as [[g4 s4]|] eqn:E4; [|discriminate].
  destruct (dash_then 12 s4) as [[g5 s5]|] eqn:E5; [|discriminate].
  cbv zeta. intros H.
  assert (Hm : m = g1 ++ g2 ++ g3 ++ g4 ++ g5).
  { destruct s5 as [|c ?]; [congruence|].
    destruct (is_word c); congruence. }
  subst m. clear H.
  destruct (take_class_all _ _ _ _ _ E1) as [A1 L1].
  apply (all_chars_impl is_hex is_hex_or_dash) in A1;
    [|intros c Hc; unfold is_hex_or_dash; now rewrite Hc].
  destruct (dash_then_all _ _ _ _ E2) as [A2 L2].
  destruct (dash_then_all _ _ _ _ E3) as [A3 L3].
  destruct (dash_then_all _ _ _ _ E4) as [A4 L4].
  destruct (dash_then_all _ _ _ _ E5) as [A5 L5].
  split.
  - rewrite !all_chars_append, A1, A2, A3, A4, A5. reflexivity.
  - rewrite !length_append, L1, L2, L3, L4, L5. reflexivity.
Qed.

Lemma search_uuid_id36 (s : string) :
  forall prev m, search_uuid prev s = Some m -> id36 m.
Proof.
  induction s as [|c r IH]; intros prev m; cbn [search_uuid]; [discriminate|].
  destruct (if prev then None else uuid_at (String c r)) as [m'|] eqn:E.
  - intros [= <-]. destruct prev; [discriminate|]. now apply uuid_at_id36 in E.
  - apply IH.
Qed.

Lemma search_labelled_id_id36 (s m : string) :
  search_labelled_id s = Some m -> id36 m.
Proof.
  induction s as [|c r IH]; cbn [search_labelled_id].
  - destruct (labelled_id_at "") eqn:E; [|discriminate].
    intros [= <-]. discriminate E.
  - destruct (labelled_id_at (String c r)) as [m'|] eqn:E; [|exact IH].
    intros [= <-]. unfold labelled_id_at in E.
    destruct (strip_prefix_ci _ _) as [rest|]; [|discriminate].
    destruct (take_class is_hex_or_dash 36 (lstrip rest)) as [[m0 ?]|] eqn:E';
      [|discriminate].
    injection E as <-. exact (take_class_all _ _ _ _ _ E').
Qed.

(** A text that is not blank, without blanks at its ends. *)
Definition clean_text (s : string) : Prop :=
  nonempty s = true /\ strip s = s.

Lemma id36_clean (m : string) : id36 m -> clean_text m.
Proof.
  intros [Ha Hl]. split.
  - destruct m; [discriminate Hl|reflexivity].
  - apply strip_no_space.
    apply (all_chars_impl is_hex_or_dash); [|exact Ha].
    apply hex_or_dash_no_space.
Qed.

Lemma nonblank_str_clean (v : json) (s : string) :
  nonblank_str v = Some s -> clean_text s.
Proof.
  destruct v as [| | | |t| |]; try discriminate. cbn [nonblank_str].
  destruct (nonempty (strip t)) eqn:E; [|discriminate].
  intros [= <-]. split; [exact E|apply Sources.strip_idem].
Qed.

Lemma first_some_clean {A} (f : A -> option string) (l : list A) (s : string) :
  (forall x y, f x = Some y -> clean_text y) ->
  first_some f l = Some s -> clean_text s.
Proof.
  intros Hf. induction l as [|x l IH]; [discriminate|].
  cbn [first_some]. destruct (f x) as [y|] eqn:E; [|exact IH].
  intros [= <-]. exact (Hf _ _ E).
Qed.

(** X15.  The identifier [extract_artifact_id] returns is never empty or blank
    and has no blanks at its ends: it is a stripped text of the JSON
    output, or 36 hexadecimal digits and dashes found in the text.  So the
    test [not artifact_id] of the orchestrator fails only on [None]. *)
Theorem extract_artifact_id_clean (raw_output artifact_id : string) :
  extract_artifact_id raw_output = Some artifact_id ->
  clean_text artifact_id /\
  (id_from_json (jload raw_output) = None -> id36 artifact_id).
Proof.
  unfold extract_artifact_id.
  destruct (id_from_json (jload raw_output)) as [v|] eqn:Ej.
  - intros [= <-]. split; [|discriminate].
    unfold id_from_json in Ej.
    assert (Hc : forall kv y, id_candidate kv = Some y -> clean_text y)
      by (intros kv y; apply nonblank_str_clean).
    destruct (jload raw_output) as [| | | | |rows|kv]; try discriminate.
    + eapply first_some_clean; [|exact Ej].
      intros [| | | | | |kv] y; try discriminate. apply Hc.
    + destruct (first_some _ ["artifact_id"; "id"]) as [v'|] eqn:E1.
      * injection Ej as <-. eapply first_some_clean; [|exact E1].
        intros x y. apply nonblank_str_clean.
      * eapply first_some_clean; [|exact Ej].
        intros k y. cbv beta.
        destruct (get_or_null kv k); try discriminate. apply Hc.
  - destruct (search_labelled_id raw_output) as [m|] eqn:El.
    + intros [= <-]. apply search_labelled_id_id36 in El.
      split; [now apply id36_clean|auto].
    + intros H. apply search_uuid_id36 in H.
      split; [now apply id36_clean|auto].
Qed.

(** *** Comma-separated arguments *)

Lemma split_go_append (sep : ascii) (a b : string) :
  forall cur,
    split_go sep cur (a ++ String sep b)
    = (split_go sep cur a ++ split_go sep EmptyString b)%list.
Proof.
  induction a as [|c a IH]; intros cur; simpl.
  - now rewrite Ascii.eqb_refl.
  - destruct (Ascii.eqb c sep); simpl; now rewrite IH.
Qed.

Lemma split_append (sep : ascii) (a b : string) :
  split sep (a ++ String sep b) = (split sep a ++ split sep b)%list.
Proof. apply split_go_append. Qed.

(** [sep] does not occur in [s]. *)
Definition free_of (sep : ascii) (s : string) : bool :=
  all_chars (fun c => negb (Ascii.eqb c sep)) s.

Lemma append_empty (s : string) : s ++ EmptyString = s.
Proof.
  induction s as [|c s IH]; [reflexivity|].
  change (String c (s ++ EmptyString) = String c s). now f_equal.
Qed.

Lemma append_snoc (a b : string) (c : ascii) :
  (a ++ String c EmptyString) ++ b = a ++ String c b.
Proof.
  induction a as [|x a IH]; [reflexivity|].
  change (String x ((a ++ String c EmptyString) ++ b)
          = String x (a ++ String c b)).
  now f_equal.
Qed.

Lemma split_go_free (sep : ascii) (s : string) :
  forall cur, free_of sep s = true -> split_go sep cur s = [cur ++ s].
Proof.
  induction s as [|c s IH]; intros cur; simpl.
  - intros _. now rewrite append_empty.
  - intros [Hc Hs]%andb_true_iff. apply negb_true_iff in Hc. rewrite Hc.
    now rewrite (IH _ Hs), append_snoc.
Qed.

Lemma split_go_parts_free (sep : ascii) (s : string) :
  forall cur,
    free_of sep cur = true ->
    Forall (fun part => free_of sep part = true) (split_go sep cur s).
Proof.
  induction s as [|c s IH]; intros cur Hcur; simpl.
  - constructor; [exact Hcur|constructor].
  - destruct (Ascii.eqb c sep) eqn:Ec.
    + constructor; [exact Hcur|]. now apply IH.
    + apply IH. unfold free_of in *. rewrite all_chars_append, Hcur.
      cbn [all_chars andb]. now rewrite Ec.
Qed.

Lemma lstrip_free (sep : ascii) (s : string) :
  free_of sep s = true -> free_of sep (lstrip s) = true.
Proof.
  unfold free_of. induction s as [|c s IH]; [reflexivity|].
  cbn [all_chars lstrip].
  intros H. destruct (is_space c); [|exact H].
  apply andb_true_iff in H as [_ H]. now apply IH.
Qed.

Lemma rstrip_free (sep : ascii) (s : string) :
  free_of sep s = true -> free_of sep (rstrip s) = true.
Proof.
  unfold free_of. induction s as [|c s IH]; [reflexivity|].
  cbn [all_chars rstrip].
  intros [Hc Hs]%andb_true_iff. specialize (IH Hs).
  destruct (rstrip s).
  - destruct (is_space c); [reflexivity|]. cbn [all_chars]. now rewrite Hc.
  - cbn [all_chars] in *. now rewrite Hc, IH.
Qed.

Lemma strip_free (sep : ascii) (s : string) :
  free_of sep s = true -> free_of sep (strip s) = true.
Proof. intros H. now apply rstrip_free, lstrip_free. Qed.

(** A token of a comma-separated list: not blank, no blanks at its ends,
    no comma. *)
Definition token (s : string) : Prop :=
  clean_text s /\ free_of "," s = true.

Lemma parse_csv_ids_tokens (raw : string) :
  Forall token (parse_csv_ids raw).
Proof.
  unfold parse_csv_ids. apply List.Forall_forall. intros t Hin.
  apply List.filter_In in Hin as [Hin Hne].
  apply List.in_map_iff in Hin as (x & <- & Hx).
  split; [split; [exact Hne|apply Sources.strip_idem]|].
  apply strip_free.
  pose proof (split_go_parts_free "," raw EmptyString eq_refl) as Hf.
  rewrite List.Forall_forall in Hf. now apply Hf.
Qed.

Lemma parse_csv_ids_append (a b : string) :
  parse_csv_ids (a ++ "," ++ b)
  = (parse_csv_ids a ++ parse_csv_ids b)%list.
Proof.
  unfold parse_csv_ids.
  change (a ++ "," ++ b) with (a ++ String "," b).
  now rewrite split_append, List.map_app, List.filter_app.
Qed.

Lemma parse_csv_ids_token (t : string) : token t -> parse_csv_ids t = [t].
Proof.
  intros [[Hne Hs] Hf]. unfold parse_csv_ids, split.
  rewrite (split_go_free _ _ _ Hf). change (EmptyString ++ t) with t.
  cbn [map List.filter]. now rewrite Hs, Hne.
Qed.

Lemma parse_csv_ids_join (l : list string) :
  Forall token l -> parse_csv_ids (join "," l) = l.
Proof.
  induction 1 as [|t l Ht Hl IH]; [reflexivity|].
  destruct l as [|t' l].
  - cbn [join]. now apply parse_csv_ids_token.
  - change (join "," (t :: t' :: l)) with (t ++ "," ++ join "," (t' :: l)).
    now rewrite parse_csv_ids_append, IH, parse_csv_ids_token.
Qed.

(** X16.  [parse_csv_ids] gives tokens: texts that are not blank, without
    blanks at their ends and without comma.  It reads the parts of a list
    in order, so that it distributes over a comma between two texts, and
    it reads back every list of tokens joined by commas; in particular
    joining its result and parsing again changes nothing. *)
Theorem parse_csv_ids_round_trip :
  (forall raw, Forall token (parse_csv_ids raw)) /\
  (forall a b,
     parse_csv_ids (a ++ "," ++ b)
     = (parse_csv_ids a ++ parse_csv_ids b)%list) /\
  (forall l, Forall token l -> parse_csv_ids (join "," l) = l) /\
  (forall raw,
     parse_csv_ids (join "," (parse_csv_ids raw)) = parse_csv_ids raw).
Proof.
  split; [exact parse_csv_ids_tokens|].
  split; [exact parse_csv_ids_append|].
  split; [exact parse_csv_ids_join|].
  intros raw. apply parse_csv_ids_join, parse_csv_ids_tokens.
Qed.

(** *** The plan *)

Lemma lower_char_idem (c : ascii) : lower_char (lower_char c) = lower_char c.
Proof. destruct c as [[] [] [] [] [] [] [] []]; reflexivity. Qed.

Lemma lower_char_space (c : ascii) : is_space (lower_char c) = is_space c.
Proof. destruct c as [[] [] [] [] [] [] [] []]; reflexivity. Qed.

Lemma lower_char_comma (c : ascii) :
  Ascii.eqb (lower_char c) "," = Ascii.eqb c ",".
Proof. destruct c as [[] [] [] [] [] [] [] []]; reflexivity. Qed.

Lemma lower_idem (s : string) : lower (lower s) = lower s.
Proof.
  induction s as [|c s IH]; [reflexivity|].
  cbn [lower]. now rewrite lower_char_idem, IH.
Qed.

Lemma lstrip_lower (s : string) : lstrip (lower s) = lower (lstrip s).
Proof.
  induction s as [|c s IH]; [reflexivity|].
  cbn [lower lstrip]. rewrite lower_char_space.
  destruct (is_space c); [exact IH|reflexivity].
Qed.

Lemma rstrip_lower (s : string) : rstrip (lower s) = lower (rstrip s).
Proof.
  induction s as [|c s IH]; [reflexivity|].
  cbn [lower rstrip]. rewrite IH, lower_char_space.
  destruct (rstrip s); cbn [lower]; [|reflexivity].
  now destruct (is_space c).
Qed.

Lemma strip_lower (s : string) : strip (lower s) = lower (strip s).
Proof. unfold strip. now rewrite lstrip_lower, rstrip_lower. Qed.

Lemma lower_nonempty (s : string) : nonempty (lower s) = nonempty s.
Proof. now destruct s. Qed.

Lemma lower_free (s : string) : free_of "," (lower s) = free_of "," s.
Proof.
  unfold free_of. induction s as [|c s IH]; [reflexivity|].
  cbn [lower all_chars]. now rewrite lower_char_comma, IH.
Qed.

(** The name an item of the plan stands for. *)
Definition plan_name (item : string) : string :=
  match dict_get item plan_aliases with
  | Some a => a
  | None => item
  end.

(** An entry of a parsed plan: a token in lower case that is no alias. *)
Definition plan_entry (s : string) : Prop :=
  token s /\ lower s = s /\ dict_get s plan_aliases = None.

Lemma plan_name_entry (item : string) :
  token item -> lower item = item -> plan_entry (plan_name item).
Proof.
  intros Ht Hl. unfold plan_name.
  destruct (dict_get item plan_aliases) as [a|] eqn:E.
  - unfold plan_aliases in E. cbn [dict_get] in E.
    repeat match type of E with
           | (if ?c then _ else _) = _ => destruct c
           end;
      try discriminate; injection E as <-; repeat split; reflexivity.
  - split; [exact Ht|]. split; [exact Hl|exact E].
Qed.

Lemma parse_plan_csv (raw : string) :
  parse_plan raw = map (fun t => plan_name (lower t)) (parse_csv_ids raw).
Proof.
  unfold parse_plan, parse_csv_ids.
  induction (split "," raw) as [|x l IH]; [reflexivity|].
  cbn [List.filter map].
  destruct (nonempty (strip x)); cbn [map]; now rewrite IH.
Qed.

Lemma parse_plan_entries (raw : string) : Forall plan_entry (parse_plan raw).
Proof.
  rewrite parse_plan_csv. apply List.Forall_map.
  eapply List.Forall_impl; [|apply parse_csv_ids_tokens].
  intros t [[Hne Hs] Hf]. apply plan_name_entry; [|apply lower_idem].
  split; [split|].
  - now rewrite lower_nonempty.
  - now rewrite strip_lower, Hs.
  - now rewrite lower_free.
Qed.

(** X17.  [parse_plan] gives entries that are tokens in lower case, none of
    them an alias: the four aliases are replaced by the names they stand
    for.  It keeps the order and the repetitions of the items, it
    distributes over a comma between two texts, and joining its result
    and parsing again changes nothing. *)
Theorem parse_plan_normal :
  (forall raw, Forall plan_entry (parse_plan raw)) /\
  (forall raw,
     parse_plan raw = map (fun t => plan_name (lower t)) (parse_csv_ids raw)) /\
  (forall a b,
     parse_plan (a ++ "," ++ b) = (parse_plan a ++ parse_plan b)%list) /\
  (forall raw, parse_plan (join "," (parse_plan raw)) = parse_plan raw).
Proof.
  split; [exact parse_plan_entries|]. split; [exact parse_plan_csv|].
  split.
  - intros a b. now rewrite !parse_plan_csv, parse_csv_ids_append, List.map_app.
  - intros raw. pose proof (parse_plan_entries raw) as H.
    rewrite (parse_plan_csv (join "," (parse_plan raw))).
    rewrite parse_csv_ids_join.
    + induction H as [|t l (_ & Hl & Ha) _ IH]; [reflexivity|].
      cbn [map]. rewrite Hl, IH. unfold plan_name. now rewrite Ha.
    + eapply List.Forall_impl; [|exact H]. now intros t [Ht _].
Qed.

(** *** The budget per type *)

Lemma parse_budget_part_get (out : list (string * Z)) (part key : string) :
  dict_get key (parse_budget_part out part)
  = match dict_get key (parse_budget_part [] part) with
    | Some n => Some n
    | None => dict_get key out
    end.
Proof.
  unfold parse_budget_part.
  destruct (negb (nonempty (strip part)) || negb (contains ":" (strip part)));
    [reflexivity|].
  destruct (split1 ":" (strip part)) as [|k [|v [|]]]; try reflexivity.
  destruct (int_of_text (strip v)) as [n|]; [|reflexivity].
  destruct (String.eqb_spec (lower (strip k)) key) as [->|Hne].
  - now rewrite !dict_get_set_eq.
  - rewrite !dict_get_set_ne by exact Hne. reflexivity.
Qed.

Lemma parse_budget_parts_get (parts : list string) (key : string) :
  forall out,
    dict_get key (fold_left parse_budget_part parts out)
    = match dict_get key (fold_left parse_budget_part parts []) with
      | Some n => Some n
      | None => dict_get key out
      end.
Proof.
  induction parts as [|p parts IH]; intros out; [reflexivity|].
  cbn [fold_left]. rewrite IH, (IH (parse_budget_part [] p)).
  rewrite parse_budget_part_get.
  destruct (dict_get key (fold_left parse_budget_part parts [])); reflexivity.
Qed.

Lemma parse_budget_fold (raw : string) :
  fold_left parse_budget_part (split "," raw) [] = parse_budget_per_type raw.
Proof.
  unfold parse_budget_per_type. now destruct raw.
Qed.

(** The keys of the budget are names in lower case without blanks at
    their ends. *)
Definition budget_keys_normal (budget : list (string * Z)) : Prop :=
  Forall (fun kv => lower (fst kv) = fst kv /\ strip (fst kv) = fst kv) budget.

Lemma parse_budget_part_keys (out : list (string * Z)) (part : string) :
  budget_keys_normal out -> budget_keys_normal (parse_budget_part out part).
Proof.
  intros H. unfold parse_budget_part.
  destruct (negb (nonempty (strip part)) || negb (contains ":" (strip part)));
    [exact H|].
  destruct (split1 ":" (strip part)) as [|k [|v [|]]]; try exact H.
  destruct (int_of_text (strip v)) as [n|]; [|exact H].
  assert (Hk : lower (lower (strip k)) = lower (strip k) /\
               strip (lower (strip k)) = lower (strip k)).
  { split; [apply lower_idem|].
    now rewrite strip_lower, Sources.strip_idem. }
  unfold budget_keys_normal in *.
  induction H as [|[k0 n0] out Hk0 Hout IH]; cbn [dict_set].
  - constructor; [exact Hk|constructor].
  - destruct (String.eqb (lower (strip k)) k0).
    + constructor; [exact Hk|exact Hout].
    + constructor; [exact Hk0|exact IH].
Qed.

(** X18.  In the budget per type a later entry of a name replaces an earlier
    one, and the parts that are no entry (blank, without colon, with a
    limit that is no integer) change nothing: the limit of a name in
    [a,b] is its limit in [b], or else its limit in [a].  The names are
    kept in lower case and stripped, as the entries of the plan are. *)
Theorem parse_budget_later_wins (a b : string) :
  (forall key,
     dict_get key (parse_budget_per_type (a ++ "," ++ b))
     = match dict_get key (parse_budget_per_type b) with
       | Some n => Some n
       | None => dict_get key (parse_budget_per_type a)
       end) /\
  budget_keys_normal (parse_budget_per_type a).
Proof.
  split.
  - intros key. rewrite <- !parse_budget_fold.
    change (a ++ "," ++ b) with (a ++ String "," b).
    rewrite split_append, fold_left_app. apply parse_budget_parts_get.
  - rewrite <- parse_budget_fold.
    assert (G : forall parts out,
              budget_keys_normal out ->
              budget_keys_normal (fold_left parse_budget_part parts out)).
    { induction parts as [|p parts IH]; intros out H; [exact H|].
      cbn [fold_left]. apply IH, parse_budget_part_keys, H. }
    apply G. constructor.
Qed.

(** *** JSON in the output of a command *)

(** A line [jload] cannot use: it does not start with a brace or a
    bracket, or it is no JSON. *)
Definition no_json_line (ln : string) : Prop :=
  starts_json ln = false \/ exists e, loads ln = Raise e.

Lemma jload_lines_skip (skipped rest : list string) :
  Forall no_json_line skipped ->
  jload_lines (skipped ++ rest) = jload_lines rest.
Proof.
  induction 1 as [|ln l Hln _ IH]; [reflexivity|].
  cbn [app jload_lines]. destruct Hln as [->|[e ->]]; [exact IH|].
  now destruct (starts_json ln).
Qed.

(** X19.  [jload] returns the value of the whole stripped text when that is
    JSON.  Otherwise it returns the value of the last line, stripped,
    that starts with a brace or a bracket and is JSON by itself, and
    [None] when there is no such line: JSON in the middle of a line is
    not found. *)
Theorem jload_whole_or_last_line (raw : string) :
  let text := strip raw in
  let lines := List.filter nonempty (map strip (splitlines text)) in
  (forall v, loads text = Ok v -> jload raw = v) /\
  (forall e, loads text = Raise e ->
     (forall before ln after v,
        lines = (before ++ ln :: after)%list ->
        starts_json ln = true -> loads ln = Ok v ->
        Forall no_json_line after ->
        jload raw = v) /\
     (Forall no_json_line lines -> jload raw = JNull)).
Proof.
  intros text lines. unfold jload. fold text. split.
  - intros v Hv. destruct text; [discriminate Hv|].
    cbn [nonempty negb]. now rewrite Hv.
  - intros e He. rewrite He. fold lines.
    assert (Hblank : nonempty text = false -> lines = []).
    { unfold lines. destruct text; [reflexivity|discriminate]. }
    split.
    + intros before ln after v Hl Hs Hv Hafter.
      destruct (nonempty text) eqn:Hne; cbn [negb].
      * rewrite Hl, rev_app_distr. cbn [rev]. rewrite <- app_assoc.
        rewrite jload_lines_skip by now apply Forall_rev.
        cbn [app jload_lines]. now rewrite Hs, Hv.
      * rewrite (Hblank eq_refl) in Hl. now destruct before.
    + intros Hall. destruct (negb (nonempty text)); [reflexivity|].
      rewrite <- (app_nil_r (rev lines)).
      rewrite jload_lines_skip by now apply Forall_rev.
      reflexivity.
Qed.

(** *** The verdict of the preflight *)

(** X20.  When [nlm --version] fails the preflight stops there: it reports
    nlm_not_available with the error text and runs no other command, so
    no login is tried.  And a preflight that passes has resolved at least
    one source: the number it reports is positive, and is the number of
    the source ids given when some were given. *)
Theorem preflight_verdict (notebook_id profile : string)
    (source_ids : list string) (auto_refresh_auth : bool) (w : World) :
  let v := respond env (trace w) version_cmd in
  (returncode v <> 0 ->
   preflight notebook_id profile source_ids auto_refresh_auth w
   = (Ok (false,
          JDict [("checked_at", JStr (isoformat (clock env (ticks w))));
                 ("ok", JBool false);
                 ("reason", JStr "nlm_not_available");
                 ("detail", JStr (failure_text v))]),
      {| trace := ERun version_cmd 30 :: trace w; ticks := S (ticks w) |})) /\
  (forall report w',
     preflight notebook_id profile source_ids auto_refresh_auth w
     = (Ok (true, report), w') ->
     returncode v = 0 /\
     exists kv n,
       report = JDict kv /\
       dict_get "ok" kv = Some (JBool true) /\
       dict_get "resolved_source_count" kv = Some (JInt n) /\
       1 <= n /\
       (source_ids <> [] -> n = Z.of_nat (length source_ids))).
Proof.
  intros v. unfold preflight.
  set (w0 := {| trace := trace w; ticks := S (ticks w) |}).
  rewrite (m_bind_ok _ _ _ _ _ (now_iso_spec w)). fold w0.
  destruct (run_grows version_cmd 30 w0) as (w1 & E1 & G1).
  rewrite (m_bind_ok _ _ _ _ _ E1).
  change (respond env (trace w0) version_cmd) with v.
  split.
  - intros Hv. apply Z.eqb_neq in Hv. rewrite Hv. cbn [negb].
    rewrite G1. reflexivity.
  - intros report w'.
    destruct (returncode v =? 0) eqn:Hv; cbn [negb]; [|discriminate].
    apply Z.eqb_eq in Hv.
    destruct (run_nlm_spec (check_cmd profile) profile 90 auto_refresh_auth
                w1) as (chk & w2 & E2 & _).
    unfold check_cmd in E2. rewrite (m_bind_ok _ _ _ _ _ E2).
    destruct (negb (returncode chk =? 0)); [discriminate|].
    match goal with
    | |- context [(?m ≫= _) w2] =>
        assert (Hl : exists listed w3,
                   m w2 = (Ok listed, w3) /\
                   (source_ids <> [] -> listed = inl source_ids))
    end.
    { destruct source_ids as [|s0 ids].
      - destruct (load_source_ids_spec notebook_id profile auto_refresh_auth
                    w2) as ([ids err] & w3 & E3 & _).
        unfold source_list_cmd in E3. rewrite (m_bind_ok _ _ _ _ _ E3).
        eexists _, _. split; [reflexivity|congruence].
      - eexists _, _. split; [reflexivity|reflexivity]. }
    destruct Hl as (listed & w3 & El & Hgiven).
    rewrite (m_bind_ok _ _ _ _ _ El).
    destruct listed as [[|i0 ids]|err]; try discriminate.
    intros [= <- <-]. split; [exact Hv|].
    eexists _, _. split; [reflexivity|].
    split; [reflexivity|]. split; [reflexivity|].
    split; [cbn [length]; lia|].
    intros Hne. specialize (Hgiven Hne). now injection Hgiven as <-.
Qed.

(** *** The status a timeout reports *)

(** The status a poll loop that started with [last] may report in a
    timeout: [last] itself, or the normalized status of a row it read,
    which is then no status the polling stops on. *)
Definition timeout_status (last s : string) : Prop :=
  s = last \/ exists kv, s = row_status kv /\ terminal s = false.

Lemma poll_loop_timeout (notebook_id artifact_id profile : string)
    (poll_seconds : Z) (auto_refresh_auth : bool) (polls_left : nat) :
  0 <= poll_seconds ->
  forall (last_status : string) (w : World),
    exists r w',
      poll_loop notebook_id artifact_id profile poll_seconds
        auto_refresh_auth polls_left last_status w = (Ok r, w') /\
      (fst (fst r) = "timeout" ->
       exists s, snd (fst r) = Some ("poll_timeout_last=" ++ s) /\
                 timeout_status last_status s).
Proof.
  intros Hs. induction polls_left as [|n IH]; intros last_status w.
  - eexists _, _. split; [reflexivity|]. intros _.
    exists last_status. split; [reflexivity|now left].
  - cbn [poll_loop].
    destruct (load_studio_rows_spec notebook_id profile auto_refresh_auth w)
      as ([rows err] & w0 & E & _).
    rewrite (m_bind_ok _ _ _ _ _ E).
    assert (Hagain : forall last',
              timeout_status last_status last' ->
              exists r w',
                (_ ← sleep poll_seconds;
                 poll_loop notebook_id artifact_id profile poll_seconds
                   auto_refresh_auth n last') w0 = (Ok r, w') /\
                (fst (fst r) = "timeout" ->
                 exists s, snd (fst r) = Some ("poll_timeout_last=" ++ s) /\
                           timeout_status last_status s)).
    { intros last' Hlast'.
      destruct (sleep_grows poll_seconds w0 Hs) as (w2 & Es & _).
      rewrite (m_bind_ok _ _ _ _ _ Es).
      destruct (IH last' w2) as (r & w' & Er & Hr).
      exists r, w'. split; [exact Er|]. intros Ht.
      destruct (Hr Ht) as (s & Hs1 & Hs2). exists s. split; [exact Hs1|].
      destruct Hs2 as [->|Hrow]; [exact Hlast'|now right]. }
    destruct (is_err err); [apply Hagain; now left|].
    destruct (find_artifact_row rows artifact_id) as [row|];
      [|apply Hagain; now left].
    destruct row as [| | | | | |kv]; try (apply Hagain; now left).
    destruct (negb (truthy (JDict kv))); [apply Hagain; now left|].
    fold (row_status kv).
    destruct (mem (row_status kv) SUCCESS_STATES) eqn:Hsu.
    { eexists _, _. split; [reflexivity|]. discriminate. }
    destruct (mem (row_status kv) FAIL_STATES) eqn:Hf.
    { eexists _, _. split; [reflexivity|]. discriminate. }
    apply Hagain. right. exists kv. split; [reflexivity|].
    unfold terminal. now rewrite Hsu, Hf.
Qed.

(** X21.  With no poll allowed ([max_polls] zero or negative) the polling
    reports a timeout at once, with the last status unknown, and runs
    nothing.  In any timeout the status reported as the last one is
    unknown or the normalized status of a row that was read and did not
    end the polling: it is none of completed, done, ready, succeeded,
    failed and error. *)
Theorem poll_timeout_status (notebook_id artifact_id profile : string)
    (poll_seconds max_polls : Z) (auto_refresh_auth : bool) (w : World) :
  0 <= poll_seconds ->
  (max_polls <= 0 ->
   poll_artifact_status notebook_id artifact_id profile poll_seconds
     max_polls auto_refresh_auth w
   = (Ok ("timeout", Some "poll_timeout_last=unknown", None), w)) /\
  exists r w',
    poll_artifact_status notebook_id artifact_id profile poll_seconds
      max_polls auto_refresh_auth w = (Ok r, w') /\
    (fst (fst r) = "timeout" ->
     exists s, snd (fst r) = Some ("poll_timeout_last=" ++ s) /\
               terminal s = false).
Proof.
  intros Hs. split.
  - intros Hm. unfold poll_artifact_status.
    replace (Z.to_nat max_polls) with O by lia. reflexivity.
  - destruct (poll_loop_timeout notebook_id artifact_id profile poll_seconds
                auto_refresh_auth (Z.to_nat max_polls) Hs "unknown" w)
      as (r & w' & E & Hr).
    exists r, w'. split; [exact E|]. intros Ht.
    destruct (Hr Ht) as (s & H1 & H2). exists s. split; [exact H1|].
    destruct H2 as [->|(kv & _ & H)]; [reflexivity|exact H].
Qed.

End Generator.

(** *** A runtime and sample runs

    A runtime that writes an instant as its number of microseconds and a
    date as its number of days. *)

Definition sample_fromisoformat (text : string) : option datetime :=
  option_map (fun d => {| dt_wall_us := Z.of_int d;
                          dt_utcoffset_us := Some 0 |})
    (NilZero.int_of_string text).

Definition sample_runtime : PyRuntime :=
  {| float_truthy := fun _ => true;
     float_int := fun _ => Raise OverflowError;
     str_other := fun _ => "object";
     isoformat := str_of_Z;
     date_isoformat := fun t => str_of_Z (t / 86400000000);
     fromisoformat := sample_fromisoformat |}.

#[local] Existing Instance sample_runtime.

Lemma sample_iso_roundtrip : iso_roundtrip.
Proof.
  intros t. cbn [isoformat fromisoformat sample_runtime].
  unfold str_of_Z, sample_fromisoformat.
  assert (Hnil : Z.to_int t <> Decimal.Pos Decimal.Nil /\
                 Z.to_int t <> Decimal.Neg Decimal.Nil).
  { destruct t as [|p|p]; cbn [Z.to_int]; split; try discriminate;
      intros [= H]; now apply (DecimalPos.Unsigned.to_uint_nonnil p). }
  destruct Hnil as [H1 H2]. split.
  - destruct t as [|p|p]; cbn [Z.to_int NilZero.string_of_int];
      try reflexivity.
    pose proof (DecimalPos.Unsigned.to_uint_nonnil p) as Hp.
    now destruct (Pos.to_uint p).
  - rewrite (NilZero.isi _ H1 H2). cbn [option_map].
    unfold dt_instant. cbn [dt_wall_us dt_utcoffset_us].
    rewrite DecimalZ.of_to. f_equal. lia.
Qed.

Definition okp (out : string) : CompletedProcess :=
  {| returncode := 0; stdout := out; stderr := "" |}.

Definition failp (err : string) : CompletedProcess :=
  {| returncode := 1; stdout := ""; stderr := err |}.

(** One second between two readings of the clock. *)
Definition sample_clock (n : nat) : Z := 1000000 * Z.of_nat n.

(** The answers of a notebook with one source, in which every artifact
    is created at once and is ready at the first poll. *)
Definition answers_ok (done : list effect) (cmd : list string)
  : CompletedProcess :=
  match cmd with
  | _ :: "source" :: _ =>
      okp ("[{" ++ quoted "id" ++ ":" ++ quoted "s1" ++ "}]")
  | _ :: "studio" :: _ =>
      okp ("[{" ++ quoted "id" ++ ":" ++ quoted "a1" ++ ","
           ++ quoted "status" ++ ":3}]")
  | _ :: _ :: "create" :: _ =>
      okp ("{" ++ quoted "artifact_id" ++ ":" ++ quoted "a1" ++ "}")
  | _ => okp "ok"
  end.

Definition env_ok : Env :=
  {| respond := answers_ok; clock := sample_clock;
     state_file_content := Missing |}.

Definition sample_args : Args :=
  {| notebook_id := "nb"; source_ids := ""; profile := "default";
     plan := "infographic,slides"; max_success := 1;
     poll_seconds := 20; max_polls := 3;
     daily_budget_total := 8; daily_budget_per_type := "";
     breaker_consecutive_failures := 3; breaker_open_minutes := 90;
     state_file := "state.json"; events_file := "events.jsonl";
     dry_run := false; no_auto_refresh_auth := false |}.

Definition start : World := {| trace := []; ticks := 0 |}.

(** The state of a day on which nothing was attempted yet. *)
Definition fresh_state : json := default_on "20000".

Definition fresh_progress : Progress :=
  {| state := fresh_state; attempts := []; successes := []; skipped := [] |}.

Lemma breaker_opens_and_resets_witness :
  (exists st' w',
     record_failures env_ok 3 fresh_state "slides" 3 90 start = (Ok st', w') /\
     failures_of st' "slides" = Ok 3 /\
     forall now, exists reason,
       breaker_status_at now st' "slides"
       = Ok (now <? sample_clock (ticks w' - 1) + minutes_us 90, reason)) /\
  (exists st',
     breaker_record_success env_ok fresh_state "slides" start
     = (Ok st', tick 1 start) /\
     failures_of st' "slides" = Ok 0).
Proof.
  destruct (breaker_opens_and_resets env_ok "slides" 3 90 fresh_state start
              sample_iso_roundtrip eq_refl eq_refl eq_refl)
    as (_ & (st' & w' & H1 & _ & H2 & _ & H3) & H4).
  split.
  - exists st', w'. split; [exact H1|]. split; [exact H2|exact H3].
  - destruct (H4 fresh_state start eq_refl) as (st0 & H5 & H6 & _).
    exists st0. split; [exact H5|exact H6].
Defined.

Lemma budget_gate_and_counters_witness :
  (exists allow reason,
     budget_allowed fresh_state "infographic" 8 [] = Ok (allow, reason) /\
     (allow = true <->
      (0 < 8 \/ 8 <= 0) /\
      (dict_get "infographic" ([] : list (string * Z)) = None \/
       exists l, dict_get "infographic" [] = Some l /\ (l < 0 \/ 0 < l)))) /\
  (exists pr' w',
     attempt_type env_ok sample_args ["s1"] [] fresh_progress "infographic"
       start = (Ok pr', w') /\
     attempted_step "infographic" fresh_progress pr' /\
     one_more "infographic" fresh_state (state pr')) /\
  (exists pr' w' new_attempts,
     run_plan env_ok sample_args ["s1"] [] ["infographic"; "slides"]
       fresh_progress start = (Ok pr', w') /\
     attempts pr' = new_attempts /\
     type_used (state pr') "infographic"
     = Ok (0 + count_type "infographic" new_attempts)).
Proof.
  destruct (budget_gate_and_counters env_ok sample_args ["s1"] [])
    as (T1 & T2 & T3).
  split; [|split].
  - exact (T1 fresh_state "infographic" 0 0 eq_refl eq_refl).
  - destruct (T2 fresh_progress "infographic" start eq_refl
                ltac:(discriminate))
      as (pr' & w' & allow & open_now & r1 & r2 & H1 & H2 & H3 & H4).
    injection H2 as <- _. injection H3 as <- _.
    exists pr', w'. split; [exact H1|exact H4].
  - destruct (T3 ["infographic"; "slides"] fresh_progress start eq_refl
                ltac:(discriminate))
      as (pr' & w' & na & ns & H1 & H2 & _ & _ & H3).
    exists pr', w', na. split; [exact H1|]. split; [exact H2|].
    exact (H3 "infographic" 0 eq_refl).
Defined.

(** The value of a result that is known to be there. *)
Definition value_of {A} (default : A) (r : Exc A) : A :=
  match r with Ok a => a | Raise _ => default end.

(** The plan loop on the first entry of the sample plan. *)
Definition first_entry : Exc Progress * World :=
  run_plan env_ok sample_args ["s1"] [] ["infographic"] fresh_progress start.

Lemma plan_stops_at_max_success_witness :
  run_plan env_ok sample_args ["s1"] [] ["infographic"; "slides"]
    fresh_progress start
  = (Ok (value_of fresh_progress (fst first_entry)), snd first_entry) /\
  length (successes (value_of fresh_progress (fst first_entry))) = 1%nat /\
  (exists pr' w',
     run_plan env_ok sample_args ["s1"] [] ["infographic"; "slides"]
       fresh_progress start = (Ok pr', w') /\
     Z.of_nat (length (successes pr')) <= 1) /\
  (exists summary st',
     finish_run env_ok sample_args ["infographic"; "slides"] ["s1"] JNull
       (value_of fresh_progress (fst first_entry)) (snd first_entry)
     = (Ok tt, {| trace := EPrint (JDict summary)
                           :: EWriteJson "state.json" st'
                           :: trace (snd first_entry);
                  ticks := S (S (ticks (snd first_entry))) |}) /\
     dict_get "status" summary = Some (JStr "ok")).
Proof.
  destruct (plan_stops_at_max_success env_ok sample_args ["s1"] [])
    as (T1 & T2 & T3).
  split; [|split; [|split]].
  - apply (T1 ["infographic"] ["slides"] fresh_progress start).
    + vm_compute. reflexivity.
    + reflexivity.
    + vm_compute. discriminate.
  - vm_compute. reflexivity.
  - apply (T2 ["infographic"; "slides"] fresh_progress start).
    + reflexivity.
    + discriminate.
    + reflexivity.
    + discriminate.
  - destruct (T3 ["infographic"; "slides"] JNull
                (value_of fresh_progress (fst first_entry))
                (snd first_entry))
      as (summary & st' & H1 & H2 & _); [vm_compute; reflexivity|].
    exists summary, st'. split; [exact H1|exact H2].
Defined.

Lemma no_artifact_id_fails_fast_witness :
  exists pr' w' row line,
    after_create env_ok sample_args "slides" "t0" fresh_progress
      (okp "created") start = (Ok pr', w') /\
    attempts pr' = [row] /\
    row_outcome row = Some "create_failed_no_artifact" /\
    failures_of (state pr') "slides" = Ok 1 /\
    trace w' = [EAppendJsonl "events.jsonl" line].
Proof.
  destruct (no_artifact_id_fails_fast env_ok sample_args "slides" "t0"
              fresh_progress (okp "created") start 0 eq_refl eq_refl eq_refl)
    as (pr' & w' & row & line & H1 & H2 & _ & H3 & _ & _ & H4 & _ & H5).
  { vm_compute. exact I. }
  exists pr', w', row, line.
  split; [exact H1|]. split; [exact H2|]. split; [exact H3|].
  split; [exact H4|exact H5].
Defined.

(** A machine on which the login is lost and cannot be refreshed. *)
Definition answers_noauth (done : list effect) (cmd : list string)
  : CompletedProcess :=
  match cmd with
  | _ :: "login" :: _ => failp "authentication required"
  | _ => answers_ok done cmd
  end.

Definition env_noauth : Env :=
  {| respond := answers_noauth; clock := sample_clock;
     state_file_content := Missing |}.

Definition loaded_noauth : Exc json * World := load_state env_noauth start.

Definition preflight_noauth : Exc (bool * json) * World :=
  preflight env_noauth "nb" "default" [] true (snd loaded_noauth).

Definition report_noauth : json :=
  snd (value_of (true, JNull) (fst preflight_noauth)).

Lemma failed_preflight_consumes_nothing_witness :
  fst preflight_noauth = Ok (false, report_noauth) /\
  py_item report_noauth "reason" = Ok (JStr "auth_required") /\
  exists persisted added w',
    main env_noauth sample_args start = (Ok tt, w') /\
    trace w'
    = (EPrint (JDict [("status", JStr "failed_preflight");
                      ("preflight", report_noauth);
                      ("state_file", JStr "state.json");
                      ("events_file", JStr "events.jsonl")])
       :: EWriteJson "state.json" persisted
       :: added ++ [])%list /\
    Forall (fun e => is_create e = false /\ is_write e = false) added /\
    (last_run ← py_item persisted "last_run"; py_item last_run "status")
    = Ok (JStr "failed_preflight") /\
    total_used persisted = Ok 0 /\
    type_used persisted "infographic" = Ok 0.
Proof.
  split; [vm_compute; reflexivity|]. split; [vm_compute; reflexivity|].
  destruct (failed_preflight_consumes_nothing env_noauth sample_args start
              (snd loaded_noauth) (snd preflight_noauth)
              (value_of JNull (fst loaded_noauth)) report_noauth)
    as (report & reason & detail & persisted & added & w' & _ & _ & _ &
        H3 & H4 & H5 & H6 & _ & H7 & H8).
  { vm_compute. reflexivity. }
  { vm_compute. reflexivity. }
  exists persisted, added, w'.
  split; [exact H3|]. split; [exact H4|]. split; [exact H5|].
  split; [exact H6|]. split; [rewrite H7; reflexivity|].
  rewrite H8. reflexivity.
Defined.

(** The row the sample notebook lists for the artifact. *)
Definition ready_row : list (string * json) :=
  [("id", JStr "a1"); ("status", JInt 3)].

Definition listing_ok : Exc (list json * option string) * World :=
  load_studio_rows env_ok "nb" "default" true start.

Lemma normalize_status_and_polling_witness :
  (exists r w',
     poll_artifact_status env_ok "nb" "a1" "default" 20 3 true start
     = (Ok r, w') /\
     poll_end r) /\
  poll_loop env_ok "nb" "a1" "default" 20 true 1 "unknown" start
  = (Ok ("completed", None, Some (JDict ready_row)), snd listing_ok).
Proof.
  destruct (normalize_status_and_polling env_ok) as (_ & _ & _ & T4 & T5).
  split.
  - apply T4. discriminate.
  - apply (proj1 (T5 "nb" "a1" "default" 20 true 0%nat "unknown" start
                    (snd listing_ok) [JDict ready_row] None ready_row
                    eq_refl eq_refl eq_refl)).
    reflexivity.
Defined.

(** A notebook whose listing gives the artifact the status done. *)
Definition answers_done (done : list effect) (cmd : list string)
  : CompletedProcess :=
  match cmd with
  | _ :: "studio" :: _ =>
      okp ("[{" ++ quoted "id" ++ ":" ++ quoted "a1" ++ ","
           ++ quoted "status" ++ ":" ++ quoted "done" ++ "}]")
  | _ => answers_ok done cmd
  end.

Definition env_done : Env :=
  {| respond := answers_done; clock := sample_clock;
     state_file_content := Missing |}.

(** The code 2 and the text pending normalize to words outside the
    vocabulary of four; a row whose normalized status is done, which is
    neither completed nor failed, ends the polling at the first poll. *)
Lemma normalize_status_outside_vocabulary :
  normalize_status (JInt 2) = "2" /\
  mem (normalize_status (JInt 2)) canonical = false /\
  normalize_status (JStr " Pending ") = "pending" /\
  mem (normalize_status (JStr " Pending ")) canonical = false /\
  normalize_status (JStr "done") = "done" /\
  mem (normalize_status (JStr "done")) ["completed"; "failed"] = false /\
  exists w',
    poll_artifact_status env_done "nb" "a1" "default" 20 3 true start
    = (Ok ("completed", None,
           Some (JDict [("id", JStr "a1"); ("status", JStr "done")])), w') /\
    trace w' = [ERun (status_cmd "nb" "default") 120].
Proof.
  repeat (split; [reflexivity|]).
  eexists. split; reflexivity.
Qed.

(** A state file that holds only a daily section, of the current day,
    with seven attempts made. *)
Definition kept_text : string :=
  "{" ++ quoted "daily" ++ ": {" ++ quoted "date" ++ ": " ++ quoted "0"
  ++ ", " ++ quoted "total_used" ++ ": 7}}".

Definition env_kept : Env :=
  {| respond := answers_ok; clock := sample_clock;
     state_file_content := Content kept_text |}.

(** The same file with a counter that is no number. *)
Definition broken_text : string :=
  "{" ++ quoted "daily" ++ ": {" ++ quoted "date" ++ ": " ++ quoted "0"
  ++ ", " ++ quoted "total_used" ++ ": " ++ quoted "many" ++ "}}".

Definition env_broken : Env :=
  {| respond := answers_ok; clock := sample_clock;
     state_file_content := Content broken_text |}.

Lemma load_state_never_fails_witness :
  (exists st w' k,
     load_state env_ok start = (Ok st, w') /\
     trace w' = [] /\
     st = default_on (date_at env_ok (0 + k))) /\
  (exists kv' w' k,
     load_state env_kept start = (Ok (JDict kv'), w') /\
     dict_get "daily" kv'
     = Some (loaded_daily
               (Some (JDict [("date", JStr "0"); ("total_used", JInt 7)]))
               (date_at env_kept 1) (date_at env_kept (0 + k))) /\
     dict_get "breaker" kv' = Some (JDict [])).
Proof.
  split.
  - destruct (load_state_never_fails env_ok start)
      as (st & w' & H1 & H2 & H3 & _).
    destruct (H3 I) as (k & H4).
    exists st, w', k. split; [exact H1|]. split; [exact H2|exact H4].
  - destruct (load_state_never_fails env_kept start)
      as (st & w' & H1 & _ & _ & H3).
    destruct (H3 [("daily",
                   JDict [("date", JStr "0"); ("total_used", JInt 7)])]
                eq_refl)
      as (kv' & k & -> & H4 & H5 & _).
    exists kv', w', k. split; [exact H1|]. split; [exact H4|exact H5].
Defined.

(** A state file that holds an object is not replaced by the default
    state: its daily section is kept, here with seven attempts counted.
    And with a counter that is no number in that section, the state is
    loaded as well, but the run ends with an exception at the first budget
    check, after a preflight that passed. *)
Lemma load_state_keeps_stored_sections :
  (exists st w',
     load_state env_kept start = (Ok st, w') /\
     total_used st = Ok 7 /\
     forall today, st <> default_on today) /\
  (exists st w',
     load_state env_broken start = (Ok st, w') /\
     py_item st "daily"
     = Ok (JDict [("date", JStr "0"); ("total_used", JStr "many");
                  ("per_type", JDict [])])) /\
  (exists w',
     main env_broken sample_args start
     = (Raise (ValueError "invalid literal for int() with base 10"), w') /\
     Forall (fun e => is_write e = false) (trace w')).
Proof.
  split; [|split].
  - eexists _, _. split; [vm_compute; reflexivity|].
    split; [reflexivity|]. intros today. discriminate.
  - eexists _, _. split; [vm_compute; reflexivity|]. reflexivity.
  - eexists. split; [vm_compute; reflexivity|].
    repeat constructor.
Qed.

(** The budget gate as the specification words it. *)
Definition claimed_gate (used_total daily_budget_total used_type : Z)
    (type_limit : option Z) : bool :=
  ((used_total <? daily_budget_total) || (daily_budget_total <=? 0))
  && match type_limit with
     | Some limit => used_type <? limit
     | None => true
     end.

(** A day on which the breaker of slides is open. *)
Definition tripped_state : json :=
  JDict [("schema_version", JInt 1);
         ("daily", fresh_daily "0");
         ("breaker",
          JDict [("slides",
                  JDict [("consecutive_failures", JInt 3);
                         ("open_until", JStr "5400000000")])]);
         ("last_run", JDict [])].

Definition tripped_progress : Progress :=
  {| state := tripped_state; attempts := []; successes := [];
     skipped := [] |}.

(** A configured limit that is negative does not limit: the gate allows
    the attempt, where the gate of the specification refuses it.  And an entry the
    budget gate allows is skipped when the breaker of its type is open:
    it passed the budget gate, and no counter moves. *)
Lemma budget_gate_allows_negative_limit :
  parse_budget_per_type "infographic:-1" = [("infographic", -1)] /\
  budget_allowed fresh_state "infographic" 8 [("infographic", -1)]
  = Ok (true, None) /\
  claimed_gate 0 8 0 (Some (-1)) = false /\
  budget_allowed tripped_state "slides" 8 [] = Ok (true, None) /\
  exists pr' w' row,
    attempt_type env_ok sample_args ["s1"] [] tripped_progress "slides" start
    = (Ok pr', w') /\
    attempts pr' = [] /\
    skipped pr' = [row] /\
    row_outcome row = Some "skipped" /\
    state pr' = tripped_state /\
    type_used (state pr') "slides" = Ok 0 /\
    total_used (state pr') = Ok 0.
Proof.
  repeat (split; [reflexivity|]).
  eexists _, _, _. split; [vm_compute; reflexivity|].
  repeat split; reflexivity.
Qed.

(** *** Sample runs for the further properties *)

Lemma run_plan_within_budget_witness :
  exists pr' w',
    run_plan env_ok sample_args ["s1"] [("slides", 1)]
      ["infographic"; "slides"] fresh_progress start = (Ok pr', w') /\
    within_budget 8 [("slides", 1)] (state pr').
Proof.
  refine (run_plan_within_budget env_ok sample_args ["s1"] [("slides", 1)]
            ["infographic"; "slides"] _ fresh_progress start eq_refl _).
  - cbn. lia.
  - split.
    + intros _. exists 0. split; [reflexivity|cbn; lia].
    + intros T l H Hl. cbn [dict_get] in H.
      destruct (String.eqb_spec T "slides") as [->|_]; [|discriminate H].
      injection H as <-. exists 0. split; [reflexivity|lia].
Defined.

Lemma failures_in_a_row_witness :
  exists st' w',
    record_failures env_ok 2 fresh_state "slides" 3 90 start = (Ok st', w') /\
    failures_of st' "slides" = Ok 2 /\
    open_until_of st' "slides" = Ok JNull.
Proof.
  destruct (failures_in_a_row env_ok "slides" 3 90 1 fresh_state start 0
              eq_refl eq_refl)
    as (st' & w' & H1 & H2 & H3 & _).
  exists st', w'. split; [exact H1|]. split; [exact H2|exact H3].
Defined.

Lemma breaker_status_verdict_witness :
  breaker_status env_ok tripped_state "slides" start
  = (Ok (true, Some "breaker_open_5400s"), tick 1 start).
Proof.
  destruct (breaker_status_verdict env_ok tripped_state "slides" start
              eq_refl)
    as (open_until & H1 & H2).
  injection H1 as <-. exact H2.
Defined.

Lemma run_nlm_retries_witness :
  run_nlm env_ok version_cmd "default" 30 true start
  = (Ok (okp "ok"), {| trace := [ERun version_cmd 30]; ticks := 0 |}).
Proof.
  destruct (run_nlm_retries env_ok version_cmd "default" 30 true start)
    as (p & added & w' & H1 & Hg & _ & _ & _ & _ & H2).
  destruct (H2 (or_introl eq_refl)) as [-> ->].
  rewrite H1, Hg. reflexivity.
Defined.


Definition loaded_ok : Exc json * World := load_state env_ok start.

Definition preflight_ok : Exc (bool * json) * World :=
  preflight env_ok "nb" "default" [] true (snd loaded_ok).

Definition report_ok : json :=
  snd (value_of (false, JNull) (fst preflight_ok)).


Lemma main_completes_witness :
  exists printed persisted before status ticks',
    main env_ok sample_args start
    = (Ok tt, {| trace := EPrint (JDict printed)
                          :: EWriteJson "state.json" persisted
                          :: before;
                 ticks := ticks' |}) /\
    dict_get "status" printed = Some (JStr status) /\
    In status run_statuses.
Proof.
  destruct (main_completes env_ok sample_args start (snd loaded_ok)
              (value_of JNull (fst loaded_ok)))
    as (printed & persisted & before & status & ticks' & H1 & H2 & _ & H3).
  { cbn. lia. }
  { vm_compute. reflexivity. }
  { vm_compute. reflexivity. }
  exists printed, persisted, before, status, ticks'.
  split; [exact H1|]. split; [exact H2|exact H3].
Defined.

(** An answer to a create command that is no JSON document. *)
Definition created_text : string :=
  "Created 01234567-89ab-cdef-0123-456789abcdef".

Lemma extract_artifact_id_clean_witness :
  extract_artifact_id created_text
  = Some "01234567-89ab-cdef-0123-456789abcdef" /\
  clean_text "01234567-89ab-cdef-0123-456789abcdef" /\
  id36 "01234567-89ab-cdef-0123-456789abcdef".
Proof.
  assert (E : extract_artifact_id created_text
              = Some "01234567-89ab-cdef-0123-456789abcdef")
    by (vm_compute; reflexivity).
  destruct (extract_artifact_id_clean created_text _ E) as [H1 H2].
  split; [exact E|]. split; [exact H1|]. apply H2. vm_compute. reflexivity.
Defined.

Lemma parse_csv_ids_round_trip_witness :
  parse_csv_ids (join "," ["s1"; "s 2"]) = ["s1"; "s 2"].
Proof.
  apply (proj1 (proj2 (proj2 parse_csv_ids_round_trip))).
  repeat constructor.
Defined.

(** The output of a command that logs a line before its document. *)
Definition logged_text : string :=
  "starting" ++ String nl ("{" ++ quoted "a" ++ ":1}").

Lemma jload_whole_or_last_line_witness :
  jload logged_text = JDict [("a", JInt 1)].
Proof.
  destruct (loads (strip logged_text)) as [v|e] eqn:E;
    [vm_compute in E; discriminate E|].
  apply (proj1 (proj2 (jload_whole_or_last_line logged_text) e E)
           ["starting"] ("{" ++ quoted "a" ++ ":1}") []).
  - vm_compute. reflexivity.
  - reflexivity.
  - vm_compute. reflexivity.
  - constructor.
Defined.

Lemma preflight_verdict_witness :
  returncode (respond env_ok [] version_cmd) = 0 /\
  exists kv n,
    report_ok = JDict kv /\
    dict_get "ok" kv = Some (JBool true) /\
    dict_get "resolved_source_count" kv = Some (JInt n) /\
    1 <= n.
Proof.
  destruct (proj2 (preflight_verdict env_ok "nb" "default" [] true
                     (snd loaded_ok))
              report_ok (snd preflight_ok))
    as (H1 & kv & n & H2 & H3 & H4 & H5 & _).
  { vm_compute. reflexivity. }
  split; [exact H1|]. exists kv, n.
  split; [exact H2|]. split; [exact H3|]. split; [exact H4|exact H5].
Defined.

Lemma poll_timeout_status_witness :
  poll_artifact_status env_ok "nb" "a1" "default" 20 0 true start
  = (Ok ("timeout", Some "poll_timeout_last=unknown", None), start).
Proof.
  apply (proj1 (poll_timeout_status env_ok "nb" "a1" "default" 20 0 true
                  start ltac:(lia))).
  lia.
Defined.

End Guarded.

(** ** Arguments of the book orchestrator ([run_book_to_artifact.py]) and
    what it hands to the guarded generator ([adapters/guarded_gen.py]) *)

Module Bookflow.

Import Text Json.

(** [token.isdigit()], on ASCII. *)
Definition isdigit (s : string) : bool :=
  nonempty s && Guarded.all_chars is_digit s.

Section Limit.

(** [sys.get_int_max_str_digits()]: the longest decimal text the
    interpreter converts to or from an [int]; 0 lifts the limit, and a
    text of up to 640 digits is never refused. *)
Variable max_str_digits : nat.

Definition over_limit (len digits : nat) : bool :=
  (640 <? len)%nat && (0 <? max_str_digits)%nat
  && (max_str_digits <? digits)%nat.

Definition limit_error : exn :=
  ValueError "Exceeds the limit for integer string conversion".

(** [int(token)] for a [token] of digits. *)
Definition int_of_digits (token : string) : Exc Z :=
  if over_limit (String.length token) (String.length token)
  then Raise limit_error
  else Ok (digits_value 0 token).

(** [str(n)] for an [int]; the sign is no digit. *)
Definition str_of_int (n : Z) : Exc string :=
  let s := str_of_Z n in
  let digits := if n <? 0 then (String.length s - 1)%nat
                else String.length s in
  if over_limit (String.length s) digits then Raise limit_error else Ok s.

(** [str(int(token)) if token.isdigit() else token]. *)
Definition canonical_id (token : string) : Exc string :=
  if isdigit token then bind (int_of_digits token) str_of_int
  else Ok token.

(** The loop of [_parse_ids]; [out] is the list made so far. *)
Fixpoint parse_ids_loop (parts : list string) (out : list string)
  : Exc (list string) :=
  match parts with
  | [] => Ok out
  | part :: rest =>
      let token := strip part in
      if negb (nonempty token) then parse_ids_loop rest out
      else bind (canonical_id token)
             (fun id => parse_ids_loop rest (out ++ [id])%list)
  end.

Definition _parse_ids (raw : string) : Exc (list string) :=
  parse_ids_loop (split "," raw) [].

End Limit.

Definition plan_alias : list (string * string) :=
  [("podcast", "audio"); ("podcasts", "audio"); ("slide", "slides");
   ("slide_deck", "slides"); ("deck", "slides");
   ("infographics", "infographic")].

Definition mem (x : string) (l : list string) : bool :=
  existsb (String.eqb x) l.

(** The loop of [_normalize_plan]. *)
Definition normalize_plan_step (out : list string) (part : string)
  : list string :=
  let token := lower (strip part) in
  if negb (nonempty token) then out
  else
    let normalized := match dict_get token plan_alias with
                      | Some a => a
                      | None => token
                      end in
    if mem normalized out then out else (out ++ [normalized])%list.

Definition _normalize_plan (raw : string) : list string :=
  fold_left normalize_plan_step (split "," raw) [].

(** [[item for item in plan if item != "infographic"]], the plan [main]
    hands to the guarded generator. *)
Definition non_infographic_plan (plan : list string) : list string :=
  List.filter (fun item => negb (String.eqb item "infographic")) plan.

(** [",".join(source_ids)] and [",".join(artifact_plan)], the arguments
    [--source-ids] and [--plan] of the command [GuardedGeneratorAdapter]
    runs. *)
Definition joined_arg (items : list string) : string := join "," items.

(** *** Decimal texts *)

Lemma digits_value_acc (d : Decimal.uint) :
  forall acc : positive,
    digits_value (Z.pos acc) (NilEmpty.string_of_uint d)
    = Z.pos (Pos.of_uint_acc d acc).
Proof.
  induction d; intros acc; cbn [NilEmpty.string_of_uint digits_value
                                Pos.of_uint_acc];
    try reflexivity;
    rewrite <- IHd; f_equal;
    match goal with
    | |- context [Z.of_nat ?n] =>
        let k := eval vm_compute in (Z.of_nat n) in
        change (Z.of_nat n) with k
    end; lia.
Qed.

Lemma digits_value_uint (d : Decimal.uint) :
  digits_value 0 (NilEmpty.string_of_uint d) = Z.of_N (Pos.of_uint d).
Proof.
  induction d; cbn [NilEmpty.string_of_uint digits_value Pos.of_uint];
    try reflexivity; try exact IHd;
    match goal with
    | |- context [Z.of_nat ?n] =>
        let k := eval vm_compute in (Z.of_nat n) in
        change (0 * 10 + Z.of_nat n) with k
    end; apply digits_value_acc.
Qed.

Lemma uint_digits (d : Decimal.uint) :
  Guarded.all_chars is_digit (NilEmpty.string_of_uint d) = true.
Proof. induction d; cbn; auto. Qed.

Lemma str_of_Z_digits (n : Z) :
  0 <= n ->
  isdigit (str_of_Z n) = true /\ digits_value 0 (str_of_Z n) = n.
Proof.
  intros Hn. unfold str_of_Z, isdigit.
  destruct n as [|p|p]; [split; reflexivity| |lia].
  cbn [Z.to_int NilZero.string_of_int].
  pose proof (DecimalPos.Unsigned.to_uint_nonnil p) as Hnil.
  pose proof (DecimalPos.Unsigned.of_to p) as Hof.
  assert (E : NilZero.string_of_uint (Pos.to_uint p)
              = NilEmpty.string_of_uint (Pos.to_uint p)).
  { destruct (Pos.to_uint p); [contradiction|reflexivity..]. }
  rewrite E, uint_digits, digits_value_uint, Hof. split; [|reflexivity].
  destruct (Pos.to_uint p); [contradiction|reflexivity..].
Qed.

Lemma digits_value_nonneg (s : string) :
  forall acc, 0 <= acc -> 0 <= digits_value acc s.
Proof.
  induction s as [|c s IH]; intros acc Hacc; [exact Hacc|].
  cbn [digits_value]. apply IH. lia.
Qed.

(** *** Chapter ids *)

(** A text of digits without its leading zeros. *)
Fixpoint lstrip_zeros (s : string) : string :=
  match s with
  | String c r => if Ascii.eqb c "0" then lstrip_zeros r else s
  | EmptyString => EmptyString
  end.

(** The canonical_form form of a chapter id: a text of digits loses its
    leading zeros (one zero is left of a text of zeros), any other text
    is kept. *)
Definition canonical_form (t : string) : string :=
  if isdigit t
  then match lstrip_zeros t with
       | EmptyString => "0"
       | s => s
       end
  else t.

(** The ids [_parse_ids] converts: no text of digits beyond the limit. *)
Definition accepted (limit : nat) (t : string) : bool :=
  negb (isdigit t && over_limit limit (String.length t) (String.length t)).

Lemma digits_uint (t : string) :
  Guarded.all_chars is_digit t = true ->
  exists d, t = NilEmpty.string_of_uint d.
Proof.
  induction t as [|c t IH]; intros H.
  - now exists Decimal.Nil.
  - cbn [Guarded.all_chars] in H. apply andb_true_iff in H as [Hc Ht].
    destruct (IH Ht) as [d ->].
    destruct c as [[] [] [] [] [] [] [] []]; try discriminate Hc;
      first [ now exists (Decimal.D0 d) | now exists (Decimal.D1 d)
            | now exists (Decimal.D2 d) | now exists (Decimal.D3 d)
            | now exists (Decimal.D4 d) | now exists (Decimal.D5 d)
            | now exists (Decimal.D6 d) | now exists (Decimal.D7 d)
            | now exists (Decimal.D8 d) | now exists (Decimal.D9 d) ].
Qed.

Lemma length_uint (d : Decimal.uint) :
  String.length (NilEmpty.string_of_uint d) = Decimal.nb_digits d.
Proof. induction d; cbn; congruence. Qed.

Lemma nilzero_uint (d : Decimal.uint) :
  d <> Decimal.Nil ->
  NilZero.string_of_uint d = NilEmpty.string_of_uint d.
Proof. destruct d; [contradiction|reflexivity..]. Qed.

Lemma str_of_N (n : N) :
  str_of_Z (Z.of_N n) = NilEmpty.string_of_uint (N.to_uint n).
Proof.
  destruct n as [|p]; [reflexivity|].
  unfold str_of_Z. cbn [Z.of_N Z.to_int NilZero.string_of_int N.to_uint].
  apply nilzero_uint, DecimalPos.Unsigned.to_uint_nonnil.
Qed.

Lemma str_of_digits (d : Decimal.uint) :
  str_of_Z (digits_value 0 (NilEmpty.string_of_uint d))
  = NilEmpty.string_of_uint (Decimal.unorm d).
Proof.
  now rewrite digits_value_uint, str_of_N, DecimalPos.Unsigned.to_of.
Qed.

Lemma lstrip_zeros_uint (d : Decimal.uint) :
  lstrip_zeros (NilEmpty.string_of_uint d)
  = NilEmpty.string_of_uint (Decimal.nzhead d).
Proof. induction d; cbn; auto. Qed.

Lemma canonical_value (t : string) :
  isdigit t = true -> canonical_form t = str_of_Z (digits_value 0 t).
Proof.
  intros H. unfold canonical_form. rewrite H.
  apply andb_true_iff in H as [_ H]. destruct (digits_uint t H) as [d ->].
  rewrite str_of_digits, lstrip_zeros_uint. unfold Decimal.unorm.
  destruct (Decimal.nzhead d); reflexivity.
Qed.

Lemma canonical_length (t : string) :
  (String.length (canonical_form t) <= String.length t)%nat.
Proof.
  destruct (isdigit t) eqn:H; [|unfold canonical_form; rewrite H; lia].
  rewrite (canonical_value t H).
  apply andb_true_iff in H as [Hne H]. destruct (digits_uint t H) as [d ->].
  rewrite str_of_digits, !length_uint.
  apply DecimalFacts.nb_digits_unorm. now intros ->.
Qed.

Lemma canonical_isdigit (t : string) :
  isdigit (canonical_form t) = isdigit t.
Proof.
  destruct (isdigit t) eqn:H; [|unfold canonical_form; now rewrite H].
  rewrite (canonical_value t H).
  apply str_of_Z_digits, digits_value_nonneg. lia.
Qed.

Lemma canonical_fixed (t : string) :
  canonical_form (canonical_form t) = canonical_form t.
Proof.
  destruct (isdigit t) eqn:H;
    [|unfold canonical_form; rewrite H; cbv iota; now rewrite H].
  rewrite (canonical_value (canonical_form t)) by now rewrite canonical_isdigit.
  rewrite (canonical_value t H).
  f_equal. apply str_of_Z_digits, digits_value_nonneg. lia.
Qed.

Lemma over_limit_le (limit len len' : nat) :
  (len' <= len)%nat ->
  over_limit limit len len = false -> over_limit limit len' len' = false.
Proof.
  unfold over_limit. intros Hle H.
  destruct (Nat.ltb_spec 640 len), (Nat.ltb_spec 0 limit),
    (Nat.ltb_spec limit len); try discriminate H;
    destruct (Nat.ltb_spec 640 len'), (Nat.ltb_spec limit len');
    try reflexivity; lia.
Qed.

Lemma canonical_accepted (limit : nat) (t : string) :
  accepted limit t = true -> accepted limit (canonical_form t) = true.
Proof.
  unfold accepted. rewrite canonical_isdigit.
  destruct (isdigit t); [|reflexivity]. cbn [andb].
  intros H%negb_true_iff. apply negb_true_iff.
  exact (over_limit_le limit _ _ (canonical_length t) H).
Qed.

Lemma canonical_id_spec (limit : nat) (t : string) :
  canonical_id limit t
  = if accepted limit t then Ok (canonical_form t) else Raise limit_error.
Proof.
  unfold canonical_id, accepted.
  destruct (isdigit t) eqn:H; [|unfold canonical_form; now rewrite H].
  cbn [andb]. unfold int_of_digits.
  destruct (over_limit limit (String.length t) (String.length t)) eqn:E;
    [reflexivity|].
  cbn [negb bind]. unfold str_of_int.
  pose proof (digits_value_nonneg t 0 ltac:(lia)) as Hv.
  destruct (Z.ltb_spec (digits_value 0 t) 0) as [Hneg|_]; [lia|].
  rewrite <- (canonical_value t H).
  now rewrite (over_limit_le limit _ _ (canonical_length t) E).
Qed.

Lemma parse_ids_loop_spec (limit : nat) (parts : list string) :
  forall out,
    parse_ids_loop limit parts out
    = let tokens := List.filter nonempty (map strip parts) in
      if forallb (accepted limit) tokens
      then Ok (out ++ map canonical_form tokens)%list
      else Raise limit_error.
Proof.
  induction parts as [|p parts IH]; intros out;
    cbn [parse_ids_loop map List.filter].
  - cbn. now rewrite app_nil_r.
  - destruct (nonempty (strip p)); cbn [negb]; [|apply IH].
    rewrite canonical_id_spec. cbn [forallb map].
    destruct (accepted limit (strip p)); [|reflexivity].
    cbn [bind andb]. rewrite IH. cbv zeta.
    destruct (forallb _ _); [|reflexivity]. now rewrite <- app_assoc.
Qed.

Lemma parse_ids_spec (limit : nat) (raw : string) :
  _parse_ids limit raw
  = if forallb (accepted limit) (Guarded.parse_csv_ids raw)
    then Ok (map canonical_form (Guarded.parse_csv_ids raw))
    else Raise limit_error.
Proof. unfold _parse_ids. now rewrite parse_ids_loop_spec. Qed.

Lemma digit_plain (c : ascii) :
  is_digit c = true ->
  negb (is_space c) = true /\ negb (Ascii.eqb c ",") = true.
Proof.
  destruct c as [[] [] [] [] [] [] [] []]; vm_compute; intuition congruence.
Qed.

Lemma digits_token (s : string) : isdigit s = true -> Guarded.token s.
Proof.
  unfold isdigit. intros [Hne Hd]%andb_true_iff.
  split; [split; [exact Hne|]|].
  - apply Guarded.strip_no_space.
    apply (Guarded.all_chars_impl is_digit); [|exact Hd].
    intros c Hc. now apply digit_plain.
  - apply (Guarded.all_chars_impl is_digit); [|exact Hd].
    intros c Hc. now apply digit_plain.
Qed.

Lemma canonical_token (t : string) :
  Guarded.token t -> Guarded.token (canonical_form t).
Proof.
  intros Ht. destruct (isdigit t) eqn:H.
  - apply digits_token. now rewrite canonical_isdigit.
  - unfold canonical_form. now rewrite H.
Qed.

(** X22.  [_parse_ids] canonicalizes the ids of a comma-separated text, and
    fails with [ValueError] exactly when one of them is a text of digits
    beyond the interpreter's limit.  The ids it returns are tokens (not
    blank, without blanks at their ends, without comma) in canonical
    form; joined by commas they parse to themselves, and the
    normalization of the cache lookup leaves them alone, so that the
    chapter ids of a run are the very keys looked up in the cache. *)
Theorem parse_ids_canonical (limit : nat) (raw : string) :
  _parse_ids limit raw
  = (if forallb (accepted limit) (Guarded.parse_csv_ids raw)
     then Ok (map canonical_form (Guarded.parse_csv_ids raw))
     else Raise limit_error) /\
  forall ids,
    _parse_ids limit raw = Ok ids ->
    Forall Guarded.token ids /\
    Forall (fun t => canonical_form t = t) ids /\
    _parse_ids limit (joined_arg ids) = Ok ids /\
    Sources.normalized_ids ids = ids.
Proof.
  split; [apply parse_ids_spec|].
  intros ids. rewrite parse_ids_spec.
  destruct (forallb _ _) eqn:Hacc; [|discriminate].
  intros [= <-].
  pose proof (Guarded.parse_csv_ids_tokens raw) as Htok.
  assert (Ht : Forall Guarded.token
                 (map canonical_form (Guarded.parse_csv_ids raw))).
  { apply List.Forall_map.
    eapply List.Forall_impl; [|exact Htok].
    intros t. apply canonical_token. }
  assert (Hfix : map canonical_form
                   (map canonical_form (Guarded.parse_csv_ids raw))
                 = map canonical_form (Guarded.parse_csv_ids raw)).
  { rewrite List.map_map. apply List.map_ext. intros t.
    apply canonical_fixed. }
  split; [exact Ht|]. split; [|split].
  - apply List.Forall_map, List.Forall_forall.
    intros t _. apply canonical_fixed.
  - unfold joined_arg. rewrite parse_ids_spec.
    rewrite (Guarded.parse_csv_ids_join _ Ht), Hfix.
    rewrite List.forallb_forall in Hacc.
    replace (forallb (accepted limit)
               (map canonical_form (Guarded.parse_csv_ids raw))) with true;
      [reflexivity|].
    symmetry. apply List.forallb_forall.
    intros x (t & <- & Hin)%List.in_map_iff.
    apply canonical_accepted, Hacc, Hin.
  - unfold Sources.normalized_ids. clear Hfix Hacc Htok.
    induction Ht as [|t l [[Hne Hs] _] _ IH]; [reflexivity|].
    cbn [map List.filter]. now rewrite Hs, Hne, IH.
Qed.

(** *** The artifact plan *)

Definition add_new (out : list string) (x : string) : list string :=
  if mem x out then out else (out ++ [x])%list.

Definition plan_word (token : string) : string :=
  match dict_get token plan_alias with
  | Some a => a
  | None => token
  end.

Lemma normalize_plan_fold (parts : list string) :
  forall out,
    fold_left normalize_plan_step parts out
    = fold_left add_new
        (map (fun t => plan_word (lower t))
           (List.filter nonempty (map strip parts))) out.
Proof.
  induction parts as [|p parts IH]; intros out; [reflexivity|].
  cbn [fold_left map List.filter]. rewrite IH. unfold normalize_plan_step.
  rewrite Guarded.lower_nonempty.
  destruct (nonempty (strip p)); cbn [negb map fold_left]; reflexivity.
Qed.

Lemma normalize_plan_csv (raw : string) :
  _normalize_plan raw
  = fold_left add_new
      (map (fun t => plan_word (lower t)) (Guarded.parse_csv_ids raw)) [].
Proof. unfold _normalize_plan. apply normalize_plan_fold. Qed.

Lemma mem_in_out (x : string) (l : list string) : mem x l = true <-> In x l.
Proof.
  unfold mem. rewrite existsb_exists. split.
  - intros (y & Hy & ->%String.eqb_eq). exact Hy.
  - intros H. exists x. split; [exact H|apply String.eqb_refl].
Qed.

Lemma add_new_spec (xs : list string) :
  forall out,
    List.NoDup out ->
    List.NoDup (fold_left add_new xs out) /\
    (forall x, In x (fold_left add_new xs out) <-> In x out \/ In x xs).
Proof.
  induction xs as [|x xs IH]; intros out Hnd; cbn [fold_left].
  - split; [exact Hnd|]. intros x. cbn [In]. tauto.
  - unfold add_new at 2 4. destruct (mem x out) eqn:Hm.
    + destruct (IH out Hnd) as [H1 H2]. split; [exact H1|].
      intros y. rewrite H2. cbn [In]. apply mem_in_out in Hm.
      split; [tauto|]. intros [H|[<-|H]]; auto.
    + assert (Hnd' : List.NoDup (out ++ [x])).
      { apply Sources.NoDup_snoc; [exact Hnd|].
        intros Hin. apply mem_in_out in Hin. congruence. }
      destruct (IH _ Hnd') as [H1 H2]. split; [exact H1|].
      intros y. rewrite H2, in_app_iff. cbn [In]. tauto.
Qed.

Lemma add_new_fresh (xs : list string) :
  forall out,
    List.NoDup xs -> (forall x, In x xs -> ~ In x out) ->
    fold_left add_new xs out = (out ++ xs)%list.
Proof.
  induction xs as [|x xs IH]; intros out Hnd Hfresh; cbn [fold_left].
  - now rewrite app_nil_r.
  - inversion Hnd as [|? ? Hx Hxs]; subst.
    unfold add_new at 2.
    destruct (mem x out) eqn:Hm.
    + apply mem_in_out in Hm. destruct (Hfresh x (or_introl eq_refl) Hm).
    + rewrite IH; [now rewrite <- app_assoc|exact Hxs|].
      intros y Hy [Hin|[<-|[]]]%in_app_iff; [|contradiction].
      exact (Hfresh y (or_intror Hy) Hin).
Qed.

(** An entry of a normalized plan: a token in lower case that is no
    alias. *)
Definition plan_item (s : string) : Prop :=
  Guarded.token s /\ lower s = s /\ dict_get s plan_alias = None.

Lemma plan_word_item (t : string) :
  Guarded.token t -> lower t = t -> plan_item (plan_word t).
Proof.
  intros Ht Hl. unfold plan_word.
  destruct (dict_get t plan_alias) as [a|] eqn:E.
  - unfold plan_alias in E. cbn [dict_get] in E.
    repeat match type of E with
           | (if ?c then _ else _) = _ => destruct c
           end;
      try discriminate; injection E as <-; repeat split; reflexivity.
  - split; [exact Ht|]. split; [exact Hl|exact E].
Qed.

Lemma normalize_plan_entries (raw : string) :
  List.NoDup (_normalize_plan raw) /\
  Forall plan_item (_normalize_plan raw).
Proof.
  rewrite normalize_plan_csv.
  destruct (add_new_spec
              (map (fun t => plan_word (lower t)) (Guarded.parse_csv_ids raw))
              [] (List.NoDup_nil _)) as [H1 H2].
  split; [exact H1|]. apply List.Forall_forall. intros x Hx.
  apply H2 in Hx as [[]|Hx].
  apply List.in_map_iff in Hx as (t & <- & Ht).
  pose proof (Guarded.parse_csv_ids_tokens raw) as Htok.
  rewrite List.Forall_forall in Htok. destruct (Htok t Ht) as [[Hne Hs] Hf].
  apply plan_word_item; [|apply Guarded.lower_idem].
  split; [split|].
  - now rewrite Guarded.lower_nonempty.
  - now rewrite Guarded.strip_lower, Hs.
  - now rewrite Guarded.lower_free.
Qed.

(** X23.  [_normalize_plan] gives a plan without repetition, whose entries are
    tokens in lower case, none of them one of its six aliases; the first
    occurrence of a name decides its place.  Joining its result by commas
    and normalizing again changes nothing. *)
Theorem normalize_plan_distinct (raw : string) :
  List.NoDup (_normalize_plan raw) /\
  Forall plan_item (_normalize_plan raw) /\
  (forall x, In x (_normalize_plan raw) <->
             exists t, In t (Guarded.parse_csv_ids raw) /\
                       x = plan_word (lower t)) /\
  _normalize_plan (joined_arg (_normalize_plan raw)) = _normalize_plan raw.
Proof.
  destruct (normalize_plan_entries raw) as [Hnd Hent].
  split; [exact Hnd|]. split; [exact Hent|]. split.
  - intros x. rewrite normalize_plan_csv.
    destruct (add_new_spec
                (map (fun t => plan_word (lower t))
                   (Guarded.parse_csv_ids raw))
                [] (List.NoDup_nil _)) as [_ H2].
    rewrite H2, List.in_map_iff. cbn [In]. split.
    + intros [[]|(t & <- & Ht)]. now exists t.
    + intros (t & Ht & ->). right. now exists t.
  - unfold joined_arg.
    rewrite (normalize_plan_csv (join "," (_normalize_plan raw))).
    rewrite Guarded.parse_csv_ids_join
      by (eapply List.Forall_impl; [|exact Hent]; now intros t [Ht _]).
    assert (E : map (fun t => plan_word (lower t)) (_normalize_plan raw)
                = _normalize_plan raw).
    { clear Hnd. induction Hent as [|t l (_ & Hl & Ha) _ IH]; [reflexivity|].
      cbn [map]. rewrite Hl, IH. unfold plan_word. now rewrite Ha. }
    rewrite E. now rewrite add_new_fresh.
Qed.

(** *** What the guarded generator reads back *)

(** X24.  The guarded generator reads the plan it is handed as a list of the
    same length, each name replaced by the name its own aliases give it.
    It reads the source ids selected for the run back as they are when
    none of them holds a comma. *)
Theorem handover_read_back :
  (forall raw,
     let handed := non_infographic_plan (_normalize_plan raw) in
     Guarded.parse_plan (joined_arg handed) = map Guarded.plan_name handed /\
     length (Guarded.parse_plan (joined_arg handed)) = length handed) /\
  (forall effective chapter_ids,
     let selected := fst (Sources.order_sources effective chapter_ids [] []) in
     Forall (fun s => Guarded.free_of "," s = true) selected ->
     Guarded.parse_csv_ids (joined_arg selected) = selected).
Proof.
  split.
  - intros raw handed.
    assert (E : Guarded.parse_plan (joined_arg handed)
                = map Guarded.plan_name handed).
    { destruct (normalize_plan_entries raw) as [_ Hent].
      assert (Hh : Forall plan_item handed).
      { apply List.Forall_forall. intros x [Hx _]%List.filter_In.
        rewrite List.Forall_forall in Hent. now apply Hent. }
      unfold joined_arg. rewrite Guarded.parse_plan_csv.
      rewrite Guarded.parse_csv_ids_join
        by (eapply List.Forall_impl; [|exact Hh]; now intros t [Ht _]).
      clear Hent. induction Hh as [|t l (_ & Hl & _) _ IH]; [reflexivity|].
      cbn [map]. now rewrite Hl, IH. }
    split; [exact E|]. rewrite E. apply List.length_map.
  - intros effective chapter_ids selected Hfree.
    apply Guarded.parse_csv_ids_join.
    destruct (Sources.order_sources_spec effective chapter_ids [] []
                (List.NoDup_nil _)) as (_ & H2 & _).
    fold selected in H2.
    apply List.Forall_forall. intros s Hs.
    rewrite List.Forall_forall in Hfree.
    split; [|now apply Hfree].
    apply H2 in Hs as [[]|(c & _ & Hc & <-)].
    split; [exact Hc|]. apply Sources.strip_idem.
Qed.

(** *** Artifact records ([bookflow/core/models.py]) *)

Import StateMachine.

(** The keys [ArtifactRecord.from_dict] reads its text fields from. *)
Definition record_keys : list string :=
  ["artifact_type"; "type"; "status"; "outcome"; "artifact_id"; "id";
   "chapter_id"; "source_id"; "path"; "output_path"; "error"; "reason"].

Section Records.

Context {RT : Guarded.PyRuntime}.

(** [str(data.get(k1) or data.get(k2) or default).strip()]. *)
Definition text_of2 (data : list (string * json)) (k1 k2 default : string)
  : string :=
  strip (Guarded.py_str
           (Guarded.py_or
              (Guarded.py_or (Guarded.get_or_null data k1)
                 (Guarded.get_or_null data k2))
              (JStr default))).

(** [str(data.get(k) or default).strip()]. *)
Definition text_of1 (data : list (string * json)) (k default : string)
  : string :=
  strip (Guarded.py_str
           (Guarded.py_or (Guarded.get_or_null data k) (JStr default))).

(** [ArtifactRecord.from_dict]. *)
Definition from_dict (data : list (string * json)) : ArtifactRecord :=
  let type0 := text_of2 data "artifact_type" "type" "" in
  let status0 := text_of2 data "status" "outcome" "unknown" in
  {| ar_artifact_type := if negb (nonempty type0) then "unknown" else type0;
     ar_status := if nonempty status0 then status0 else "unknown";
     ar_artifact_id := text_of2 data "artifact_id" "id" "";
     ar_chapter_id := text_of1 data "chapter_id" "";
     ar_source_id := text_of1 data "source_id" "";
     ar_path := text_of2 data "path" "output_path" "";
     ar_error := text_of2 data "error" "reason" "";
     ar_detail := List.filter
                 (fun e => negb (Guarded.mem (fst e) record_keys)) data |}.

(** [ArtifactRecord.to_dict]. *)
Definition to_dict (r : ArtifactRecord) : list (string * json) :=
  [("artifact_type", JStr (ar_artifact_type r));
   ("status", JStr (ar_status r));
   ("artifact_id", JStr (ar_artifact_id r));
   ("chapter_id", JStr (ar_chapter_id r));
   ("source_id", JStr (ar_source_id r));
   ("path", JStr (ar_path r));
   ("error", JStr (ar_error r));
   ("detail", JDict (ar_detail r))].

(** A record as [from_dict] makes it: no text field has blanks at its
    ends, the type and the status are not empty. *)
Definition normal (r : ArtifactRecord) : Prop :=
  Forall (fun s => strip s = s)
    [ar_artifact_type r; ar_status r; ar_artifact_id r; ar_chapter_id r;
     ar_source_id r; ar_path r; ar_error r] /\
  nonempty (ar_artifact_type r) = true /\ nonempty (ar_status r) = true.

Lemma text_of2_strip (data : list (string * json)) (k1 k2 default : string) :
  strip (text_of2 data k1 k2 default) = text_of2 data k1 k2 default.
Proof. apply Sources.strip_idem. Qed.

Lemma text_of1_strip (data : list (string * json)) (k default : string) :
  strip (text_of1 data k default) = text_of1 data k default.
Proof. apply Sources.strip_idem. Qed.

Lemma from_dict_normal (data : list (string * json)) : normal (from_dict data).
Proof.
  unfold normal, from_dict.
  cbn [ar_artifact_type ar_status ar_artifact_id ar_chapter_id ar_source_id
       ar_path ar_error].
  split; [|split].
  - repeat constructor;
      try apply text_of2_strip; try apply text_of1_strip.
    + destruct (nonempty (text_of2 data "artifact_type" "type" ""));
        [apply text_of2_strip|reflexivity].
    + destruct (nonempty (text_of2 data "status" "outcome" "unknown"));
        [apply text_of2_strip|reflexivity].
  - now destruct (nonempty (text_of2 data "artifact_type" "type" "")) eqn:E.
  - now destruct (nonempty (text_of2 data "status" "outcome" "unknown")) eqn:E.
Qed.

(** A text field read back from the dictionary of a record. *)
Lemma text_read_back (s default : string) :
  strip s = s ->
  strip (Guarded.py_str
           (Guarded.py_or (Guarded.py_or (JStr s) JNull) (JStr default)))
  = (if nonempty s then s else strip default) /\
  strip (Guarded.py_str (Guarded.py_or (JStr s) (JStr default)))
  = (if nonempty s then s else strip default).
Proof.
  intros Hs. unfold Guarded.py_or. cbn [Guarded.truthy].
  destruct (nonempty s) eqn:E; cbn [Guarded.truthy Guarded.py_str];
    [rewrite E; cbn [Guarded.py_str]|]; auto.
Qed.

Lemma detail_get (data : list (string * json)) (k : string) :
  dict_get k (List.filter
                (fun e => negb (Guarded.mem (fst e) record_keys)) data)
  = if Guarded.mem k record_keys then None else dict_get k data.
Proof.
  induction data as [|[k' v] data IH]; cbn [List.filter dict_get fst].
  - now destruct (Guarded.mem k record_keys).
  - destruct (String.eqb_spec k k') as [<-|Hne].
    + destruct (Guarded.mem k record_keys) eqn:E; cbn [negb].
      * exact IH.
      * cbn [dict_get]. now rewrite String.eqb_refl.
    + destruct (Guarded.mem k' record_keys); cbn [negb]; [exact IH|].
      cbn [dict_get]. destruct (String.eqb_spec k k'); [contradiction|].
      exact IH.
Qed.

(** X25.  [ArtifactRecord.from_dict] makes a record of any dictionary: its text
    fields have no blanks at their ends, its type and status are not
    empty, and its detail is the dictionary without the twelve keys the
    text fields are read from.  Writing a record with [to_dict] and
    reading it back keeps the text fields of such a record, but not its
    detail: the detail read back is a dictionary with the single key
    detail, which holds the detail that was written. *)
Theorem artifact_record_read_back :
  (forall data,
     normal (from_dict data) /\
     forall k,
       dict_get k (ar_detail (from_dict data))
       = if Guarded.mem k record_keys then None else dict_get k data) /\
  (forall r,
     normal r ->
     from_dict (to_dict r)
     = {| ar_artifact_type := ar_artifact_type r; ar_status := ar_status r;
          ar_artifact_id := ar_artifact_id r;
          ar_chapter_id := ar_chapter_id r; ar_source_id := ar_source_id r;
          ar_path := ar_path r; ar_error := ar_error r;
          ar_detail := [("detail", JDict (ar_detail r))] |}) /\
  (forall data,
     ar_detail (from_dict (to_dict (from_dict data)))
     = [("detail", JDict (ar_detail (from_dict data)))]).
Proof.
  assert (R : forall r, normal r ->
     from_dict (to_dict r)
     = {| ar_artifact_type := ar_artifact_type r; ar_status := ar_status r;
          ar_artifact_id := ar_artifact_id r;
          ar_chapter_id := ar_chapter_id r; ar_source_id := ar_source_id r;
          ar_path := ar_path r; ar_error := ar_error r;
          ar_detail := [("detail", JDict (ar_detail r))] |}).
  { intros [ty st id ch so pa er de] (Hs & Hty & Hst).
    cbn [ar_artifact_type ar_status ar_artifact_id ar_chapter_id ar_source_id
         ar_path ar_error ar_detail] in *.
    apply List.Forall_cons_iff in Hs as [H1 Hs].
    apply List.Forall_cons_iff in Hs as [H2 Hs].
    apply List.Forall_cons_iff in Hs as [H3 Hs].
    apply List.Forall_cons_iff in Hs as [H4 Hs].
    apply List.Forall_cons_iff in Hs as [H5 Hs].
    apply List.Forall_cons_iff in Hs as [H6 Hs].
    apply List.Forall_cons_iff in Hs as [H7 _].
    unfold from_dict, to_dict, text_of2, text_of1.
    cbn [ar_artifact_type ar_status ar_artifact_id ar_chapter_id ar_source_id
         ar_path ar_error ar_detail
         Guarded.get_or_null dict_get String.eqb Ascii.eqb
         Bool.eqb List.filter fst Guarded.mem existsb record_keys negb orb].
    rewrite (proj1 (text_read_back ty "" H1)).
    rewrite (proj1 (text_read_back st "unknown" H2)).
    rewrite (proj1 (text_read_back id "" H3)).
    rewrite (proj2 (text_read_back ch "" H4)).
    rewrite (proj2 (text_read_back so "" H5)).
    rewrite (proj1 (text_read_back pa "" H6)).
    rewrite (proj1 (text_read_back er "" H7)).
    rewrite Hty, Hst. cbn [negb]. rewrite ?Hty, ?Hst. cbn [negb].
    f_equal; try reflexivity;
      match goal with
      | |- (if nonempty ?s then _ else _) = _ => now destruct s
      end. }
  split; [|split].
  - intros data. split; [apply from_dict_normal|].
    intros k. apply detail_get.
  - exact R.
  - intros data. now rewrite (R _ (from_dict_normal data)).
Qed.

End Records.

(** *** The state a generation ends in ([run_book_to_artifact.py]) *)

(** The status a stage of the manifest reports: the stage is a dictionary
    whose status is a text that is not blank. *)
Definition stage_status (stage : json) : option string :=
  match stage with
  | JDict kv =>
      match Guarded.get_or_null kv "status" with
      | JStr s => if nonempty (strip s) then Some (lower (strip s)) else None
      | _ => None
      end
  | _ => None
  end.

(** [statuses] of [_final_generation_state]. *)
Definition stage_statuses (m : RunManifest) : list string :=
  flat_map (fun key =>
              match stage_status (Guarded.get_or_null (stages m) key) with
              | Some s => [s]
              | None => []
              end)
    ["infographic"; "non_infographic"].

Definition success_states : list string :=
  ["ok"; "completed"; "prepared"; "dry_run_ok"].

Definition partial_states : list string := ["partial"; "degraded"].

Definition _final_generation_state (m : RunManifest) : string :=
  let statuses := stage_statuses m in
  match statuses with
  | [] => STATE_FAILED
  | _ =>
      if forallb (fun s => Guarded.mem s success_states) statuses
      then STATE_COMPLETED
      else if existsb (fun s => Guarded.mem s success_states) statuses
              && existsb (fun s => Guarded.mem s partial_states
                                   || String.eqb s "failed") statuses
      then STATE_PARTIAL
      else if existsb (fun s => Guarded.mem s partial_states) statuses
      then STATE_PARTIAL
      else STATE_FAILED
  end.

Lemma all_in_iff (keys l : list string) :
  forallb (fun s => Guarded.mem s keys) l = true
  <-> Forall (fun s => In s keys) l.
Proof.
  rewrite forallb_forall, List.Forall_forall.
  split; intros H x Hx; apply Guarded.mem_In; auto.
Qed.

Lemma some_in_iff (keys l : list string) :
  existsb (fun s => Guarded.mem s keys) l = true
  <-> Exists (fun s => In s keys) l.
Proof.
  rewrite existsb_exists, List.Exists_exists.
  split; intros (x & Hx & H); exists x; (split; [exact Hx|]);
    apply Guarded.mem_In; exact H.
Qed.

Lemma some_partial_or_failed (l : list string) :
  existsb (fun s => Guarded.mem s partial_states || String.eqb s "failed") l
  = true
  <-> Exists (fun s => In s partial_states) l \/ In "failed" l.
Proof.
  rewrite existsb_exists. split.
  - intros (x & Hx & [H|H]%orb_true_iff).
    + left. apply List.Exists_exists. exists x. split; [exact Hx|].
      now apply Guarded.mem_In.
    + right. apply String.eqb_eq in H. now subst.
  - intros [(x & Hx & H)%List.Exists_exists|H].
    + exists x. split; [exact Hx|]. apply orb_true_iff. left.
      now apply Guarded.mem_In.
    + exists "failed". split; [exact H|]. apply orb_true_iff. now right.
Qed.

Lemma final_generation_state_cases (m : RunManifest) :
  let target := _final_generation_state m in
  let statuses := stage_statuses m in
  (target = "completed" /\ statuses <> [] /\
   Forall (fun s => In s success_states) statuses) \/
  (target = "partial" /\
   ~ Forall (fun s => In s success_states) statuses /\
   (Exists (fun s => In s partial_states) statuses \/
    Exists (fun s => In s success_states) statuses /\ In "failed" statuses)) \/
  (target = "failed" /\
   (statuses = [] \/
    ~ Forall (fun s => In s success_states) statuses /\
    ~ Exists (fun s => In s partial_states) statuses /\
    ~ (Exists (fun s => In s success_states) statuses /\
       In "failed" statuses))).
Proof.
  cbv zeta. unfold _final_generation_state.
  destruct (stage_statuses m) as [|s0 l] eqn:E.
  { right. right. split; [reflexivity|now left]. }
  rewrite <- E.
  assert (Hne : stage_statuses m <> []) by (rewrite E; discriminate).
  clear E.
  pose proof (all_in_iff success_states (stage_statuses m)) as HA.
  pose proof (some_in_iff success_states (stage_statuses m)) as HS.
  pose proof (some_in_iff partial_states (stage_statuses m)) as HP.
  pose proof (some_partial_or_failed (stage_statuses m)) as HF.
  destruct (forallb _ (stage_statuses m)).
  { left. split; [reflexivity|]. split; [exact Hne|]. now apply HA. }
  assert (HnA : ~ Forall (fun s => In s success_states) (stage_statuses m)).
  { intros H. apply HA in H. discriminate H. }
  destruct (existsb (fun s => Guarded.mem s success_states) (stage_statuses m));
    destruct (existsb (fun s => Guarded.mem s partial_states
                                || String.eqb s "failed") (stage_statuses m));
    destruct (existsb (fun s => Guarded.mem s partial_states)
                (stage_statuses m));
    cbn [andb].
  all: try (right; left; split; [reflexivity|]; split; [exact HnA|];
            first [ left; now apply HP
                  | destruct (proj1 HF eq_refl) as [H|H];
                    [left; exact H|right; split; [now apply HS|exact H]] ]).
  all: right; right; split; [reflexivity|]; right; split; [exact HnA|];
    split.
  all: try (intros H; apply HP in H; discriminate H).
  all: try (intros [H1 H2]; apply HS in H1; discriminate H1).
  all: try (intros [H1 H2];
            assert (H3 : true = true -> False)
              by (intros _;
                  assert (H4 : false = true)
                    by (apply HF; right; exact H2);
                  discriminate H4);
            exact (H3 eq_refl)).
Qed.

(** X26.  The transition that ends a generation never fails: from the state
    generating, [_final_generation_state] gives one of completed, partial
    and failed, all of them allowed, and the manifest gets that status.
    The state is completed exactly when some stage reports a status and
    every status reported is one of ok, completed, prepared and
    dry_run_ok; it is partial exactly when not all are and either some
    status is partial or degraded, or one is a success and one is failed.
    So of the statuses the guarded generator prints, ok and dry_run_ok
    alone give completed, degraded gives partial, and failed and
    failed_preflight give failed. *)
Theorem final_generation_state_reached (now : string) (m : RunManifest) :
  status m = "generating" ->
  let target := _final_generation_state m in
  let statuses := stage_statuses m in
  transition now m target = (Ok tt, touch now (set_status m target)) /\
  In target ["completed"; "partial"; "failed"] /\
  (target = "completed" <->
   statuses <> [] /\ Forall (fun s => In s success_states) statuses) /\
  (target = "partial" <->
   ~ Forall (fun s => In s success_states) statuses /\
   (Exists (fun s => In s partial_states) statuses \/
    Exists (fun s => In s success_states) statuses /\ In "failed" statuses)) /\
  (forall s,
     statuses = [s] -> In s Guarded.run_statuses ->
     target = (if Guarded.mem s ["ok"; "dry_run_ok"] then "completed"
               else if String.eqb s "degraded" then "partial"
                    else "failed")).
Proof.
  intros Hst target statuses.
  pose proof (final_generation_state_cases m) as Hc. cbv zeta in Hc.
  fold target in Hc. fold statuses in Hc.
  assert (Hin : In target ["completed"; "partial"; "failed"]).
  { destruct Hc as [[-> _]|[[-> _]|[-> _]]]; cbn; auto. }
  split; [|split; [exact Hin|split; [|split]]].
  - unfold transition. rewrite Hst.
    destruct Hin as [<-|[<-|[<-|[]]]]; reflexivity.
  - split.
    + intros Ht. destruct Hc as [(_ & H1 & H2)|[[H _]|[H _]]];
        [now split|congruence|congruence].
    + intros [H1 H2]. destruct Hc as [[H _]|[(_ & H & _)|(_ & [H|[H _]])]];
        [exact H|contradiction..].
  - split.
    + intros Ht. destruct Hc as [[H _]|[(_ & H1 & H2)|[H _]]];
        [congruence|now split|congruence].
    + intros [H1 H2].
      destruct Hc as [(_ & _ & H)|[[H _]|(_ & [H|(_ & H3 & H4)])]];
        [contradiction|exact H| |].
      * rewrite H in H1. destruct H1. constructor.
      * destruct H2 as [H2|H2]; contradiction.
  - intros s Hs Hrun. unfold target, _final_generation_state.
    fold statuses. rewrite Hs.
    cbn in Hrun.
    destruct Hrun as [<-|[<-|[<-|[<-|[<-|[]]]]]]; reflexivity.
Qed.

(** *** Sample arguments *)

Lemma parse_ids_canonical_witness :
  _parse_ids 4300 " 007, a ,,12" = Ok ["7"; "a"; "12"] /\
  _parse_ids 4300 (joined_arg ["7"; "a"; "12"]) = Ok ["7"; "a"; "12"] /\
  Sources.normalized_ids ["7"; "a"; "12"] = ["7"; "a"; "12"].
Proof.
  assert (E : _parse_ids 4300 " 007, a ,,12" = Ok ["7"; "a"; "12"])
    by (vm_compute; reflexivity).
  destruct (proj2 (parse_ids_canonical 4300 " 007, a ,,12") _ E)
    as (_ & _ & H1 & H2).
  split; [exact E|]. split; [exact H1|exact H2].
Defined.

Lemma handover_read_back_witness :
  Guarded.parse_csv_ids
    (joined_arg
       (fst (Sources.order_sources [("1", "src-a"); ("2", " src-b ")]
               ["2"; "1"; "2"] [] [])))
  = ["src-b"; "src-a"].
Proof.
  apply (proj2 handover_read_back [("1", "src-a"); ("2", " src-b ")]
           ["2"; "1"; "2"]).
  repeat constructor.
Defined.

(** A record of the run manifest. *)
Definition sample_record : ArtifactRecord :=
  {| ar_artifact_type := "audio"; ar_status := "completed";
     ar_artifact_id := "a1";
     ar_chapter_id := ""; ar_source_id := ""; ar_path := ""; ar_error := "";
     ar_detail := [("attempt", JInt 1)] |}.

Lemma artifact_record_read_back_witness :
  ar_artifact_id
    (from_dict (RT := Guarded.sample_runtime) (to_dict sample_record))
  = "a1" /\
  ar_detail (from_dict (RT := Guarded.sample_runtime) (to_dict sample_record))
  = [("detail", JDict [("attempt", JInt 1)])].
Proof.
  rewrite (proj1 (proj2 (artifact_record_read_back
                           (RT := Guarded.sample_runtime))) sample_record).
  - split; reflexivity.
  - split; [repeat constructor|split; reflexivity].
Defined.

(** A run whose infographic stage ended ok and whose guarded stage failed
    its preflight. *)
Definition generating_manifest : RunManifest :=
  {| run_id := "r1"; workspace_root := "/w";
     plan := ["infographic"; "slides"];
     schema_version := 2; status := "generating";
     created_at := "t0"; updated_at := "t0"; book_title := "";
     notebook_id := "nb"; notebook_strategy := "run";
     object_notebook_id := ""; run_notebook_id := ""; ranked_json := "";
     source_map := []; selected_chapter_ids := [];
     selected_source_ids := []; menu := []; artifacts := [];
     stages := [("infographic", JDict [("status", JStr "ok")]);
                ("non_infographic",
                 JDict [("status", JStr "failed_preflight")])];
     next_action := ""; errors := [] |}.

Lemma final_generation_state_reached_witness :
  _final_generation_state generating_manifest = "failed" /\
  transition "t1" generating_manifest "failed"
  = (Ok tt, touch "t1" (set_status generating_manifest "failed")).
Proof.
  split; [reflexivity|].
  exact (proj1 (final_generation_state_reached "t1" generating_manifest
                  eq_refl)).
Defined.

End Bookflow.
